(** * setx-history: the research / media-collection / page-generation pipeline

    A shallow embedding of the JavaScript sources [research-workflow.js],
    [media-agent.js], [presentation-builder.js] and
    [page-consolidation-agent.js], and the properties of the pipeline that
    the specification states about them; then the callers of the
    pipeline, the scripts [build-all-presentations.js] and
    [populate-all-topics.js] and the routes of [api-server.js], with
    further properties of all these sources.

    Conventions of the embedding.
    - A JavaScript string is a [string] whose characters are the code units
      of the text; the character functions below are exact for code units
      below 256 (which is all that an [ascii] can hold).
    - Regular expressions are kept as syntax ([regex]) and run by a
      backtracking matcher with the priorities of ECMAScript (leftmost
      start, alternatives left to right, greedy and lazy repetition).
    - A call that performs I/O is a function from a [World] to an [Outcome]
      and a new [World]; what the outside answers (HTTP replies, failures of
      the disk or of the database, the clock) is read from an [Env], indexed
      by the number of I/O steps performed so far.  [async]/[await] chains
      are sequential in the source and are sequenced here by [bind].
    - A table of the database is the list of its rows in insertion order;
      a query is a function on these lists.  An object literal used as a
      table (the topic hierarchies) is a finite map of its own keys; a
      lookup in it by name also finds what the object inherits from
      [Object.prototype]. *)

From stdpp Require Import gmap strings list pretty.
From Stdlib Require Import ZArith NArith Ascii String Sorting.Sorted Permutation Lia.

Local Open Scope string_scope.
Local Open Scope list_scope.
Local Open Scope bool_scope.

(** ** Characters *)

Module Chars.

Definition code (c : ascii) : N := N_of_ascii c.

Definition in_range (lo hi : N) (c : ascii) : bool :=
  ((lo <=? code c) && (code c <=? hi))%N.

Definition shift_down (c : ascii) : ascii := ascii_of_N (code c - 32).
Definition shift_up (c : ascii) : ascii := ascii_of_N (code c + 32).

(** [String.prototype.toLowerCase] on one code unit. *)
Definition js_lower (c : ascii) : ascii :=
  if in_range 65 90 c then shift_up c
  else if in_range 192 222 c && negb (code c =? 215)%N then shift_up c
  else c.

(** [Canonicalize] of the regular-expression matcher under the [i] flag
    (upper-casing; a code unit at or above 128 never folds below 128). *)
Definition canonicalize (c : ascii) : ascii :=
  if in_range 97 122 c then shift_down c
  else if in_range 224 254 c && negb (code c =? 247)%N then shift_down c
  else c.

(** SQLite's [LOWER] and the case folding of its [LIKE]: ASCII letters only. *)
Definition sql_lower (c : ascii) : ascii :=
  if in_range 65 90 c then shift_up c else c.

(** [\s] of regular expressions, also what [trim] strips. *)
Definition is_space (c : ascii) : bool :=
  in_range 9 13 c || (code c =? 32)%N || (code c =? 160)%N.

(** Line terminators, which [.] does not match without the [s] flag. *)
Definition is_line_terminator (c : ascii) : bool :=
  (code c =? 10)%N || (code c =? 13)%N.

Definition eqb (a b : ascii) : bool := (code a =? code b)%N.

Definition dquote : ascii := ascii_of_N 34.

End Chars.

(** ** Strings *)

Module Str.

Definition is_empty (s : string) : bool :=
  match s with EmptyString => true | String _ _ => false end.

(** A string used as a condition: [""] is falsy. *)
Definition truthy (s : string) : bool := negb (is_empty s).

Definition single (c : ascii) : string := String c EmptyString.

Fixpoint map (f : ascii -> ascii) (s : string) : string :=
  match s with
  | EmptyString => EmptyString
  | String c s' => String (f c) (map f s')
  end.

Definition toLowerCase : string -> string := map Chars.js_lower.
Definition sql_lower : string -> string := map Chars.sql_lower.

Fixpoint trim_left (s : string) : string :=
  match s with
  | EmptyString => EmptyString
  | String c s' => if Chars.is_space c then trim_left s' else s
  end.

Fixpoint trim_right (s : string) : string :=
  match s with
  | EmptyString => EmptyString
  | String c s' =>
      let r := trim_right s' in
      if Chars.is_space c && is_empty r then EmptyString else String c r
  end.

Definition trim (s : string) : string := trim_right (trim_left s).

(** Prefix test, characters compared after [fold]. *)
Fixpoint prefix_by (fold : ascii -> ascii) (p s : string) : bool :=
  match p, s with
  | EmptyString, _ => true
  | String a p', String b s' => Chars.eqb (fold a) (fold b) && prefix_by fold p' s'
  | String _ _, EmptyString => false
  end.

(** Substring test, characters compared after [fold]. *)
Fixpoint infix_by (fold : ascii -> ascii) (p s : string) : bool :=
  prefix_by fold p s ||
  match s with
  | EmptyString => false
  | String _ s' => infix_by fold p s'
  end.

Definition includes (s p : string) : bool := infix_by (fun c => c) p s.

Fixpoint drop (n : nat) (s : string) : string :=
  match n, s with
  | O, _ => s
  | S n', String _ s' => drop n' s'
  | S _, EmptyString => EmptyString
  end.

Fixpoint take (n : nat) (s : string) : string :=
  match n, s with
  | S n', String c s' => String c (take n' s')
  | _, _ => EmptyString
  end.

Definition endsWith (s suffix : string) : bool :=
  String.eqb (drop (String.length s - String.length suffix) s) suffix
  && (String.length suffix <=? String.length s)%nat.

(** [Array.prototype.join]. *)
Fixpoint join (sep : string) (l : list string) : string :=
  match l with
  | [] => EmptyString
  | [x] => x
  | x :: rest => x +:+ sep +:+ join sep rest
  end.

(** The pieces of a template literal, or [join('')]. *)
Fixpoint concat (l : list string) : string :=
  match l with
  | [] => EmptyString
  | x :: rest => x +:+ concat rest
  end.

Definition mem (x : string) (l : list string) : bool :=
  existsb (String.eqb x) l.

End Str.

(** ** Regular expressions *)

Module Regex.

Record flags := { ignoreCase : bool; dotAll : bool }.

Definition plain : flags := {| ignoreCase := false; dotAll := false |}.
Definition flag_i : flags := {| ignoreCase := true; dotAll := false |}.
Definition flag_s : flags := {| ignoreCase := false; dotAll := true |}.

(** One-character atoms. *)
Inductive cset :=
| CsChar (c : ascii)                           (* a literal character *)
| CsAny                                        (* [.] *)
| CsSpace                                      (* [\s] *)
| CsClass (negated : bool) (ranges : list (ascii * ascii)).  (* [[...]], [[^...]] *)

Inductive regex :=
| REmpty
| RSet (cs : cset)
| RSeq (r1 r2 : regex)
| RAlt (r1 r2 : regex)
| RGroup (n : nat) (r : regex)                 (* the n-th capturing parenthesis *)
| RStar (greedy : bool) (cs : cset)            (* [cs*] and [cs*?] *)
| RBos                                         (* [^] *)
| REos.                                        (* [$] *)

Definition RPlus (cs : cset) : regex := RSeq (RSet cs) (RStar true cs).

(** The characters of a literal, in sequence. *)
Fixpoint lit (s : string) : regex :=
  match s with
  | EmptyString => REmpty
  | String c s' => RSeq (RSet (CsChar c)) (lit s')
  end.

(** [r1 r2 ... rn] in sequence. *)
Fixpoint seqs (rs : list regex) : regex :=
  match rs with
  | [] => REmpty
  | [r] => r
  | r :: rest => RSeq r (seqs rest)
  end.

(** [r1|r2|...|rn]. *)
Fixpoint alts (rs : list regex) : regex :=
  match rs with
  | [] => REmpty
  | [r] => r
  | r :: rest => RAlt r (alts rest)
  end.

Definition range_mem (fl : flags) (c : ascii) (rg : ascii * ascii) : bool :=
  let '(lo, hi) := rg in
  let hit x := Chars.in_range (Chars.code lo) (Chars.code hi) x in
  hit c || (ignoreCase fl && (hit (Chars.canonicalize c) || hit (Chars.js_lower c))).

Definition cs_mem (fl : flags) (cs : cset) (c : ascii) : bool :=
  match cs with
  | CsChar a =>
      if ignoreCase fl
      then Chars.eqb (Chars.canonicalize a) (Chars.canonicalize c)
      else Chars.eqb a c
  | CsAny => dotAll fl || negb (Chars.is_line_terminator c)
  | CsSpace => Chars.is_space c
  | CsClass neg ranges => xorb neg (existsb (range_mem fl c) ranges)
  end.

Definition captures := list (nat * string).

Definition capture (n : nat) (caps : captures) : option string :=
  snd <$> List.find (fun p => Nat.eqb (fst p) n) caps.

Section Matcher.
Context {R : Type}.
Variable fl : flags.

(** A continuation receives the text just consumed, the rest of the
    input and the captures made so far. *)
Definition cont := string -> string -> captures -> option R.

Fixpoint star_lazy (cs : cset) (caps : captures) (k : cont)
    (acc s : string) : option R :=
  match k acc s caps with
  | Some x => Some x
  | None =>
      match s with
      | String c s' =>
          if cs_mem fl cs c then star_lazy cs caps k (acc +:+ Str.single c) s'
          else None
      | EmptyString => None
      end
  end.

Fixpoint star_greedy (cs : cset) (caps : captures) (k : cont)
    (acc s : string) : option R :=
  match s with
  | String c s' =>
      if cs_mem fl cs c then
        match star_greedy cs caps k (acc +:+ Str.single c) s' with
        | Some x => Some x
        | None => k acc s caps
        end
      else k acc s caps
  | EmptyString => k acc s caps
  end.

(** [rmatch r pos s caps k]: match [r] at the front of [s], which starts
    at index [pos] of the whole input, then continue with [k]; on failure
    of [k] the next alternative in priority order is tried. *)
Fixpoint rmatch (r : regex) (pos : nat) (s : string) (caps : captures)
    (k : cont) : option R :=
  match r with
  | REmpty => k EmptyString s caps
  | RSet cs =>
      match s with
      | String c s' => if cs_mem fl cs c then k (Str.single c) s' caps else None
      | EmptyString => None
      end
  | RSeq r1 r2 =>
      rmatch r1 pos s caps (fun t1 s1 caps1 =>
        rmatch r2 (pos + String.length t1) s1 caps1 (fun t2 s2 caps2 =>
          k (t1 +:+ t2) s2 caps2))
  | RAlt r1 r2 =>
      match rmatch r1 pos s caps k with
      | Some x => Some x
      | None => rmatch r2 pos s caps k
      end
  | RGroup n r1 =>
      rmatch r1 pos s caps (fun t s' caps' => k t s' ((n, t) :: caps'))
  | RStar true cs => star_greedy cs caps k EmptyString s
  | RStar false cs => star_lazy cs caps k EmptyString s
  | RBos => match pos with O => k EmptyString s caps | S _ => None end
  | REos => match s with EmptyString => k EmptyString s caps | String _ _ => None end
  end.
End Matcher.

(** The result of [RegExp.prototype.exec]: the text before the match, the
    match itself ([m[0]]), the text after it, and the groups. *)
Record match_result := {
  m_before : string;
  m_text : string;
  m_after : string;
  m_caps : captures
}.

Definition m_group (n : nat) (m : match_result) : option string :=
  capture n (m_caps m).

(** Match at exactly this position. *)
Definition match_here (fl : flags) (r : regex) (before s : string) : option match_result :=
  rmatch fl r (String.length before) s []
    (fun t s' caps => Some {| m_before := before; m_text := t; m_after := s'; m_caps := caps |}).

(** [String.prototype.match] with a regular expression without the [g]
    flag: the leftmost position at which the expression matches. *)
Fixpoint search_from (fl : flags) (r : regex) (before s : string) : option match_result :=
  match match_here fl r before s with
  | Some m => Some m
  | None =>
      match s with
      | String c s' => search_from fl r (before +:+ Str.single c) s'
      | EmptyString => None
      end
  end.

Definition search (fl : flags) (r : regex) (s : string) : option match_result :=
  search_from fl r EmptyString s.

Definition test (fl : flags) (r : regex) (s : string) : bool :=
  match search fl r s with Some _ => true | None => false end.

(** [String.prototype.replace] with a regular expression without [g] and a
    replacement text without [$] patterns. *)
Definition replace_first (fl : flags) (r : regex) (repl s : string) : string :=
  match search fl r s with
  | Some m => m_before m +:+ repl +:+ m_after m
  | None => s
  end.

(** [String.prototype.replace] with the [g] flag.  [skip] characters of [s]
    belong to the match just replaced. *)
Fixpoint replace_all_go (fl : flags) (r : regex) (repl : string)
    (pos skip : nat) (s : string) : string :=
  match skip with
  | S n =>
      match s with
      | String _ s' => replace_all_go fl r repl (S pos) n s'
      | EmptyString => EmptyString
      end
  | O =>
      match rmatch fl r pos s [] (fun t _ _ => Some (String.length t)) with
      | Some (S n) =>
          repl +:+
          match s with
          | String _ s' => replace_all_go fl r repl (S pos) n s'
          | EmptyString => EmptyString
          end
      | Some O =>
          repl +:+
          match s with
          | String c s' => String c (replace_all_go fl r repl (S pos) 0 s')
          | EmptyString => EmptyString
          end
      | None =>
          match s with
          | String c s' => String c (replace_all_go fl r repl (S pos) 0 s')
          | EmptyString => EmptyString
          end
      end
  end.

Definition replace_all (fl : flags) (r : regex) (repl s : string) : string :=
  replace_all_go fl r repl 0 0 s.

(** [String.prototype.split] with a regular expression that matches no
    empty text.  [cur] is the piece being collected. *)
Fixpoint split_go (fl : flags) (r : regex) (pos skip : nat) (cur s : string)
    : list string :=
  match s with
  | EmptyString => [cur]
  | String c s' =>
      match skip with
      | S n => split_go fl r (S pos) n cur s'
      | O =>
          match rmatch fl r pos s [] (fun t _ _ => Some (String.length t)) with
          | Some (S n) => cur :: split_go fl r (S pos) n EmptyString s'
          | _ => split_go fl r (S pos) 0 (cur +:+ Str.single c) s'
          end
      end
  end.

Definition split (fl : flags) (r : regex) (s : string) : list string :=
  split_go fl r 0 0 EmptyString s.

End Regex.

(** ** research-workflow.js: topic and keyword extraction *)

Module Extract.
Import Regex.

Definition named_subjects : list string :=
  ["spindletop"; "beaumont"; "port arthur"; "orange"; "lumber"; "oil";
   "shipbuilding"; "cajun"].

(** [(\?|$)], the second group of the three question templates. *)
Definition question_end : regex :=
  RGroup 2 (RAlt (RSet (CsChar "?")) REos).

(** [/(spindletop|beaumont|port arthur|orange|lumber|oil|shipbuilding|cajun)/i] *)
Definition subject_pattern : regex :=
  RGroup 1 (alts (List.map lit named_subjects)).

(** [/tell me about (.*?)(\?|$)/i] *)
Definition tell_pattern : regex :=
  RSeq (lit "tell me about ") (RSeq (RGroup 1 (RStar false CsAny)) question_end).

(** [/what (?:is|was|were) (.*?)(\?|$)/i] *)
Definition what_pattern : regex :=
  RSeq (lit "what ")
    (RSeq (alts [lit "is"; lit "was"; lit "were"])
       (RSeq (lit " ") (RSeq (RGroup 1 (RStar false CsAny)) question_end))).

(** [/how did (.*?)(\?|$)/i] *)
Definition how_pattern : regex :=
  RSeq (lit "how did ") (RSeq (RGroup 1 (RStar false CsAny)) question_end).

Definition question_templates : list regex :=
  [tell_pattern; what_pattern; how_pattern].

Definition patterns : list regex := subject_pattern :: question_templates.

(** [match[1] ? match[1].trim() : match[0].trim()] *)
Definition topic_of_match (m : match_result) : string :=
  match m_group 1 m with
  | Some g => if Str.truthy g then Str.trim g else Str.trim (m_text m)
  | None => Str.trim (m_text m)
  end.

(** The loop of [extractTopic] over the patterns. *)
Fixpoint first_match (ps : list regex) (message : string) : option string :=
  match ps with
  | [] => None
  | p :: rest =>
      match search flag_i p message with
      | Some m => Some (topic_of_match m)
      | None => first_match rest message
      end
  end.

Definition extractTopic (message : string) : option string :=
  first_match patterns message.

Definition commonWords : list string :=
  ["tell"; "me"; "about"; "what"; "is"; "was"; "were"; "how"; "did"; "the";
   "a"; "an"].

(** [/[?!.,]/] *)
Definition punctuation : regex :=
  RSet (CsClass false [("?", "?"); ("!", "!"); (".", "."); (",", ",")]%char).

(** [/\s+/] *)
Definition spaces : regex := RPlus CsSpace.

(** The loop of [extractKeywords] over the words. *)
Fixpoint keywords_of (words : list string) : list string :=
  match words with
  | [] => []
  | word :: rest =>
      if (3 <? String.length word)%nat && negb (Str.mem word commonWords)
      then replace_first plain punctuation EmptyString word :: keywords_of rest
      else keywords_of rest
  end.

Definition extractKeywords (message : string) : list string :=
  List.firstn 5 (keywords_of (split plain spaces (Str.toLowerCase message))).

End Extract.

(** ** The relational store, the disk and the outside world *)

(** [topics_researched] *)
Record TopicRow := {
  tr_id : Z;
  tr_topic : string;
  tr_keywords : list string;      (* the column holds [JSON.stringify(keywords)] *)
  tr_user_id : string;
  tr_researched_at : string;
  tr_presentation_generated : Z
}.

(** [topic_media] *)
Record MediaRow := {
  tm_id : Z;
  tm_topic_id : Z;
  tm_media_path : string;
  tm_media_type : string;
  tm_title : option string;
  tm_source : option string;
  tm_collected_at : string
}.

(** [presentations] *)
Record PresentationRow := {
  p_id : Z;
  p_topic_id : Z;
  p_title : string;
  p_content : option string;
  p_html_path : option string;
  p_created_at : string
}.

(** [consolidated_pages] *)
Record ConsolidatedRow := {
  cp_id : Z;
  cp_main_topic : string;
  cp_display_name : string;
  cp_html_path : string;
  cp_created_at : string
}.

(** [historical_topics], [historical_cities], [historical_facts]: the
    columns the pipeline reads. *)
Record HistoricalTopic := { ht_id : Z; ht_name : string }.
Record HistoricalCity := { hc_id : Z; hc_name : string }.
Record HistoricalFact := {
  hf_id : Z;
  hf_title : string;
  hf_content : string;
  hf_event_year : option Z;
  hf_city_id : option Z;
  hf_topic_id : option Z;
  hf_source_name : option string;
  hf_image_url : option string;
  hf_importance : option Z
}.

(** A table with an [AUTOINCREMENT] key: its rows in insertion order and
    the last key handed out. *)
Record Table (A : Type) := { rows : list A; last_id : Z }.
Arguments rows {A} _.
Arguments last_id {A} _.

Definition insert_row {A : Type} (mk : Z -> A) (t : Table A) : Table A :=
  {| rows := rows t ++ [mk (last_id t + 1)%Z]; last_id := (last_id t + 1)%Z |}.

Record Database := {
  topics_researched : Table TopicRow;
  topic_media : Table MediaRow;
  presentations : Table PresentationRow;
  consolidated_pages : Table ConsolidatedRow;
  historical_topics : list HistoricalTopic;
  historical_cities : list HistoricalCity;
  historical_facts : list HistoricalFact
}.

Definition set_topics_researched (t : Table TopicRow) (d : Database) : Database :=
  {| topics_researched := t; topic_media := topic_media d;
     presentations := presentations d; consolidated_pages := consolidated_pages d;
     historical_topics := historical_topics d; historical_cities := historical_cities d;
     historical_facts := historical_facts d |}.

Definition set_topic_media (t : Table MediaRow) (d : Database) : Database :=
  {| topics_researched := topics_researched d; topic_media := t;
     presentations := presentations d; consolidated_pages := consolidated_pages d;
     historical_topics := historical_topics d; historical_cities := historical_cities d;
     historical_facts := historical_facts d |}.

Definition set_presentations (t : Table PresentationRow) (d : Database) : Database :=
  {| topics_researched := topics_researched d; topic_media := topic_media d;
     presentations := t; consolidated_pages := consolidated_pages d;
     historical_topics := historical_topics d; historical_cities := historical_cities d;
     historical_facts := historical_facts d |}.

Definition set_consolidated_pages (t : Table ConsolidatedRow) (d : Database) : Database :=
  {| topics_researched := topics_researched d; topic_media := topic_media d;
     presentations := presentations d; consolidated_pages := t;
     historical_topics := historical_topics d; historical_cities := historical_cities d;
     historical_facts := historical_facts d |}.

(** Console output: [console.log] and [console.error] lines (kept without
    their leading pictograph). *)
Inductive LogLine :=
| Info (text : string)
| Error (text : string).

Record World := {
  tick : nat;                     (* I/O steps performed so far *)
  db : Database;
  files : gmap string string;     (* path to content *)
  console : list LogLine;
  requests : list string          (* URLs requested, oldest first *)
}.

Definition set_tick (n : nat) (w : World) : World :=
  {| tick := n; db := db w; files := files w; console := console w;
     requests := requests w |}.
Definition set_db (d : Database) (w : World) : World :=
  {| tick := tick w; db := d; files := files w; console := console w;
     requests := requests w |}.
Definition set_files (f : gmap string string) (w : World) : World :=
  {| tick := tick w; db := db w; files := f; console := console w;
     requests := requests w |}.
Definition set_console (c : list LogLine) (w : World) : World :=
  {| tick := tick w; db := db w; files := files w; console := c;
     requests := requests w |}.
Definition set_requests (r : list string) (w : World) : World :=
  {| tick := tick w; db := db w; files := files w; console := console w;
     requests := r |}.

(** A JavaScript [Error]: its message, and the [code] and
    [response.status] that axios adds. *)
Record JsError := {
  err_message : string;
  err_code : option string;
  err_response : option (Z * string)    (* status and statusText *)
}.

Definition plain_error (msg : string) : JsError :=
  {| err_message := msg; err_code := None; err_response := None |}.

(** One entry of the [results] array of a search reply. *)
Record Resource := { res_url : option string; res_mime_type : option string }.
Record SearchItem := {
  si_title : option string;
  si_image_full : option string;          (* [item.image && item.image.full] *)
  si_resources : option (list Resource);
  si_reproduction_number : option string
}.

(** What [axios.get(searchUrl)] gives: a rejection, or the reply's [data]
    with its [results] when it has any. *)
Inductive SearchReply :=
| SearchFailed (e : JsError)
| SearchData (results : option (list SearchItem)).

(** What [axios.get(url, {responseType: 'arraybuffer', ...})] gives before
    [validateStatus] is applied: no reply at all, or a status and a body. *)
Inductive FetchReply :=
| FetchFailed (e : JsError)
| FetchResponse (status : Z) (statusText : string) (body : string).

(** The answers of the outside, by I/O step. *)
Record Env := {
  dirname : string;                               (* [__dirname] *)
  archive_search : nat -> string -> SearchReply;
  fetch : nat -> string -> FetchReply;
  disk_write_ok : nat -> string -> bool;
  db_ok : nat -> bool;
  now_ms : nat -> Z;                              (* [Date.now()] *)
  locale_time : nat -> string;                    (* [new Date().toLocaleString()] *)
  db_time : nat -> string                         (* [datetime('now')] *)
}.

(** ** Computations with effects and exceptions *)

Module IO.

Inductive Outcome (A : Type) :=
| Returned (a : A)
| Thrown (e : JsError).
Arguments Returned {A} _.
Arguments Thrown {A} _.

Definition M (A : Type) : Type := World -> Outcome A * World.

Definition ret {A : Type} (a : A) : M A := fun w => (Returned a, w).

Definition throw {A : Type} (e : JsError) : M A := fun w => (Thrown e, w).

Definition bind {A B : Type} (m : M A) (k : A -> M B) : M B :=
  fun w =>
    match m w with
    | (Returned a, w') => k a w'
    | (Thrown e, w') => (Thrown e, w')
    end.

(** [try { m } catch (e) { h e }] *)
Definition try_catch {A : Type} (m : M A) (h : JsError -> M A) : M A :=
  fun w =>
    match m w with
    | (Returned a, w') => (Returned a, w')
    | (Thrown e, w') => h e w'
    end.

(** One I/O step: the step number, at which the outside is asked. *)
Definition step : M nat :=
  fun w => (Returned (tick w), set_tick (S (tick w)) w).

Definition log (l : LogLine) : M unit :=
  fun w => (Returned tt, set_console (console w ++ [l]) w).

Definition get_db : M Database := fun w => (Returned (db w), w).

Definition modify_db (f : Database -> Database) : M unit :=
  fun w => (Returned tt, set_db (f (db w)) w).

Definition record_request (url : string) : M unit :=
  fun w => (Returned tt, set_requests (requests w ++ [url]) w).

End IO.

Import IO.

Notation "'let!' x ':=' m 'in' k" := (bind m (fun x => k))
  (at level 10, x name, m at level 100, k at level 200).
Notation "'do!' m 'in' k" := (bind m (fun _ => k))
  (at level 10, m at level 100, k at level 200).

Definition db_error : JsError :=
  {| err_message := "SQLITE_ERROR"; err_code := Some "SQLITE_ERROR"; err_response := None |}.

(** A statement of [db.run], [db.get] or [db.all]: it fails when the
    outside says so, and otherwise reads or changes the database. *)
Definition db_query {A : Type} (env : Env) (q : Database -> A) : M A :=
  let! t := step in
  if db_ok env t then (let! d := get_db in ret (q d)) else throw db_error.

(** An [INSERT] whose callback resolves with [this.lastID]. *)
Definition db_insert (env : Env) (ins : string -> Database -> Database)
    (new_id : Database -> Z) : M Z :=
  let! t := step in
  if db_ok env t
  then (let! d := get_db in do! modify_db (ins (db_time env t)) in ret (new_id d))
  else throw db_error.

(** [fs.writeFileSync(path, content)] *)
Definition writeFileSync (env : Env) (path content : string) : M unit :=
  let! t := step in
  if disk_write_ok env t path
  then fun w => (Returned tt, set_files (<[path := content]> (files w)) w)
  else throw {| err_message := "EACCES: permission denied"; err_code := Some "EACCES";
                err_response := None |}.

(** [Date.now()] and [new Date().toLocaleString()] *)
Definition date_now (env : Env) : M Z := let! t := step in ret (now_ms env t).
Definition date_locale (env : Env) : M string := let! t := step in ret (locale_time env t).

(** [path.join(dir, name)] for a name without [.], [..] or empty segments. *)
Definition path_join (dir name : string) : string := dir +:+ "/" +:+ name.

(** A number in a template literal. *)
Definition show_Z (z : Z) : string := pretty z.
Definition show_nat (n : nat) : string := pretty n.

(** ** media-agent.js *)

Module MediaAgent.
Import Regex.

Inductive MediaType := Image | Audio | Video.

Definition type_name (t : MediaType) : string :=
  match t with Image => "image" | Audio => "audio" | Video => "video" end.

(** An entry of the list that [searchLibraryOfCongress] returns. *)
Record MediaItem := {
  mi_title : string;
  mi_url : string;
  mi_source : string;
  mi_type : MediaType;
  mi_reproduction_number : option string
}.

(** An entry of the list that [collectMediaForTopic] returns. *)
Record Downloaded := {
  d_filepath : string;
  d_title : string;
  d_source : string;
  d_type : MediaType;
  d_topic : string;
  d_reproduction_number : option string
}.

Record ResearchResult := {
  topicId : Z;
  topic : string;
  mediaCount : nat;
  media : list Downloaded;
  factsAdded : nat
}.

(** [this.imageDir] *)
Definition imageDir (env : Env) : string :=
  path_join (dirname env) "public/images/historical".

Definition hex_digit (n : N) : ascii :=
  if (n <? 10)%N then ascii_of_N (48 + n) else ascii_of_N (55 + n).

Definition percent (b : N) : string :=
  String "%" (String (hex_digit (b / 16)) (String (hex_digit (b mod 16)) EmptyString)).

Definition uri_unreserved (c : ascii) : bool :=
  Chars.in_range 65 90 c || Chars.in_range 97 122 c || Chars.in_range 48 57 c
  || Str.includes "-_.!~*'()" (Str.single c).

(** [encodeURIComponent]: unreserved characters stay, the others become
    the percent-escaped bytes of their UTF-8 encoding. *)
Fixpoint encodeURIComponent (s : string) : string :=
  match s with
  | EmptyString => EmptyString
  | String c s' =>
      (if uri_unreserved c then Str.single c
       else if (Chars.code c <? 128)%N then percent (Chars.code c)
       else percent (192 + Chars.code c / 64) +:+ percent (128 + Chars.code c mod 64))
      +:+ encodeURIComponent s'
  end.

Definition imageSearchUrl (query : string) : string :=
  "https://www.loc.gov/pictures/search/?q=" +:+ encodeURIComponent query +:+ "&fo=json".
Definition audioSearchUrl (query : string) : string :=
  "https://www.loc.gov/audio/?q=" +:+ encodeURIComponent query +:+ "&fo=json".
Definition videoSearchUrl (query : string) : string :=
  "https://www.loc.gov/film/?q=" +:+ encodeURIComponent query +:+ "&fo=json".

(** [x || d] for a string that may be missing. *)
Definition or_else (x : option string) (d : string) : string :=
  match x with
  | Some s => if Str.truthy s then s else d
  | None => d
  end.

(** A string that may be missing, used as a condition. *)
Definition present (x : option string) : bool :=
  match x with Some s => Str.truthy s | None => false end.

(** [l.slice(0, e)]: a negative [e] counts from the end of [l]. *)
Definition slice_to {A : Type} (l : list A) (e : Z) : list A :=
  if (e <? 0)%Z
  then List.firstn (Z.to_nat (Z.max (Z.of_nat (List.length l) + e) 0)) l
  else List.firstn (Z.to_nat e) l.

Definition audio_mimes : list string := ["audio"; "mp3"; "wav"; "aiff"; "flac"].
Definition video_mimes : list string := ["video"; "mp4"; "mov"; "avi"; "wmv"; "flv"].

(** [/\.(mp3|wav|aiff|flac|aac|m4a|ogg)$/i] and [/\.(mp4|mov|avi|wmv|flv|mkv|m4v)$/i] *)
Definition extension_pattern (exts : list string) : regex :=
  RSeq (lit ".") (RSeq (RGroup 1 (alts (List.map lit exts))) REos).
Definition audio_extension : regex :=
  extension_pattern ["mp3"; "wav"; "aiff"; "flac"; "aac"; "m4a"; "ogg"].
Definition video_extension : regex :=
  extension_pattern ["mp4"; "mov"; "avi"; "wmv"; "flv"; "mkv"; "m4v"].

(** The predicate given to [item.resources.find]. *)
Definition is_media_resource (mimes : list string) (ext : regex) (r : Resource) : bool :=
  match res_url r with
  | Some url =>
      if Str.truthy url then
        match res_mime_type r with
        | Some m => Str.truthy m && existsb (Str.includes m) mimes
        | None => false
        end
        || test flag_i ext url
      else false
  | None => false
  end.

(** The URL taken from an audio or video item: the first resource that
    passes the predicate, else the first resource when its URL has one of
    the extensions. *)
Definition pick_resource (mimes : list string) (ext : regex) (rs : list Resource)
    : option string :=
  match List.find (is_media_resource mimes ext) rs with
  | Some r =>
      match res_url r with
      | Some url => Some url
      | None => None
      end
  | None =>
      match rs with
      | r0 :: _ =>
          match res_url r0 with
          | Some url => if Str.truthy url && test flag_i ext url then Some url else None
          | None => None
          end
      | [] => None
      end
  end.

Definition image_item (query : string) (item : SearchItem) : option MediaItem :=
  match si_image_full item with
  | Some full =>
      if Str.truthy full then
        Some {| mi_title := or_else (si_title item) query; mi_url := full;
                mi_source := "Library of Congress - Images"; mi_type := Image;
                mi_reproduction_number := si_reproduction_number item |}
      else None
  | None => None
  end.

Definition stream_item (ty : MediaType) (source : string) (mimes : list string)
    (ext : regex) (query : string) (item : SearchItem) : option MediaItem :=
  match si_resources item with
  | Some rs =>
      match pick_resource mimes ext rs with
      | Some url =>
          Some {| mi_title := or_else (si_title item) query; mi_url := url;
                  mi_source := source; mi_type := ty;
                  mi_reproduction_number := si_reproduction_number item |}
      | None => None
      end
  | None => None
  end.

Definition audio_item : string -> SearchItem -> option MediaItem :=
  stream_item Audio "Library of Congress - Audio" audio_mimes audio_extension.
Definition video_item : string -> SearchItem -> option MediaItem :=
  stream_item Video "Library of Congress - Video" video_mimes video_extension.

(** The items accepted from one reply: the loop over
    [results.slice(0, cap)] with its [allMedia.push]. *)
Definition accepted (pick : SearchItem -> option MediaItem) (cap : Z)
    (results : list SearchItem) : list MediaItem :=
  omap pick (slice_to results cap).

(** [axios.get(searchUrl)] *)
Definition axios_get_json (env : Env) (url : string) : M (option (list SearchItem)) :=
  let! t := step in
  do! record_request url in
  match archive_search env t url with
  | SearchFailed e => throw e
  | SearchData results => ret results
  end.

(** One of the three inner [try] blocks of [searchLibraryOfCongress]. *)
Definition search_kind (env : Env) (url label : string)
    (accept : list SearchItem -> list MediaItem) : M (list MediaItem) :=
  try_catch
    (let! data := axios_get_json env url in
     ret (match data with Some results => accept results | None => [] end))
    (fun e =>
       do! log (Error ("Error searching LOC " +:+ label +:+ ": " +:+ err_message e)) in
       ret []).

Definition searchLibraryOfCongress (env : Env) (query : string) (maxResults : Z)
    : M (list MediaItem) :=
  try_catch
    (let! images := search_kind env (imageSearchUrl query) "images"
                      (accepted (image_item query) maxResults) in
     let! audio := search_kind env (audioSearchUrl query) "audio"
                     (accepted (audio_item query) (maxResults / 2)) in
     let! video := search_kind env (videoSearchUrl query) "video"
                     (accepted (video_item query) (maxResults / 2)) in
     ret (slice_to (images ++ audio ++ video) maxResults))
    (fun e => do! log (Error ("Error searching LOC: " +:+ err_message e)) in ret []).

Definition extension_of (t : MediaType) : string :=
  match t with Image => ".jpg" | Audio => ".mp3" | Video => ".mp4" end.

(** [/\.[^/.]+$/] *)
Definition last_extension : regex :=
  RSeq (lit ".") (RSeq (RPlus (CsClass true [("/", "/"); (".", ".")]%char)) REos).

(** [axios.get(url, {responseType: 'arraybuffer', timeout: 30000,
    validateStatus: status => status === 200})] *)
Definition axios_get_blob (env : Env) (url : string) : M string :=
  let! t := step in
  do! record_request url in
  match fetch env t url with
  | FetchFailed e => throw e
  | FetchResponse status statusText body =>
      if (status =? 200)%Z then ret body
      else throw {| err_message := "Request failed with status code " +:+ show_Z status;
                    err_code := Some "ERR_BAD_RESPONSE";
                    err_response := Some (status, statusText) |}
  end.

(** [error.code === c] *)
Definition has_code (c : string) (error : JsError) : bool :=
  match err_code error with
  | Some x => String.eqb x c
  | None => false
  end.

(** The second console line of the [catch] block of [downloadMedia]. *)
Definition failure_detail (error : JsError) : M unit :=
  if has_code "ECONNABORTED" error then log (Error "   Request timed out")
  else
    match err_response error with
    | Some (status, statusText) =>
        log (Error ("   HTTP " +:+ show_Z status +:+ ": " +:+ statusText))
    | None => ret tt
    end.

(** The [catch] block of [downloadMedia]. *)
Definition download_failed (filename : string) (error : JsError) : M (option string) :=
  do! log (Error ("Failed to download " +:+ filename +:+ ": " +:+ err_message error)) in
  do! failure_detail error in
  ret None.

Definition downloadMedia (env : Env) (url filename : string) (mediaType : MediaType)
    : M (option string) :=
  let extension := extension_of mediaType in
  let filename' :=
    if Str.truthy url && Str.truthy filename && negb (Str.endsWith filename extension)
    then replace_first plain last_extension EmptyString filename +:+ extension
    else filename in
  try_catch
    (do! (if Str.truthy url && Str.truthy filename then ret tt
          else throw (plain_error "URL and filename are required")) in
     let! data := axios_get_blob env url in
     do! (if Str.truthy data then ret tt
          else throw (plain_error "Empty response from media URL")) in
     let filepath := path_join (imageDir env) filename' in
     do! writeFileSync env filepath data in
     do! log (Info ("Downloaded: " +:+ filename')) in
     ret (Some filepath))
    (download_failed filename').

(** [/[^a-z0-9]+/g] *)
Definition not_alnum : regex :=
  RPlus (CsClass true [("a", "z"); ("0", "9")]%char).

Definition cleanTitle (title : string) : string :=
  Str.take 30 (replace_all plain not_alnum "-" (Str.toLowerCase title)).

Definition slug (topic : string) : string :=
  replace_all plain Extract.spaces "-" (Str.toLowerCase topic).

Definition media_filename (topic : string) (m : MediaItem) (timestamp : Z) : string :=
  slug topic +:+ "-" +:+ cleanTitle (mi_title m) +:+ "-" +:+ show_Z timestamp.

Definition downloaded_entry (topic : string) (m : MediaItem) (filename : string)
    : Downloaded :=
  {| d_filepath :=
       "/images/historical/" +:+ filename +:+ "." +:+
       match mi_type m with Audio => "mp3" | Video => "mp4" | Image => "jpg" end;
     d_title := mi_title m;
     d_source := mi_source m;
     d_type := mi_type m;
     d_topic := topic;
     d_reproduction_number := mi_reproduction_number m |}.

(** The download loop of [collectMediaForTopic]. *)
Fixpoint download_each (env : Env) (topic : string) (items : list MediaItem)
    : M (list Downloaded) :=
  match items with
  | [] => ret []
  | m :: rest =>
      let! timestamp := date_now env in
      let filename := media_filename topic m timestamp in
      let! filepath := downloadMedia env (mi_url m) filename (mi_type m) in
      let! more := download_each env topic rest in
      ret (if present filepath then downloaded_entry topic m filename :: more else more)
  end.

Definition searchQuery (topic : string) (keywords : list string) : string :=
  Str.join " " ([topic] ++ keywords ++ ["Texas history"]).

Definition collectMediaForTopic (env : Env) (topic : string) (keywords : list string)
    : M (list Downloaded) :=
  do! log (Info ("Media Agent: Collecting media for " +:+ topic)) in
  let! mediaItems := searchLibraryOfCongress env (searchQuery topic keywords) 10 in
  let! downloadedMedia := download_each env topic mediaItems in
  do! log (Info ("Collected " +:+ show_nat (List.length downloadedMedia)
                 +:+ " media items for " +:+ topic +:+ " ("
                 +:+ show_nat (List.length mediaItems) +:+ " searched)")) in
  ret downloadedMedia.

Definition new_topic_row (topic : string) (keywords : list string) (userId now : string)
    (id : Z) : TopicRow :=
  {| tr_id := id; tr_topic := topic; tr_keywords := keywords; tr_user_id := userId;
     tr_researched_at := now; tr_presentation_generated := 0 |}.

Definition storeResearchedTopic (env : Env) (topic : string) (keywords : list string)
    (userId : string) : M Z :=
  db_insert env
    (fun now d =>
       set_topics_researched
         (insert_row (new_topic_row topic keywords userId now) (topics_researched d)) d)
    (fun d => (last_id (topics_researched d) + 1)%Z).

Definition new_media_row (topicId : Z) (mediaPath title source now : string) (id : Z)
    : MediaRow :=
  {| tm_id := id; tm_topic_id := topicId; tm_media_path := mediaPath;
     tm_media_type := "image"; tm_title := Some title; tm_source := Some source;
     tm_collected_at := now |}.

Definition linkMediaToTopic (env : Env) (topicId : Z) (mediaPath title source : string)
    : M Z :=
  db_insert env
    (fun now d =>
       set_topic_media
         (insert_row (new_media_row topicId mediaPath title source now) (topic_media d)) d)
    (fun d => (last_id (topic_media d) + 1)%Z).

(** The linking loop of [researchAndCollect]; the result is [factsAdded]. *)
Fixpoint link_each (env : Env) (topicId : Z) (items : list Downloaded) : M nat :=
  match items with
  | [] => ret 0
  | item :: rest =>
      let! _ := linkMediaToTopic env topicId (d_filepath item) (d_title item)
                  (d_source item) in
      let! n := link_each env topicId rest in
      ret (S n)
  end.

(** An id that may be [null], used as a condition: [null] and [0] are falsy. *)
Definition id_given (existingTopicId : option Z) : bool :=
  match existingTopicId with
  | Some id => negb (id =? 0)%Z
  | None => false
  end.

Definition researchAndCollect (env : Env) (topic : string) (keywords : list string)
    (existingTopicId : option Z) : M ResearchResult :=
  do! log (Info ("Starting research workflow for: " +:+ topic)) in
  let! topicId :=
    if negb (id_given existingTopicId) then
      let! id := storeResearchedTopic env topic keywords "default" in
      do! log (Info ("Stored topic research (ID: " +:+ show_Z id +:+ ")")) in
      ret id
    else
      let id := default 0%Z existingTopicId in
      do! log (Info ("Enhancing existing topic (ID: " +:+ show_Z id +:+ ")")) in
      ret id in
  let! media := collectMediaForTopic env topic keywords in
  let! factsAdded := link_each env topicId media in
  ret {| topicId := topicId; topic := topic; mediaCount := List.length media;
         media := media; factsAdded := factsAdded |}.

End MediaAgent.

(** ** SQL helpers *)

Module Sql.

(** SQLite's [LIKE]: [%] stands for any text, [_] for any one character,
    ASCII letters are compared without case. *)
Fixpoint like (pattern text : string) : bool :=
  match pattern with
  | EmptyString => Str.is_empty text
  | String p pattern' =>
      if Chars.eqb p "%" then
        (fix any (t : string) : bool :=
           like pattern' t ||
           match t with
           | String _ t' => any t'
           | EmptyString => false
           end) text
      else
        match text with
        | String c text' =>
            (Chars.eqb p "_" || Chars.eqb (Chars.sql_lower p) (Chars.sql_lower c))
            && like pattern' text'
        | EmptyString => false
        end
  end.

(** [LOWER(x) LIKE LOWER(pattern)] *)
Definition lower_like (x pattern : string) : bool :=
  like (Str.sql_lower pattern) (Str.sql_lower x).

(** [LOWER(x) = LOWER(y)] *)
Definition lower_eq (x y : string) : bool :=
  String.eqb (Str.sql_lower x) (Str.sql_lower y).

(** [ORDER BY]: insertion into a list ordered by [precedes], after the
    rows that tie. *)
Fixpoint insert_by {A : Type} (precedes : A -> A -> bool) (x : A) (l : list A) : list A :=
  match l with
  | [] => [x]
  | y :: l' => if precedes x y then x :: y :: l' else y :: insert_by precedes x l'
  end.

Fixpoint order_by {A : Type} (precedes : A -> A -> bool) (l : list A) : list A :=
  match l with
  | [] => []
  | x :: l' => insert_by precedes x (order_by precedes l')
  end.

(** Comparison of a nullable integer column: [NULL] is below every number. *)
Definition compare_null (a b : option Z) : comparison :=
  match a, b with
  | None, None => Eq
  | None, Some _ => Lt
  | Some _, None => Gt
  | Some x, Some y => (x ?= y)%Z
  end.

(** A statement that changes rows and resolves with nothing. *)
Definition db_run (env : Env) (f : Database -> Database) : M unit :=
  let! t := step in
  if db_ok env t then modify_db f else throw db_error.

End Sql.

(** ** presentation-builder.js *)

Module PresentationBuilder.
Import Regex.

(** A row of the facts query: the fact with [city_name] and [topic_name]
    of the two left joins. *)
Record FactView := {
  fv_fact : HistoricalFact;
  fv_city_name : option string;
  fv_topic_name : option string
}.

(** An entry of [allMedia]. *)
Record GalleryItem := {
  g_media_path : string;
  g_title : option string;
  g_source : option string
}.

Record PresentationResult := {
  pr_filepath : string;
  pr_filename : string;
  pr_fullPath : string
}.

Definition presentationsDir (env : Env) : string :=
  path_join (dirname env) "public/presentations".

Definition q : string := Str.single Chars.dquote.

Definition or_else := MediaAgent.or_else.

(** [x ? f x : ''] for a string that may be missing. *)
Definition when_present (x : option string) (f : string -> string) : string :=
  match x with
  | Some s => if Str.truthy s then f s else EmptyString
  | None => EmptyString
  end.

(** [y ? f y : ''] for a number that may be missing: [0] is falsy. *)
Definition when_year (y : option Z) (f : Z -> string) : string :=
  match y with
  | Some n => if (n =? 0)%Z then EmptyString else f n
  | None => EmptyString
  end.

Definition getTopicData (env : Env) (topicId : Z) : M (option TopicRow * list MediaRow) :=
  let! topic := db_query env (fun d =>
    List.find (fun r => (tr_id r =? topicId)%Z) (rows (topics_researched d))) in
  let! media := db_query env (fun d =>
    List.filter (fun m => (tm_topic_id m =? topicId)%Z) (rows (topic_media d))) in
  ret (topic, media).

(** [/\s+in\s+southeast\s+texas\s+history/gi] and [/\s+in\s+texas\s+history/gi] *)
Definition in_southeast_texas_history : regex :=
  seqs [RPlus CsSpace; lit "in"; RPlus CsSpace; lit "southeast"; RPlus CsSpace;
        lit "texas"; RPlus CsSpace; lit "history"].
Definition in_texas_history : regex :=
  seqs [RPlus CsSpace; lit "in"; RPlus CsSpace; lit "texas"; RPlus CsSpace;
        lit "history"].

Definition cleanTopic (topic : string) : string :=
  Str.trim
    (replace_all flag_i in_texas_history EmptyString
       (replace_all flag_i in_southeast_texas_history EmptyString topic)).

(** [SELECT id FROM historical_topics WHERE LOWER(name) = LOWER(?)] *)
Definition find_historical_topic (name : string) (d : Database) : option HistoricalTopic :=
  List.find (fun t => Sql.lower_eq (ht_name t) name) (historical_topics d).

(** [historical_facts hf LEFT JOIN historical_cities hc ... LEFT JOIN
    historical_topics ht ...] *)
Definition fact_view (d : Database) (f : HistoricalFact) : FactView :=
  {| fv_fact := f;
     fv_city_name :=
       match hf_city_id f with
       | Some c => hc_name <$> List.find (fun x => (hc_id x =? c)%Z) (historical_cities d)
       | None => None
       end;
     fv_topic_name :=
       match hf_topic_id f with
       | Some t => ht_name <$> List.find (fun x => (ht_id x =? t)%Z) (historical_topics d)
       | None => None
       end |}.

(** [hf.topic_id = ?] *)
Definition has_topic (id : Z) (f : FactView) : bool :=
  match hf_topic_id (fv_fact f) with
  | Some t => (t =? id)%Z
  | None => false
  end.

(** [LOWER(ht.name) LIKE LOWER(?) OR LOWER(hf.title) LIKE LOWER(?) OR
    LOWER(hf.content) LIKE LOWER(?)] *)
Definition mentions (keywords : string) (f : FactView) : bool :=
  match fv_topic_name f with
  | Some n => Sql.lower_like n keywords
  | None => false
  end
  || Sql.lower_like (hf_title (fv_fact f)) keywords
  || Sql.lower_like (hf_content (fv_fact f)) keywords.

(** [ORDER BY hf.importance DESC, hf.event_year DESC] *)
Definition ranks_before (a b : FactView) : bool :=
  match Sql.compare_null (hf_importance (fv_fact a)) (hf_importance (fv_fact b)) with
  | Gt => true
  | Lt => false
  | Eq =>
      match Sql.compare_null (hf_event_year (fv_fact a)) (hf_event_year (fv_fact b)) with
      | Lt => false
      | _ => true
      end
  end.

(** The facts query, for the topic row found by name or for none. *)
Definition facts_query (historicalTopic : option HistoricalTopic) (keywords : string)
    (d : Database) : list FactView :=
  List.firstn 10
    (Sql.order_by ranks_before
       (List.filter
          (match historicalTopic with
           | Some ht => has_topic (ht_id ht)
           | None => mentions keywords
           end)
          (List.map (fact_view d) (historical_facts d)))).

Definition getRelatedFacts (env : Env) (topic : string) : M (list FactView) :=
  let clean := cleanTopic topic in
  let keywords := "%" +:+ clean +:+ "%" in
  let! historicalTopic := db_query env (find_historical_topic clean) in
  db_query env (facts_query historicalTopic keywords).

(** The entries of [factImages]. *)
Definition fact_images (facts : list FactView) : list GalleryItem :=
  List.map
    (fun f =>
       {| g_media_path := default EmptyString (hf_image_url (fv_fact f));
          g_title := Some (hf_title (fv_fact f));
          g_source := Some (or_else (hf_source_name (fv_fact f)) "Historical Archive") |})
    (List.filter
       (fun f =>
          match hf_image_url (fv_fact f) with
          | Some u => Str.truthy u && Str.truthy (Str.trim u)
          | None => false
          end)
       facts).

Definition media_entry (m : MediaRow) : GalleryItem :=
  {| g_media_path := tm_media_path m; g_title := tm_title m; g_source := tm_source m |}.

Definition gallery_image (topic : string) (m : GalleryItem) : string :=
  Str.concat
    ["
                <img src=";
     q; g_media_path m; q; " alt="; q; or_else (g_title m) topic; q; " title="; q;
     or_else (g_source m) EmptyString; q; " onerror="; q; "this.style.display='none'"; q;
     ">
            "].

Definition gallery_html (topic : string) (allMedia : list GalleryItem) : string :=
  match allMedia with
  | [] => EmptyString
  | _ :: _ =>
  Str.concat
    ["
        <div class=";
     q; "gallery"; q;
     ">
            ";
     Str.concat (List.map (gallery_image topic) allMedia);
     "
        </div>
        "]
  end.

Definition fact_image (f : FactView) (image_url : string) : string :=
  Str.concat
    ["<img src="; q; image_url; q; " alt="; q; hf_title (fv_fact f); q; " style="; q;
     "width: 100%; max-width: 600px; height: auto; border-radius: 8px; margin-bottom: 1rem;";
     q; " onerror="; q; "this.style.display='none'"; q; ">"].

Definition fact_html (f : FactView) : string :=
  Str.concat
    ["
                <div class=";
     q; "fact"; q;
     ">
                    ";
     when_present (hf_image_url (fv_fact f)) (fact_image f);
     "
                    <h3>";
     hf_title (fv_fact f); " ";
     when_year (hf_event_year (fv_fact f)) (fun y => Str.concat ["("; show_Z y; ")"]);
     "</h3>
                    <p>";
     hf_content (fv_fact f);
     "</p>
                    <div class=";
     q; "fact-meta"; q;
     ">
                        ";
     when_present (fv_city_name f) (fun x => "📍 " +:+ x);
     "
                        ";
     when_present (fv_topic_name f) (fun x => "• " +:+ x);
     "
                        ";
     when_present (hf_source_name (fv_fact f)) (fun x => "• Source: " +:+ x);
     "
                    </div>
                </div>
            "].

(** The page, with the gallery block and the fact blocks already rendered. *)
Definition page_template (topic gallery facts generated : string) : string :=
  Str.concat
    ["
<!DOCTYPE html>
<html lang=";
     q; "en"; q;
     ">
<head>
    <meta charset=";
     q; "UTF-8"; q;
     ">
    <meta name=";
     q; "viewport"; q; " content="; q; "width=device-width, initial-scale=1.0"; q;
     ">
    <title>";
     topic;
     " - Southeast Texas History</title>
    <style>
        * { margin: 0; padding: 0; box-sizing: border-box; }
        body {
            font-family: -apple-system, BlinkMacSystemFont, 'Segoe UI', Roboto, sans-serif;
            background: linear-gradient(135deg, #1e3c72 0%, #2a5298 100%);
            color: #333;
            padding: 2rem;
            min-height: 100vh;
        }
        
        nav {
            background: rgba(255, 255, 255, 0.95);
            padding: 1rem 2rem;
            box-shadow: 0 2px 10px rgba(0,0,0,0.1);
            margin-bottom: 2rem;
        }
        
        nav ul {
            list-style: none;
            display: flex;
            gap: 2rem;
            align-items: center;
        }
        
        nav a {
            text-decoration: none;
            color: #2a5298;
            font-weight: 600;
            transition: color 0.3s;
        }
        
        nav a:hover {
            color: #1e3c72;
        }
        
        nav .logo {
            font-size: 1.5rem;
            font-weight: 800;
            color: #1e3c72;
        }
        .presentation {
            max-width: 1200px;
            margin: 0 auto;
            background: white;
            border-radius: 20px;
            overflow: hidden;
            box-shadow: 0 20px 60px rgba(0,0,0,0.3);
        }
        .hero {
            background: linear-gradient(135deg, #1e3c72 0%, #2a5298 100%);
            color: white;
            padding: 4rem 3rem;
            text-align: center;
        }
        .hero h1 {
            font-size: 3rem;
            margin-bottom: 1rem;
        }
        .hero p {
            font-size: 1.2rem;
            opacity: 0.9;
        }
        .gallery {
            display: grid;
            grid-template-columns: repeat(auto-fit, minmax(300px, 1fr));
            gap: 0;
        }
        .gallery img {
            width: 100%;
            height: 300px;
            object-fit: cover;
            transition: transform 0.3s;
        }
        .gallery img:hover {
            transform: scale(1.05);
            z-index: 10;
        }
        .content {
            padding: 3rem;
        }
        .fact {
            background: #f8f9fa;
            padding: 2rem;
            margin: 2rem 0;
            border-radius: 12px;
            border-left: 4px solid #2a5298;
        }
        .fact h3 {
            color: #1e3c72;
            margin-bottom: 1rem;
        }
        .fact-meta {
            color: #666;
            font-size: 0.9rem;
            margin-top: 1rem;
        }
        .notes-section {
            margin-top: 3rem;
            padding-top: 2rem;
            border-top: 1px solid #eee;
        }
        .notes-section h2 {
            color: #1e3c72;
            margin-bottom: 1rem;
        }
        .notes-section p {
            margin-bottom: 1.5rem;
            color: #666;
        }
        #personal-notes {
            width: 100%;
            min-height: 200px;
            padding: 1rem;
            border-radius: 8px;
            border: 1px solid #ddd;
            font-family: inherit;
            font-size: 1rem;
            line-height: 1.6;
        }
        #save-notes {
            display: inline-block;
            margin-top: 1rem;
            padding: 0.75rem 1.5rem;
            background: #2a5298;
            color: white;
            border: none;
            border-radius: 8px;
            cursor: pointer;
            font-weight: 600;
            transition: background 0.3s;
        }
        #save-notes:hover {
            background: #1e3c72;
        }
        .timestamp {
            text-align: center;
            padding: 2rem;
            color: #999;
            font-size: 0.9rem;
        }
    </style>
</head>
<body>
    <!-- Navigation -->
    <nav>
        <ul>
            <li><span class=";
     q; "logo"; q;
     ">🏛️ SETX History</span></li>
            <li><a href=";
     q; "/"; q;
     ">History Chat</a></li>
            <li><a href=";
     q; "/contribute.html"; q;
     ">🤝 Contribute</a></li>
        </ul>
    </nav>
    
    <div class=";
     q; "presentation"; q;
     ">
        <div class=";
     q; "hero"; q;
     ">
            <h1>🏛️ ";
     topic;
     "</h1>
            <p>A Visual Journey Through Southeast Texas History</p>
        </div>

        ";
     gallery;
     "

        <div class=";
     q; "content"; q;
     ">
            <h2>Historical Facts</h2>
            ";
     facts;
     "

            <div class=";
     q; "notes-section"; q;
     ">
                <h2>My Notes</h2>
                <p>Add your personal notes and research findings below.</p>
                <textarea id=";
     q; "personal-notes"; q; " placeholder="; q; "Type your notes here..."; q;
     "></textarea>
                <button id=";
     q; "save-notes"; q;
     ">Save Notes</button>
            </div>
        </div>

        <div class=";
     q; "timestamp"; q;
     ">
            Generated: ";
     generated;
     "
        </div>
    </div>
</body>
</html>
        "].

Definition facts_html (facts : list FactView) : string :=
  Str.concat (List.map fact_html facts).

Definition presentation_html (topic : string) (allMedia : list GalleryItem)
    (facts : list FactView) (generated : string) : string :=
  page_template topic (gallery_html topic allMedia) (facts_html facts) generated.

Definition new_presentation_row (topicId : Z) (title content htmlPath now : string)
    (id : Z) : PresentationRow :=
  {| p_id := id; p_topic_id := topicId; p_title := title; p_content := Some content;
     p_html_path := Some htmlPath; p_created_at := now |}.

(** [UPDATE topics_researched SET presentation_generated = 1 WHERE id = ?] *)
Definition mark_generated (topicId : Z) (d : Database) : Database :=
  set_topics_researched
    {| rows :=
         List.map
           (fun r =>
              if (tr_id r =? topicId)%Z
              then {| tr_id := tr_id r; tr_topic := tr_topic r; tr_keywords := tr_keywords r;
                      tr_user_id := tr_user_id r; tr_researched_at := tr_researched_at r;
                      tr_presentation_generated := 1 |}
              else r)
           (rows (topics_researched d));
       last_id := last_id (topics_researched d) |}
    d.

Definition storePresentation (env : Env) (topicId : Z) (title content htmlPath : string)
    : M Z :=
  let! presentationId :=
    db_insert env
      (fun now d =>
         set_presentations
           (insert_row (new_presentation_row topicId title content htmlPath now)
              (presentations d)) d)
      (fun d => (last_id (presentations d) + 1)%Z) in
  do! try_catch (Sql.db_run env (mark_generated topicId))
        (fun err => log (Error ("Warning: Failed to update topic: " +:+ err_message err))) in
  ret presentationId.

Definition page_filename (topic : string) (topicId : Z) : string :=
  MediaAgent.slug topic +:+ "-" +:+ show_Z topicId +:+ ".html".

Definition generatePresentation (env : Env) (topicId : Z) : M PresentationResult :=
  let! data := getTopicData env topicId in
  match fst data with
  | None => throw (plain_error ("Topic with ID " +:+ show_Z topicId +:+ " not found"))
  | Some topic =>
      let! facts := getRelatedFacts env (tr_topic topic) in
      let allMedia := List.map media_entry (snd data) ++ fact_images facts in
      let! generated := date_locale env in
      let html := presentation_html (tr_topic topic) allMedia facts generated in
      let filename := page_filename (tr_topic topic) topicId in
      let filepath := path_join (presentationsDir env) filename in
      do! writeFileSync env filepath html in
      do! log (Info ("Presentation generated: " +:+ filename)) in
      let! _ := storePresentation env topicId (tr_topic topic) html filepath in
      ret {| pr_filepath := "/presentations/" +:+ filename; pr_filename := filename;
             pr_fullPath := filepath |}
  end.

End PresentationBuilder.

(** ** page-consolidation-agent.js *)

Module Consolidation.
Import Regex.

Record Hierarchy := {
  displayName : string;
  icon : string;
  description : string;
  subtopics : list string;
  relatedTopics : list string
}.

(** The table of [getTopicHierarchies], by category name: the own
    properties of the object, which [Object.entries] lists. *)
Definition getTopicHierarchies : gmap string Hierarchy :=
  list_to_map
    [("Oil & Energy",
      {| displayName := "Oil & Energy in Southeast Texas";
         icon := "⚡";
         description :=
           "The petroleum industry that transformed Southeast Texas from rural to industrial";
         subtopics := ["Spindletop"; "Oil drilling methods"; "Refineries";
                       "Major oil companies"];
         relatedTopics := ["Port Arthur"; "Beaumont"] |});
     ("Lumber Industry",
      {| displayName := "Lumber Industry in Southeast Texas";
         icon := "🌲";
         description := "The sawmill and timber era that built the region from 1880-1930";
         subtopics := ["Sawmills"; "Logging techniques"; "Major lumber companies";
                       "Forest management"];
         relatedTopics := ["Orange"; "Vidor"] |});
     ("Shipbuilding",
      {| displayName := "Shipbuilding in Southeast Texas";
         icon := "🚢";
         description := "Naval and commercial shipbuilding, especially during WWII";
         subtopics := ["WWII shipyards"; "Construction techniques";
                       "Major shipbuilding companies"; "Types of vessels"];
         relatedTopics := ["Orange"; "Port Arthur"] |})].

(** The names that the object of the table inherits from
    [Object.prototype].  Looked up with [[name]], each of them gives a
    function (for [__proto__], the prototype object), which is truthy and
    has none of the properties of a hierarchy. *)
Definition prototype_keys : list string :=
  ["constructor"; "__defineGetter__"; "__defineSetter__"; "hasOwnProperty";
   "__lookupGetter__"; "__lookupSetter__"; "isPrototypeOf"; "propertyIsEnumerable";
   "toString"; "valueOf"; "__proto__"; "toLocaleString"].

(** What [getTopicHierarchies()[mainTopic]] gives, when it gives
    something. *)
Inductive Looked :=
| Entry (h : Hierarchy)        (* an entry of the table *)
| Inherited.                   (* a member of [Object.prototype] *)

(** [getTopicHierarchies()[mainTopic]] *)
Definition hierarchy_at (mainTopic : string) : option Looked :=
  match getTopicHierarchies !! mainTopic with
  | Some h => Some (Entry h)
  | None => if Str.mem mainTopic prototype_keys then Some Inherited else None
  end.

(** A row of the query of [findRelatedPresentations]: a presentation with
    [research_topic] and [keywords] of its researched topic. *)
Record RelatedRow := {
  rr_presentation : PresentationRow;
  rr_research_topic : string;
  rr_keywords : list string
}.

(** What [findRelatedPresentations] resolves to; a field is [None] where
    the object has [undefined]: the descriptive fields for a category that
    is not in the table, and these and [subtopics] for an inherited
    member. *)
Record PresentationsData := {
  pd_mainTopic : string;
  pd_displayName : option string;
  pd_icon : option string;
  pd_description : option string;
  pd_presentations : list RelatedRow;
  pd_subtopics : option (list string)
}.

(** A string that may be [undefined], in a template literal. *)
Definition shown (x : option string) : string := default "undefined" x.

Record Sections := {
  sec_title : string;
  sec_hero : string;
  sec_gallery : string;
  sec_content : string
}.

Record Tab := { tab_id : string; tab_label : string; tab_body : string }.

Record SavedFile := { sf_filename : string; sf_filepath : string; sf_url : string }.

Definition presentationsDir (env : Env) : string :=
  path_join (dirname env) "public/presentations".

Definition q : string := Str.single Chars.dquote.

(** The search terms of a category: its name, its related topics and its
    subtopics. *)
Definition category_terms (mainTopic : string) (h : Hierarchy) : list string :=
  [mainTopic] ++ relatedTopics h ++ subtopics h.

Definition topicPatterns (mainTopic : string) (h : Hierarchy) : list string :=
  List.map (fun t => "%" +:+ t +:+ "%") (category_terms mainTopic h).

(** [[mainTopic, ...hierarchy.relatedTopics || [], ...hierarchy.subtopics
    || []]] for what the lookup gave: an inherited member has neither
    list. *)
Definition looked_terms (mainTopic : string) (l : Looked) : list string :=
  match l with
  | Entry h => category_terms mainTopic h
  | Inherited => [mainTopic]
  end.

(** The terms that [findRelatedPresentations] searches for a category:
    none when the lookup gives nothing. *)
Definition search_terms (mainTopic : string) : list string :=
  match hierarchy_at mainTopic with
  | Some l => looked_terms mainTopic l
  | None => []
  end.

(** [presentations p JOIN topics_researched t ON p.topic_id = t.id] *)
Definition presentations_with_topic (d : Database) : list RelatedRow :=
  List.flat_map
    (fun p =>
       List.map
         (fun t => {| rr_presentation := p; rr_research_topic := tr_topic t;
                      rr_keywords := tr_keywords t |})
         (List.filter (fun t => (p_topic_id p =? tr_id t)%Z) (rows (topics_researched d))))
    (rows (presentations d)).

(** [ORDER BY p.created_at DESC] *)
Definition newer_first (a b : RelatedRow) : bool :=
  String.leb (p_created_at (rr_presentation b)) (p_created_at (rr_presentation a)).

(** The query of [findRelatedPresentations]: one [LOWER(t.topic) LIKE
    LOWER(?)] per pattern, joined by [OR]. *)
Definition related_query (patterns : list string) (d : Database) : list RelatedRow :=
  Sql.order_by newer_first
    (List.filter
       (fun r => existsb (Sql.lower_like (rr_research_topic r)) patterns)
       (presentations_with_topic d)).

Definition findRelatedPresentations (env : Env) (mainTopic : string) : M PresentationsData :=
  match hierarchy_at mainTopic with
  | None =>
      ret {| pd_mainTopic := mainTopic; pd_displayName := None;
             pd_icon := None; pd_description := None;
             pd_presentations := []; pd_subtopics := Some [] |}
  | Some (Entry hierarchy) =>
      let! presentations :=
        db_query env (related_query (topicPatterns mainTopic hierarchy)) in
      ret {| pd_mainTopic := mainTopic; pd_displayName := Some (displayName hierarchy);
             pd_icon := Some (icon hierarchy);
             pd_description := Some (description hierarchy);
             pd_presentations := presentations;
             pd_subtopics := Some (subtopics hierarchy) |}
  | Some Inherited =>
      let! presentations :=
        db_query env (related_query ["%" +:+ mainTopic +:+ "%"]) in
      ret {| pd_mainTopic := mainTopic; pd_displayName := None;
             pd_icon := None; pd_description := None;
             pd_presentations := presentations; pd_subtopics := None |}
  end.

(** [/<h1[^>]*>(.*?)<\/h1>/i] *)
Definition title_pattern : regex :=
  seqs [lit "<h1"; RStar true (CsClass true [(">", ">")]%char); lit ">";
        RGroup 1 (RStar false CsAny); lit "</h1>"].

(** [/<div class="hero">(.*?)<\/div>/s] and the same for [gallery] *)
Definition div_pattern (class : string) : regex :=
  seqs [lit ("<div class=" +:+ q +:+ class +:+ q +:+ ">");
        RGroup 1 (RStar false CsAny); lit "</div>"].

(** [/<div class="content">(.*?)<div class="timestamp">/s] *)
Definition content_pattern : regex :=
  seqs [lit ("<div class=" +:+ q +:+ "content" +:+ q +:+ ">");
        RGroup 1 (RStar false CsAny);
        lit ("<div class=" +:+ q +:+ "timestamp" +:+ q +:+ ">")].

(** [m ? m[1] : otherwise] *)
Definition group1_or (otherwise : string) (m : option match_result) : string :=
  match m with
  | Some r => default EmptyString (m_group 1 r)
  | None => otherwise
  end.

Definition extractContentSections (htmlContent : string) : Sections :=
  {| sec_title := group1_or "Untitled" (search flag_i title_pattern htmlContent);
     sec_hero := group1_or EmptyString (search flag_s (div_pattern "hero") htmlContent);
     sec_gallery := group1_or EmptyString (search flag_s (div_pattern "gallery") htmlContent);
     sec_content := group1_or EmptyString (search flag_s content_pattern htmlContent) |}.

(** [/^[^a-z0-9]+/gi] *)
Definition leading_marks : regex :=
  RSeq RBos (RPlus (CsClass true [("a", "z"); ("0", "9")]%char)).

(** [index === 0 ? 'active' : ''] *)
Definition active_class (index : nat) : string :=
  match index with O => "active" | S _ => EmptyString end.

Definition tab_content (content : Sections) : string :=
  Str.concat
    ["
                    <div class=";
     q; "tab-content"; q;
     ">
                        ";
     (if Str.truthy (sec_hero content) then Str.concat ["<div class="; q; "hero-section"; q; ">"; sec_hero content; "</div>"] else EmptyString);
     "
                        ";
     (if Str.truthy (sec_gallery content) then Str.concat ["<div class="; q; "gallery-section"; q; ">"; sec_gallery content; "</div>"] else EmptyString);
     "
                        <div class=";
     q; "facts-section"; q; ">"; sec_content content;
     "</div>
                    </div>
                "].

Definition tab_button (index : nat) (tab : Tab) : string :=
  Str.concat
    ["
                    <button class=";
     q; "tab-button "; active_class index; q;
     " 
                            data-tab=";
     q; tab_id tab; q;
     ">
                        ";
     tab_label tab;
     "
                    </button>
                "].

Definition tabNavigation (tabs : list Tab) : string :=
  Str.concat
    ["
            <div class=";
     q; "tab-navigation"; q;
     ">
                ";
     Str.concat (imap tab_button tabs);
     "
            </div>
        "].

Definition tab_pane (index : nat) (tab : Tab) : string :=
  Str.concat
    ["
                    <div id=";
     q; tab_id tab; q; " class="; q; "tab-pane "; active_class index; q;
     ">
                        ";
     tab_body tab;
     "
                    </div>
                "].

Definition tabContents (tabs : list Tab) : string :=
  Str.concat
    ["
            <div class=";
     q; "tab-contents"; q;
     ">
                ";
     Str.concat (imap tab_pane tabs);
     "
            </div>
        "].

Definition tabbed_html (data : PresentationsData) (tabs : list Tab) : string :=
  Str.concat
    ["
                <div class=";
     q; "consolidated-page"; q;
     ">
                    <div class=";
     q; "page-header"; q;
     ">
                        <h1>";
     shown (pd_icon data); " "; shown (pd_displayName data);
     "</h1>
                        <p>";
     shown (pd_description data);
     "</p>
                    </div>
                    
                    ";
     tabNavigation tabs;
     "
                    ";
     tabContents tabs;
     "
                </div>
            "].

Definition consolidated_html (data : PresentationsData) (tabbed : string)
    (timestamp : string) : string :=
  Str.concat
    ["
<!DOCTYPE html>
<html lang=";
     q; "en"; q;
     ">
<head>
    <meta charset=";
     q; "UTF-8"; q;
     ">
    <meta name=";
     q; "viewport"; q; " content="; q; "width=device-width, initial-scale=1.0"; q;
     ">
    <title>";
     shown (pd_displayName data);
     " - Southeast Texas History</title>
    <style>
        * { margin: 0; padding: 0; box-sizing: border-box; }
        body {
            font-family: -apple-system, BlinkMacSystemFont, 'Segoe UI', Roboto, sans-serif;
            background: linear-gradient(135deg, #1e3c72 0%, #2a5298 100%);
            color: #333;
            padding: 2rem;
            min-height: 100vh;
        }
        
        nav {
            background: rgba(255, 255, 255, 0.95);
            padding: 1rem 2rem;
            box-shadow: 0 2px 10px rgba(0,0,0,0.1);
            margin-bottom: 2rem;
            border-radius: 12px;
        }
        
        nav ul {
            list-style: none;
            display: flex;
            gap: 2rem;
            align-items: center;
        }
        
        nav a {
            text-decoration: none;
            color: #2a5298;
            font-weight: 600;
            transition: color 0.3s;
        }
        
        nav a:hover {
            color: #1e3c72;
        }
        
        nav .logo {
            font-size: 1.5rem;
            font-weight: 800;
            color: #1e3c72;
        }
        
        .consolidated-page {
            max-width: 1400px;
            margin: 0 auto;
            background: white;
            border-radius: 20px;
            overflow: hidden;
            box-shadow: 0 20px 60px rgba(0,0,0,0.3);
        }
        
        .page-header {
            background: linear-gradient(135deg, #1e3c72 0%, #2a5298 100%);
            color: white;
            padding: 3rem;
            text-align: center;
        }
        
        .page-header h1 {
            font-size: 2.5rem;
            margin-bottom: 1rem;
        }
        
        .page-header p {
            font-size: 1.2rem;
            opacity: 0.9;
            max-width: 800px;
            margin: 0 auto;
        }
        
        .tab-navigation {
            display: flex;
            background: #f8f9fa;
            border-bottom: 1px solid #e9ecef;
            overflow-x: auto;
        }
        
        .tab-button {
            padding: 1rem 2rem;
            background: transparent;
            border: none;
            cursor: pointer;
            font-weight: 600;
            color: #666;
            border-bottom: 3px solid transparent;
            transition: all 0.3s;
            white-space: nowrap;
        }
        
        .tab-button:hover {
            background: #e9ecef;
            color: #2a5298;
        }
        
        .tab-button.active {
            color: #2a5298;
            border-bottom: 3px solid #2a5298;
        }
        
        .tab-contents {
            padding: 2rem;
        }
        
        .tab-pane {
            display: none;
        }
        
        .tab-pane.active {
            display: block;
        }
        
        .hero-section {
            margin-bottom: 2rem;
        }
        
        .gallery-section {
            margin: 2rem 0;
        }
        
        .gallery-section img {
            width: 100%;
            height: 300px;
            object-fit: cover;
            border-radius: 12px;
            margin-bottom: 1rem;
        }
        
        .facts-section {
            margin-top: 2rem;
        }
        
        .fact {
            background: #f8f9fa;
            padding: 2rem;
            margin: 2rem 0;
            border-radius: 12px;
            border-left: 4px solid #2a5298;
        }
        
        .fact h3 {
            color: #1e3c72;
            margin-bottom: 1rem;
        }
        
        .fact-meta {
            color: #666;
            font-size: 0.9rem;
            margin-top: 1rem;
        }
        
        .timestamp {
            text-align: center;
            padding: 2rem;
            color: #999;
            font-size: 0.9rem;
            border-top: 1px solid #eee;
            margin-top: 2rem;
        }
        
        @media (max-width: 768px) {
            .tab-navigation {
                flex-direction: column;
            }
            
            .tab-button {
                text-align: left;
                border-bottom: 1px solid #e9ecef;
                border-right: 3px solid transparent;
            }
            
            .tab-button.active {
                border-bottom: 1px solid #e9ecef;
                border-right: 3px solid #2a5298;
            }
        }
    </style>
</head>
<body>
    <!-- Navigation -->
    <nav>
        <ul>
            <li><span class=";
     q; "logo"; q;
     ">🏛️ SETX History</span></li>
            <li><a href=";
     q; "/"; q;
     ">History Chat</a></li>
            <li><a href=";
     q; "/contribute.html"; q;
     ">🤝 Contribute</a></li>
        </ul>
    </nav>
    
    ";
     tabbed;
     "
    
    <div class=";
     q; "timestamp"; q;
     ">
        Consolidated Page Generated: ";
     timestamp;
     "<br>
        Contains ";
     show_nat (List.length (pd_presentations data));
     " related research presentations
    </div>
    
    <script>
        // Tab switching functionality
        document.querySelectorAll('.tab-button').forEach(button => {
            button.addEventListener('click', () => {
                // Remove active class from all buttons and panes
                document.querySelectorAll('.tab-button').forEach(btn => btn.classList.remove('active'));
                document.querySelectorAll('.tab-pane').forEach(pane => pane.classList.remove('active'));
                
                // Add active class to clicked button
                button.classList.add('active');
                
                // Show corresponding tab pane
                const tabId = button.getAttribute('data-tab');
                document.getElementById(tabId).classList.add('active');
            });
        });
    </script>
</body>
</html>
        "].

Definition make_tab (index : nat) (pres : RelatedRow) : Tab :=
  let content :=
    extractContentSections (default EmptyString (p_content (rr_presentation pres))) in
  {| tab_id := "tab-" +:+ show_nat index;
     tab_label := Str.take 30 (replace_all flag_i leading_marks EmptyString (sec_title content));
     tab_body := tab_content content |}.

Definition createTabbedInterface (data : PresentationsData) : option (list Tab * string) :=
  match pd_presentations data with
  | [] => None
  | _ :: _ =>
      let tabs := imap make_tab (pd_presentations data) in
      Some (tabs, tabbed_html data tabs)
  end.

Definition generateConsolidatedPage (env : Env) (data : PresentationsData)
    : M (option string) :=
  match createTabbedInterface data with
  | None => ret None
  | Some tabbedInterface =>
      let! timestamp := date_locale env in
      ret (Some (consolidated_html data (snd tabbedInterface) timestamp))
  end.

Definition saveConsolidatedPage (env : Env) (mainTopic htmlContent : string)
    : M (option SavedFile) :=
  let! now := date_now env in
  let filename := MediaAgent.slug mainTopic +:+ "-consolidated-" +:+ show_Z now +:+ ".html" in
  let filepath := path_join (presentationsDir env) filename in
  try_catch
    (do! writeFileSync env filepath htmlContent in
     do! log (Info ("Consolidated page created: " +:+ filename)) in
     ret (Some {| sf_filename := filename; sf_filepath := filepath;
                  sf_url := "/presentations/" +:+ filename |}))
    (fun error =>
       do! log (Error ("Failed to save consolidated page: " +:+ err_message error)) in
       ret None).

Definition new_consolidated_row (mainTopic displayName htmlPath now : string) (id : Z)
    : ConsolidatedRow :=
  {| cp_id := id; cp_main_topic := mainTopic; cp_display_name := displayName;
     cp_html_path := htmlPath; cp_created_at := now |}.

(** What the database answers to a row without [display_name]: the
    column is declared [TEXT NOT NULL]. *)
Definition not_null_error : JsError :=
  {| err_message :=
       "SQLITE_CONSTRAINT: NOT NULL constraint failed: consolidated_pages.display_name";
     err_code := Some "SQLITE_CONSTRAINT"; err_response := None |}.

(** A [displayName] that is [undefined] is bound as [NULL], which the
    table refuses. *)
Definition storeConsolidatedPage (env : Env) (mainTopic : string)
    (displayName : option string) (htmlPath : string) : M Z :=
  match displayName with
  | Some name =>
      db_insert env
        (fun now d =>
           set_consolidated_pages
             (insert_row (new_consolidated_row mainTopic name htmlPath now)
                (consolidated_pages d)) d)
        (fun d => (last_id (consolidated_pages d) + 1)%Z)
  | None =>
      let! t := step in
      throw (if db_ok env t then not_null_error else db_error)
  end.

(** The steps of [consolidateTopicCategory] after the presentations were
    found: generate, save, store. *)
Definition consolidate_found (env : Env) (mainTopic : string) (data : PresentationsData)
    : M (option SavedFile) :=
  let! htmlContent := generateConsolidatedPage env data in
  if negb (MediaAgent.present htmlContent) then
    do! log (Info ("Failed to generate consolidated page for " +:+ mainTopic)) in
    ret None
  else
    let! savedFile :=
      saveConsolidatedPage env mainTopic (default EmptyString htmlContent) in
    match savedFile with
    | None =>
        do! log (Info ("Failed to save consolidated page for " +:+ mainTopic)) in
        ret None
    | Some saved =>
        do! try_catch
              (let! _ := storeConsolidatedPage env mainTopic (pd_displayName data)
                           (sf_filepath saved) in
               log (Info "Stored consolidated page reference in database"))
              (fun dbError =>
                 log (Error ("Database storage warning: " +:+ err_message dbError))) in
        do! log (Info ("Successfully consolidated " +:+ mainTopic +:+ " into "
                       +:+ sf_filename saved)) in
        ret (Some saved)
    end.

Definition consolidateTopicCategory (env : Env) (mainTopic : string)
    : M (option SavedFile) :=
  do! log (Info ("Consolidating pages for: " +:+ mainTopic)) in
  try_catch
    (let! presentationsData := findRelatedPresentations env mainTopic in
     do! log (Info ("Found " +:+ show_nat (List.length (pd_presentations presentationsData))
                    +:+ " related presentations")) in
     match pd_presentations presentationsData with
     | [] =>
         do! log (Info ("No presentations found for " +:+ mainTopic)) in
         ret None
     | _ :: _ => consolidate_found env mainTopic presentationsData
     end)
    (fun error =>
       do! log (Error ("Error consolidating " +:+ mainTopic +:+ ": " +:+ err_message error)) in
       ret None).

End Consolidation.

(** ** research-workflow.js: the orchestrator *)

Module ResearchWorkflow.

Record WorkflowResult := {
  wr_topicId : Z;
  wr_topic : string;
  wr_mediaCount : nat;
  wr_presentationUrl : string;
  wr_presentationPath : string
}.

Definition processUserQuery (env : Env) (userMessage : string) (existingTopicId : option Z)
    : M (option WorkflowResult) :=
  do! log (Info "Research Workflow Starting...") in
  let topic := Extract.extractTopic userMessage in
  if negb (MediaAgent.present topic) then
    do! log (Info "No clear topic found in message") in
    ret None
  else
    let topic := default EmptyString topic in
    do! log (Info ("Topic identified: " +:+ topic)) in
    let keywords := Extract.extractKeywords userMessage in
    do! log (Info ("Keywords: " +:+ Str.join ", " keywords)) in
    let! research := MediaAgent.researchAndCollect env topic keywords existingTopicId in
    let! presentation :=
      PresentationBuilder.generatePresentation env (MediaAgent.topicId research) in
    do! log (Info "Workflow complete!") in
    do! log (Info ("   - Topic ID: " +:+ show_Z (MediaAgent.topicId research))) in
    do! log (Info ("   - Media collected: " +:+ show_nat (MediaAgent.mediaCount research))) in
    do! log (Info "   - Data organized and stored") in
    ret (Some {| wr_topicId := MediaAgent.topicId research;
                 wr_topic := MediaAgent.topic research;
                 wr_mediaCount := MediaAgent.mediaCount research;
                 wr_presentationUrl := PresentationBuilder.pr_filepath presentation;
                 wr_presentationPath := PresentationBuilder.pr_fullPath presentation |}).

End ResearchWorkflow.

(** ** What the specification says, in its own words *)

Module Spec.
Import Regex.

(** "Returns the first capture group matched by the first pattern that
    matches; returns nothing if no pattern matches." *)
Fixpoint first_group (ps : list regex) (message : string) : option string :=
  match ps with
  | [] => None
  | p :: rest =>
      match search flag_i p message with
      | Some m => m_group 1 m
      | None => first_group rest message
      end
  end.

Definition extractTopic_stated (message : string) : option string :=
  first_group Extract.patterns message.

(** A named subject occurs in the message, letters compared without case. *)
Definition mentions_subject (subject message : string) : bool :=
  Str.infix_by Chars.canonicalize subject message.

(** The words that open the question templates "tell me about X",
    "what is/was/were X" and "how did X". *)
Definition question_leads : list string :=
  ["tell me about "; "what is "; "what was "; "what were "; "how did "].

(** A word that is neither a stop-word nor of length at most 3. *)
Definition survives (word : string) : bool :=
  (3 <? String.length word)%nat && negb (Str.mem word Extract.commonWords).

(** The pieces of a text between its runs of whitespace (the first and
    the last piece are empty when the text starts or ends with whitespace).
    [cur] is the piece being read, [in_space] tells that the character
    before was whitespace. *)
Fixpoint pieces (in_space : bool) (cur s : string) : list string :=
  match s with
  | EmptyString => [cur]
  | String c s' =>
      if Chars.is_space c
      then if in_space then pieces true cur s' else cur :: pieces true EmptyString s'
      else pieces false (cur +:+ Str.single c) s'
  end.

Definition split_whitespace (s : string) : list string :=
  pieces false EmptyString s.

(** The number of whitespace characters that the text starts with. *)
Fixpoint leading_spaces (s : string) : nat :=
  match s with
  | EmptyString => 0
  | String c s' => if Chars.is_space c then S (leading_spaces s') else 0
  end.

(** "Lowercases the text, splits on whitespace, discards stop-words and
    tokens of length at most 3, keeps the first five surviving tokens in
    original order." *)
Definition extractKeywords_stated (message : string) : list string :=
  List.firstn 5 (List.filter survives (split_whitespace (Str.toLowerCase message))).

Definition is_mark (c : ascii) : bool := Str.includes "?!.," (Str.single c).

(** The word without its first [?], [!], [.] or [,]. *)
Fixpoint drop_first_mark (word : string) : string :=
  match word with
  | EmptyString => EmptyString
  | String c word' => if is_mark c then word' else String c (drop_first_mark word')
  end.

(** [needle] occurs in [text], ASCII letters compared without case. *)
Definition contains_text (needle text : string) : bool :=
  Str.infix_by Chars.sql_lower needle text.

(** A fact whose topic name, title or content contains the text. *)
Definition fact_contains (text : string) (f : PresentationBuilder.FactView) : bool :=
  match PresentationBuilder.fv_topic_name f with
  | Some n => contains_text text n
  | None => false
  end
  || contains_text text (hf_title (PresentationBuilder.fv_fact f))
  || contains_text text (hf_content (PresentationBuilder.fv_fact f)).

(** "First attempts an exact case-insensitive name match against the topic
    lookup table to get a precise foreign-key filter; falls back to a
    substring match against topic/title/content fields if no exact lookup
    match exists; ordered by importance then year, capped at a fixed
    count", for the topic string [name]. *)
Definition related_facts_stated (name : string) (d : Database)
    : list PresentationBuilder.FactView :=
  List.firstn 10
    (Sql.order_by PresentationBuilder.ranks_before
       (List.filter
          (match List.find (fun t => Sql.lower_eq (ht_name t) name) (historical_topics d) with
           | Some ht => PresentationBuilder.has_topic (ht_id ht)
           | None => fact_contains name
           end)
          (List.map (PresentationBuilder.fact_view d) (historical_facts d)))).

(** The text holds none of the wildcards of [LIKE]. *)
Fixpoint no_wildcard (s : string) : bool :=
  match s with
  | EmptyString => true
  | String c s' => negb (Chars.eqb c "%") && negb (Chars.eqb c "_") && no_wildcard s'
  end.

(** [a] is at or above [b]: [NULL] is below every number. *)
Definition at_least (a b : option Z) : Prop :=
  match a, b with
  | _, None => True
  | None, Some _ => False
  | Some x, Some y => (y <= x)%Z
  end.

Definition above (a b : option Z) : Prop :=
  match a, b with
  | None, _ => False
  | Some _, None => True
  | Some x, Some y => (y < x)%Z
  end.

(** Importance descending, then event year descending. *)
Definition ranked (a b : PresentationBuilder.FactView) : Prop :=
  let fa := PresentationBuilder.fv_fact a in
  let fb := PresentationBuilder.fv_fact b in
  above (hf_importance fa) (hf_importance fb)
  \/ (hf_importance fa = hf_importance fb
      /\ at_least (hf_event_year fa) (hf_event_year fb)).

(** The console line of a failed download. *)
Definition is_failure_line (l : LogLine) : bool :=
  match l with
  | Error text => Str.prefix_by (fun c => c) "Failed to download " text
  | Info _ => false
  end.

Definition failures (lines : list LogLine) : nat :=
  List.length (List.filter is_failure_line lines).

(** A reply that [downloadMedia] accepts: status 200 with a body. *)
Definition fetch_ok (r : FetchReply) : bool :=
  match r with
  | FetchResponse status _ body => (status =? 200)%Z && Str.truthy body
  | FetchFailed _ => false
  end.



(** What follows the first [p] in the text, if [p] occurs. *)
Fixpoint text_after (p s : string) : option string :=
  if Str.prefix_by (fun c => c) p s then Some (Str.drop (String.length p) s)
  else
    match s with
    | EmptyString => None
    | String _ s' => text_after p s'
    end.

(** After the first [a] in the text, whitespace apart, comes [b]. *)
Definition next_is (a b text : string) : bool :=
  match text_after a text with
  | Some rest => Str.prefix_by (fun c => c) b (Str.trim_left rest)
  | None => false
  end.

Definition div_of (class : string) : string :=
  "<div class=" +:+ Str.single Chars.dquote +:+ class +:+ Str.single Chars.dquote +:+ ">".

(** The markup of an image, of the gallery block and of a fact block. *)
Definition media_and_fact_markup : list string :=
  ["<img"; div_of "gallery"; div_of "fact"].

(** "a complete HTML document with an empty/omitted gallery section and
    an empty facts section", as a condition on the four texts around the
    title, the heading and the time of generation.  The first opens the
    document and its head up to the title; the second closes the title
    and the head and opens the body up to the heading; in the third the
    hero block is followed at once by the content block, whose heading
    "Historical Facts" is followed at once by the notes; the fourth
    closes the body and the document.  None of them holds an image, a
    gallery block or a fact block. *)
Definition empty_document_frame (p1 p2 p3 p4 : string) : bool :=
  Str.prefix_by (fun c => c) "<!DOCTYPE html>" (Str.trim_left p1)
  && next_is "<!DOCTYPE html>"
       ("<html lang=" +:+ Str.single Chars.dquote +:+ "en" +:+ Str.single Chars.dquote +:+ ">")
       p1
  && Str.includes p1 "<head>"
  && Str.endsWith p1 "<title>"
  && Str.prefix_by (fun c => c) " - Southeast Texas History</title>" p2
  && next_is "</head>" "<body>" p2
  && Str.includes p2 (div_of "hero")
  && Str.endsWith p2 "<h1>🏛️ "
  && Str.prefix_by (fun c => c) "</h1>" p3
  && next_is "</div>" (div_of "content") p3
  && next_is (div_of "content") "<h2>Historical Facts</h2>" p3
  && next_is "<h2>Historical Facts</h2>" (div_of "notes-section") p3
  && Str.endsWith p3 "Generated: "
  && next_is "</body>" "</html>" p4
  && Str.endsWith (Str.trim p4) "</html>"
  && forallb (fun markup => forallb (fun p => negb (Str.includes p markup)) [p1; p2; p3; p4])
       media_and_fact_markup.

(** The page is such a document for the topic and the time. *)
Definition empty_document (topic generated html : string) : Prop :=
  exists p1 p2 p3 p4,
    html = p1 +:+ topic +:+ p2 +:+ topic +:+ p3 +:+ generated +:+ p4
    /\ empty_document_frame p1 p2 p3 p4 = true.

(** The first named subject that the text starts with, if any. *)
Definition first_subject (ls : list string) (s : string) : option string :=
  List.find (fun l => Str.prefix_by Chars.canonicalize l s) ls.

Definition starts_subject (s : string) : bool :=
  existsb (fun l => Str.prefix_by Chars.canonicalize l s) Extract.named_subjects.

(** The items accepted from one search reply. *)
Definition accepted_from (reply : SearchReply)
    (accept : list SearchItem -> list MediaAgent.MediaItem) : list MediaAgent.MediaItem :=
  match reply with
  | SearchData (Some results) => accept results
  | SearchData None => []
  | SearchFailed _ => []
  end.

(** The [topic_media] row that links a collected item to a topic. *)
Definition links (topicId : Z) (row : MediaRow) (item : MediaAgent.Downloaded) : Prop :=
  tm_topic_id row = topicId /\
  tm_media_path row = MediaAgent.d_filepath item /\
  tm_title row = Some (MediaAgent.d_title item) /\
  tm_source row = Some (MediaAgent.d_source item).

Definition all_ascii : list ascii := List.map ascii_of_nat (List.seq 0 256).

End Spec.

(** ** Sample inputs *)

Module Sample.

Definition no_rows {A : Type} : Table A := {| rows := []; last_id := 0 |}.

Definition empty_db : Database :=
  {| topics_researched := no_rows; topic_media := no_rows; presentations := no_rows;
     consolidated_pages := no_rows; historical_topics := []; historical_cities := [];
     historical_facts := [] |}.

Definition world (d : Database) : World :=
  {| tick := 0; db := d; files := ∅; console := []; requests := [] |}.

Definition gusher : SearchItem :=
  {| si_title := Some "Lucas Gusher, Spindletop";
     si_image_full := Some "https://tile.loc.gov/storage-services/gusher.jpg";
     si_resources := None;
     si_reproduction_number := Some "LC-USZ62-1" |}.


(** An outside where the image search finds one item, the other searches
    fail, every download is answered with [reply], and the disk and the
    database work. *)
Definition env (reply : FetchReply) : Env :=
  {| dirname := "/srv/setx";
     archive_search := fun _ url =>
       if Str.includes url "/pictures/" then SearchData (Some [gusher])
       else SearchFailed (plain_error "Request failed with status code 503");
     fetch := fun _ _ => reply;
     disk_write_ok := fun _ _ => true;
     db_ok := fun _ => true;
     now_ms := fun t => (1700000000000 + Z.of_nat t)%Z;
     locale_time := fun _ => "11/14/2023, 10:13:20 PM";
     db_time := fun _ => "2023-11-14 22:13:20" |}.

Definition good_reply : FetchReply := FetchResponse 200 "OK" "JFIF".

(** The same outside with a database that fails after its first answer. *)
Definition env_db_down (from : nat) : Env :=
  {| dirname := "/srv/setx";
     archive_search := archive_search (env good_reply);
     fetch := fetch (env good_reply);
     disk_write_ok := fun _ _ => true;
     db_ok := fun t => (t <? from)%nat;
     now_ms := now_ms (env good_reply);
     locale_time := locale_time (env good_reply);
     db_time := db_time (env good_reply) |}.

Definition spindletop_row : TopicRow :=
  {| tr_id := 1; tr_topic := "Spindletop"; tr_keywords := ["spindletop"];
     tr_user_id := "default"; tr_researched_at := "2023-11-14 22:13:20";
     tr_presentation_generated := 0 |}.

Definition oil_topic : HistoricalTopic := {| ht_id := 1; ht_name := "Oil" |}.

Definition gusher_fact : HistoricalFact :=
  {| hf_id := 1; hf_title := "Lucas Gusher"; hf_content := "The well blew in on January 10.";
     hf_event_year := Some 1901%Z; hf_city_id := None; hf_topic_id := Some 1%Z;
     hf_source_name := None; hf_image_url := None; hf_importance := Some 10%Z |}.

(** A database with the topic [Oil], one fact filed under it, and one
    researched topic. *)
Definition oil_db : Database :=
  {| topics_researched := {| rows := [spindletop_row]; last_id := 1 |};
     topic_media := no_rows; presentations := no_rows; consolidated_pages := no_rows;
     historical_topics := [oil_topic]; historical_cities := [];
     historical_facts := [gusher_fact] |}.

(** The same database after the page of [Spindletop] was rendered. *)
Definition presented_db : Database :=
  set_presentations
    {| rows := [ {| p_id := 1; p_topic_id := 1; p_title := "Spindletop";
                    p_content := Some "<h1>Spindletop</h1>";
                    p_html_path := Some "/srv/setx/public/presentations/spindletop-1.html";
                    p_created_at := "2023-11-14 22:13:25" |} ];
       last_id := 1 |}
    oil_db.

End Sample.

(** ** Shapes of strings *)

Module Shape.

(** Every character of the text passes the test. *)
Fixpoint all_chars (P : ascii -> bool) (s : string) : bool :=
  match s with
  | EmptyString => true
  | String c s' => P c && all_chars P s'
  end.

Definition not_dot (c : ascii) : bool := negb (Chars.eqb c ".").

(** The number of characters at the front of the text that pass the test. *)
Fixpoint run (P : ascii -> bool) (s : string) : nat :=
  match s with
  | EmptyString => 0
  | String c s' => if P c then S (run P s') else 0
  end.

(** The text without the characters at its front that pass the test. *)
Fixpoint drop_while (P : ascii -> bool) (s : string) : string :=
  match s with
  | EmptyString => EmptyString
  | String c s' => if P c then drop_while P s' else s
  end.

(** The public path of a collected item names a file of the image
    directory. *)
Definition on_disk (env : Env) (fs : gmap string string) (e : MediaAgent.Downloaded)
    : Prop :=
  exists name,
    MediaAgent.d_filepath e = "/images/historical/" +:+ name /\
    is_Some (fs !! path_join (MediaAgent.imageDir env) name).

(** The two texts differ at a position that both have, characters
    compared after [fold]. *)
Fixpoint mismatch (fold : ascii -> ascii) (p s : string) : bool :=
  match p, s with
  | String a p', String b s' =>
      if Chars.eqb (fold a) (fold b) then mismatch fold p' s' else true
  | _, _ => false
  end.

(** At no position of [s] can an occurrence of [p] start, whatever
    follows [s]. *)
Fixpoint clear_of (fold : ascii -> ascii) (p s : string) : bool :=
  match s with
  | EmptyString => true
  | String _ s' => mismatch fold p s && clear_of fold p s'
  end.

(** A character that can stand in a heading: not [<] and not a line
    terminator. *)
Definition title_char (c : ascii) : bool :=
  negb (Chars.eqb c "<") && negb (Chars.is_line_terminator c).

(** A letter of the ASCII alphabet or a digit. *)
Definition is_alnum (c : ascii) : bool :=
  Chars.in_range 97 122 c || Chars.in_range 65 90 c || Chars.in_range 48 57 c.

(** The text is empty or starts with a letter or a digit. *)
Definition alnum_first (s : string) : bool :=
  match s with
  | EmptyString => true
  | String c _ => is_alnum c
  end.

End Shape.

(** ** page-consolidation-agent.js: the run over all categories *)

Module AllCategories.

(** An entry of the list that [consolidateAllCategories] returns. *)
Record CategoryResult := { cr_category : string; cr_file : string; cr_url : string }.

(** The keys of the object literal of [getTopicHierarchies], in the order
    in which they are written. *)
Definition category_order : list string :=
  ["Oil & Energy"; "Lumber Industry"; "Shipbuilding"].

(** [Object.entries(hierarchies)] *)
Definition entries : list (string * Consolidation.Hierarchy) :=
  omap (fun k => (fun h => (k, h)) <$> Consolidation.getTopicHierarchies !! k)
    category_order.

(** [await new Promise(resolve => setTimeout(resolve, 1000))]: time passes. *)
Definition sleep : M unit := let! _ := step in ret tt.

Definition category_result (mainTopic : string) (result : Consolidation.SavedFile)
    : CategoryResult :=
  {| cr_category := mainTopic; cr_file := Consolidation.sf_filename result;
     cr_url := Consolidation.sf_url result |}.

(** The loop of [consolidateAllCategories]. *)
Fixpoint consolidate_each (env : Env) (cats : list (string * Consolidation.Hierarchy))
    : M (list CategoryResult) :=
  match cats with
  | [] => ret []
  | (mainTopic, _) :: rest =>
      let! result := Consolidation.consolidateTopicCategory env mainTopic in
      do! sleep in
      let! more := consolidate_each env rest in
      ret (match result with
           | Some saved => category_result mainTopic saved :: more
           | None => more
           end)
  end.

Definition consolidateAllCategories (env : Env) : M (list CategoryResult) :=
  do! log (Info "Starting full page consolidation process...") in
  let! results := consolidate_each env entries in
  do! log (Info ("Page consolidation complete! Created "
                 +:+ show_nat (List.length results) +:+ " consolidated pages.")) in
  ret results.

End AllCategories.

(** ** populate-all-topics.js *)

Module Populate.

(** [`Tell me about ${topic.name} in Southeast Texas history`] *)
Definition query (name : string) : string :=
  "Tell me about " +:+ name +:+ " in Southeast Texas history".

(** The query of [hasPresentation]: [SELECT p.id FROM presentations p JOIN
    topics_researched t ON p.topic_id = t.id WHERE LOWER(t.topic) =
    LOWER(?) LIMIT 1], resolved with [!!row]. *)
Definition has_row (topicName : string) (d : Database) : bool :=
  existsb (fun r => Sql.lower_eq (Consolidation.rr_research_topic r) topicName)
    (Consolidation.presentations_with_topic d).

Definition hasPresentation (env : Env) (topicName : string) : M bool :=
  db_query env (has_row topicName).

(** What [processTopic] returns: the topic name and, by [status], the
    other fields of the object. *)
Inductive Status :=
| Skipped (reason : string)
| Success (topicId : Z) (mediaCount : nat)
| Failed (reason : string)
| Errored (error : string).

Record TopicResult := { res_topic : string; res_status : Status }.

(** ['='.repeat(60)] *)
Definition rule : string :=
  Str.concat (List.repeat "=" 60).

Definition processTopic (env : Env) (name icon : string) (index total : nat)
    : M TopicResult :=
  do! log (Info rule) in
  do! log (Info ("Processing topic " +:+ show_nat (index + 1) +:+ "/" +:+ show_nat total
                 +:+ ": " +:+ name +:+ " " +:+ icon)) in
  do! log (Info rule) in
  try_catch
    (let! exists_ := hasPresentation env name in
     if exists_ then
       do! log (Info ("Data already populated for " +:+ name +:+ ", skipping...")) in
       ret {| res_topic := name; res_status := Skipped "already exists" |}
     else
       do! log (Info ("Research query: " +:+ query name)) in
       let! result := ResearchWorkflow.processUserQuery env (query name) None in
       match result with
       | Some r =>
           do! log (Info ("Successfully populated data for " +:+ name)) in
           do! log (Info ("   - Topic ID: " +:+ show_Z (ResearchWorkflow.wr_topicId r))) in
           do! log (Info ("   - Media collected: "
                          +:+ show_nat (ResearchWorkflow.wr_mediaCount r))) in
           ret {| res_topic := name;
                  res_status := Success (ResearchWorkflow.wr_topicId r)
                                  (ResearchWorkflow.wr_mediaCount r) |}
       | None =>
           do! log (Info ("Could not extract or process topic " +:+ name)) in
           ret {| res_topic := name; res_status := Failed "could not extract topic" |}
       end)
    (fun error =>
       do! log (Error ("Error processing " +:+ name +:+ ": " +:+ err_message error)) in
       ret {| res_topic := name; res_status := Errored (err_message error) |}).

(** A character that can stand in the topic of a question: not [?] and
    not a line terminator. *)
Definition question_char (c : ascii) : bool :=
  negb (Chars.eqb c "?") && negb (Chars.is_line_terminator c).

(** The referential integrity that the schema asks for: no key above the
    last key handed out, and no presentation for a topic key above it. *)
Definition keys_in_range (d : Database) : Prop :=
  Forall (fun r => (tr_id r <= last_id (topics_researched d))%Z)
    (rows (topics_researched d)) /\
  Forall (fun p => (p_topic_id p <= last_id (topics_researched d))%Z)
    (rows (presentations d)).

End Populate.

(** ** build-all-presentations.js *)

Module BuildAll.

(** [SELECT p.html_path FROM presentations p JOIN topics_researched t ON
    p.topic_id = t.id WHERE LOWER(t.topic) LIKE LOWER(?) ORDER BY
    p.created_at DESC LIMIT 1] *)
Definition latest_presentation (pattern : string) (d : Database)
    : option Consolidation.RelatedRow :=
  List.hd_error (Consolidation.related_query [pattern] d).

(** [!!existingPresentation] *)
Definition found (row : option Consolidation.RelatedRow) : bool :=
  match row with Some _ => true | None => false end.

(** The body of the loop over the topics, with its [try] and [catch]. *)
Definition build_one (env : Env) (name : string) : M unit :=
  try_catch
    (do! log (Info ("Processing: " +:+ name)) in
     let! existingPresentation :=
       db_query env (latest_presentation ("%" +:+ name +:+ "%")) in
     if found existingPresentation then
       log (Info ("Presentation already exists for: " +:+ name))
     else
       let message := "Tell me about " +:+ name +:+ " in Southeast Texas history" in
       do! log (Info ("Researching: " +:+ name)) in
       let! result := ResearchWorkflow.processUserQuery env message None in
       do! match result with
           | Some r =>
               log (Info ("Created presentation for: " +:+ name +:+ " ("
                          +:+ show_nat (ResearchWorkflow.wr_mediaCount r)
                          +:+ " media items)"))
           | None => log (Info ("Failed to create presentation for: " +:+ name))
           end in
       AllCategories.sleep)
    (fun error =>
       log (Error ("Error processing " +:+ name +:+ ": " +:+ err_message error))).

Fixpoint build_each (env : Env) (names : list string) : M unit :=
  match names with
  | [] => ret tt
  | name :: rest => do! build_one env name in build_each env rest
  end.

(** [ORDER BY name] *)
Definition by_name (a b : HistoricalTopic) : bool := String.leb (ht_name a) (ht_name b).

Definition buildAllPresentations (env : Env) : M unit :=
  do! log (Info "Building presentations for all historical topics...") in
  let! topics :=
    try_catch
      (let! rows := db_query env (fun d => Sql.order_by by_name (historical_topics d)) in
       ret (Some rows))
      (fun err =>
         do! log (Error ("Error fetching topics: " +:+ err_message err)) in
         ret None) in
  match topics with
  | None => ret tt
  | Some topics =>
      do! log (Info ("Found " +:+ show_nat (List.length topics) +:+ " topics to process")) in
      do! build_each env (List.map ht_name topics) in
      log (Info "Presentation building complete!")
  end.

(** A name that the script can recognise again: its query mentions no
    named subject, it holds no [?], no line break and no wildcard of
    [LIKE], and it does not start with whitespace. *)
Definition plain_name (name : string) : bool :=
  forallb (fun subject => negb (Spec.mentions_subject subject (Populate.query name)))
    Extract.named_subjects
  && Shape.all_chars Populate.question_char name
  && Spec.no_wildcard name
  && String.eqb (Str.trim_left name) name.

(** No presented topic matches the pattern. *)
Definition unmatched (pattern : string) (d : Database) : Prop :=
  existsb (fun s => Sql.lower_like s pattern)
    (List.map Consolidation.rr_research_topic (Consolidation.presentations_with_topic d))
  = false.

End BuildAll.

(** ** More sample inputs *)

Module Cases.

(** A database with the one historical topic [Civil War] and nothing
    researched yet. *)
Definition civil_war_db : Database :=
  {| topics_researched := Sample.no_rows; topic_media := Sample.no_rows;
     presentations := Sample.no_rows; consolidated_pages := Sample.no_rows;
     historical_topics := [ {| ht_id := 6; ht_name := "Civil War" |} ];
     historical_cities := []; historical_facts := [] |}.





(** A database whose one page belongs to a topic that holds the word
    "constructor". *)
Definition bridge_db : Database :=
  {| topics_researched :=
       {| rows := [ {| tr_id := 1; tr_topic := "Constructors of the Rainbow Bridge";
                       tr_keywords := ["constructors"; "rainbow"; "bridge"];
                       tr_user_id := "default"; tr_researched_at := "2023-11-14 22:13:20";
                       tr_presentation_generated := 1 |} ];
          last_id := 1 |};
     topic_media := Sample.no_rows;
     presentations :=
       {| rows := [ {| p_id := 1; p_topic_id := 1;
                       p_title := "Constructors of the Rainbow Bridge";
                       p_content := Some "<h1>Rainbow Bridge</h1>";
                       p_html_path :=
                         Some "/srv/setx/public/presentations/constructors-of-the-rainbow-bridge-1.html";
                       p_created_at := "2023-11-14 22:13:25" |} ];
          last_id := 1 |};
     consolidated_pages := Sample.no_rows;
     historical_topics := []; historical_cities := []; historical_facts := [] |}.

(** The topic row that the scripts store for the historical topic [Oil]. *)
Definition oil_history_row : TopicRow :=
  {| tr_id := 2; tr_topic := "Oil in Southeast Texas history";
     tr_keywords := ["tell"; "about"; "southeast"; "texas"; "history"];
     tr_user_id := "default"; tr_researched_at := "2023-11-14 22:13:20";
     tr_presentation_generated := 0 |}.

(** The sample database with that row added. *)
Definition oil_history_db : Database :=
  set_topics_researched
    {| rows := [Sample.spindletop_row; oil_history_row]; last_id := 2 |} Sample.oil_db.

End Cases.

(** ** api-server.js *)

Module ApiServer.

(** The body of a response. *)
#[warnings="-register-all"] Inductive Json :=
| JNull
| JBool (b : bool)
| JNum (z : Z)
| JStr (s : string)
| JArr (items : list Json)
| JObj (fields : list (string * Json)).

(** [res.status(code).json(body)] *)
Record Response := { status : Z; body : Json }.

(** [res.json(body)] answers with the status 200. *)
Definition json (o : Json) : Response := {| status := 200; body := o |}.

(** The property [success] of the body, when it has one. *)
Definition success (r : Response) : option bool :=
  match body r with
  | JObj fields =>
      match List.find (fun f => String.eqb (fst f) "success") fields with
      | Some (_, JBool b) => Some b
      | _ => None
      end
  | _ => None
  end.


(** [req.body] of [POST /api/enhance-page], with a numeric [topicId]. *)
Record EnhanceRequest := {
  er_topicId : option Z;
  er_topicName : option string;
  er_query : option string
}.

(** A string that may be missing, in a template literal. *)
Definition shown (x : option string) : string := default "undefined" x.

(** [result.factsAdded].  The object that [processUserQuery] returns has
    the properties [topicId], [topic], [mediaCount], [presentationUrl] and
    [presentationPath]; it has no [factsAdded], so the value read is
    [undefined]. *)
Definition result_factsAdded (result : ResearchWorkflow.WorkflowResult) : option nat :=
  None.

(** [x > 0] for a number that may be [undefined]. *)
Definition positive (x : option nat) : bool :=
  match x with
  | Some n => (0 <? n)%nat
  | None => false
  end.

(** A number that may be [undefined], in a template literal. *)
Definition shown_count (x : option nat) : string :=
  match x with
  | Some n => show_nat n
  | None => "undefined"
  end.

(** [`${query} (related to ${topicName} in Southeast Texas history)`] *)
Definition contextualQuery (req : EnhanceRequest) : string :=
  default EmptyString (er_query req) +:+ " (related to " +:+ shown (er_topicName req)
  +:+ " in Southeast Texas history)".

Definition missing_fields : Response :=
  {| status := 400;
     body := JObj [("success", JBool false); ("error", JStr "Missing topicId or query")] |}.

Definition no_new_content : Response :=
  json (JObj [("success", JBool false);
              ("error", JStr "No new content found for this query. Try rephrasing or asking about a different aspect.")]).

(** [error.message || 'Failed to enhance page'] *)
Definition enhancement_failed (error : JsError) : Response :=
  {| status := 500;
     body := JObj [("success", JBool false);
                   ("error", JStr (if Str.truthy (err_message error) then err_message error
                                   else "Failed to enhance page"))] |}.

Definition page_enhanced (r : ResearchWorkflow.WorkflowResult) : Response :=
  json (JObj ([("success", JBool true);
               ("message", JStr ("Added " +:+ shown_count (result_factsAdded r)
                                 +:+ " new facts to the page"))]
              ++ match result_factsAdded r with
                 | Some n => [("factsAdded", JNum (Z.of_nat n))]
                 | None => []
                 end
              ++ [("topicId", JNum (ResearchWorkflow.wr_topicId r))])).

(** The handler of [POST /api/enhance-page]. *)
Definition enhance_page (env : Env) (req : EnhanceRequest) : M Response :=
  if negb (MediaAgent.id_given (er_topicId req)) || negb (MediaAgent.present (er_query req))
  then ret missing_fields
  else
    let topicId := default 0%Z (er_topicId req) in
    do! log (Info ("Enhancing page for topic " +:+ shown (er_topicName req)
                   +:+ " with query: " +:+ default EmptyString (er_query req))) in
    try_catch
      (let! result :=
         ResearchWorkflow.processUserQuery env (contextualQuery req) (Some topicId) in
       match result with
       | Some r =>
           if positive (result_factsAdded r) then
             let! _ := PresentationBuilder.generatePresentation env topicId in
             do! log (Info ("Page enhanced with " +:+ shown_count (result_factsAdded r)
                            +:+ " new facts")) in
             ret (page_enhanced r)
           else ret no_new_content
       | None => ret no_new_content
       end)
      (fun error =>
         do! log (Error ("Page enhancement error: " +:+ err_message error)) in
         ret (enhancement_failed error)).

Definition consolidation_failed (what : string) (error : JsError) : Response :=
  {| status := 500;
     body := JObj [("error", JStr what); ("details", JStr (err_message error))] |}.

(** The handler of [POST /api/consolidate/:category]. *)
Definition consolidate_category (env : Env) (category : string) : M Response :=
  try_catch
    (let! result := Consolidation.consolidateTopicCategory env category in
     ret (match result with
          | Some r =>
              json (JObj [("success", JBool true);
                          ("message", JStr ("Consolidated category: " +:+ category));
                          ("file", JStr (Consolidation.sf_filename r));
                          ("url", JStr (Consolidation.sf_url r))])
          | None =>
              json (JObj [("success", JBool false);
                          ("message", JStr ("No presentations found to consolidate for: "
                                            +:+ category))])
          end))
    (fun error =>
       do! log (Error ("Consolidation error: " +:+ err_message error)) in
       ret (consolidation_failed "Consolidation failed" error)).

Definition category_json (r : AllCategories.CategoryResult) : Json :=
  JObj [("category", JStr (AllCategories.cr_category r));
        ("file", JStr (AllCategories.cr_file r));
        ("url", JStr (AllCategories.cr_url r))].

(** The handler of [POST /api/consolidate-all]. *)
Definition consolidate_all (env : Env) : M Response :=
  try_catch
    (let! results := AllCategories.consolidateAllCategories env in
     ret (json (JObj [("success", JBool true);
                      ("message", JStr ("Consolidated " +:+ show_nat (List.length results)
                                        +:+ " categories"));
                      ("results", JArr (List.map category_json results))])))
    (fun error =>
       do! log (Error ("Full consolidation error: " +:+ err_message error)) in
       ret (consolidation_failed "Full consolidation failed" error)).

(** [path.basename] of a POSIX path: the slashes at the end do not count,
    and the name is what follows the last slash that is left. *)
Definition not_slash (c : ascii) : bool := negb (Chars.eqb c "/").

Fixpoint strip_slashes (p : string) : string :=
  match p with
  | EmptyString => EmptyString
  | String c p' =>
      let r := strip_slashes p' in
      if negb (not_slash c) && Str.is_empty r then EmptyString else String c r
  end.

Fixpoint last_segment (p : string) : string :=
  match p with
  | EmptyString => EmptyString
  | String c p' =>
      if Shape.all_chars not_slash p' then (if not_slash c then p else p')
      else last_segment p'
  end.

Definition basename (p : string) : string := last_segment (strip_slashes p).

(** [topicToCategory], in the order of its properties. *)
Definition topicToCategory : list (string * string) :=
  [("spindletop", "Oil & Energy"); ("oil", "Oil & Energy"); ("drilling", "Oil & Energy");
   ("refinery", "Oil & Energy"); ("lumber", "Lumber Industry");
   ("sawmill", "Lumber Industry"); ("shipbuilding", "Shipbuilding");
   ("shipyard", "Shipbuilding")].

(** The loop of [checkAndTriggerConsolidation]: the category of the first
    key that the topic, in lower case, includes. *)
Definition mainCategory (topic : string) : option string :=
  snd <$> List.find (fun entry => Str.includes (Str.toLowerCase topic) (fst entry))
            topicToCategory.

(** [checkAndTriggerConsolidation]: the result is the category whose
    consolidation is put on the timer, if there is one. *)
Definition checkAndTriggerConsolidation (topic : string) : M (option string) :=
  match mainCategory topic with
  | Some category =>
      do! log (Info ("Scheduling consolidation for category: " +:+ category)) in
      ret (Some category)
  | None => ret None
  end.

(** [req.body] of [POST /api/research], with strings. *)
Record ResearchRequest := { rq_topic : option string; rq_message : option string }.

(** What a request leads to: the response, if one is sent, and the
    category whose consolidation is put on the timer. *)
Record Answer := { response : option Response; scheduled : option string }.

Definition answered (r : Response) (category : option string) : Answer :=
  {| response := Some r; scheduled := category |}.

(** [/^tell me about /i] and [/\?$/] *)
Definition tell_me_about_start : Regex.regex :=
  Regex.RSeq Regex.RBos (Regex.lit "tell me about ").
Definition question_mark_end : Regex.regex :=
  Regex.RSeq (Regex.RSet (Regex.CsChar "?")) Regex.REos.

(** [message.replace(/^tell me about /i, '').replace(/\?$/, '')] *)
Definition message_topic (message : string) : string :=
  Regex.replace_first Regex.plain question_mark_end EmptyString
    (Regex.replace_first Regex.flag_i tell_me_about_start EmptyString message).

(** [topic || workflow.extractTopic(message) || (message ? ... : null)];
    the message is a string where [extractTopic] is reached, because the
    request was refused otherwise. *)
Definition searchTopic (req : ResearchRequest) : option string :=
  if MediaAgent.present (rq_topic req) then rq_topic req
  else
    let message := default EmptyString (rq_message req) in
    if MediaAgent.present (Extract.extractTopic message) then Extract.extractTopic message
    else if MediaAgent.present (rq_message req) then Some (message_topic message)
    else None.

Definition bad_request (what : string) : Response :=
  {| status := 400; body := JObj [("error", JStr what)] |}.

Definition page_exists (topic filename : string) : Response :=
  json (JObj [("success", JBool true); ("topic", JStr topic);
              ("pageUrl", JStr ("/presentations/" +:+ filename));
              ("message", JStr ("Page already exists for " +:+ topic +:+ "."))]).

Definition page_created (r : ResearchWorkflow.WorkflowResult) : Response :=
  json (JObj [("success", JBool true);
              ("topicId", JNum (ResearchWorkflow.wr_topicId r));
              ("topic", JStr (ResearchWorkflow.wr_topic r));
              ("mediaCollected", JNum (Z.of_nat (ResearchWorkflow.wr_mediaCount r)));
              ("pageUrl", JStr (ResearchWorkflow.wr_presentationUrl r));
              ("message", JStr ("Page created! Collected "
                                +:+ show_nat (ResearchWorkflow.wr_mediaCount r)
                                +:+ " media items."))]).

Definition no_topic_in_query : Response :=
  json (JObj [("success", JBool false);
              ("message", JStr "Could not extract topic from query")]).

(** [path.basename(row.html_path)]; it throws a [TypeError] for a row
    without a path. *)
Definition row_filename (row : Consolidation.RelatedRow) : M string :=
  match p_html_path (Consolidation.rr_presentation row) with
  | Some p => ret (basename p)
  | None =>
      throw {| err_message := "The " +:+ Consolidation.q +:+ "path" +:+ Consolidation.q
                              +:+ " argument must be of type string. Received null";
               err_code := Some "ERR_INVALID_ARG_TYPE"; err_response := None |}
  end.

(** The callback of the query of [POST /api/research], from the row that
    the query gave. *)
Definition research_reply (env : Env) (req : ResearchRequest) (topic : string)
    (existingPresentation : option Consolidation.RelatedRow) : M Answer :=
  match existingPresentation with
  | Some row =>
      let! filename := row_filename row in
      do! log (Info ("Page already exists for " +:+ Consolidation.q +:+ topic
                     +:+ Consolidation.q +:+ ".")) in
      let! category := checkAndTriggerConsolidation topic in
      ret (answered (page_exists topic filename) category)
  | None =>
      let query := MediaAgent.or_else (rq_message req)
                     ("Tell me about " +:+ shown (rq_topic req)) in
      do! log (Info ("Research triggered: " +:+ query)) in
      let! result := ResearchWorkflow.processUserQuery env query None in
      match result with
      | Some r =>
          let! category := checkAndTriggerConsolidation (ResearchWorkflow.wr_topic r) in
          ret (answered (page_created r) category)
      | None => ret (answered no_topic_in_query None)
      end
  end.

(** The query and its callback.  An error of the query is logged, and
    the work goes on as for no row. *)
Definition research_callback (env : Env) (req : ResearchRequest) (topic : string)
    : M Answer :=
  let! existingPresentation :=
    try_catch
      (db_query env (BuildAll.latest_presentation ("%" +:+ Str.trim topic +:+ "%")))
      (fun err =>
         do! log (Error ("Database error checking for presentation: " +:+ err_message err)) in
         ret None) in
  research_reply env req topic existingPresentation.

(** The handler of [POST /api/research], for a body whose [topic] and
    [message] are strings or missing.  The callback is an [async] function
    that the database library calls: what it throws rejects a promise that
    nobody handles, outside the [try] of the handler, and the request is
    left without a response.  The [catch] of the handler, which answers
    500, needs a throw before the query is sent; with strings there is
    none (it takes a [topic] that is truthy and no string, for which
    [searchTopic.trim] is no function), so that it is left out here. *)
Definition research (env : Env) (req : ResearchRequest) : M Answer :=
  if negb (MediaAgent.present (rq_topic req)) && negb (MediaAgent.present (rq_message req))
  then ret (answered (bad_request "Topic or message required") None)
  else
    match searchTopic req with
    | Some topic =>
        if Str.truthy topic
        then try_catch (research_callback env req topic)
               (fun _ => ret {| response := None; scheduled := None |})
        else ret (answered (bad_request "Could not determine topic from request") None)
    | None => ret (answered (bad_request "Could not determine topic from request") None)
    end.

(** The handler of [GET /api/topic/:topicName/presentation].  A row
    without a path makes [path.basename] throw inside the callback, and no
    response is sent. *)
Definition topic_presentation (env : Env) (topicName : string) : M (option Response) :=
  try_catch
    (let! presentation :=
       db_query env (BuildAll.latest_presentation ("%" +:+ topicName +:+ "%")) in
     match presentation with
     | Some row =>
         match p_html_path (Consolidation.rr_presentation row) with
         | Some p =>
             ret (Some (json (JObj [("url", JStr ("/presentations/" +:+ basename p));
                                    ("exists", JBool true)])))
         | None => ret None
         end
     | None => ret (Some (json (JObj [("exists", JBool false)])))
     end)
    (fun err =>
       ret (Some {| status := 500; body := JObj [("error", JStr (err_message err))] |})).

End ApiServer.

(** ** Characters of a query string *)

Module Url.

(** What [encodeURIComponent] writes for one character. *)
Definition escape (c : ascii) : string :=
  if MediaAgent.uri_unreserved c then Str.single c
  else if (Chars.code c <? 128)%N then MediaAgent.percent (Chars.code c)
  else MediaAgent.percent (192 + Chars.code c / 64)
       +:+ MediaAgent.percent (128 + Chars.code c mod 64).

(** A character that an escaped text can hold: unreserved, or [%]. *)
Definition escaped_char (c : ascii) : bool :=
  MediaAgent.uri_unreserved c || Chars.eqb c "%".

(** A character that separates the parts of a URL or of its query. *)
Definition separator (c : ascii) : bool :=
  Str.includes "&=#?/+ " (Str.single c).

End Url.

(** ** Texts around the phrase " in ... history" *)

Module Phrase.

(** [\s+in\s+] followed by [rest]. *)
Definition phrase (rest : Regex.regex) : Regex.regex :=
  Regex.RSeq (Regex.RPlus Regex.CsSpace)
    (Regex.RSeq (Regex.lit "in") (Regex.RSeq (Regex.RPlus Regex.CsSpace) rest)).

(** The text starts with [in] (in either case) and whitespace. *)
Definition in_then_space (t : string) : bool :=
  Str.prefix_by Chars.canonicalize "in" t
  && match Str.drop 2 t with
     | EmptyString => false
     | String d _ => Chars.is_space d
     end.

(** Whitespace, [in] and whitespace again, at the front of the text. *)
Definition in_window (s : string) : bool :=
  match s with
  | EmptyString => false
  | String a t => Chars.is_space a && in_then_space t
  end.

(** The text holds no word [in] between whitespace. *)
Fixpoint free_of_in (s : string) : bool :=
  match s with
  | EmptyString => true
  | String _ s' => negb (in_window s) && free_of_in s'
  end.

(** A name without whitespace at its ends and without a word [in] of its
    own, also when whitespace follows the name. *)
Definition tidy (name : string) : bool :=
  free_of_in (name +:+ " ") && String.eqb (Str.trim name) name.

(** The text does not start with whitespace, or after its leading
    whitespace there is no [in] followed by whitespace. *)
Definition blocked (s : string) : bool :=
  match s with
  | EmptyString => true
  | String c _ => negb (Chars.is_space c)
  end
  || negb (in_then_space (Shape.drop_while Chars.is_space s)).

(** Every text that starts inside [u] and goes on with [X] is blocked. *)
Fixpoint blocked_within (X u : string) : bool :=
  match u with
  | EmptyString => true
  | String _ u' => blocked (u +:+ X) && blocked_within X u'
  end.

(** The text is empty or starts with whitespace. *)
Definition space_first (X : string) : bool :=
  match X with
  | EmptyString => true
  | String x _ => Chars.is_space x
  end.

End Phrase.

(** * Properties *)

(** ** Characters and strings *)

Lemma all_ascii_complete (c : ascii) : In c Spec.all_ascii.
Proof.
  unfold Spec.all_ascii. rewrite <- (ascii_nat_embedding c).
  apply in_map, in_seq. pose proof (nat_ascii_bounded c). lia.
Qed.

Lemma ascii_forall (P : ascii -> bool) :
  forallb P Spec.all_ascii = true -> forall c, P c = true.
Proof.
  intros H c. rewrite forallb_forall in H. apply H, all_ascii_complete.
Qed.

Lemma ascii_forall2 (P : ascii -> ascii -> bool) :
  forallb (fun a => forallb (P a) Spec.all_ascii) Spec.all_ascii = true ->
  forall a c, P a c = true.
Proof.
  intros H a c. apply (ascii_forall (P a)). apply (ascii_forall _ H).
Qed.

Lemma chars_eqb_eq (a b : ascii) : Chars.eqb a b = true -> a = b.
Proof.
  unfold Chars.eqb, Chars.code. intros H. apply N.eqb_eq in H.
  rewrite <- (ascii_N_embedding a), <- (ascii_N_embedding b). now rewrite H.
Qed.

Lemma chars_eqb_refl (a : ascii) : Chars.eqb a a = true.
Proof. unfold Chars.eqb. apply N.eqb_refl. Qed.

(** Letters that the matcher identifies under [i] have the same lower case. *)
Lemma canonicalize_lower (a c : ascii) :
  Chars.eqb (Chars.canonicalize a) (Chars.canonicalize c) = true ->
  Chars.js_lower a = Chars.js_lower c.
Proof.
  intros H. apply chars_eqb_eq. revert H.
  pose proof (ascii_forall2
    (fun a c => implb (Chars.eqb (Chars.canonicalize a) (Chars.canonicalize c))
                  (Chars.eqb (Chars.js_lower a) (Chars.js_lower c)))) as E.
  specialize (E ltac:(vm_compute; reflexivity) a c).
  cbv beta in E. intros H. rewrite H in E. exact E.
Qed.

Lemma lower_keeps_space (c : ascii) :
  Chars.is_space (Chars.js_lower c) = Chars.is_space c.
Proof.
  pose proof (ascii_forall
    (fun c => Bool.eqb (Chars.is_space (Chars.js_lower c)) (Chars.is_space c))) as E.
  specialize (E ltac:(vm_compute; reflexivity) c). cbv beta in E.
  now apply Bool.eqb_prop in E.
Qed.

Lemma app_cons (c : ascii) (s t : string) : String c s +:+ t = String c (s +:+ t).
Proof. reflexivity. Qed.

Lemma app_empty_l (s : string) : EmptyString +:+ s = s.
Proof. reflexivity. Qed.

Lemma app_empty_r (s : string) : s +:+ EmptyString = s.
Proof. induction s as [|c s IH]; [reflexivity | rewrite app_cons; f_equal; exact IH]. Qed.

Lemma app_assoc_str (a b c : string) : (a +:+ b) +:+ c = a +:+ (b +:+ c).
Proof.
  induction a as [|x a IH]; [reflexivity | rewrite !app_cons; f_equal; exact IH].
Qed.

Lemma app_inv_head_str (a b c : string) : a +:+ b = a +:+ c -> b = c.
Proof.
  induction a as [|x a IH]; [exact (fun H => H)|].
  rewrite !app_cons. intros H. injection H as H. now apply IH.
Qed.

Lemma map_length_str (f : ascii -> ascii) (s : string) :
  String.length (Str.map f s) = String.length s.
Proof. induction s as [|c s IH]; simpl; [reflexivity | now rewrite IH]. Qed.

Lemma take_drop (n : nat) (s : string) : Str.take n s +:+ Str.drop n s = s.
Proof.
  revert s; induction n as [|n IH]; intros [|c s]; simpl; try reflexivity.
  rewrite app_cons. f_equal. apply IH.
Qed.

Lemma prefix_take_length (fold : ascii -> ascii) (p s : string) :
  Str.prefix_by fold p s = true -> String.length (Str.take (String.length p) s) = String.length p.
Proof.
  revert s; induction p as [|a p IH]; intros [|c s]; simpl; try reflexivity; try discriminate.
  intros H. apply andb_prop in H as [_ H]. now rewrite (IH _ H).
Qed.

Lemma prefix_take_lower (p s : string) :
  Str.prefix_by Chars.canonicalize p s = true ->
  Str.toLowerCase (Str.take (String.length p) s) = Str.toLowerCase p.
Proof.
  revert s; induction p as [|a p IH]; intros [|c s]; simpl; try reflexivity; try discriminate.
  intros H. apply andb_prop in H as [Hc H].
  unfold Str.toLowerCase in *. simpl. rewrite (IH _ H).
  now rewrite (canonicalize_lower _ _ Hc).
Qed.

Lemma trim_left_length (s : string) : String.length (Str.trim_left s) <= String.length s.
Proof.
  induction s as [|c s IH]; simpl; [lia|]. destruct (Chars.is_space c); simpl; lia.
Qed.

Lemma trim_right_length (s : string) : String.length (Str.trim_right s) <= String.length s.
Proof.
  induction s as [|c s IH]; simpl; [lia|].
  destruct (Chars.is_space c && Str.is_empty (Str.trim_right s)); simpl; lia.
Qed.

Lemma trim_left_same (s : string) :
  String.length (Str.trim_left s) = String.length s -> Str.trim_left s = s.
Proof.
  destruct s as [|c s]; simpl; [reflexivity|].
  destruct (Chars.is_space c); [|reflexivity].
  pose proof (trim_left_length s). lia.
Qed.

Lemma trim_right_same (s : string) :
  String.length (Str.trim_right s) = String.length s -> Str.trim_right s = s.
Proof.
  induction s as [|c s IH]; simpl; [reflexivity|].
  destruct (Chars.is_space c && Str.is_empty (Str.trim_right s)); simpl; [discriminate|].
  intros H. now rewrite IH by lia.
Qed.

Lemma trim_same (s : string) :
  String.length (Str.trim s) = String.length s -> Str.trim s = s.
Proof.
  unfold Str.trim. intros H.
  pose proof (trim_left_length s). pose proof (trim_right_length (Str.trim_left s)).
  assert (E : Str.trim_left s = s) by (apply trim_left_same; lia).
  rewrite E in *. now apply trim_right_same.
Qed.

Lemma trim_left_lower (s : string) :
  Str.trim_left (Str.toLowerCase s) = Str.toLowerCase (Str.trim_left s).
Proof.
  unfold Str.toLowerCase. induction s as [|c s IH]; simpl; [reflexivity|].
  rewrite lower_keeps_space. destruct (Chars.is_space c); [exact IH | reflexivity].
Qed.

Lemma is_empty_map (f : ascii -> ascii) (s : string) :
  Str.is_empty (Str.map f s) = Str.is_empty s.
Proof. now destruct s. Qed.

Lemma trim_right_lower (s : string) :
  Str.trim_right (Str.toLowerCase s) = Str.toLowerCase (Str.trim_right s).
Proof.
  unfold Str.toLowerCase. induction s as [|c s IH]; simpl; [reflexivity|].
  rewrite lower_keeps_space, IH, is_empty_map.
  now destruct (Chars.is_space c && Str.is_empty (Str.trim_right s)).
Qed.

Lemma trim_lower (s : string) :
  Str.trim (Str.toLowerCase s) = Str.toLowerCase (Str.trim s).
Proof. unfold Str.trim. now rewrite trim_left_lower, trim_right_lower. Qed.

(** A text whose lower case has no space at its ends is its own trim. *)
Lemma trim_of_lower_fixed (t : string) :
  Str.trim (Str.toLowerCase t) = Str.toLowerCase t -> Str.trim t = t.
Proof.
  intros H. apply trim_same. rewrite trim_lower in H.
  apply (f_equal String.length) in H. unfold Str.toLowerCase in H.
  now rewrite !map_length_str in H.
Qed.

(** ** The matcher on literals and alternatives *)

Lemma rmatch_lit {R : Type} (l : string) :
  forall (pos : nat) (s : string) (caps : Regex.captures)
         (k : string -> string -> Regex.captures -> option R),
    Regex.rmatch Regex.flag_i (Regex.lit l) pos s caps k =
    if Str.prefix_by Chars.canonicalize l s
    then k (Str.take (String.length l) s) (Str.drop (String.length l) s) caps
    else None.
Proof.
  induction l as [|a l IH]; intros pos s caps k; [reflexivity|].
  destruct s as [|c s]; [reflexivity|].
  cbn [Regex.lit Regex.rmatch Regex.cs_mem Regex.ignoreCase Regex.flag_i
       Str.prefix_by String.length Str.take Str.drop].
  destruct (Chars.eqb (Chars.canonicalize a) (Chars.canonicalize c)); [|reflexivity].
  rewrite IH. reflexivity.
Qed.

Lemma rmatch_alts_lit {R : Type} (ls : list string) :
  forall (pos : nat) (s : string) (caps : Regex.captures)
         (k : string -> string -> Regex.captures -> option R),
    ls <> [] ->
    (forall t s' c, k t s' c <> None) ->
    Regex.rmatch Regex.flag_i (Regex.alts (List.map Regex.lit ls)) pos s caps k =
    match Spec.first_subject ls s with
    | Some l => k (Str.take (String.length l) s) (Str.drop (String.length l) s) caps
    | None => None
    end.
Proof.
  induction ls as [|l ls IH]; intros pos s caps k Hne Hk; [congruence|].
  destruct ls as [|l2 ls].
  - cbn [List.map Regex.alts Spec.first_subject List.find]. rewrite rmatch_lit.
    now destruct (Str.prefix_by Chars.canonicalize l s).
  - change (Regex.alts (List.map Regex.lit (l :: l2 :: ls)))
      with (Regex.RAlt (Regex.lit l) (Regex.alts (List.map Regex.lit (l2 :: ls)))).
    cbn [Regex.rmatch]. rewrite rmatch_lit.
    unfold Spec.first_subject. cbn [List.find].
    destruct (Str.prefix_by Chars.canonicalize l s).
    + destruct (k _ _ caps) eqn:E; [reflexivity | now apply Hk in E].
    + apply IH; [congruence | exact Hk].
Qed.

Lemma match_here_subject (before s : string) :
  Regex.match_here Regex.flag_i Extract.subject_pattern before s =
  match Spec.first_subject Extract.named_subjects s with
  | Some l =>
      Some {| Regex.m_before := before;
              Regex.m_text := Str.take (String.length l) s;
              Regex.m_after := Str.drop (String.length l) s;
              Regex.m_caps := [(1, Str.take (String.length l) s)] |}
  | None => None
  end.
Proof.
  unfold Regex.match_here, Extract.subject_pattern. cbn [Regex.rmatch].
  rewrite rmatch_alts_lit; [reflexivity | discriminate | discriminate].
Qed.

Lemma find_none_existsb {A : Type} (P : A -> bool) (l : list A) :
  List.find P l = None -> existsb P l = false.
Proof.
  induction l as [|x l IH]; simpl; [reflexivity|].
  destruct (P x); [discriminate | exact IH].
Qed.

Lemma existsb_none_find {A : Type} (P : A -> bool) (l : list A) :
  existsb P l = false -> List.find P l = None.
Proof.
  induction l as [|x l IH]; simpl; [reflexivity|].
  destruct (P x); [discriminate | exact IH].
Qed.

Lemma existsb_orb {A : Type} (P Q : A -> bool) (l : list A) :
  existsb (fun x => P x || Q x) l = existsb P l || existsb Q l.
Proof.
  induction l as [|x l IH]; simpl; [reflexivity|]. rewrite IH.
  destruct (P x), (Q x), (existsb P l), (existsb Q l); reflexivity.
Qed.

Lemma mentions_cons (c : ascii) (s : string) :
  existsb (fun l => Spec.mentions_subject l (String c s)) Extract.named_subjects =
  Spec.starts_subject (String c s)
  || existsb (fun l => Spec.mentions_subject l s) Extract.named_subjects.
Proof. unfold Spec.mentions_subject, Spec.starts_subject. apply existsb_orb. Qed.

(** Where the subject pattern matches: at the leftmost position at which a
    named subject starts. *)
Lemma search_subject_found (s : string) :
  forall before,
    existsb (fun l => Spec.mentions_subject l s) Extract.named_subjects = true ->
    exists n l,
      In l Extract.named_subjects /\
      Str.prefix_by Chars.canonicalize l (Str.drop n s) = true /\
      (forall i, i < n -> Spec.starts_subject (Str.drop i s) = false) /\
      Regex.search_from Regex.flag_i Extract.subject_pattern before s =
      Some {| Regex.m_before := before +:+ Str.take n s;
              Regex.m_text := Str.take (String.length l) (Str.drop n s);
              Regex.m_after := Str.drop (String.length l) (Str.drop n s);
              Regex.m_caps := [(1, Str.take (String.length l) (Str.drop n s))] |}.
Proof.
  induction s as [|c s IH]; intros before H.
  - vm_compute in H. discriminate.
  - destruct (Spec.first_subject Extract.named_subjects (String c s)) as [l|] eqn:E.
    + exists 0, l. pose proof E as E0. apply find_some in E0 as [Hin Hp].
      repeat split; [exact Hin | exact Hp | lia |].
      cbn [Regex.search_from]. rewrite match_here_subject, E.
      cbn [Str.take Str.drop]. now rewrite app_empty_r.
    + rewrite mentions_cons in H. unfold Spec.starts_subject in H.
      rewrite (find_none_existsb _ _ E) in H. simpl in H.
      destruct (IH (before +:+ Str.single c) H) as (n & l & Hin & Hp & Hleft & Hs).
      exists (S n), l. repeat split; [exact Hin | exact Hp | |].
      * intros [|i] Hi; [apply (find_none_existsb _ _ E) | apply Hleft; lia].
      * cbn [Regex.search_from]. rewrite match_here_subject, E, Hs.
        cbn [Str.take Str.drop]. now rewrite app_assoc_str.
Qed.

(** No named subject in the text: the subject pattern does not match. *)
Lemma search_subject_none (s : string) :
  forall before,
    existsb (fun l => Spec.mentions_subject l s) Extract.named_subjects = false ->
    Regex.search_from Regex.flag_i Extract.subject_pattern before s = None.
Proof.
  induction s as [|c s IH]; intros before H.
  - reflexivity.
  - rewrite mentions_cons in H. apply Bool.orb_false_iff in H as [H1 H2].
    cbn [Regex.search_from]. rewrite match_here_subject.
    unfold Spec.first_subject. rewrite (existsb_none_find _ _ H1). now apply IH.
Qed.

Lemma named_subjects_plain (l : string) :
  In l Extract.named_subjects ->
  Str.toLowerCase l = l /\ Str.trim l = l /\ Str.is_empty l = false.
Proof.
  intros H.
  assert (E : forallb
            (fun l => String.eqb (Str.toLowerCase l) l && String.eqb (Str.trim l) l
                      && negb (Str.is_empty l))
            Extract.named_subjects = true) by (vm_compute; reflexivity).
  rewrite forallb_forall in E. specialize (E l H).
  apply andb_prop in E as [E E3]. apply andb_prop in E as [E1 E2].
  apply String.eqb_eq in E1, E2. apply Bool.negb_true_iff in E3. auto.
Qed.

(** The loop of [extractTopic]: the first pattern that matches decides. *)
Lemma first_match_decides (before : list Regex.regex) (p : Regex.regex)
    (after : list Regex.regex) (message : string) (m : Regex.match_result) :
  Forall (fun r => Regex.search Regex.flag_i r message = None) before ->
  Regex.search Regex.flag_i p message = Some m ->
  Extract.first_match (before ++ p :: after) message = Some (Extract.topic_of_match m).
Proof.
  induction 1 as [|r before Hr _ IH]; intros Hm; cbn [app Extract.first_match].
  - now rewrite Hm.
  - rewrite Hr. now apply IH.
Qed.

Lemma first_match_none (ps : list Regex.regex) (message : string) :
  Forall (fun r => Regex.search Regex.flag_i r message = None) ps ->
  Extract.first_match ps message = None.
Proof.
  induction 1 as [|r ps Hr _ IH]; cbn [Extract.first_match]; [reflexivity|].
  now rewrite Hr.
Qed.

(** ** Topic extraction *)

(** C3, as amended.  A message that mentions a named subject (letters
    compared without case) yields that subject as it is written in the
    message, at the leftmost place where a named subject starts.  In
    general the first pattern that matches decides: the result is its first
    capture group, trimmed, unless that group is empty, in which case it is
    the whole match, trimmed; when no pattern matches there is no result. *)
Theorem extractTopic_first_pattern (message : string) :
  (forall subject,
      In subject Extract.named_subjects ->
      Spec.mentions_subject subject message = true ->
      exists n t,
        Str.take (String.length t) (Str.drop n message) = t /\
        In (Str.toLowerCase t) Extract.named_subjects /\
        (forall i, i < n -> Spec.starts_subject (Str.drop i message) = false) /\
        Extract.extractTopic message = Some t)
  /\ (forall before p after m,
        Extract.patterns = before ++ p :: after ->
        Forall (fun r => Regex.search Regex.flag_i r message = None) before ->
        Regex.search Regex.flag_i p message = Some m ->
        Extract.extractTopic message =
        Some (match Regex.m_group 1 m with
              | Some g => if Str.is_empty g then Str.trim (Regex.m_text m) else Str.trim g
              | None => Str.trim (Regex.m_text m)
              end))
  /\ (Forall (fun r => Regex.search Regex.flag_i r message = None) Extract.patterns ->
      Extract.extractTopic message = None).
Proof.
  repeat split.
  - intros subject Hin Hm.
    assert (H : existsb (fun l => Spec.mentions_subject l message)
                  Extract.named_subjects = true)
      by (apply existsb_exists; eauto).
    destruct (search_subject_found message EmptyString H) as (n & l & Hl & Hp & Hleft & Hs).
    destruct (named_subjects_plain l Hl) as (Hlow & Htrim & Hne).
    set (t := Str.take (String.length l) (Str.drop n message)) in *.
    assert (Ht : Str.toLowerCase t = l)
      by (unfold t; rewrite prefix_take_lower by exact Hp; exact Hlow).
    assert (Hlen : String.length t = String.length l)
      by (apply (prefix_take_length _ _ _ Hp)).
    exists n, t. repeat split.
    + unfold t at 2. now rewrite Hlen.
    + now rewrite Ht.
    + exact Hleft.
    + unfold Extract.extractTopic, Extract.patterns. cbn [Extract.first_match].
      unfold Regex.search. rewrite Hs. f_equal.
      unfold Extract.topic_of_match, Regex.m_group, Regex.capture.
      cbn [Regex.m_caps Regex.m_text List.find fst snd Nat.eqb fmap option_fmap option_map].
      assert (Hte : Str.truthy t = true).
      { unfold Str.truthy. destruct t; [|reflexivity].
        destruct l; [discriminate Hne | discriminate Hlen]. }
      rewrite Hte. apply trim_of_lower_fixed. rewrite Ht. exact Htrim.
  - intros before p after m Hps Hnone Hm.
    unfold Extract.extractTopic. rewrite Hps.
    rewrite (first_match_decides before p after message m Hnone Hm). f_equal.
    unfold Extract.topic_of_match, Str.truthy.
    destruct (Regex.m_group 1 m) as [g|]; [|reflexivity]. now destruct (Str.is_empty g).
  - apply first_match_none.
Qed.

Lemma extractTopic_first_pattern_witness :
  (exists t, In (Str.toLowerCase t) Extract.named_subjects /\
             Extract.extractTopic "Tell me about Spindletop" = Some t)
  /\ Extract.extractTopic "How did the railroad arrive?" = Some "the railroad arrive"
  /\ Extract.extractTopic "Good morning" = None.
Proof.
  split; [|split].
  - destruct (extractTopic_first_pattern "Tell me about Spindletop") as [H _].
    destruct (H "spindletop") as (n & t & _ & Hin & _ & Ht).
    + vm_compute. tauto.
    + vm_compute. reflexivity.
    + exists t. split; assumption.
  - destruct (extractTopic_first_pattern "How did the railroad arrive?") as (_ & H & _).
    destruct (Regex.search Regex.flag_i Extract.how_pattern "How did the railroad arrive?")
      as [m|] eqn:Hm; [|vm_compute in Hm; discriminate].
    rewrite (H [Extract.subject_pattern; Extract.tell_pattern; Extract.what_pattern]
               Extract.how_pattern [] m eq_refl);
      [| repeat constructor; vm_compute; reflexivity | exact Hm].
    vm_compute in Hm. injection Hm as <-. vm_compute. reflexivity.
  - destruct (extractTopic_first_pattern "Good morning") as (_ & _ & H).
    apply H. repeat constructor; vm_compute; reflexivity.
Defined.

(** C3 as stated fails: for a question template whose first group is
    empty, the result is the whole match and not the first capture
    group. *)
Lemma extractTopic_not_first_group :
  Spec.extractTopic_stated "Tell me about ?" = Some EmptyString /\
  Extract.extractTopic "Tell me about ?" = Some "Tell me about ?" /\
  Spec.extractTopic_stated "tell me about  cats " = Some " cats " /\
  Extract.extractTopic "tell me about  cats " = Some "cats".
Proof. vm_compute. repeat split; reflexivity. Qed.

(** ** Question templates *)

Lemma prefix_app (fold : ascii -> ascii) (a b s : string) :
  Str.prefix_by fold (a +:+ b) s
  = Str.prefix_by fold a s && Str.prefix_by fold b (Str.drop (String.length a) s).
Proof.
  revert s. induction a as [|x a IH]; intros s; [reflexivity|].
  rewrite app_cons. destruct s as [|c s]; [reflexivity|].
  cbn [Str.prefix_by String.length Str.drop]. rewrite IH. now rewrite andb_assoc.
Qed.

Lemma infix_cons_false (fold : ascii -> ascii) (p : string) (c : ascii) (s : string) :
  Str.infix_by fold p (String c s) = false ->
  Str.prefix_by fold p (String c s) = false /\ Str.infix_by fold p s = false.
Proof. cbn [Str.infix_by]. intros H. now apply Bool.orb_false_iff in H. Qed.

Lemma infix_prefix_false (fold : ascii -> ascii) (p s : string) :
  Str.infix_by fold p s = false -> Str.prefix_by fold p s = false.
Proof.
  destruct s as [|c s]; cbn [Str.infix_by]; intros H;
    now apply Bool.orb_false_iff in H as [H _].
Qed.

(** A template whose opening words are not at the front of the text does
    not match there. *)
Lemma match_here_tell (before s : string) :
  Str.prefix_by Chars.canonicalize "tell me about " s = false ->
  Regex.match_here Regex.flag_i Extract.tell_pattern before s = None.
Proof.
  intros H. unfold Regex.match_here, Extract.tell_pattern. cbn [Regex.rmatch].
  now rewrite rmatch_lit, H.
Qed.

Lemma match_here_how (before s : string) :
  Str.prefix_by Chars.canonicalize "how did " s = false ->
  Regex.match_here Regex.flag_i Extract.how_pattern before s = None.
Proof.
  intros H. unfold Regex.match_here, Extract.how_pattern. cbn [Regex.rmatch].
  now rewrite rmatch_lit, H.
Qed.

Lemma match_here_what (before s : string) :
  Str.prefix_by Chars.canonicalize "what is " s = false ->
  Str.prefix_by Chars.canonicalize "what was " s = false ->
  Str.prefix_by Chars.canonicalize "what were " s = false ->
  Regex.match_here Regex.flag_i Extract.what_pattern before s = None.
Proof.
  intros His Hwas Hwere.
  change "what is " with ("what " +:+ "is" +:+ " ") in His.
  change "what was " with ("what " +:+ "was" +:+ " ") in Hwas.
  change "what were " with ("what " +:+ "were" +:+ " ") in Hwere.
  rewrite !prefix_app in His, Hwas, Hwere.
  unfold Regex.match_here, Extract.what_pattern.
  change (Regex.alts [Regex.lit "is"; Regex.lit "was"; Regex.lit "were"])
    with (Regex.RAlt (Regex.lit "is") (Regex.RAlt (Regex.lit "was") (Regex.lit "were"))).
  cbn [Regex.rmatch]. rewrite rmatch_lit.
  destruct (Str.prefix_by Chars.canonicalize "what " s); [|reflexivity].
  cbn [andb] in His, Hwas, Hwere.
  rewrite !rmatch_lit.
  destruct (Str.prefix_by Chars.canonicalize "is" _); cbn [andb] in His.
  - rewrite His.
    destruct (Str.prefix_by Chars.canonicalize "was" _); cbn [andb] in Hwas.
    + rewrite Hwas.
      destruct (Str.prefix_by Chars.canonicalize "were" _); cbn [andb] in Hwere;
        [now rewrite Hwere | reflexivity].
    + destruct (Str.prefix_by Chars.canonicalize "were" _); cbn [andb] in Hwere;
        [now rewrite Hwere | reflexivity].
  - destruct (Str.prefix_by Chars.canonicalize "was" _); cbn [andb] in Hwas.
    + rewrite Hwas.
      destruct (Str.prefix_by Chars.canonicalize "were" _); cbn [andb] in Hwere;
        [now rewrite Hwere | reflexivity].
    + destruct (Str.prefix_by Chars.canonicalize "were" _); cbn [andb] in Hwere;
        [now rewrite Hwere | reflexivity].
Qed.

(** A message without the opening words of any question template matches
    none of the templates. *)
Lemma search_templates_none (s : string) :
  forall before,
    (forall lead, In lead Spec.question_leads ->
                  Str.infix_by Chars.canonicalize lead s = false) ->
    Forall (fun p => Regex.search_from Regex.flag_i p before s = None)
      Extract.question_templates.
Proof.
  induction s as [|c s IH]; intros before H.
  - repeat constructor.
  - assert (Hhere : forall lead, In lead Spec.question_leads ->
              Str.prefix_by Chars.canonicalize lead (String c s) = false)
      by (intros lead Hl; apply infix_prefix_false, H, Hl).
    assert (Hrest : forall lead, In lead Spec.question_leads ->
              Str.infix_by Chars.canonicalize lead s = false)
      by (intros lead Hl; apply (infix_cons_false _ _ c s), H, Hl).
    specialize (IH (before +:+ Str.single c) Hrest).
    unfold Extract.question_templates in *.
    inversion IH as [|? ? Htell IH1]; subst. inversion IH1 as [|? ? Hwhat IH2]; subst.
    inversion IH2 as [|? ? Hhow _]; subst.
    repeat constructor; cbn [Regex.search_from].
    + rewrite match_here_tell; [exact Htell | apply Hhere; cbn; tauto].
    + rewrite match_here_what; [exact Hwhat | apply Hhere; cbn; tauto ..].
    + rewrite match_here_how; [exact Hhow | apply Hhere; cbn; tauto].
Qed.

(** C4.  A message that mentions no named subject and matches none of
    the question templates (none of the three expressions matches it; in
    particular when it holds the opening words of none of them) has no
    topic, and [processUserQuery] returns nothing: it performs no I/O step,
    requests nothing, writes no file and no row; it only prints two
    lines. *)
Theorem processUserQuery_without_topic (env : Env) (message : string)
    (existingTopicId : option Z) (w : World) :
  (forall subject, In subject Extract.named_subjects ->
                   Spec.mentions_subject subject message = false) ->
  (forall p, In p Extract.question_templates ->
             Regex.search Regex.flag_i p message = None)
  \/ (forall lead, In lead Spec.question_leads ->
                   Str.infix_by Chars.canonicalize lead message = false) ->
  Extract.extractTopic message = None /\
  ResearchWorkflow.processUserQuery env message existingTopicId w =
  (Returned None,
   set_console (console w ++ [Info "Research Workflow Starting...";
                              Info "No clear topic found in message"]) w).
Proof.
  intros Hsub Htpl.
  assert (E : Extract.extractTopic message = None).
  { unfold Extract.extractTopic, Extract.patterns. apply first_match_none.
    constructor.
    - apply search_subject_none.
      destruct (existsb _ Extract.named_subjects) eqn:Ex; [|reflexivity].
      apply existsb_exists in Ex as (l & Hl & Hm). now rewrite Hsub in Hm.
    - destruct Htpl as [Htpl | Hleads].
      + apply Forall_forall. intros p Hp. apply Htpl. now apply list_elem_of_In.
      + apply (search_templates_none message EmptyString Hleads). }
  split; [exact E|].
  unfold ResearchWorkflow.processUserQuery. rewrite E.
  cbn [MediaAgent.present negb]. unfold bind, log, ret. cbn [console set_console].
  unfold set_console. cbn. now rewrite <- app_assoc.
Qed.

Lemma processUserQuery_without_topic_witness :
  Extract.extractTopic "hello there" = None
  /\ Extract.extractTopic "So how did it go
there" = None.
Proof.
  split.
  - refine (proj1 (processUserQuery_without_topic (Sample.env Sample.good_reply)
                     "hello there" None (Sample.world Sample.empty_db) _ _)).
    + intros subject H. vm_compute in H.
      repeat (destruct H as [<-|H]; [vm_compute; reflexivity|]). destruct H.
    + right. intros lead H. vm_compute in H.
      repeat (destruct H as [<-|H]; [vm_compute; reflexivity|]). destruct H.
  - refine (proj1 (processUserQuery_without_topic (Sample.env Sample.good_reply) _
                     None (Sample.world Sample.empty_db) _ _)).
    + intros subject H. vm_compute in H.
      repeat (destruct H as [<-|H]; [vm_compute; reflexivity|]). destruct H.
    + left. intros p H. vm_compute in H.
      repeat (destruct H as [<-|H]; [vm_compute; reflexivity|]). destruct H.
Defined.

(** ** Keyword extraction *)

Lemma is_mark_class (c : ascii) :
  Regex.cs_mem Regex.plain
    (Regex.CsClass false [("?", "?"); ("!", "!"); (".", "."); (",", ",")]%char) c
  = Spec.is_mark c.
Proof.
  pose proof (ascii_forall
    (fun c => Bool.eqb
       (Regex.cs_mem Regex.plain
          (Regex.CsClass false [("?", "?"); ("!", "!"); (".", "."); (",", ",")]%char) c)
       (Spec.is_mark c))) as E.
  specialize (E ltac:(vm_compute; reflexivity) c). cbv beta in E.
  now apply Bool.eqb_prop in E.
Qed.

Lemma replace_first_mark_from (word : string) :
  forall before,
    match Regex.search_from Regex.plain Extract.punctuation before word with
    | Some m => Regex.m_before m +:+ EmptyString +:+ Regex.m_after m
    | None => before +:+ word
    end = before +:+ Spec.drop_first_mark word.
Proof.
  induction word as [|c word IH]; intros before; [reflexivity|].
  cbn [Regex.search_from]. unfold Regex.match_here, Extract.punctuation.
  cbn [Regex.rmatch]. rewrite is_mark_class. cbn [Spec.drop_first_mark].
  destruct (Spec.is_mark c).
  - reflexivity.
  - specialize (IH (before +:+ Str.single c)).
    unfold Extract.punctuation in IH. revert IH.
    destruct (Regex.search_from _ _ _ word); intros IH.
    + rewrite IH. now rewrite app_assoc_str.
    + apply app_inv_head_str in IH. now rewrite <- IH.
Qed.

Lemma replace_first_mark (word : string) :
  Regex.replace_first Regex.plain Extract.punctuation EmptyString word
  = Spec.drop_first_mark word.
Proof.
  unfold Regex.replace_first, Regex.search.
  pose proof (replace_first_mark_from word EmptyString) as H.
  destruct (Regex.search_from _ _ _ word); exact H.
Qed.

Lemma keywords_of_filter (words : list string) :
  Extract.keywords_of words
  = List.map Spec.drop_first_mark (List.filter Spec.survives words).
Proof.
  induction words as [|word words IH]; [reflexivity|].
  cbn [Extract.keywords_of List.filter]. unfold Spec.survives at 1.
  destruct ((3 <? String.length word)%nat && negb (Str.mem word Extract.commonWords)).
  - cbn [List.map]. now rewrite replace_first_mark, IH.
  - exact IH.
Qed.

(** ** Splitting on whitespace *)

Lemma length_app_str (a b : string) :
  String.length (a +:+ b) = String.length a + String.length b.
Proof.
  induction a as [|c a IH]; [reflexivity|].
  rewrite app_cons. cbn [String.length]. now rewrite IH.
Qed.

(** The greedy [\s*], followed by nothing that can fail, takes the whole
    run of whitespace. *)
Lemma star_greedy_spaces (t0 : string) (s : string) :
  forall acc,
    Regex.star_greedy Regex.plain Regex.CsSpace []
      (fun t _ _ => Some (String.length (t0 +:+ t))) acc s
    = Some (String.length t0 + String.length acc + Spec.leading_spaces s).
Proof.
  induction s as [|c s IH]; intros acc; cbn [Regex.star_greedy Spec.leading_spaces].
  - rewrite length_app_str. f_equal. lia.
  - cbn [Regex.cs_mem]. destruct (Chars.is_space c).
    + rewrite IH, length_app_str. cbn [Str.single String.length]. f_equal. lia.
    + rewrite length_app_str. f_equal. lia.
Qed.

Lemma match_spaces (pos : nat) (c : ascii) (s : string) :
  Regex.rmatch Regex.plain Extract.spaces pos (String c s) []
    (fun t _ _ => Some (String.length t))
  = if Chars.is_space c then Some (S (Spec.leading_spaces s)) else None.
Proof.
  unfold Extract.spaces, Regex.RPlus. cbn [Regex.rmatch Regex.cs_mem].
  destruct (Chars.is_space c); [|reflexivity].
  rewrite star_greedy_spaces. reflexivity.
Qed.

(** [split(/\s+/)] gives the pieces between the runs of whitespace. *)
Lemma split_go_pieces (s : string) :
  (forall pos cur,
      Regex.split_go Regex.plain Extract.spaces pos 0 cur s = Spec.pieces false cur s)
  /\ (forall pos,
        Regex.split_go Regex.plain Extract.spaces pos (Spec.leading_spaces s) EmptyString s
        = Spec.pieces true EmptyString s).
Proof.
  induction s as [|c s [IH0 IH1]].
  - split; reflexivity.
  - assert (H0 : forall pos cur,
               Regex.split_go Regex.plain Extract.spaces pos 0 cur (String c s)
               = Spec.pieces false cur (String c s)).
    { intros pos cur. cbn [Regex.split_go Spec.pieces]. rewrite match_spaces.
      destruct (Chars.is_space c); [now rewrite IH1 | apply IH0]. }
    split; [exact H0|].
    intros pos. cbn [Spec.leading_spaces]. destruct (Chars.is_space c) eqn:E.
    + cbn [Regex.split_go Spec.pieces]. rewrite E. apply IH1.
    + rewrite H0. cbn [Spec.pieces]. now rewrite E.
Qed.

Lemma split_spaces (s : string) :
  Regex.split Regex.plain Extract.spaces s = Spec.split_whitespace s.
Proof. apply (proj1 (split_go_pieces s)). Qed.

(** C5, as amended.  [extractKeywords] lowercases the message, splits it
    on whitespace, discards stop-words and tokens of length at most 3,
    removes from each surviving token its first [?], [!], [.] or [,], and
    returns the first five of them in their original order; on the
    sentence of the specification the result is [spindletop], [discovery],
    [1901]. *)
Theorem extractKeywords_first_five (message : string) :
  Extract.extractKeywords message
  = List.firstn 5
      (List.map Spec.drop_first_mark
         (List.filter Spec.survives (Spec.split_whitespace (Str.toLowerCase message))))
  /\ List.length (Extract.extractKeywords message) <= 5
  /\ Extract.extractKeywords "Tell me about the Spindletop oil discovery in 1901"
     = ["spindletop"; "discovery"; "1901"].
Proof.
  unfold Extract.extractKeywords. rewrite keywords_of_filter, split_spaces.
  split; [reflexivity|]. split; [|vm_compute; reflexivity].
  rewrite length_firstn. lia.
Qed.

(** C5 as stated fails: a surviving token is not returned as it is, its
    first punctuation mark is removed. *)
Lemma extractKeywords_not_tokens :
  Spec.extractKeywords_stated "What was Spindletop?" = ["spindletop?"] /\
  Extract.extractKeywords "What was Spindletop?" = ["spindletop"].
Proof. vm_compute. split; reflexivity. Qed.

(** ** Stepping through effectful code *)

Ltac io_step :=
  unfold db_query, db_insert, writeFileSync, date_now, date_locale, Sql.db_run,
    bind, ret, throw, try_catch, log, step, get_db, modify_db, record_request;
  cbn [fst snd tick db files console requests
       set_tick set_db set_files set_console set_requests].

Lemma run_bind {A B : Type} (m : M A) (k : A -> M B) (w w' : World) (a : A) :
  m w = (Returned a, w') -> bind m k w = k a w'.
Proof. intros H. unfold bind. now rewrite H. Qed.

Lemma path_join_truthy (dir name : string) : Str.truthy (path_join dir name) = true.
Proof. now destruct dir. Qed.

Lemma failures_app (a b : list LogLine) :
  Spec.failures (a ++ b) = Spec.failures a + Spec.failures b.
Proof. unfold Spec.failures. now rewrite List.filter_app, List.length_app. Qed.

Lemma failures_info (text : string) : Spec.failures [Info text] = 0.
Proof. reflexivity. Qed.

Lemma failure_detail_outcome (error : JsError) (w : World) :
  exists lines,
    MediaAgent.failure_detail error w = (Returned tt, set_console (console w ++ lines) w)
    /\ Spec.failures lines = 0.
Proof.
  unfold MediaAgent.failure_detail.
  destruct (MediaAgent.has_code _ error).
  - eexists. split; reflexivity.
  - destruct (err_response error) as [[status statusText]|].
    + eexists. split; reflexivity.
    + exists []. split; [|reflexivity]. unfold ret. f_equal.
      destruct w; unfold set_console; cbn. now rewrite app_nil_r.
Qed.

Lemma download_failed_outcome (filename : string) (error : JsError) (w : World) :
  exists lines,
    MediaAgent.download_failed filename error w
    = (Returned None, set_console (console w ++ lines) w)
    /\ Spec.failures lines = 1.
Proof.
  unfold MediaAgent.download_failed. io_step.
  destruct (failure_detail_outcome error
              (set_console (console w ++ [Error ("Failed to download " +:+ filename
                 +:+ ": " +:+ err_message error)]) w)) as (lines & Hd & Hl).
  rewrite Hd. io_step. eexists. unfold set_console. cbn. rewrite <- app_assoc.
  split; [reflexivity|]. rewrite failures_app, Hl. reflexivity.
Qed.

(** What one call of [downloadMedia] does: it always returns, with a path
    after one [Downloaded] line or with [null] after one failure line; a
    reply that is not a 200 with a body gives [null]; the database is left
    alone, and so are the files when the result is [null]. *)
Lemma downloadMedia_outcome (env : Env) (url filename : string)
    (ty : MediaAgent.MediaType) (w : World) :
  exists o lines w',
    MediaAgent.downloadMedia env url filename ty w = (Returned o, w') /\
    db w' = db w /\
    console w' = console w ++ lines /\
    Spec.failures lines = (if MediaAgent.present o then 0 else 1) /\
    (exists reqs, requests w' = requests w ++ reqs) /\
    (Spec.fetch_ok (fetch env (tick w) url) = false -> o = None) /\
    (o = None -> files w' = files w).
Proof.
  unfold MediaAgent.downloadMedia. cbv zeta.
  set (filename' := if Str.truthy url && Str.truthy filename
                       && negb (Str.endsWith filename (MediaAgent.extension_of ty))
                    then _ else filename).
  unfold MediaAgent.axios_get_blob.
  assert (Hfail : forall (error : JsError) (w1 : World) (reqs : list string),
    db w1 = db w -> console w1 = console w -> requests w1 = requests w ++ reqs ->
    files w1 = files w ->
    exists o lines w',
      MediaAgent.download_failed filename' error w1 = (Returned o, w') /\
      db w' = db w /\ console w' = console w ++ lines /\
      Spec.failures lines = (if MediaAgent.present o then 0 else 1) /\
      (exists reqs', requests w' = requests w ++ reqs') /\
      (Spec.fetch_ok (fetch env (tick w) url) = false -> o = None) /\
      (o = None -> files w' = files w)).
  { intros error w1 reqs Hdb Hcon Hreq Hfiles.
    destruct (download_failed_outcome filename' error w1) as (lines & -> & Hl).
    exists None, lines, (set_console (console w1 ++ lines) w1).
    cbn [db console requests files set_console MediaAgent.present]. rewrite Hcon.
    repeat split; [exact Hdb | exact Hl | eauto | intros _; exact Hfiles]. }
  io_step.
  destruct (Str.truthy url && Str.truthy filename) eqn:Hgiven; io_step.
  2:{ apply (Hfail _ w []); [reflexivity | reflexivity | now rewrite app_nil_r | reflexivity]. }
  destruct (fetch env (tick w) url) as [e | status statusText body] eqn:Hreply; io_step.
  { apply (Hfail _ _ [url]); reflexivity. }
  destruct (status =? 200)%Z eqn:Hstatus; io_step.
  2:{ apply (Hfail _ _ [url]); reflexivity. }
  destruct (Str.truthy body) eqn:Hbody; io_step.
  2:{ apply (Hfail _ _ [url]); reflexivity. }
  destruct (disk_write_ok env (S (tick w)) _); io_step.
  2:{ apply (Hfail _ _ [url]); reflexivity. }
  do 3 eexists. split; [reflexivity|].
  cbn [db console requests set_console set_files set_requests set_tick
       MediaAgent.present Spec.fetch_ok].
  rewrite path_join_truthy, Hstatus, Hbody.
  repeat split; first [reflexivity | discriminate | exists [url]; reflexivity].
Qed.

(** ** Searching the archive *)

(** One inner [try] block: it always returns, has asked for its URL, and
    has changed neither the database nor the files. *)
Lemma search_kind_outcome (env : Env) (url label : string)
    (accept : list SearchItem -> list MediaAgent.MediaItem) (w : World) :
  exists lines w',
    MediaAgent.search_kind env url label accept w
    = (Returned (Spec.accepted_from (archive_search env (tick w) url) accept), w') /\
    db w' = db w /\ files w' = files w /\
    tick w' = S (tick w) /\
    requests w' = requests w ++ [url] /\
    console w' = console w ++ lines /\ Spec.failures lines = 0.
Proof.
  unfold MediaAgent.search_kind, MediaAgent.axios_get_json. io_step.
  destruct (archive_search env (tick w) url) as [e | [results|]]; io_step.
  - exists [Error ("Error searching LOC " +:+ label +:+ ": " +:+ err_message e)].
    eexists. split; [reflexivity|]. cbn. repeat split.
  - exists []. eexists. split; [reflexivity|]. cbn. rewrite app_nil_r. repeat split.
  - exists []. eexists. split; [reflexivity|]. cbn. rewrite app_nil_r. repeat split.
Qed.

Lemma searchLibraryOfCongress_outcome (env : Env) (query : string) (maxResults : Z)
    (w : World) :
  exists lines w',
    MediaAgent.searchLibraryOfCongress env query maxResults w
    = (Returned
         (MediaAgent.slice_to
            (Spec.accepted_from
               (archive_search env (tick w) (MediaAgent.imageSearchUrl query))
               (MediaAgent.accepted (MediaAgent.image_item query) maxResults)
             ++ Spec.accepted_from
                  (archive_search env (S (tick w)) (MediaAgent.audioSearchUrl query))
                  (MediaAgent.accepted (MediaAgent.audio_item query) (maxResults / 2))
             ++ Spec.accepted_from
                  (archive_search env (S (S (tick w))) (MediaAgent.videoSearchUrl query))
                  (MediaAgent.accepted (MediaAgent.video_item query) (maxResults / 2)))
            maxResults),
       w') /\
    db w' = db w /\ files w' = files w /\
    requests w' = requests w ++ [MediaAgent.imageSearchUrl query;
                                 MediaAgent.audioSearchUrl query;
                                 MediaAgent.videoSearchUrl query] /\
    console w' = console w ++ lines /\ Spec.failures lines = 0.
Proof.
  unfold MediaAgent.searchLibraryOfCongress.
  destruct (search_kind_outcome env (MediaAgent.imageSearchUrl query) "images"
              (MediaAgent.accepted (MediaAgent.image_item query) maxResults) w)
    as (l1 & w1 & E1 & D1 & F1 & T1 & R1 & C1 & N1).
  destruct (search_kind_outcome env (MediaAgent.audioSearchUrl query) "audio"
              (MediaAgent.accepted (MediaAgent.audio_item query) (maxResults / 2)) w1)
    as (l2 & w2 & E2 & D2 & F2 & T2 & R2 & C2 & N2).
  destruct (search_kind_outcome env (MediaAgent.videoSearchUrl query) "video"
              (MediaAgent.accepted (MediaAgent.video_item query) (maxResults / 2)) w2)
    as (l3 & w3 & E3 & D3 & F3 & T3 & R3 & C3 & N3).
  exists (l1 ++ l2 ++ l3), w3.
  unfold try_catch. rewrite (run_bind _ _ _ _ _ E1), (run_bind _ _ _ _ _ E2),
    (run_bind _ _ _ _ _ E3). unfold ret.
  rewrite T2, T1 in *. 
  repeat split.
  - congruence.
  - congruence.
  - rewrite R3, R2, R1, <- !app_assoc. reflexivity.
  - rewrite C3, C2, C1, <- !app_assoc. reflexivity.
  - rewrite !failures_app. lia.
Qed.

Lemma length_omap_le {A B : Type} (f : A -> option B) (l : list A) :
  List.length (omap f l) <= List.length l.
Proof.
  induction l as [|x l IH]; [reflexivity|]. cbn. destruct (f x); cbn; lia.
Qed.

Lemma slice_to_nonneg {A : Type} (l : list A) (e : Z) :
  (0 <= e)%Z -> MediaAgent.slice_to l e = List.firstn (Z.to_nat e) l.
Proof.
  intros H. unfold MediaAgent.slice_to.
  destruct (e <? 0)%Z eqn:E; [apply Z.ltb_lt in E; lia | reflexivity].
Qed.

Lemma accepted_length (pick : SearchItem -> option MediaAgent.MediaItem) (cap : Z)
    (results : list SearchItem) :
  (0 <= cap)%Z -> (Z.of_nat (List.length (MediaAgent.accepted pick cap results)) <= cap)%Z.
Proof.
  intros H. unfold MediaAgent.accepted. rewrite slice_to_nonneg by exact H.
  pose proof (length_omap_le pick (List.firstn (Z.to_nat cap) results)).
  pose proof (firstn_le_length (Z.to_nat cap) results). lia.
Qed.

Lemma accepted_from_length (reply : SearchReply)
    (pick : SearchItem -> option MediaAgent.MediaItem) (cap : Z) :
  (0 <= cap)%Z ->
  (Z.of_nat (List.length (Spec.accepted_from reply (MediaAgent.accepted pick cap))) <= cap)%Z.
Proof.
  intros H. destruct reply as [e | [results|]]; cbn; try lia.
  now apply accepted_length.
Qed.

Lemma accepted_from_Forall (P : MediaAgent.MediaItem -> Prop) (reply : SearchReply)
    (pick : SearchItem -> option MediaAgent.MediaItem) (cap : Z) :
  (forall item m, pick item = Some m -> P m) ->
  Forall P (Spec.accepted_from reply (MediaAgent.accepted pick cap)).
Proof.
  intros H. destruct reply as [e | [results|]]; cbn; try constructor.
  unfold MediaAgent.accepted. generalize (MediaAgent.slice_to results cap).
  intros l. induction l as [|x l IH]; cbn; [constructor|].
  destruct (pick x) eqn:E; [constructor; eauto | exact IH].
Qed.

Lemma image_item_type (query : string) (item : SearchItem) (m : MediaAgent.MediaItem) :
  MediaAgent.image_item query item = Some m -> MediaAgent.mi_type m = MediaAgent.Image.
Proof.
  unfold MediaAgent.image_item. destruct (si_image_full item) as [u|]; [|discriminate].
  destruct (Str.truthy u); [|discriminate]. now intros [= <-].
Qed.

Lemma stream_item_type (ty : MediaAgent.MediaType) (source : string)
    (mimes : list string) (ext : Regex.regex) (query : string) (item : SearchItem)
    (m : MediaAgent.MediaItem) :
  MediaAgent.stream_item ty source mimes ext query item = Some m ->
  MediaAgent.mi_type m = ty.
Proof.
  unfold MediaAgent.stream_item. destruct (si_resources item) as [rs|]; [|discriminate].
  destruct (MediaAgent.pick_resource mimes ext rs); [|discriminate]. now intros [= <-].
Qed.


(** ** Downloading *)

(** The download loop: it always returns; every item gives either an entry
    of the result or one failure line; the entries keep the order of the
    items; the database is not touched. *)
Lemma download_each_outcome (env : Env) (topic : string)
    (items : list MediaAgent.MediaItem) :
  forall w,
    exists downloaded lines reqs w',
      MediaAgent.download_each env topic items w = (Returned downloaded, w') /\
      db w' = db w /\
      console w' = console w ++ lines /\
      requests w' = requests w ++ reqs /\
      List.length downloaded + Spec.failures lines = List.length items /\
      sublist (List.map MediaAgent.d_title downloaded)
              (List.map MediaAgent.mi_title items) /\
      ((forall t url, Spec.fetch_ok (fetch env t url) = false) ->
       downloaded = [] /\ files w' = files w).
Proof.
  induction items as [|m items IH]; intros w.
  - exists [], [], [], w. cbn. rewrite !app_nil_r. repeat split; constructor.
  - cbn [MediaAgent.download_each]. unfold date_now at 1. io_step.
    set (w1 := set_tick (S (tick w)) w).
    set (filename := MediaAgent.media_filename topic m (now_ms env (tick w))).
    destruct (downloadMedia_outcome env (MediaAgent.mi_url m) filename
                (MediaAgent.mi_type m) w1)
      as (o & l1 & w2 & E1 & D1 & C1 & N1 & (r1 & R1) & Hreply & Hnone).
    rewrite E1.
    destruct (IH w2) as (rest & l2 & r2 & w3 & E2 & D2 & C2 & R2 & N2 & S2 & Hall).
    rewrite E2. do 4 eexists. split; [reflexivity|].
    repeat split.
    + rewrite D2, D1. reflexivity.
    + rewrite C2, C1, <- app_assoc. reflexivity.
    + rewrite R2, R1, <- app_assoc. reflexivity.
    + rewrite failures_app. destruct (MediaAgent.present o); cbn [List.length]; lia.
    + destruct (MediaAgent.present o); cbn [List.map].
      * now apply sublist_skip.
      * now apply sublist_cons.
    + rewrite (Hreply (H _ _)). cbn [MediaAgent.present]. now apply Hall.
    + destruct (Hall H) as [_ ->]. apply Hnone. apply Hreply, H.
Qed.

Lemma collectMediaForTopic_outcome (env : Env) (topic : string) (keywords : list string)
    (w : World) :
  exists found downloaded lines more w',
    MediaAgent.collectMediaForTopic env topic keywords w = (Returned downloaded, w') /\
    db w' = db w /\
    console w' = console w ++ lines /\
    requests w' =
      requests w
      ++ [MediaAgent.imageSearchUrl (MediaAgent.searchQuery topic keywords);
          MediaAgent.audioSearchUrl (MediaAgent.searchQuery topic keywords);
          MediaAgent.videoSearchUrl (MediaAgent.searchQuery topic keywords)]
      ++ more /\
    fst (MediaAgent.searchLibraryOfCongress env (MediaAgent.searchQuery topic keywords) 10
           (set_console (console w ++ [Info ("Media Agent: Collecting media for " +:+ topic)]) w))
      = Returned found /\
    List.length downloaded + Spec.failures lines = List.length found /\
    sublist (List.map MediaAgent.d_title downloaded)
            (List.map MediaAgent.mi_title found) /\
    ((forall t url, Spec.fetch_ok (fetch env t url) = false) ->
     downloaded = [] /\ files w' = files w).
Proof.
  unfold MediaAgent.collectMediaForTopic. unfold log at 1. unfold bind at 1.
  set (w0 := set_console _ w).
  destruct (searchLibraryOfCongress_outcome env (MediaAgent.searchQuery topic keywords) 10 w0)
    as (l1 & w1 & E1 & D1 & F1 & R1 & C1 & N1).
  set (found := MediaAgent.slice_to _ 10) in E1.
  rewrite (run_bind _ _ _ _ _ E1).
  destruct (download_each_outcome env topic found w1)
    as (downloaded & l2 & r2 & w2 & E2 & D2 & C2 & R2 & N2 & S2 & Hall).
  rewrite (run_bind _ _ _ _ _ E2). io_step.
  do 5 eexists. split; [reflexivity|].
  cbn [db console requests files set_console].
  rewrite E1. cbn [fst].
  repeat split.
  - rewrite D2, D1. reflexivity.
  - rewrite C2, C1. subst w0. cbn [console set_console]. rewrite <- !app_assoc. reflexivity.
  - rewrite R2, R1. subst w0. cbn [requests set_console]. rewrite <- !app_assoc. reflexivity.
  - rewrite !failures_app, N1, !failures_info. lia.
  - exact S2.
  - now apply Hall.
  - destruct (Hall H) as [_ ->]. rewrite F1. reflexivity.
Qed.

(** C6.  For a maximum that is not negative, [searchLibraryOfCongress]
    asks the three endpoints, each with the query encoded into its URL,
    accepts from their replies at most [maxResults] images and at most
    [maxResults / 2] audio and video items, and returns the images followed
    by as many of the other items as fit under [maxResults]; the query of
    [collectMediaForTopic] is the topic, the keywords and the fixed suffix
    joined by spaces, and its requests start with these three URLs. *)
Theorem searchLibraryOfCongress_caps (env : Env) (query : string) (maxResults : Z)
    (w : World) :
  (0 <= maxResults)%Z ->
  let images :=
    Spec.accepted_from (archive_search env (tick w) (MediaAgent.imageSearchUrl query))
      (MediaAgent.accepted (MediaAgent.image_item query) maxResults) in
  let audio :=
    Spec.accepted_from (archive_search env (S (tick w)) (MediaAgent.audioSearchUrl query))
      (MediaAgent.accepted (MediaAgent.audio_item query) (maxResults / 2)) in
  let video :=
    Spec.accepted_from (archive_search env (S (S (tick w))) (MediaAgent.videoSearchUrl query))
      (MediaAgent.accepted (MediaAgent.video_item query) (maxResults / 2)) in
  exists found w',
    MediaAgent.searchLibraryOfCongress env query maxResults w = (Returned found, w') /\
    Forall (fun m => MediaAgent.mi_type m = MediaAgent.Image) images /\
    Forall (fun m => MediaAgent.mi_type m = MediaAgent.Audio) audio /\
    Forall (fun m => MediaAgent.mi_type m = MediaAgent.Video) video /\
    (Z.of_nat (List.length images) <= maxResults)%Z /\
    (Z.of_nat (List.length audio) <= maxResults / 2)%Z /\
    (Z.of_nat (List.length video) <= maxResults / 2)%Z /\
    found = List.firstn (Z.to_nat maxResults) (images ++ audio ++ video) /\
    found = images ++ List.firstn (Z.to_nat maxResults - List.length images) (audio ++ video) /\
    (Z.of_nat (List.length found) <= maxResults)%Z /\
    requests w' = requests w ++ [MediaAgent.imageSearchUrl query;
                                 MediaAgent.audioSearchUrl query;
                                 MediaAgent.videoSearchUrl query] /\
    (forall topic keywords,
        MediaAgent.searchQuery topic keywords
        = Str.join " " (topic :: keywords ++ ["Texas history"])
        /\ exists more,
             requests (snd (MediaAgent.collectMediaForTopic env topic keywords w))
             = requests w
               ++ [MediaAgent.imageSearchUrl (MediaAgent.searchQuery topic keywords);
                   MediaAgent.audioSearchUrl (MediaAgent.searchQuery topic keywords);
                   MediaAgent.videoSearchUrl (MediaAgent.searchQuery topic keywords)]
               ++ more).
Proof.
  intros Hmax images audio video.
  destruct (searchLibraryOfCongress_outcome env query maxResults w)
    as (lines & w' & E & _ & _ & R & _ & _).
  assert (Hhalf : (0 <= maxResults / 2)%Z) by (apply Z.div_pos; lia).
  fold images audio video in E.
  assert (Hi : (Z.of_nat (List.length images) <= maxResults)%Z)
    by (apply accepted_from_length; exact Hmax).
  exists (MediaAgent.slice_to (images ++ audio ++ video) maxResults), w'.
  rewrite slice_to_nonneg in * by exact Hmax.
  repeat split.
  - exact E.
  - apply accepted_from_Forall. apply image_item_type.
  - apply accepted_from_Forall. intros item m. apply stream_item_type.
  - apply accepted_from_Forall. intros item m. apply stream_item_type.
  - exact Hi.
  - apply accepted_from_length; exact Hhalf.
  - apply accepted_from_length; exact Hhalf.
  - rewrite List.firstn_app. f_equal. apply List.firstn_all2. lia.
  - pose proof (firstn_le_length (Z.to_nat maxResults) (images ++ audio ++ video)). lia.
  - exact R.
  - destruct (collectMediaForTopic_outcome env topic keywords w)
      as (f & d & l & more & w1 & E1 & _ & _ & R1 & _).
    exists more. rewrite E1. exact R1.
Qed.

Lemma searchLibraryOfCongress_caps_witness :
  exists found w',
    MediaAgent.searchLibraryOfCongress (Sample.env Sample.good_reply)
      "Spindletop Texas history" 10 (Sample.world Sample.empty_db)
    = (Returned found, w') /\ (Z.of_nat (List.length found) <= 10)%Z.
Proof.
  destruct (searchLibraryOfCongress_caps (Sample.env Sample.good_reply)
              "Spindletop Texas history" 10 (Sample.world Sample.empty_db))
    as (found & w' & E & _ & _ & _ & _ & _ & _ & _ & _ & L & _);
    [lia|].
  exists found, w'. split; [exact E | exact L].
Defined.






(** ** Linking media to a topic *)

(** The linking loop never changes [topics_researched], and only appends
    to [topic_media], whatever the database answers. *)
Lemma link_each_frame (env : Env) (topicId : Z) (items : list MediaAgent.Downloaded) :
  forall w,
    topics_researched (db (snd (MediaAgent.link_each env topicId items w)))
    = topics_researched (db w) /\
    exists new,
      rows (topic_media (db (snd (MediaAgent.link_each env topicId items w))))
      = rows (topic_media (db w)) ++ new.
Proof.
  induction items as [|item items IH]; intros w.
  - cbn. split; [reflexivity | exists []; now rewrite app_nil_r].
  - cbn [MediaAgent.link_each]. unfold MediaAgent.linkMediaToTopic. io_step.
    destruct (db_ok env (tick w)); io_step.
    + match goal with |- context [MediaAgent.link_each env topicId items ?w1] =>
        destruct (IH w1) as (T & new & Hnew);
        destruct (MediaAgent.link_each env topicId items w1) as [[n|e] w2] end;
        cbn [fst snd db set_db set_tick topics_researched topic_media set_topic_media
             insert_row rows] in *;
        (split; [exact T | eexists; rewrite Hnew, <- app_assoc; reflexivity]).
    + split; [reflexivity | exists []; now rewrite app_nil_r].
Qed.

(** With a database that answers, the loop adds one row per item. *)
Lemma link_each_rows (env : Env) (topicId : Z) (items : list MediaAgent.Downloaded) :
  (forall t, db_ok env t = true) ->
  forall w,
    exists new w',
      MediaAgent.link_each env topicId items w = (Returned (List.length items), w') /\
      rows (topic_media (db w')) = rows (topic_media (db w)) ++ new /\
      Forall2 (Spec.links topicId) new items.
Proof.
  intros Hok. induction items as [|item items IH]; intros w.
  - exists [], w. cbn. rewrite app_nil_r. repeat split. constructor.
  - cbn [MediaAgent.link_each]. unfold MediaAgent.linkMediaToTopic. io_step.
    rewrite Hok. io_step.
    match goal with |- context [MediaAgent.link_each env topicId items ?w1] =>
      destruct (IH w1) as (new & w' & E & Hnew & Hl) end.
    rewrite E. do 2 eexists. split; [reflexivity|].
    cbn [db set_db set_tick topic_media set_topic_media insert_row rows] in Hnew.
    rewrite Hnew, <- app_assoc. split; [reflexivity|].
    constructor; [|exact Hl]. repeat split.
Qed.

(** One call of [researchAndCollect] for an existing topic. *)
Lemma researchAndCollect_existing (env : Env) (topic : string) (keywords : list string)
    (id : Z) (w : World) :
  id <> 0%Z ->
  topics_researched (db (snd (MediaAgent.researchAndCollect env topic keywords (Some id) w)))
  = topics_researched (db w)
  /\ ((forall t, db_ok env t = true) ->
      exists r new w',
        MediaAgent.researchAndCollect env topic keywords (Some id) w = (Returned r, w') /\
        MediaAgent.topicId r = id /\
        MediaAgent.mediaCount r = List.length (MediaAgent.media r) /\
        MediaAgent.factsAdded r = List.length (MediaAgent.media r) /\
        rows (topic_media (db w')) = rows (topic_media (db w)) ++ new /\
        Forall2 (Spec.links id) new (MediaAgent.media r)).
Proof.
  intros Hid. unfold MediaAgent.researchAndCollect.
  assert (G : MediaAgent.id_given (Some id) = true).
  { unfold MediaAgent.id_given. apply Bool.negb_true_iff. now apply Z.eqb_neq. }
  rewrite G. change (default 0%Z (Some id)) with id. cbn [negb]. io_step.
  match goal with |- context [MediaAgent.collectMediaForTopic env topic keywords ?w1] =>
    destruct (collectMediaForTopic_outcome env topic keywords w1)
      as (found & media & lines & more & w2 & E & D & _) end.
  rewrite E. cbn [db set_console] in D.
  split.
  - destruct (link_each_frame env id media w2) as [T _].
    destruct (MediaAgent.link_each env id media w2) as [[n|e] w3];
      cbn [snd fst] in *; now rewrite T, D.
  - intros Hok.
    destruct (link_each_rows env id media Hok w2) as (new & w3 & E3 & Hnew & Hl).
    rewrite E3. do 3 eexists. split; [reflexivity|].
    cbn [MediaAgent.topicId MediaAgent.mediaCount MediaAgent.media MediaAgent.factsAdded].
    rewrite Hnew, D. repeat split. exact Hl.
Qed.



(** ** Rendering a page *)

Lemma empty_page (topic generated : string) :
  PresentationBuilder.presentation_html topic [] [] generated
  = PresentationBuilder.page_template topic EmptyString EmptyString generated
  /\ PresentationBuilder.gallery_html topic [] = EmptyString
  /\ PresentationBuilder.facts_html [] = EmptyString.
Proof. repeat split. Qed.

(** The page without media and without facts is a complete document, for
    every topic and every time: the template is cut at the two places of
    the topic and at the place of the time. *)
Lemma empty_page_document (topic generated : string) :
  Spec.empty_document topic generated
    (PresentationBuilder.page_template topic EmptyString EmptyString generated).
Proof.
  set (whole := PresentationBuilder.page_template EmptyString EmptyString EmptyString
                  EmptyString).
  exists (Str.take 154 whole), (Str.take 4113 (Str.drop 154 whole)),
    (Str.take 578 (Str.drop 4267 whole)), (Str.drop 4845 whole).
  split; [|vm_compute; reflexivity].
  vm_compute. reflexivity.
Qed.

(** C2.  [generatePresentation] throws when [topics_researched] has no
    row with the id, and then writes no file and no row (with a database
    that answers, the error is "Topic with ID ... not found").  When the
    row exists, no [topic_media] row is linked to it and the facts query
    finds nothing, and the disk and the database accept the writes, the
    call returns: the file it writes holds a complete HTML document (the
    declaration, the head with the title of the topic, the body with the
    heading of the topic and the time of generation, all closed) in which
    the gallery block is left out and the heading "Historical Facts" is
    followed by no fact block, so that the page holds no image, gallery or
    fact markup outside the topic and the time; and the same page is stored
    as a new [presentations] row. *)
Theorem generatePresentation_missing_or_empty (env : Env) (topicId : Z) (w : World) :
  (List.find (fun r => (tr_id r =? topicId)%Z) (rows (topics_researched (db w))) = None ->
   exists e w',
     PresentationBuilder.generatePresentation env topicId w = (Thrown e, w') /\
     files w' = files w /\ db w' = db w /\
     (db_ok env (tick w) = true -> db_ok env (S (tick w)) = true ->
      e = plain_error ("Topic with ID " +:+ show_Z topicId +:+ " not found")))
  /\ (forall row,
        List.find (fun r => (tr_id r =? topicId)%Z) (rows (topics_researched (db w)))
        = Some row ->
        List.filter (fun m => (tm_topic_id m =? topicId)%Z) (rows (topic_media (db w))) = [] ->
        PresentationBuilder.facts_query
          (PresentationBuilder.find_historical_topic
             (PresentationBuilder.cleanTopic (tr_topic row)) (db w))
          ("%" +:+ PresentationBuilder.cleanTopic (tr_topic row) +:+ "%") (db w) = [] ->
        (forall t, db_ok env t = true) ->
        (forall t path, disk_write_ok env t path = true) ->
        let filename := PresentationBuilder.page_filename (tr_topic row) topicId in
        let fullPath := path_join (PresentationBuilder.presentationsDir env) filename in
        let html :=
          PresentationBuilder.page_template (tr_topic row) EmptyString EmptyString
            (locale_time env (4 + tick w)) in
        exists w',
          PresentationBuilder.generatePresentation env topicId w
          = (Returned {| PresentationBuilder.pr_filepath := "/presentations/" +:+ filename;
                         PresentationBuilder.pr_filename := filename;
                         PresentationBuilder.pr_fullPath := fullPath |}, w') /\
          Spec.empty_document (tr_topic row) (locale_time env (4 + tick w)) html /\
          files w' = <[fullPath := html]> (files w) /\
          db w' =
            PresentationBuilder.mark_generated topicId
              (set_presentations
                 (insert_row
                    (PresentationBuilder.new_presentation_row topicId (tr_topic row) html
                       fullPath (db_time env (6 + tick w)))
                    (presentations (db w)))
                 (db w))).
Proof.
  split.
  - intros Hnone.
    unfold PresentationBuilder.generatePresentation, PresentationBuilder.getTopicData.
    io_step.
    destruct (db_ok env (tick w)); io_step.
    + destruct (db_ok env (S (tick w))); io_step.
      * rewrite Hnone. io_step. do 2 eexists. repeat split.
      * do 2 eexists. repeat split. discriminate.
    + do 2 eexists. repeat split. discriminate.
  - intros row Hrow Hmedia Hfacts Hdb Hdisk filename fullPath html.
    unfold PresentationBuilder.generatePresentation, PresentationBuilder.getTopicData,
      PresentationBuilder.getRelatedFacts, PresentationBuilder.storePresentation.
    io_step. rewrite !Hdb. io_step. rewrite Hrow, Hmedia. io_step.
    rewrite !Hdb. io_step. rewrite Hfacts. rewrite Hdisk. io_step. rewrite !Hdb. io_step.
    eexists. split; [reflexivity|]. cbn [files db set_console set_files set_db set_tick].
    split; [apply empty_page_document|]. split; reflexivity.
Qed.

Lemma generatePresentation_missing_or_empty_witness :
  (exists w',
      PresentationBuilder.generatePresentation (Sample.env Sample.good_reply) 7
        (Sample.world Sample.oil_db)
      = (Thrown (plain_error "Topic with ID 7 not found"), w'))
  /\ (exists result w',
        PresentationBuilder.generatePresentation (Sample.env Sample.good_reply) 1
          (Sample.world Sample.oil_db)
        = (Returned result, w') /\
        PresentationBuilder.pr_filename result = "spindletop-1.html" /\
        files w' !! "/srv/setx/public/presentations/spindletop-1.html"
        = Some (PresentationBuilder.page_template "Spindletop" EmptyString EmptyString
                  "11/14/2023, 10:13:20 PM") /\
        Spec.empty_document "Spindletop" "11/14/2023, 10:13:20 PM"
          (PresentationBuilder.page_template "Spindletop" EmptyString EmptyString
             "11/14/2023, 10:13:20 PM")).
Proof.
  split.
  - destruct (generatePresentation_missing_or_empty (Sample.env Sample.good_reply) 7
                (Sample.world Sample.oil_db)) as [H _].
    destruct H as (e & w' & E & _ & _ & He); [reflexivity|].
    exists w'. rewrite E, (He eq_refl eq_refl). reflexivity.
  - destruct (generatePresentation_missing_or_empty (Sample.env Sample.good_reply) 1
                (Sample.world Sample.oil_db)) as [_ H].
    destruct (H Sample.spindletop_row) as (w' & E & Doc & F & _);
      [reflexivity | reflexivity | vm_compute; reflexivity | reflexivity | reflexivity |].
    do 2 eexists. split; [exact E|]. split; [vm_compute; reflexivity|].
    split; [rewrite F; apply lookup_insert_eq | exact Doc].
Defined.

(** ** [LIKE] and substrings *)

Lemma like_percent (pattern text : string) :
  Sql.like (String "%" pattern) text
  = Sql.like pattern text
    || match text with
       | String _ text' => Sql.like (String "%" pattern) text'
       | EmptyString => false
       end.
Proof. destruct text; reflexivity. Qed.

Lemma like_any (text : string) : Sql.like "%" text = true.
Proof.
  induction text as [|c text IH]; [reflexivity|].
  rewrite like_percent. rewrite IH. apply Bool.orb_true_r.
Qed.

Lemma sql_lower_char_facts (a : ascii) :
  Chars.eqb (Chars.sql_lower a) "%" = Chars.eqb a "%"
  /\ Chars.eqb (Chars.sql_lower a) "_" = Chars.eqb a "_"
  /\ Chars.sql_lower (Chars.sql_lower a) = Chars.sql_lower a.
Proof.
  pose proof (ascii_forall
    (fun a => Bool.eqb (Chars.eqb (Chars.sql_lower a) "%") (Chars.eqb a "%")
              && Bool.eqb (Chars.eqb (Chars.sql_lower a) "_") (Chars.eqb a "_")
              && Chars.eqb (Chars.sql_lower (Chars.sql_lower a)) (Chars.sql_lower a))) as E.
  specialize (E ltac:(vm_compute; reflexivity) a). cbv beta in E.
  apply andb_prop in E as [E E3]. apply andb_prop in E as [E1 E2].
  apply Bool.eqb_prop in E1, E2. apply chars_eqb_eq in E3. auto.
Qed.

Lemma map_app_str (f : ascii -> ascii) (a b : string) :
  Str.map f (a +:+ b) = Str.map f a +:+ Str.map f b.
Proof.
  induction a as [|c a IH]; [reflexivity|].
  rewrite app_cons. cbn [Str.map]. rewrite app_cons. now rewrite IH.
Qed.

(** A pattern without wildcards, followed by [%], matches the texts that
    start with it. *)
Lemma like_prefix (s : string) :
  forall text,
    Spec.no_wildcard s = true ->
    Sql.like (Str.sql_lower s +:+ "%") (Str.sql_lower text)
    = Str.prefix_by Chars.sql_lower s text.
Proof.
  induction s as [|a s IH]; intros text Hs.
  - apply like_any.
  - cbn [Spec.no_wildcard] in Hs.
    apply andb_prop in Hs as [Hs Hrest]. apply andb_prop in Hs as [H1 H2].
    apply Bool.negb_true_iff in H1, H2.
    destruct (sql_lower_char_facts a) as (P1 & P2 & _).
    unfold Str.sql_lower in *. cbn [Str.map]. rewrite app_cons.
    cbn [Sql.like]. rewrite P1, H1, P2, H2.
    destruct text as [|c text]; [reflexivity|].
    cbn [Str.map Str.prefix_by orb].
    destruct (sql_lower_char_facts a) as (_ & _ & ->).
    destruct (sql_lower_char_facts c) as (_ & _ & ->).
    now rewrite IH.
Qed.

(** [LOWER(x) LIKE LOWER('%s%')] is the substring test when [s] holds no
    wildcard. *)
Lemma like_substring (s text : string) :
  Spec.no_wildcard s = true ->
  Sql.lower_like text ("%" +:+ s +:+ "%") = Spec.contains_text s text.
Proof.
  intros Hs. unfold Sql.lower_like, Spec.contains_text.
  assert (E : Str.sql_lower ("%" +:+ s +:+ "%") = String "%" (Str.sql_lower s +:+ "%")).
  { unfold Str.sql_lower. rewrite app_cons, app_empty_l. cbn [Str.map].
    rewrite map_app_str. reflexivity. }
  rewrite E. clear E.
  induction text as [|c text IH].
  - rewrite like_percent. cbn [Str.infix_by].
    change EmptyString with (Str.sql_lower EmptyString) at 1.
    rewrite like_prefix by exact Hs. reflexivity.
  - change (Str.sql_lower (String c text))
      with (String (Chars.sql_lower c) (Str.sql_lower text)).
    rewrite like_percent. rewrite IH.
    change (String (Chars.sql_lower c) (Str.sql_lower text))
      with (Str.sql_lower (String c text)).
    rewrite like_prefix by exact Hs. reflexivity.
Qed.

(** ** Ordering *)

Lemma ranks_before_total (a b : PresentationBuilder.FactView) :
  PresentationBuilder.ranks_before a b = false ->
  PresentationBuilder.ranks_before b a = true.
Proof.
  unfold PresentationBuilder.ranks_before, Sql.compare_null.
  destruct (hf_importance (PresentationBuilder.fv_fact a)) as [x|],
           (hf_importance (PresentationBuilder.fv_fact b)) as [y|];
    try discriminate; try reflexivity.
  - rewrite (Z.compare_antisym x y).
    destruct (x ?= y)%Z eqn:E; cbn; try discriminate; try reflexivity.
    destruct (hf_event_year (PresentationBuilder.fv_fact a)) as [p|],
             (hf_event_year (PresentationBuilder.fv_fact b)) as [r|];
      try discriminate; try reflexivity.
    rewrite (Z.compare_antisym p r). destruct (p ?= r)%Z; cbn; try discriminate; reflexivity.
  - destruct (hf_event_year (PresentationBuilder.fv_fact a)) as [p|],
             (hf_event_year (PresentationBuilder.fv_fact b)) as [r|];
      try discriminate; try reflexivity.
    rewrite (Z.compare_antisym p r). destruct (p ?= r)%Z; cbn; try discriminate; reflexivity.
Qed.

Lemma ranks_before_ranked (a b : PresentationBuilder.FactView) :
  PresentationBuilder.ranks_before a b = true -> Spec.ranked a b.
Proof.
  unfold PresentationBuilder.ranks_before, Spec.ranked, Sql.compare_null,
    Spec.above, Spec.at_least.
  destruct (hf_importance (PresentationBuilder.fv_fact a)) as [x|],
           (hf_importance (PresentationBuilder.fv_fact b)) as [y|];
    try discriminate; try (intros _; left; exact I).
  - destruct (x ?= y)%Z eqn:E; try discriminate.
    + apply Z.compare_eq in E. subst y. intros H. right. split; [reflexivity|].
      destruct (hf_event_year (PresentationBuilder.fv_fact a)) as [p|],
               (hf_event_year (PresentationBuilder.fv_fact b)) as [r|];
        try discriminate; try exact I.
      destruct (p ?= r)%Z eqn:E2; try discriminate.
      * apply Z.compare_eq in E2. lia.
      * apply Z.compare_gt_iff in E2. lia.
    + intros _. left. apply Z.compare_gt_iff in E. exact E.
  - intros H. right. split; [reflexivity|].
    destruct (hf_event_year (PresentationBuilder.fv_fact a)) as [p|],
             (hf_event_year (PresentationBuilder.fv_fact b)) as [r|];
      try discriminate; try exact I.
    destruct (p ?= r)%Z eqn:E2; try discriminate.
    + apply Z.compare_eq in E2. lia.
    + apply Z.compare_gt_iff in E2. lia.
Qed.

Lemma insert_by_sorted (x : PresentationBuilder.FactView)
    (l : list PresentationBuilder.FactView) :
  Sorted Spec.ranked l ->
  Sorted Spec.ranked (Sql.insert_by PresentationBuilder.ranks_before x l).
Proof.
  induction 1 as [|y l Hl IH Hy]; cbn [Sql.insert_by].
  - repeat constructor.
  - destruct (PresentationBuilder.ranks_before x y) eqn:E.
    + constructor; [constructor; assumption|]. constructor. now apply ranks_before_ranked.
    + constructor; [exact IH|].
      destruct l as [|z l]; cbn [Sql.insert_by].
      * constructor. now apply ranks_before_ranked, ranks_before_total.
      * destruct (PresentationBuilder.ranks_before x z).
        -- constructor. now apply ranks_before_ranked, ranks_before_total.
        -- inversion Hy. now constructor.
Qed.

Lemma order_by_sorted (l : list PresentationBuilder.FactView) :
  Sorted Spec.ranked (Sql.order_by PresentationBuilder.ranks_before l).
Proof.
  induction l as [|x l IH]; cbn [Sql.order_by]; [constructor|].
  now apply insert_by_sorted.
Qed.

Lemma insert_by_perm {A : Type} (precedes : A -> A -> bool) (x : A) (l : list A) :
  Permutation (x :: l) (Sql.insert_by precedes x l).
Proof.
  induction l as [|y l IH]; cbn [Sql.insert_by]; [reflexivity|].
  destruct (precedes x y); [reflexivity|].
  rewrite perm_swap. now constructor.
Qed.

Lemma order_by_perm {A : Type} (precedes : A -> A -> bool) (l : list A) :
  Permutation l (Sql.order_by precedes l).
Proof.
  induction l as [|x l IH]; cbn [Sql.order_by]; [reflexivity|].
  rewrite <- insert_by_perm. now constructor.
Qed.

Lemma firstn_sorted {A : Type} (R : A -> A -> Prop) (n : nat) (l : list A) :
  Sorted R l -> Sorted R (List.firstn n l).
Proof.
  intros H. revert n. induction H as [|x l Hl IH Hx]; intros [|n]; cbn [List.firstn];
    try constructor.
  - apply IH.
  - destruct Hx; destruct n; cbn [List.firstn]; constructor. assumption.
Qed.

Lemma firstn_keeps {A : Type} (n : nat) (l : list A) (x : A) :
  In x (List.firstn n l) -> In x l.
Proof.
  revert n. induction l as [|y l IH]; intros [|n]; cbn [List.firstn In]; try tauto.
  intros [H|H]; [now left | right; now apply (IH n)].
Qed.

(** ** Related facts *)

Lemma mentions_contains (clean : string) (f : PresentationBuilder.FactView) :
  Spec.no_wildcard clean = true ->
  PresentationBuilder.mentions ("%" +:+ clean +:+ "%") f = Spec.fact_contains clean f.
Proof.
  intros H. unfold PresentationBuilder.mentions, Spec.fact_contains.
  rewrite !like_substring by exact H.
  destruct (PresentationBuilder.fv_topic_name f); [|reflexivity].
  now rewrite like_substring by exact H.
Qed.

(** C8, as amended.  [getRelatedFacts] first strips the phrases
    " in southeast texas history" and " in texas history" from the topic
    and trims it.  With a database that answers it returns: when a
    [historical_topics] row has that cleaned name (ASCII letters compared
    without case), the facts filed under that row's id; otherwise, when the
    cleaned name holds no [%] or [_], the facts whose topic name, title or
    content contains the cleaned name without regard to case; in both
    cases ordered by importance descending, then event year descending, and
    cut to 10. *)
Theorem getRelatedFacts_cleaned (env : Env) (topic : string) (w : World) :
  (forall t, db_ok env t = true) ->
  let clean := PresentationBuilder.cleanTopic topic in
  let views := List.map (PresentationBuilder.fact_view (db w)) (historical_facts (db w)) in
  exists facts w',
    PresentationBuilder.getRelatedFacts env topic w = (Returned facts, w') /\
    db w' = db w /\ files w' = files w /\
    (forall ht,
        List.find (fun t => Sql.lower_eq (ht_name t) clean) (historical_topics (db w))
        = Some ht ->
        facts = List.firstn 10
                  (Sql.order_by PresentationBuilder.ranks_before
                     (List.filter (PresentationBuilder.has_topic (ht_id ht)) views))) /\
    (List.find (fun t => Sql.lower_eq (ht_name t) clean) (historical_topics (db w)) = None ->
     Spec.no_wildcard clean = true ->
     facts = List.firstn 10
               (Sql.order_by PresentationBuilder.ranks_before
                  (List.filter (Spec.fact_contains clean) views))) /\
    (Spec.no_wildcard clean = true -> facts = Spec.related_facts_stated clean (db w)) /\
    Sorted Spec.ranked facts /\
    List.length facts <= 10 /\
    (forall f, In f facts -> In f views).
Proof.
  intros Hdb clean views.
  unfold PresentationBuilder.getRelatedFacts. io_step. rewrite !Hdb. io_step.
  do 2 eexists. split; [reflexivity|]. cbn [db files set_tick].
  fold clean. unfold PresentationBuilder.facts_query, PresentationBuilder.find_historical_topic.
  fold views.
  repeat split.
  - intros ht Hht. now rewrite Hht.
  - intros Hnone Hw. rewrite Hnone. do 2 f_equal.
    apply List.filter_ext. intros f. now apply mentions_contains.
  - intros Hw. unfold Spec.related_facts_stated. fold views.
    destruct (List.find _ (historical_topics (db w))); [reflexivity|].
    do 2 f_equal. apply List.filter_ext. intros f. now apply mentions_contains.
  - apply firstn_sorted, order_by_sorted.
  - rewrite length_firstn. lia.
  - intros f Hf. apply firstn_keeps in Hf.
    apply (Permutation_in _ (Permutation_sym (order_by_perm _ _))) in Hf.
    now apply List.filter_In in Hf as [Hf _].
Qed.

Lemma getRelatedFacts_cleaned_witness :
  exists facts w',
    PresentationBuilder.getRelatedFacts (Sample.env Sample.good_reply)
      "Oil in Texas history" (Sample.world Sample.oil_db) = (Returned facts, w')
    /\ facts = Spec.related_facts_stated "Oil" Sample.oil_db.
Proof.
  destruct (getRelatedFacts_cleaned (Sample.env Sample.good_reply) "Oil in Texas history"
              (Sample.world Sample.oil_db)) as (facts & w' & E & _ & _ & _ & _ & H & _).
  - reflexivity.
  - exists facts, w'. split; [exact E|]. apply H. vm_compute. reflexivity.
Defined.

(** C8 as stated fails: the name looked up is not the researched topic
    string but the string without " in texas history"; for the topic
    "Oil in Texas history" the facts of the topic [Oil] are returned, where
    the procedure of the specification finds none. *)
Lemma getRelatedFacts_not_topic_string :
  fst (PresentationBuilder.getRelatedFacts (Sample.env Sample.good_reply)
         "Oil in Texas history" (Sample.world Sample.oil_db))
  = Returned [ {| PresentationBuilder.fv_fact := Sample.gusher_fact;
                  PresentationBuilder.fv_city_name := None;
                  PresentationBuilder.fv_topic_name := Some "Oil" |} ]
  /\ Spec.related_facts_stated "Oil in Texas history" Sample.oil_db = [].
Proof. vm_compute. split; reflexivity. Qed.

(** ** Consolidation *)

Lemma hierarchy_terms_plain (mainTopic : string) (h : Consolidation.Hierarchy) :
  Consolidation.getTopicHierarchies !! mainTopic = Some h ->
  Forall (fun t => Spec.no_wildcard t = true) (Consolidation.category_terms mainTopic h).
Proof.
  intros H. unfold Consolidation.getTopicHierarchies in H.
  apply elem_of_list_to_map_2 in H.
  repeat (apply elem_of_cons in H as [H|H];
          [injection H as -> ->; vm_compute; repeat constructor|]).
  now apply elem_of_nil in H.
Qed.

Lemma hierarchy_at_entry (mainTopic : string) (h : Consolidation.Hierarchy) :
  Consolidation.getTopicHierarchies !! mainTopic = Some h ->
  Consolidation.hierarchy_at mainTopic = Some (Consolidation.Entry h).
Proof. intros H. unfold Consolidation.hierarchy_at. now rewrite H. Qed.

(** The query finds nothing when no stored presentation belongs to a topic
    that matches one of the terms. *)
Lemma related_query_none (terms : list string) (d : Database) :
  (forall r term,
      In r (Consolidation.presentations_with_topic d) ->
      In term terms ->
      Sql.lower_like (Consolidation.rr_research_topic r) ("%" +:+ term +:+ "%") = false) ->
  Consolidation.related_query (List.map (fun t => "%" +:+ t +:+ "%") terms) d = [].
Proof.
  intros Hnone. unfold Consolidation.related_query.
  assert (E : List.filter
                (fun r => existsb (Sql.lower_like (Consolidation.rr_research_topic r))
                            (List.map (fun t => "%" +:+ t +:+ "%") terms))
                (Consolidation.presentations_with_topic d) = []);
    [|now rewrite E].
  induction (Consolidation.presentations_with_topic d) as [|r l IH]; [reflexivity|].
  cbn [List.filter].
  assert (Hr : existsb (Sql.lower_like (Consolidation.rr_research_topic r))
                 (List.map (fun t => "%" +:+ t +:+ "%") terms) = false).
  { destruct (existsb _ _) eqn:Ex; [|reflexivity].
    apply existsb_exists in Ex as (p & Hp & Hlike).
    apply in_map_iff in Hp as (term & <- & Hterm).
    rewrite Hnone in Hlike; [discriminate | now left | exact Hterm]. }
  rewrite Hr. apply IH. intros r' term Hr' Hterm. apply Hnone; [now right | exact Hterm].
Qed.

(** The terms of a category whose name holds no wildcard hold none. *)
Lemma search_terms_plain (mainTopic : string) :
  Spec.no_wildcard mainTopic = true ->
  Forall (fun t => Spec.no_wildcard t = true) (Consolidation.search_terms mainTopic).
Proof.
  intros Hm. unfold Consolidation.search_terms, Consolidation.hierarchy_at.
  destruct (Consolidation.getTopicHierarchies !! mainTopic) as [h|] eqn:Hh.
  - exact (hierarchy_terms_plain mainTopic h Hh).
  - destruct (Str.mem mainTopic Consolidation.prototype_keys); repeat constructor.
    exact Hm.
Qed.

(** The outcome of [consolidateTopicCategory] when the query of the
    category finds nothing. *)
Lemma consolidate_nothing_found (env : Env) (mainTopic : string) (w : World) :
  (forall r term,
      In r (Consolidation.presentations_with_topic (db w)) ->
      In term (Consolidation.search_terms mainTopic) ->
      Sql.lower_like (Consolidation.rr_research_topic r) ("%" +:+ term +:+ "%") = false) ->
  exists w',
    Consolidation.consolidateTopicCategory env mainTopic w = (Returned None, w') /\
    files w' = files w /\ db w' = db w.
Proof.
  intros Hnone.
  unfold Consolidation.consolidateTopicCategory, Consolidation.findRelatedPresentations.
  unfold Consolidation.search_terms in Hnone.
  destruct (Consolidation.hierarchy_at mainTopic) as [[h|]|];
    cbn [Consolidation.looked_terms] in Hnone; io_step.
  - destruct (db_ok env (tick w)); io_step.
    + unfold Consolidation.topicPatterns.
      rewrite (related_query_none _ (db w) Hnone). io_step. eexists. repeat split.
    + eexists. repeat split.
  - destruct (db_ok env (tick w)); io_step.
    + change ["%" +:+ mainTopic +:+ "%"]
        with (List.map (fun t => "%" +:+ t +:+ "%") [mainTopic]).
      rewrite (related_query_none _ (db w) Hnone). io_step. eexists. repeat split.
    + eexists. repeat split.
  - eexists. repeat split.
Qed.

(** C9.  The terms that [consolidateTopicCategory] searches for a category
    are its name and, for a category of the table, its related topics and
    subtopics; a name that is neither in the table nor inherited from
    [Object.prototype] is not searched at all.  When no stored presentation
    belongs to a researched topic that matches one of these terms under
    [LIKE '%term%'], the call returns nothing and leaves the files and the
    database as they were, also when the query itself fails.  For a
    category whose name holds no [%] and no [_] the match is containment
    of the term, letters compared without case. *)
Theorem consolidate_without_presentations (env : Env) (mainTopic : string) (w : World) :
  ((forall r term,
       In r (Consolidation.presentations_with_topic (db w)) ->
       In term (Consolidation.search_terms mainTopic) ->
       Sql.lower_like (Consolidation.rr_research_topic r) ("%" +:+ term +:+ "%") = false) ->
   exists w',
     Consolidation.consolidateTopicCategory env mainTopic w = (Returned None, w') /\
     files w' = files w /\ db w' = db w)
  /\ (Spec.no_wildcard mainTopic = true ->
      (forall r term,
          In r (Consolidation.presentations_with_topic (db w)) ->
          In term (Consolidation.search_terms mainTopic) ->
          Spec.contains_text term (Consolidation.rr_research_topic r) = false) ->
      exists w',
        Consolidation.consolidateTopicCategory env mainTopic w = (Returned None, w') /\
        files w' = files w /\ db w' = db w).
Proof.
  split; [apply consolidate_nothing_found|].
  intros Hplain Hnone. apply consolidate_nothing_found.
  intros r term Hr Hterm.
  pose proof (search_terms_plain mainTopic Hplain) as Hall.
  rewrite Forall_forall in Hall.
  rewrite like_substring by (apply Hall; now apply list_elem_of_In).
  now apply Hnone.
Qed.

Lemma consolidate_without_presentations_witness :
  (exists w',
      Consolidation.consolidateTopicCategory (Sample.env Sample.good_reply) "Shipbuilding"
        (Sample.world Sample.presented_db) = (Returned None, w')
      /\ files w' = files (Sample.world Sample.presented_db)
      /\ db w' = db (Sample.world Sample.presented_db))
  /\ (exists w',
        Consolidation.consolidateTopicCategory (Sample.env Sample.good_reply) "__proto__"
          (Sample.world Sample.presented_db) = (Returned None, w')
        /\ files w' = files (Sample.world Sample.presented_db)
        /\ db w' = db (Sample.world Sample.presented_db)).
Proof.
  split.
  - apply (proj2 (consolidate_without_presentations (Sample.env Sample.good_reply)
                    "Shipbuilding" (Sample.world Sample.presented_db))); [reflexivity|].
    intros r term Hr Hterm. vm_compute in Hr. destruct Hr as [<-|[]].
    vm_compute in Hterm.
    repeat (destruct Hterm as [<-|Hterm]; [reflexivity|]). destruct Hterm.
  - apply (proj1 (consolidate_without_presentations (Sample.env Sample.good_reply)
                    "__proto__" (Sample.world Sample.presented_db))).
    intros r term Hr Hterm. vm_compute in Hr. destruct Hr as [<-|[]].
    vm_compute in Hterm. destruct Hterm as [<-|[]]. reflexivity.
Defined.

Lemma consolidated_html_truthy (data : Consolidation.PresentationsData)
    (tabbed timestamp : string) :
  Str.truthy (Consolidation.consolidated_html data tabbed timestamp) = true.
Proof. reflexivity. Qed.

(** C10.  [consolidateTopicCategory] always returns, with a descriptor or
    with nothing, whatever the disk and the database answer.  When the
    presentations are found and the file is written but the insert into
    [consolidated_pages] fails, the call still returns the descriptor of
    the file, which stays on the disk; the database is unchanged and the
    failure is only printed. *)
Theorem consolidate_never_throws (env : Env) (mainTopic : string) (w : World) :
  (exists r w', Consolidation.consolidateTopicCategory env mainTopic w = (Returned r, w'))
  /\ (forall h found,
        Consolidation.getTopicHierarchies !! mainTopic = Some h ->
        db_ok env (tick w) = true ->
        Consolidation.related_query (Consolidation.topicPatterns mainTopic h) (db w) = found ->
        found <> [] ->
        (forall t path, disk_write_ok env t path = true) ->
        (forall t, tick w < t -> db_ok env t = false) ->
        let filename :=
          MediaAgent.slug mainTopic +:+ "-consolidated-"
          +:+ show_Z (now_ms env (2 + tick w)) +:+ ".html" in
        let saved :=
          {| Consolidation.sf_filename := filename;
             Consolidation.sf_filepath :=
               path_join (Consolidation.presentationsDir env) filename;
             Consolidation.sf_url := "/presentations/" +:+ filename |} in
        exists html w',
          Consolidation.consolidateTopicCategory env mainTopic w = (Returned (Some saved), w')
          /\ files w' = <[Consolidation.sf_filepath saved := html]> (files w)
          /\ db w' = db w
          /\ In (Error ("Database storage warning: " +:+ err_message db_error)) (console w')).
Proof.
  split.
  - unfold Consolidation.consolidateTopicCategory. io_step.
    match goal with |- context [let (_, _) := ?m in _] => destruct m as [[r|e] w1] end;
      do 2 eexists; reflexivity.
  - intros h found Hh Hq Hfound Hne Hdisk Hdown filename saved.
    unfold Consolidation.consolidateTopicCategory, Consolidation.findRelatedPresentations.
    rewrite (hierarchy_at_entry mainTopic h Hh). io_step. rewrite Hq. io_step. rewrite Hfound.
    destruct found as [|first rest]; [congruence|].
    cbn [Consolidation.pd_presentations].
    unfold Consolidation.consolidate_found, Consolidation.generateConsolidatedPage,
      Consolidation.createTabbedInterface, Consolidation.saveConsolidatedPage,
      Consolidation.storeConsolidatedPage.
    cbn [Consolidation.pd_presentations Consolidation.pd_displayName]. io_step.
    cbn [MediaAgent.present negb default from_option Datatypes.id].
    rewrite consolidated_html_truthy. cbn [negb]. io_step.
    rewrite Hdisk. io_step.
    rewrite (Hdown (S (S (S (S (tick w)))))) by lia. io_step.
    do 2 eexists. split; [reflexivity|].
    cbn [files db console set_console set_files set_tick Consolidation.sf_filepath].
    repeat split. rewrite !in_app_iff. cbn. tauto.
Qed.

Lemma consolidate_never_throws_witness :
  exists saved w',
    Consolidation.consolidateTopicCategory (Sample.env_db_down 1) "Oil & Energy"
      (Sample.world Sample.presented_db) = (Returned (Some saved), w')
    /\ Consolidation.sf_filename saved = "oil-&-energy-consolidated-1700000000002.html"
    /\ db w' = Sample.presented_db.
Proof.
  destruct (consolidate_never_throws (Sample.env_db_down 1) "Oil & Energy"
              (Sample.world Sample.presented_db)) as [_ H].
  destruct (Consolidation.getTopicHierarchies !! "Oil & Energy") as [h|] eqn:Hh;
    [|vm_compute in Hh; discriminate].
  destruct (H h _ eq_refl eq_refl eq_refl) as (html & w' & E & _ & D & _).
  - vm_compute in Hh. injection Hh as <-. vm_compute. discriminate.
  - reflexivity.
  - intros [|t] Ht; [lia | reflexivity].
  - do 2 eexists. split; [exact E|]. split; [vm_compute; reflexivity | exact D].
Defined.

(** * Further properties of the sources *)

(** ** Shapes of strings *)

Lemma all_chars_app (P : ascii -> bool) (a b : string) :
  Shape.all_chars P (a +:+ b) = Shape.all_chars P a && Shape.all_chars P b.
Proof.
  induction a as [|c a IH]; [reflexivity|].
  rewrite app_cons. cbn [Shape.all_chars]. rewrite IH. now rewrite andb_assoc.
Qed.

Lemma all_chars_weaken (P Q : ascii -> bool) (s : string) :
  (forall c, P c = true -> Q c = true) ->
  Shape.all_chars P s = true -> Shape.all_chars Q s = true.
Proof.
  intros H. induction s as [|c s IH]; [reflexivity|]. cbn [Shape.all_chars].
  intros E. apply andb_prop in E as [E1 E2]. now rewrite (H _ E1), IH.
Qed.

Lemma all_chars_take (P : ascii -> bool) (n : nat) (s : string) :
  Shape.all_chars P s = true -> Shape.all_chars P (Str.take n s) = true.
Proof.
  revert s. induction n as [|n IH]; intros [|c s]; try reflexivity.
  cbn [Shape.all_chars Str.take]. intros E. apply andb_prop in E as [E1 E2].
  now rewrite E1, IH.
Qed.

Lemma all_chars_drop (P : ascii -> bool) (n : nat) (s : string) :
  Shape.all_chars P s = true -> Shape.all_chars P (Str.drop n s) = true.
Proof.
  revert s. induction n as [|n IH]; intros [|c s]; try reflexivity; try (intros E; exact E).
  cbn [Shape.all_chars Str.drop]. intros E. apply andb_prop in E as [E1 E2]. now apply IH.
Qed.

Lemma all_chars_map (P : ascii -> bool) (f : ascii -> ascii) (s : string) :
  Shape.all_chars P (Str.map f s) = Shape.all_chars (fun c => P (f c)) s.
Proof. induction s as [|c s IH]; [reflexivity|]. cbn. now rewrite IH. Qed.

Lemma drop_app_length (a b : string) : Str.drop (String.length a) (a +:+ b) = b.
Proof. induction a as [|c a IH]; [reflexivity | exact IH]. Qed.

Lemma endsWith_app (a b : string) : Str.endsWith (a +:+ b) b = true.
Proof.
  unfold Str.endsWith. rewrite length_app_str.
  replace (String.length a + String.length b - String.length b) with (String.length a) by lia.
  rewrite drop_app_length, String.eqb_refl. apply Nat.leb_le. lia.
Qed.

Lemma endsWith_chars (P : ascii -> bool) (s suffix : string) :
  Str.endsWith s suffix = true -> Shape.all_chars P s = true ->
  Shape.all_chars P suffix = true.
Proof.
  unfold Str.endsWith. intros E H. apply andb_prop in E as [E _].
  apply String.eqb_eq in E. rewrite <- E. now apply all_chars_drop.
Qed.

(** ** Downloading one item *)

(** A path is returned only after a 200 reply with a body, which was
    written under that path. *)
Lemma downloadMedia_some (env : Env) (url filename : string)
    (ty : MediaAgent.MediaType) (w : World) (path : string) (w' : World) :
  MediaAgent.downloadMedia env url filename ty w = (Returned (Some path), w') ->
  exists name body statusText,
    fetch env (tick w) url = FetchResponse 200 statusText body /\
    Str.truthy body = true /\
    name = (if Str.endsWith filename (MediaAgent.extension_of ty) then filename
            else Regex.replace_first Regex.plain MediaAgent.last_extension
                   EmptyString filename +:+ MediaAgent.extension_of ty) /\
    Str.endsWith name (MediaAgent.extension_of ty) = true /\
    path = path_join (MediaAgent.imageDir env) name /\
    files w' = <[path := body]> (files w) /\
    requests w' = requests w ++ [url] /\
    db w' = db w.
Proof.
  unfold MediaAgent.downloadMedia. cbv zeta.
  set (filename' := if Str.truthy url && Str.truthy filename
                       && negb (Str.endsWith filename (MediaAgent.extension_of ty))
                    then _ else filename).
  unfold MediaAgent.axios_get_blob.
  assert (Hfail : forall (error : JsError) (w1 : World),
    MediaAgent.download_failed filename' error w1 <> (Returned (Some path), w')).
  { intros error w1 E.
    destruct (download_failed_outcome filename' error w1) as (lines & E1 & _).
    rewrite E1 in E. discriminate. }
  io_step.
  destruct (Str.truthy url && Str.truthy filename) eqn:Hgiven; io_step.
  2:{ intros E. now apply Hfail in E. }
  destruct (fetch env (tick w) url) as [e | status statusText body] eqn:Hreply; io_step.
  { intros E. now apply Hfail in E. }
  destruct (status =? 200)%Z eqn:Hstatus; io_step.
  2:{ intros E. now apply Hfail in E. }
  destruct (Str.truthy body) eqn:Hbody; io_step.
  2:{ intros E. now apply Hfail in E. }
  destruct (disk_write_ok env (S (tick w)) _); io_step.
  2:{ intros E. now apply Hfail in E. }
  intros E. injection E as <- <-.
  apply Z.eqb_eq in Hstatus. subst status.
  exists filename', body, statusText.
  cbn [files requests db set_console set_files set_requests set_tick].
  subst filename'. cbn [andb].
  destruct (Str.endsWith filename (MediaAgent.extension_of ty)) eqn:Hends; cbn [negb].
  + repeat split; assumption.
  + repeat split; try assumption. apply endsWith_app.
Qed.

(** What [downloadMedia] guarantees.  Without a URL or without a file name
    it asks for nothing: it prints the failure and returns [null].  When it
    returns a path, the reply was a 200 with a body, the body was written
    under that path, which is the file name in the image directory with
    the extension of the media type at its end, and the URL was requested
    once. *)
Theorem downloadMedia_contract (env : Env) (url filename : string)
    (ty : MediaAgent.MediaType) (w : World) :
  (Str.truthy url && Str.truthy filename = false ->
   MediaAgent.downloadMedia env url filename ty w
   = (Returned None,
      set_console
        (console w ++ [Error ("Failed to download " +:+ filename
                              +:+ ": URL and filename are required")]) w))
  /\ (forall path w',
        MediaAgent.downloadMedia env url filename ty w = (Returned (Some path), w') ->
        exists name body statusText,
          fetch env (tick w) url = FetchResponse 200 statusText body /\
          Str.truthy body = true /\
          name = (if Str.endsWith filename (MediaAgent.extension_of ty) then filename
                  else Regex.replace_first Regex.plain MediaAgent.last_extension
                         EmptyString filename +:+ MediaAgent.extension_of ty) /\
          Str.endsWith name (MediaAgent.extension_of ty) = true /\
          path = path_join (MediaAgent.imageDir env) name /\
          files w' = <[path := body]> (files w) /\
          requests w' = requests w ++ [url] /\
          db w' = db w).
Proof.
  split.
  - intros Hmissing. unfold MediaAgent.downloadMedia. cbv zeta.
    rewrite Hmissing. cbn [andb]. unfold MediaAgent.download_failed, MediaAgent.failure_detail.
    io_step. cbn [MediaAgent.has_code err_code plain_error err_response err_message].
    io_step. reflexivity.
  - intros path w'. apply downloadMedia_some.
Qed.

Lemma downloadMedia_contract_witness :
  MediaAgent.downloadMedia (Sample.env Sample.good_reply) EmptyString "gusher"
    MediaAgent.Image (Sample.world Sample.empty_db)
  = (Returned None,
     set_console [Error "Failed to download gusher: URL and filename are required"]
       (Sample.world Sample.empty_db))
  /\ exists w',
       MediaAgent.downloadMedia (Sample.env Sample.good_reply)
         "https://tile.loc.gov/storage-services/gusher.jpg" "gusher.tif"
         MediaAgent.Image (Sample.world Sample.empty_db)
       = (Returned (Some "/srv/setx/public/images/historical/gusher.jpg"), w')
       /\ files w' = {[ "/srv/setx/public/images/historical/gusher.jpg" := "JFIF" ]}.
Proof.
  split.
  - apply (proj1 (downloadMedia_contract (Sample.env Sample.good_reply) EmptyString "gusher"
                    MediaAgent.Image (Sample.world Sample.empty_db))).
    reflexivity.
  - set (run := MediaAgent.downloadMedia (Sample.env Sample.good_reply)
                  "https://tile.loc.gov/storage-services/gusher.jpg" "gusher.tif"
                  MediaAgent.Image (Sample.world Sample.empty_db)).
    assert (E : run = (Returned (Some "/srv/setx/public/images/historical/gusher.jpg"),
                       snd run)) by (vm_compute; reflexivity).
    exists (snd run). split; [exact E|].
    destruct (proj2 (downloadMedia_contract (Sample.env Sample.good_reply)
                       "https://tile.loc.gov/storage-services/gusher.jpg" "gusher.tif"
                       MediaAgent.Image (Sample.world Sample.empty_db)) _ _ E)
      as (name & body & st & Hr & _ & _ & _ & _ & Hf & _).
    injection Hr as <- <-. rewrite Hf. apply insert_empty.
Defined.

(** ** Texts that the replacements build *)

Lemma replace_all_go_chars (P : ascii -> bool) (fl : Regex.flags) (r : Regex.regex)
    (repl s : string) :
  Shape.all_chars P repl = true -> Shape.all_chars P s = true ->
  forall pos skip,
    Shape.all_chars P (Regex.replace_all_go fl r repl pos skip s) = true.
Proof.
  intros Hrepl. induction s as [|c s IH]; intros Hs pos skip.
  - destruct skip; cbn [Regex.replace_all_go]; [|reflexivity].
    destruct (Regex.rmatch _ _ _ _ _ _) as [[|n]|];
      rewrite ?all_chars_app, ?Hrepl; reflexivity.
  - cbn [Shape.all_chars] in Hs. apply andb_prop in Hs as [Hc Hs].
    destruct skip; cbn [Regex.replace_all_go]; [|now apply IH].
    destruct (Regex.rmatch _ _ _ _ _ _) as [[|n]|];
      rewrite ?all_chars_app, ?Hrepl; cbn [Shape.all_chars andb];
      rewrite ?Hc, ?IH; auto.
Qed.

(** The greedy [cs*], followed by nothing that can fail, takes the whole
    run of characters of [cs]. *)
Lemma star_greedy_run (fl : Regex.flags) (cs : Regex.cset) (t0 : string) (s : string) :
  forall acc,
    Regex.star_greedy fl cs []
      (fun t _ _ => Some (String.length (t0 +:+ t))) acc s
    = Some (String.length t0 + String.length acc + Shape.run (Regex.cs_mem fl cs) s).
Proof.
  induction s as [|c s IH]; intros acc; cbn [Regex.star_greedy Shape.run].
  - rewrite length_app_str. f_equal. lia.
  - destruct (Regex.cs_mem fl cs c).
    + rewrite IH, length_app_str. cbn [Str.single String.length]. f_equal. lia.
    + rewrite length_app_str. f_equal. lia.
Qed.

Lemma match_plus (fl : Regex.flags) (cs : Regex.cset) (pos : nat) (c : ascii) (s : string) :
  Regex.rmatch fl (Regex.RPlus cs) pos (String c s) []
    (fun t _ _ => Some (String.length t))
  = if Regex.cs_mem fl cs c then Some (S (Shape.run (Regex.cs_mem fl cs) s)) else None.
Proof.
  unfold Regex.RPlus. cbn [Regex.rmatch].
  destruct (Regex.cs_mem fl cs c); [|reflexivity].
  rewrite star_greedy_run. reflexivity.
Qed.

(** After [replace(/[cs]+/g, repl)] every character comes from [repl] or
    is outside [cs]. *)
Lemma replace_all_plus_chars (P : ascii -> bool) (fl : Regex.flags) (cs : Regex.cset)
    (repl s : string) :
  Shape.all_chars P repl = true ->
  forall pos skip,
    Shape.all_chars (fun c => P c || negb (Regex.cs_mem fl cs c))
      (Regex.replace_all_go fl (Regex.RPlus cs) repl pos skip s) = true.
Proof.
  intros Hrepl.
  assert (Hrepl' : Shape.all_chars (fun c => P c || negb (Regex.cs_mem fl cs c)) repl = true).
  { apply (all_chars_weaken P); [|exact Hrepl]. intros c ->. reflexivity. }
  induction s as [|c s IH]; intros pos skip.
  - destruct skip; reflexivity.
  - destruct skip; cbn [Regex.replace_all_go]; [|apply IH].
    rewrite match_plus. destruct (Regex.cs_mem fl cs c) eqn:E.
    + now rewrite all_chars_app, Hrepl', IH.
    + cbn [Shape.all_chars]. now rewrite E, IH, Bool.orb_true_r.
Qed.

Lemma pretty_N_go_chars (P : ascii -> bool) (x : N) :
  (forall d, P (pretty_N_char d) = true) ->
  forall s, Shape.all_chars P s = true -> Shape.all_chars P (pretty_N_go x s) = true.
Proof.
  intros Hd. induction (N.lt_wf_0 x) as [x _ IH]. intros s Hs.
  destruct (N.eq_dec x 0) as [->|Hx]; [exact Hs|].
  rewrite pretty_N_go_step by lia. apply IH.
  - apply N.div_lt; lia.
  - cbn [Shape.all_chars]. now rewrite Hd, Hs.
Qed.

Lemma show_Z_chars (P : ascii -> bool) (z : Z) :
  (forall d, P (pretty_N_char d) = true) -> P "-"%char = true ->
  Shape.all_chars P (show_Z z) = true.
Proof.
  intros Hd Hdash. unfold show_Z, pretty, pretty_Z.
  assert (Hpos : forall p : positive, Shape.all_chars P (pretty p) = true).
  { intros p. unfold pretty, pretty_positive, pretty, pretty_N.
    destruct (decide (N.pos p = 0%N)); [discriminate|].
    now apply pretty_N_go_chars. }
  destruct z as [|p|p].
  - pose proof (Hd 0%N) as H0. cbn in H0. cbn. now rewrite H0.
  - apply Hpos.
  - rewrite all_chars_app. cbn [Shape.all_chars]. now rewrite Hdash, Hpos.
Qed.

Lemma digit_not_dot (d : N) : Shape.not_dot (pretty_N_char d) = true.
Proof. unfold pretty_N_char. repeat case_match; reflexivity. Qed.

Lemma lower_not_dot (c : ascii) :
  Shape.not_dot c = true -> Shape.not_dot (Chars.js_lower c) = true.
Proof.
  pose proof (ascii_forall
    (fun c => implb (Shape.not_dot c) (Shape.not_dot (Chars.js_lower c)))) as E.
  specialize (E ltac:(vm_compute; reflexivity) c). cbv beta in E.
  intros H. now rewrite H in E.
Qed.

Lemma alnum_not_dot (c : ascii) :
  Chars.eqb c "-" || negb (Regex.cs_mem Regex.plain
                             (Regex.CsClass true [("a", "z"); ("0", "9")]%char) c) = true ->
  Shape.not_dot c = true.
Proof.
  pose proof (ascii_forall
    (fun c => implb (Chars.eqb c "-"
                     || negb (Regex.cs_mem Regex.plain
                                (Regex.CsClass true [("a", "z"); ("0", "9")]%char) c))
                    (Shape.not_dot c))) as E.
  specialize (E ltac:(vm_compute; reflexivity) c). cbv beta in E.
  intros H. now rewrite H in E.
Qed.

Lemma slug_not_dot (topic : string) :
  Shape.all_chars Shape.not_dot topic = true ->
  Shape.all_chars Shape.not_dot (MediaAgent.slug topic) = true.
Proof.
  intros H. unfold MediaAgent.slug, Regex.replace_all.
  apply replace_all_go_chars; [reflexivity|].
  unfold Str.toLowerCase. rewrite all_chars_map.
  apply (all_chars_weaken Shape.not_dot); [apply lower_not_dot | exact H].
Qed.

Lemma cleanTitle_not_dot (title : string) :
  Shape.all_chars Shape.not_dot (MediaAgent.cleanTitle title) = true.
Proof.
  unfold MediaAgent.cleanTitle, Regex.replace_all, MediaAgent.not_alnum.
  apply all_chars_take.
  eapply all_chars_weaken; [apply alnum_not_dot|].
  apply (replace_all_plus_chars (fun c => Chars.eqb c "-")). reflexivity.
Qed.

Lemma media_filename_not_dot (topic : string) (m : MediaAgent.MediaItem) (timestamp : Z) :
  Shape.all_chars Shape.not_dot topic = true ->
  Shape.all_chars Shape.not_dot (MediaAgent.media_filename topic m timestamp) = true.
Proof.
  intros H. unfold MediaAgent.media_filename.
  rewrite !all_chars_app, slug_not_dot, cleanTitle_not_dot by exact H.
  rewrite show_Z_chars; [reflexivity | apply digit_not_dot | reflexivity].
Qed.

(** A name without a dot has no extension to strip. *)
Lemma search_last_extension_none (s : string) :
  Shape.all_chars Shape.not_dot s = true ->
  forall before,
    Regex.search_from Regex.plain MediaAgent.last_extension before s = None.
Proof.
  induction s as [|c s IH]; intros H before; [reflexivity|].
  cbn [Shape.all_chars] in H. apply andb_prop in H as [Hc Hs].
  cbn [Regex.search_from]. rewrite IH by exact Hs.
  unfold Regex.match_here, MediaAgent.last_extension.
  cbn [Regex.rmatch Regex.lit Regex.cs_mem Regex.ignoreCase Regex.plain].
  unfold Shape.not_dot, Chars.eqb in *. rewrite N.eqb_sym.
  apply Bool.negb_true_iff in Hc. now rewrite Hc.
Qed.

Lemma stored_name (filename : string) (ty : MediaAgent.MediaType) :
  Shape.all_chars Shape.not_dot filename = true ->
  (if Str.endsWith filename (MediaAgent.extension_of ty) then filename
   else Regex.replace_first Regex.plain MediaAgent.last_extension EmptyString filename
        +:+ MediaAgent.extension_of ty)
  = filename +:+ "." +:+
    match ty with
    | MediaAgent.Audio => "mp3" | MediaAgent.Video => "mp4" | MediaAgent.Image => "jpg"
    end.
Proof.
  intros H.
  destruct (Str.endsWith filename (MediaAgent.extension_of ty)) eqn:E.
  - apply (endsWith_chars Shape.not_dot) in E; [|exact H]. now destruct ty.
  - unfold Regex.replace_first, Regex.search.
    rewrite search_last_extension_none by exact H. now destruct ty.
Qed.

(** ** Collected items and the files behind them *)

Lemma downloadMedia_files_grow (env : Env) (url filename : string)
    (ty : MediaAgent.MediaType) (w : World) (k : string) :
  is_Some (files w !! k) ->
  is_Some (files (snd (MediaAgent.downloadMedia env url filename ty w)) !! k).
Proof.
  intros Hk.
  destruct (downloadMedia_outcome env url filename ty w)
    as (o & lines & w' & E & _ & _ & _ & _ & _ & Hnone).
  destruct o as [path|].
  - destruct (downloadMedia_some env url filename ty w path w' E)
      as (name & body & st & _ & _ & _ & _ & _ & Hf & _).
    rewrite E. cbn [snd]. rewrite Hf. apply lookup_insert_is_Some'. now right.
  - rewrite E. cbn [snd]. now rewrite Hnone.
Qed.

(** The download loop for a topic without a dot: every entry of the result
    names a file that is on the disk when the loop ends. *)
Lemma download_each_on_disk (env : Env) (topic : string)
    (items : list MediaAgent.MediaItem) :
  Shape.all_chars Shape.not_dot topic = true ->
  forall w,
    exists downloaded w',
      MediaAgent.download_each env topic items w = (Returned downloaded, w') /\
      (forall k, is_Some (files w !! k) -> is_Some (files w' !! k)) /\
      Forall (Shape.on_disk env (files w')) downloaded.
Proof.
  intros Htopic. induction items as [|m items IH]; intros w.
  - exists [], w. repeat split; [auto | constructor].
  - cbn [MediaAgent.download_each]. unfold date_now at 1. io_step.
    set (w1 := set_tick (S (tick w)) w).
    set (filename := MediaAgent.media_filename topic m (now_ms env (tick w))).
    pose proof (downloadMedia_files_grow env (MediaAgent.mi_url m) filename
                  (MediaAgent.mi_type m) w1) as Hgrow.
    destruct (downloadMedia_outcome env (MediaAgent.mi_url m) filename
                (MediaAgent.mi_type m) w1)
      as (o & l1 & w2 & E1 & _).
    rewrite E1 in Hgrow |- *. cbn [snd] in Hgrow.
    destruct (IH w2) as (rest & w3 & E2 & Hkeep & Hrest).
    rewrite E2. do 2 eexists. split; [reflexivity|].
    split; [intros k Hk; now apply Hkeep, Hgrow|].
    destruct o as [path|]; cbn [MediaAgent.present]; [|exact Hrest].
    destruct (downloadMedia_some env _ filename _ w1 path w2 E1)
      as (name & body & st & _ & _ & Hname & _ & Hpath & Hf & _).
    rewrite Hpath at 1. rewrite path_join_truthy. constructor; [|exact Hrest].
    rewrite stored_name in Hname
      by (apply media_filename_not_dot; exact Htopic).
    exists name. split.
    + unfold MediaAgent.downloaded_entry. cbn [MediaAgent.d_filepath]. now rewrite Hname.
    + apply Hkeep. rewrite Hf, <- Hpath. apply lookup_insert_is_Some'. now left.
Qed.

(** For a topic without a dot, every item that [collectMediaForTopic]
    reports names a file that was written to the image directory: the
    public path [/images/historical/NAME] stands for the file [NAME] there.
    With a dot in the topic this fails: for the topic "St. Elmo" the file
    is written as [st.jpg], since [downloadMedia] takes everything after
    the dot for an extension, while the reported path keeps the full
    name. *)
Theorem collected_media_are_on_disk (env : Env) (topic : string)
    (keywords : list string) (w : World) :
  (Shape.all_chars Shape.not_dot topic = true ->
   exists downloaded w',
     MediaAgent.collectMediaForTopic env topic keywords w = (Returned downloaded, w') /\
     Forall (Shape.on_disk env (files w')) downloaded)
  /\ (let run := MediaAgent.collectMediaForTopic (Sample.env Sample.good_reply)
                   "St. Elmo" [] (Sample.world Sample.empty_db) in
      List.map MediaAgent.d_filepath (match fst run with Returned l => l | Thrown _ => [] end)
      = ["/images/historical/st.-elmo-lucas-gusher-spindletop-1700000000003.jpg"]
      /\ List.map fst (map_to_list (files (snd run)))
         = ["/srv/setx/public/images/historical/st.jpg"]).
Proof.
  split.
  - intros Htopic. unfold MediaAgent.collectMediaForTopic. unfold log at 1. unfold bind at 1.
    set (w0 := set_console _ w).
    destruct (searchLibraryOfCongress_outcome env (MediaAgent.searchQuery topic keywords) 10 w0)
      as (l1 & w1 & E1 & _).
    rewrite (run_bind _ _ _ _ _ E1).
    match type of E1 with _ = (Returned ?f, _) => set (found := f) end.
    destruct (download_each_on_disk env topic found Htopic w1)
      as (downloaded & w2 & E2 & _ & Hdisk).
    rewrite (run_bind _ _ _ _ _ E2). io_step.
    do 2 eexists. split; [reflexivity|]. exact Hdisk.
  - vm_compute. split; reflexivity.
Qed.

Lemma collected_media_are_on_disk_witness :
  exists downloaded w',
    MediaAgent.collectMediaForTopic (Sample.env Sample.good_reply) "Spindletop" []
      (Sample.world Sample.empty_db) = (Returned downloaded, w')
    /\ Forall (Shape.on_disk (Sample.env Sample.good_reply) (files w')) downloaded.
Proof.
  apply (proj1 (collected_media_are_on_disk (Sample.env Sample.good_reply) "Spindletop" []
                  (Sample.world Sample.empty_db))).
  reflexivity.
Defined.

(** ** A new researched topic *)

(** The linking loop leaves the other tables alone. *)
Lemma link_each_others (env : Env) (topicId : Z) (items : list MediaAgent.Downloaded) :
  forall w,
    presentations (db (snd (MediaAgent.link_each env topicId items w)))
    = presentations (db w) /\
    historical_topics (db (snd (MediaAgent.link_each env topicId items w)))
    = historical_topics (db w) /\
    historical_facts (db (snd (MediaAgent.link_each env topicId items w)))
    = historical_facts (db w) /\
    historical_cities (db (snd (MediaAgent.link_each env topicId items w)))
    = historical_cities (db w).
Proof.
  induction items as [|item items IH]; intros w.
  - cbn. repeat split.
  - cbn [MediaAgent.link_each]. unfold MediaAgent.linkMediaToTopic. io_step.
    destruct (db_ok env (tick w)); io_step; [|repeat split].
    match goal with |- context [MediaAgent.link_each env topicId items ?w1] =>
      destruct (IH w1) as (O1 & O2 & O3 & O4);
      destruct (MediaAgent.link_each env topicId items w1) as [[n|e] w2] end;
      cbn [fst snd db set_db set_tick] in *; rewrite O1, O2, O3, O4; repeat split.
Qed.

(** With a database that answers, a call without an existing id stores
    the topic and links what it collects to the new key. *)
Lemma researchAndCollect_fresh (env : Env) (topic : string)
    (keywords : list string) (existingTopicId : option Z) (w : World) :
  MediaAgent.id_given existingTopicId = false ->
  (forall t, db_ok env t = true) ->
  exists r new w',
    MediaAgent.researchAndCollect env topic keywords existingTopicId w
    = (Returned r, w') /\
    MediaAgent.topicId r = (last_id (topics_researched (db w)) + 1)%Z /\
    MediaAgent.topic r = topic /\
    topics_researched (db w')
    = insert_row
        (MediaAgent.new_topic_row topic keywords "default" (db_time env (tick w)))
        (topics_researched (db w)) /\
    rows (topic_media (db w')) = rows (topic_media (db w)) ++ new /\
    Forall2 (Spec.links (MediaAgent.topicId r)) new (MediaAgent.media r) /\
    MediaAgent.mediaCount r = List.length (MediaAgent.media r) /\
    MediaAgent.factsAdded r = List.length (MediaAgent.media r) /\
    presentations (db w') = presentations (db w) /\
    historical_topics (db w') = historical_topics (db w) /\
    historical_facts (db w') = historical_facts (db w) /\
    historical_cities (db w') = historical_cities (db w).
Proof.
  intros Hid Hok. unfold MediaAgent.researchAndCollect, MediaAgent.storeResearchedTopic.
  rewrite Hid. cbn [negb]. io_step. rewrite Hok. io_step.
  match goal with |- context [MediaAgent.collectMediaForTopic env topic keywords ?w1] =>
    destruct (collectMediaForTopic_outcome env topic keywords w1)
      as (found & media & lines & more & w2 & E & D & _) end.
  rewrite E. cbn [db set_console set_db set_tick] in D.
  destruct (link_each_frame env (last_id (topics_researched (db w)) + 1) media w2)
    as [T _].
  destruct (link_each_rows env (last_id (topics_researched (db w)) + 1) media Hok w2)
    as (new & w3 & E3 & Hnew & Hl).
  destruct (link_each_others env (last_id (topics_researched (db w)) + 1) media w2)
    as (O1 & O2 & O3 & O4).
  rewrite E3 in T, O1, O2, O3, O4 |- *. cbn [snd] in T, O1, O2, O3, O4.
  do 3 eexists. split; [reflexivity|].
  cbn [MediaAgent.topicId MediaAgent.topic MediaAgent.mediaCount MediaAgent.media
       MediaAgent.factsAdded].
  rewrite Hnew, T, O1, O2, O3, O4, D.
  cbn [topics_researched topic_media set_topics_researched presentations
       historical_topics historical_facts historical_cities].
  repeat split. exact Hl.
Qed.

(** [researchAndCollect] without an existing id ([null], or the falsy
    [0]).  When the insert of the topic fails, the call throws before
    anything is searched or downloaded.  With a database that answers, it
    returns: [topics_researched] has one new row, for this topic, these
    keywords and the user [default], whose key is the returned [topicId];
    [topic_media] has one new row per collected item, linked to that key;
    and [mediaCount] and [factsAdded] both count the collected items. *)
Theorem researchAndCollect_new_topic (env : Env) (topic : string)
    (keywords : list string) (existingTopicId : option Z) (w : World) :
  MediaAgent.id_given existingTopicId = false ->
  (db_ok env (tick w) = false ->
   exists w',
     MediaAgent.researchAndCollect env topic keywords existingTopicId w
     = (Thrown db_error, w') /\
     db w' = db w /\ files w' = files w /\ requests w' = requests w)
  /\ ((forall t, db_ok env t = true) ->
      exists r new w',
        MediaAgent.researchAndCollect env topic keywords existingTopicId w
        = (Returned r, w') /\
        MediaAgent.topicId r = (last_id (topics_researched (db w)) + 1)%Z /\
        MediaAgent.topic r = topic /\
        topics_researched (db w')
        = insert_row
            (MediaAgent.new_topic_row topic keywords "default" (db_time env (tick w)))
            (topics_researched (db w)) /\
        rows (topic_media (db w')) = rows (topic_media (db w)) ++ new /\
        Forall2 (Spec.links (MediaAgent.topicId r)) new (MediaAgent.media r) /\
        MediaAgent.mediaCount r = List.length (MediaAgent.media r) /\
        MediaAgent.factsAdded r = List.length (MediaAgent.media r)).
Proof.
  intros Hid. unfold MediaAgent.researchAndCollect, MediaAgent.storeResearchedTopic.
  rewrite Hid. cbn [negb]. split.
  - intros Hdown. io_step. rewrite Hdown. io_step. eexists. repeat split.
  - intros Hok.
    destruct (researchAndCollect_fresh env topic keywords existingTopicId w Hid Hok)
      as (r & new & w' & E & H1 & H2 & H3 & H4 & H5 & H6 & H7 & _).
    unfold MediaAgent.researchAndCollect, MediaAgent.storeResearchedTopic in E.
    rewrite Hid in E. cbn [negb] in E. rewrite E.
    exists r, new, w'. repeat split; assumption.
Qed.

Lemma researchAndCollect_new_topic_witness :
  (exists w',
      MediaAgent.researchAndCollect (Sample.env_db_down 0) "Spindletop" ["gusher"] None
        (Sample.world Sample.oil_db) = (Thrown db_error, w')
      /\ requests w' = [])
  /\ (exists r w',
        MediaAgent.researchAndCollect (Sample.env Sample.good_reply) "Spindletop"
          ["gusher"] None (Sample.world Sample.oil_db) = (Returned r, w')
        /\ MediaAgent.topicId r = 2%Z
        /\ List.map tr_id (rows (topics_researched (db w'))) = [1%Z; 2%Z]).
Proof.
  split.
  - destruct (researchAndCollect_new_topic (Sample.env_db_down 0) "Spindletop" ["gusher"]
                None (Sample.world Sample.oil_db) eq_refl) as [H _].
    destruct (H eq_refl) as (w' & E & _ & _ & R). exists w'. split; assumption.
  - destruct (researchAndCollect_new_topic (Sample.env Sample.good_reply) "Spindletop"
                ["gusher"] None (Sample.world Sample.oil_db) eq_refl) as [_ H].
    destruct (H (fun _ => eq_refl)) as (r & new & w' & E & I & _ & T & _).
    exists r, w'. repeat split; [exact E | exact I | rewrite T; reflexivity].
Defined.

(** ** Rendering and storing a page *)

Lemma mark_generated_keeps (topicId : Z) (d : Database) :
  List.map (fun r => (tr_id r, tr_topic r))
    (rows (topics_researched (PresentationBuilder.mark_generated topicId d)))
  = List.map (fun r => (tr_id r, tr_topic r)) (rows (topics_researched d))
  /\ topic_media (PresentationBuilder.mark_generated topicId d) = topic_media d
  /\ presentations (PresentationBuilder.mark_generated topicId d) = presentations d.
Proof.
  unfold PresentationBuilder.mark_generated.
  cbn [topics_researched topic_media presentations set_topics_researched rows].
  repeat split. rewrite List.map_map. apply List.map_ext. intros r.
  now destruct (tr_id r =? topicId)%Z.
Qed.

(** [generatePresentation], whatever the disk and the database answer.
    It never touches [topic_media] and never changes the key or the text
    of a researched topic.  When it throws, the database is as it was.
    When it returns, the topic row was found, the file named in the result
    holds the page, and [presentations] has exactly one new row: for this
    topic, with the same page as its content and the path of that file. *)
Theorem generatePresentation_adds_one_row (env : Env) (topicId : Z) (w : World) :
  let run := PresentationBuilder.generatePresentation env topicId w in
  topic_media (db (snd run)) = topic_media (db w) /\
  List.map (fun r => (tr_id r, tr_topic r)) (rows (topics_researched (db (snd run))))
  = List.map (fun r => (tr_id r, tr_topic r)) (rows (topics_researched (db w))) /\
  match fst run with
  | Thrown _ => db (snd run) = db w
  | Returned r =>
      exists row html now,
        List.find (fun r => (tr_id r =? topicId)%Z) (rows (topics_researched (db w)))
        = Some row /\
        PresentationBuilder.pr_filename r
        = PresentationBuilder.page_filename (tr_topic row) topicId /\
        PresentationBuilder.pr_fullPath r
        = path_join (PresentationBuilder.presentationsDir env)
            (PresentationBuilder.pr_filename r) /\
        PresentationBuilder.pr_filepath r
        = "/presentations/" +:+ PresentationBuilder.pr_filename r /\
        files (snd run) = <[PresentationBuilder.pr_fullPath r := html]> (files w) /\
        presentations (db (snd run))
        = insert_row
            (PresentationBuilder.new_presentation_row topicId (tr_topic row) html
               (PresentationBuilder.pr_fullPath r) now)
            (presentations (db w))
  end.
Proof.
  cbv zeta.
  unfold PresentationBuilder.generatePresentation, PresentationBuilder.getTopicData,
    PresentationBuilder.getRelatedFacts, PresentationBuilder.storePresentation.
  io_step.
  destruct (db_ok env (tick w)); io_step; [|repeat split].
  destruct (db_ok env (S (tick w))); io_step; [|repeat split].
  destruct (List.find _ (rows (topics_researched (db w)))) as [row|] eqn:Hrow;
    io_step; [|repeat split].
  destruct (db_ok env (S (S (tick w)))); io_step; [|repeat split].
  destruct (db_ok env (S (S (S (tick w))))); io_step; [|repeat split].
  destruct (disk_write_ok env _ _); io_step; [|repeat split].
  destruct (db_ok env (S (S (S (S (S (S (tick w)))))))); io_step; [|repeat split].
  destruct (db_ok env (S (S (S (S (S (S (S (tick w))))))))); io_step.
  - match goal with |- context [PresentationBuilder.mark_generated topicId ?d] =>
      destruct (mark_generated_keeps topicId d) as (K1 & K2 & K3) end.
    rewrite K1, K2, K3. cbn [topic_media topics_researched presentations set_presentations].
    repeat split. do 3 eexists. repeat split.
  - cbn [topic_media topics_researched presentations set_presentations].
    repeat split. do 3 eexists. repeat split.
Qed.

(** [researchAndCollect] never touches [presentations]. *)
Lemma researchAndCollect_others (env : Env) (topic : string) (keywords : list string)
    (existingTopicId : option Z) (w : World) :
  presentations (db (snd (MediaAgent.researchAndCollect env topic keywords
                            existingTopicId w)))
  = presentations (db w).
Proof.
  unfold MediaAgent.researchAndCollect, MediaAgent.storeResearchedTopic.
  assert (Hrest : forall (id : Z) (w1 : World),
    presentations (db w1) = presentations (db w) ->
    presentations
      (db (snd ((let! media := MediaAgent.collectMediaForTopic env topic keywords in
                 let! factsAdded := MediaAgent.link_each env id media in
                 ret {| MediaAgent.topicId := id; MediaAgent.topic := topic;
                        MediaAgent.mediaCount := List.length media;
                        MediaAgent.media := media;
                        MediaAgent.factsAdded := factsAdded |}) w1)))
    = presentations (db w)).
  { intros id w1 H1.
    destruct (collectMediaForTopic_outcome env topic keywords w1)
      as (found & media & lines & more & w2 & E & D & _).
    unfold bind at 1. rewrite E.
    destruct (link_each_others env id media w2) as (O1 & _).
    unfold bind. destruct (MediaAgent.link_each env id media w2) as [[n|e] w3];
      cbn [snd fst ret] in *; now rewrite O1, D. }
  destruct (MediaAgent.id_given existingTopicId); cbn [negb]; io_step.
  - apply Hrest. reflexivity.
  - destruct (db_ok env (tick w)); io_step; [|reflexivity].
    apply Hrest. reflexivity.
Qed.

(** ** The whole workflow *)

(** With a disk and a database that answer, a page is generated for every
    topic row that is found. *)
Lemma generatePresentation_returns (env : Env) (topicId : Z) (w : World) (row : TopicRow) :
  (forall t, db_ok env t = true) ->
  (forall t path, disk_write_ok env t path = true) ->
  List.find (fun r => (tr_id r =? topicId)%Z) (rows (topics_researched (db w))) = Some row ->
  let filename := PresentationBuilder.page_filename (tr_topic row) topicId in
  let fullPath := path_join (PresentationBuilder.presentationsDir env) filename in
  exists html w',
    PresentationBuilder.generatePresentation env topicId w
    = (Returned {| PresentationBuilder.pr_filepath := "/presentations/" +:+ filename;
                   PresentationBuilder.pr_filename := filename;
                   PresentationBuilder.pr_fullPath := fullPath |}, w') /\
    files w' = <[fullPath := html]> (files w) /\
    requests w' = requests w /\
    db w' =
      PresentationBuilder.mark_generated topicId
        (set_presentations
           (insert_row
              (PresentationBuilder.new_presentation_row topicId (tr_topic row) html
                 fullPath (db_time env (6 + tick w)))
              (presentations (db w)))
           (db w)).
Proof.
  intros Hdb Hdisk Hrow filename fullPath.
  unfold PresentationBuilder.generatePresentation, PresentationBuilder.getTopicData,
    PresentationBuilder.getRelatedFacts, PresentationBuilder.storePresentation.
  io_step. rewrite !Hdb. io_step. rewrite Hrow. io_step.
  rewrite !Hdb. io_step. rewrite Hdisk. io_step. rewrite !Hdb. io_step.
  do 2 eexists. split; [reflexivity|].
  cbn [files db requests set_console set_files set_db set_tick].
  repeat split.
Qed.

Lemma find_app_last {A : Type} (f : A -> bool) (l : list A) (x : A) :
  Forall (fun y => f y = false) l ->
  List.find f (l ++ [x]) = if f x then Some x else None.
Proof.
  induction 1 as [|y l Hy _ IH]; cbn [app List.find]; [reflexivity|]. now rewrite Hy.
Qed.

Lemma find_map_some {A : Type} (f : A -> bool) (g : A -> A) (l : list A) (x : A) :
  (forall y, f (g y) = f y) ->
  List.find f l = Some x -> List.find f (List.map g l) = Some (g x).
Proof.
  intros Hg. induction l as [|y l IH]; cbn [List.map List.find]; [discriminate|].
  rewrite Hg. destruct (f y); [now intros [= ->] | exact IH].
Qed.

(** The workflow for a new topic, step by step. *)
Lemma processUserQuery_fresh (env : Env) (message t : string) (w : World) :
  Extract.extractTopic message = Some t ->
  Str.truthy t = true ->
  (forall n, db_ok env n = true) ->
  (forall n path, disk_write_ok env n path = true) ->
  Forall (fun r => (tr_id r <= last_id (topics_researched (db w)))%Z)
    (rows (topics_researched (db w))) ->
  let id := (last_id (topics_researched (db w)) + 1)%Z in
  exists result w' html now,
    ResearchWorkflow.processUserQuery env message None w = (Returned (Some result), w') /\
    ResearchWorkflow.wr_topicId result = id /\
    ResearchWorkflow.wr_topic result = t /\
    ResearchWorkflow.wr_presentationUrl result
    = "/presentations/" +:+ PresentationBuilder.page_filename t id /\
    ResearchWorkflow.wr_presentationPath result
    = path_join (PresentationBuilder.presentationsDir env)
        (PresentationBuilder.page_filename t id) /\
    files w' !! ResearchWorkflow.wr_presentationPath result = Some html /\
    (exists row,
        List.find (fun r => (tr_id r =? id)%Z) (rows (topics_researched (db w'))) = Some row
        /\ tr_topic row = t
        /\ tr_keywords row = Extract.extractKeywords message
        /\ tr_presentation_generated row = 1%Z) /\
    rows (presentations (db w'))
    = rows (presentations (db w))
      ++ [PresentationBuilder.new_presentation_row id t html
            (ResearchWorkflow.wr_presentationPath result) now
            (last_id (presentations (db w)) + 1)%Z] /\
    List.length (rows (topic_media (db w')))
    = List.length (rows (topic_media (db w))) + ResearchWorkflow.wr_mediaCount result /\
    List.map (fun r => (tr_id r, tr_topic r, tr_keywords r)) (rows (topics_researched (db w')))
    = List.map (fun r => (tr_id r, tr_topic r, tr_keywords r)) (rows (topics_researched (db w)))
      ++ [(id, t, Extract.extractKeywords message)] /\
    last_id (topics_researched (db w')) = id /\
    historical_topics (db w') = historical_topics (db w).
Proof.
  intros Htopic Htruthy Hdb Hdisk Hkeys id.
  unfold ResearchWorkflow.processUserQuery. rewrite Htopic.
  cbn [MediaAgent.present default from_option Datatypes.id]. rewrite Htruthy. cbn [negb].
  io_step.
  match goal with |- context [MediaAgent.researchAndCollect env t ?kw None ?w1] =>
    destruct (researchAndCollect_fresh env t kw None w1 eq_refl Hdb)
      as (r & new & w2 & E & Hid & Ht & Htab & Hmedia & Hlinks & Hcount & _ & Hpres & Hht
          & _) end.
  rewrite E. cbn [db set_console tick] in Hid, Htab, Hmedia, Hpres, Hht.
  fold id in Hid. rewrite Hid.
  set (newrow := MediaAgent.new_topic_row t (Extract.extractKeywords message) "default"
                   (db_time env (tick w)) id).
  assert (Hfind : List.find (fun r => (tr_id r =? id)%Z) (rows (topics_researched (db w2)))
                  = Some newrow).
  { rewrite Htab. cbn [insert_row rows]. fold id. fold newrow.
    rewrite find_app_last; [cbn; now rewrite Z.eqb_refl|].
    eapply List.Forall_impl; [|exact Hkeys]. intros y Hy. cbv beta in Hy.
    apply Z.eqb_neq. unfold id. lia. }
  destruct (generatePresentation_returns env id w2 newrow Hdb Hdisk Hfind)
    as (html & w3 & E3 & Hfiles & _ & Hdb3).
  cbv zeta in E3. rewrite E3. io_step.
  exists {| ResearchWorkflow.wr_topicId := id;
            ResearchWorkflow.wr_topic := MediaAgent.topic r;
            ResearchWorkflow.wr_mediaCount := MediaAgent.mediaCount r;
            ResearchWorkflow.wr_presentationUrl :=
              "/presentations/" +:+ PresentationBuilder.page_filename (tr_topic newrow) id;
            ResearchWorkflow.wr_presentationPath :=
              path_join (PresentationBuilder.presentationsDir env)
                (PresentationBuilder.page_filename (tr_topic newrow) id) |}.
  do 3 eexists. split; [reflexivity|].
  cbn [ResearchWorkflow.wr_topicId ResearchWorkflow.wr_topic
       ResearchWorkflow.wr_mediaCount ResearchWorkflow.wr_presentationUrl
       ResearchWorkflow.wr_presentationPath files db set_console].
  rewrite Hfiles, Hdb3.
  destruct (mark_generated_keeps id
              (set_presentations
                 (insert_row
                    (PresentationBuilder.new_presentation_row id (tr_topic newrow) html
                       (path_join (PresentationBuilder.presentationsDir env)
                          (PresentationBuilder.page_filename (tr_topic newrow) id))
                       (db_time env (6 + tick w2)))
                    (presentations (db w2))) (db w2))) as (_ & K2 & K3).
  rewrite K2, K3. cbn [topic_media presentations set_presentations insert_row rows].
  rewrite Hmedia, Hpres, List.length_app, Hcount, <- (Forall2_length _ _ _ Hlinks).
  repeat split; try reflexivity.
  - exact Ht.
  - apply lookup_insert_eq.
  - eexists. split; [|repeat split].
    unfold PresentationBuilder.mark_generated.
    cbn [topics_researched set_topics_researched set_presentations rows].
    erewrite find_map_some; [reflexivity | | exact Hfind].
    intros y. now destruct (tr_id y =? id)%Z eqn:Ey; cbn [tr_id]; rewrite ?Ey.
    all: try (subst newrow; cbn [MediaAgent.new_topic_row tr_id]; rewrite Z.eqb_refl;
      reflexivity).
  - unfold PresentationBuilder.mark_generated.
    cbn [topics_researched set_topics_researched set_presentations rows].
    rewrite List.map_map, Htab. cbn [insert_row rows]. rewrite List.map_app.
    cbn [List.map]. f_equal.
    + apply List.map_ext. intros y. now destruct (tr_id y =? id)%Z.
    + fold id. now destruct (tr_id _ =? id)%Z.
  - unfold PresentationBuilder.mark_generated.
    cbn [topics_researched set_topics_researched set_presentations last_id].
    rewrite Htab. reflexivity.
  - exact Hht.
Qed.


(** A first query about a topic, with a network, a disk and a database
    that answer, and a table [topics_researched] whose keys are at most the
    last key handed out.  The workflow returns; the topic it extracted from
    the message is stored under a new key; the page of that very row is
    written to the file named in the result and stored as the last row of
    [presentations]; the row is marked as presented; and [mediaCount] is
    the number of rows added to [topic_media]. *)
Theorem processUserQuery_new_page (env : Env) (message t : string) (w : World) :
  Extract.extractTopic message = Some t ->
  Str.truthy t = true ->
  (forall n, db_ok env n = true) ->
  (forall n path, disk_write_ok env n path = true) ->
  Forall (fun r => (tr_id r <= last_id (topics_researched (db w)))%Z)
    (rows (topics_researched (db w))) ->
  let id := (last_id (topics_researched (db w)) + 1)%Z in
  exists result w' html now,
    ResearchWorkflow.processUserQuery env message None w = (Returned (Some result), w') /\
    ResearchWorkflow.wr_topicId result = id /\
    ResearchWorkflow.wr_topic result = t /\
    ResearchWorkflow.wr_presentationUrl result
    = "/presentations/" +:+ PresentationBuilder.page_filename t id /\
    ResearchWorkflow.wr_presentationPath result
    = path_join (PresentationBuilder.presentationsDir env)
        (PresentationBuilder.page_filename t id) /\
    files w' !! ResearchWorkflow.wr_presentationPath result = Some html /\
    (exists row,
        List.find (fun r => (tr_id r =? id)%Z) (rows (topics_researched (db w'))) = Some row
        /\ tr_topic row = t
        /\ tr_keywords row = Extract.extractKeywords message
        /\ tr_presentation_generated row = 1%Z) /\
    rows (presentations (db w'))
    = rows (presentations (db w))
      ++ [PresentationBuilder.new_presentation_row id t html
            (ResearchWorkflow.wr_presentationPath result) now
            (last_id (presentations (db w)) + 1)%Z] /\
    List.length (rows (topic_media (db w')))
    = List.length (rows (topic_media (db w))) + ResearchWorkflow.wr_mediaCount result.
Proof.
  intros Htopic Htruthy Hdb Hdisk Hkeys id.
  destruct (processUserQuery_fresh env message t w Htopic Htruthy Hdb Hdisk Hkeys)
    as (result & w' & html & now & E & H1 & H2 & H3 & H4 & H5 & H6 & H7 & H8 & _).
  exists result, w', html, now. repeat split; assumption.
Qed.

Lemma processUserQuery_new_page_witness :
  exists result w',
    ResearchWorkflow.processUserQuery (Sample.env Sample.good_reply)
      "Tell me about Spindletop" None (Sample.world Sample.oil_db)
    = (Returned (Some result), w')
    /\ ResearchWorkflow.wr_topicId result = 2%Z
    /\ ResearchWorkflow.wr_presentationUrl result = "/presentations/spindletop-2.html".
Proof.
  destruct (processUserQuery_new_page (Sample.env Sample.good_reply)
              "Tell me about Spindletop" "Spindletop" (Sample.world Sample.oil_db))
    as (result & w' & html & now & E & Hid & _ & Hurl & _).
  - vm_compute. reflexivity.
  - reflexivity.
  - reflexivity.
  - reflexivity.
  - repeat constructor. cbn. lia.
  - exists result, w'. split; [exact E|]. split; [exact Hid|].
    rewrite Hurl. vm_compute. reflexivity.
Defined.

(** Enhancing a topic id that names no row, with a database that accepts
    the inserts: the media are collected and linked to that id all the
    same, and only then the workflow throws [Topic with ID ... not found];
    the rows it leaves in [topic_media] point to no researched topic. *)
Theorem processUserQuery_unknown_id (env : Env) (message t : string) (id : Z)
    (w : World) :
  Extract.extractTopic message = Some t ->
  Str.truthy t = true ->
  id <> 0%Z ->
  (forall n, db_ok env n = true) ->
  List.find (fun r => (tr_id r =? id)%Z) (rows (topics_researched (db w))) = None ->
  exists new w',
    ResearchWorkflow.processUserQuery env message (Some id) w
    = (Thrown (plain_error ("Topic with ID " +:+ show_Z id +:+ " not found")), w') /\
    topics_researched (db w') = topics_researched (db w) /\
    presentations (db w') = presentations (db w) /\
    rows (topic_media (db w')) = rows (topic_media (db w)) ++ new /\
    Forall (fun m => tm_topic_id m = id) new /\
    List.find (fun r => (tr_id r =? id)%Z) (rows (topics_researched (db w'))) = None.
Proof.
  intros Htopic Htruthy Hid Hdb Hnone.
  unfold ResearchWorkflow.processUserQuery. rewrite Htopic.
  cbn [MediaAgent.present default from_option Datatypes.id]. rewrite Htruthy. cbn [negb].
  io_step.
  match goal with |- context [MediaAgent.researchAndCollect env t ?kw (Some id) ?w1] =>
    destruct (researchAndCollect_existing env t kw id w1 Hid) as [T H];
    destruct (H Hdb) as (r & new & w2 & E & Hr & _ & _ & Hnew & Hlinks);
    pose proof (researchAndCollect_others env t kw (Some id) w1) as Hpres end.
  rewrite E in T, Hpres |- *. cbn [snd db set_console] in T, Hnew, Hpres.
  rewrite Hr.
  unfold PresentationBuilder.generatePresentation, PresentationBuilder.getTopicData.
  io_step. rewrite !Hdb. io_step. rewrite T, Hnone. io_step.
  exists new. eexists. split; [reflexivity|].
  cbn [db set_tick]. rewrite T, Hnew, Hpres. repeat split; [|exact Hnone].
  clear -Hlinks. induction Hlinks as [|m item new items Hm _ IH]; constructor; [|exact IH].
  apply Hm.
Qed.

Lemma processUserQuery_unknown_id_witness :
  exists w',
    ResearchWorkflow.processUserQuery (Sample.env Sample.good_reply)
      "Tell me about Spindletop" (Some 7%Z) (Sample.world Sample.oil_db)
    = (Thrown (plain_error "Topic with ID 7 not found"), w')
    /\ List.map tm_topic_id (rows (topic_media (db w'))) = [7%Z].
Proof.
  destruct (processUserQuery_unknown_id (Sample.env Sample.good_reply)
              "Tell me about Spindletop" "Spindletop" 7 (Sample.world Sample.oil_db))
    as (new & w' & E & _).
  - vm_compute. reflexivity.
  - reflexivity.
  - discriminate.
  - reflexivity.
  - reflexivity.
  - exists w'. split; [exact E|].
    assert (H : snd (ResearchWorkflow.processUserQuery (Sample.env Sample.good_reply)
                       "Tell me about Spindletop" (Some 7%Z)
                       (Sample.world Sample.oil_db)) = w') by now rewrite E.
    rewrite <- H. vm_compute. reflexivity.
Defined.

(** ** Tabs of a consolidated page *)

Lemma replace_anchored_later (fl : Regex.flags) (r : Regex.regex) (repl s : string) :
  forall pos, Regex.replace_all_go fl (Regex.RSeq Regex.RBos r) repl (S pos) 0 s = s.
Proof.
  induction s as [|c s IH]; intros pos; [reflexivity|].
  cbn [Regex.replace_all_go Regex.rmatch]. now rewrite IH.
Qed.

Lemma replace_anchored_skip (fl : Regex.flags) (r : Regex.regex) (repl : string) (n : nat) :
  forall s pos,
    Regex.replace_all_go fl (Regex.RSeq Regex.RBos r) repl (S pos) n s = Str.drop n s.
Proof.
  induction n as [|n IH]; intros s pos.
  - rewrite replace_anchored_later. now destruct s.
  - destruct s as [|c s]; [reflexivity|]. cbn [Regex.replace_all_go Str.drop]. apply IH.
Qed.

Lemma drop_run (P : ascii -> bool) (s : string) :
  Str.drop (Shape.run P s) s = Shape.drop_while P s.
Proof.
  induction s as [|c s IH]; [reflexivity|]. cbn [Shape.run Shape.drop_while].
  destruct (P c); [exact IH | reflexivity].
Qed.

(** [replace(/^[cs]+/g, '')] removes the characters of [cs] at the front. *)
Lemma replace_leading (fl : Regex.flags) (cs : Regex.cset) (s : string) :
  Regex.replace_all fl (Regex.RSeq Regex.RBos (Regex.RPlus cs)) EmptyString s
  = Shape.drop_while (Regex.cs_mem fl cs) s.
Proof.
  unfold Regex.replace_all. destruct s as [|c s]; [reflexivity|].
  cbn [Regex.replace_all_go Shape.drop_while].
  change (Regex.rmatch fl (Regex.RSeq Regex.RBos (Regex.RPlus cs)) 0 (String c s) []
            (fun t _ _ => Some (String.length t)))
    with (Regex.rmatch fl (Regex.RPlus cs) 0 (String c s) []
            (fun t _ _ => Some (String.length t))).
  rewrite match_plus. destruct (Regex.cs_mem fl cs c).
  - rewrite app_empty_l, replace_anchored_skip. apply drop_run.
  - now rewrite replace_anchored_later.
Qed.

Lemma drop_while_first (P : ascii -> bool) (s : string) :
  match Shape.drop_while P s with
  | EmptyString => True
  | String c _ => P c = false
  end.
Proof.
  induction s as [|c s IH]; [exact I|]. cbn [Shape.drop_while].
  destruct (P c) eqn:E; [exact IH | exact E].
Qed.

Lemma not_mark_is_alnum (c : ascii) :
  Regex.cs_mem Regex.flag_i (Regex.CsClass true [("a", "z"); ("0", "9")]%char) c
  = negb (Shape.is_alnum c).
Proof.
  pose proof (ascii_forall
    (fun c => Bool.eqb
       (Regex.cs_mem Regex.flag_i (Regex.CsClass true [("a", "z"); ("0", "9")]%char) c)
       (negb (Shape.is_alnum c)))) as E.
  specialize (E ltac:(vm_compute; reflexivity) c). cbv beta in E.
  now apply Bool.eqb_prop in E.
Qed.

Lemma take_length_le (n : nat) (s : string) : String.length (Str.take n s) <= n.
Proof.
  revert s. induction n as [|n IH]; intros [|c s]; cbn [Str.take String.length]; try lia.
  specialize (IH s). lia.
Qed.

(** What the label of a tab looks like, whatever the page holds. *)
Lemma tab_label_shape (index : nat) (pres : Consolidation.RelatedRow) :
  String.length (Consolidation.tab_label (Consolidation.make_tab index pres)) <= 30
  /\ Shape.alnum_first (Consolidation.tab_label (Consolidation.make_tab index pres)) = true.
Proof.
  unfold Consolidation.make_tab. cbn [Consolidation.tab_label]. split.
  - apply take_length_le.
  - unfold Consolidation.leading_marks. rewrite replace_leading.
    match goal with |- context [Shape.drop_while ?P ?s] =>
      pose proof (drop_while_first P s) as H; destruct (Shape.drop_while P s) as [|c rest] end;
      [reflexivity|].
    cbn [Str.take Shape.alnum_first]. rewrite not_mark_is_alnum in H.
    now apply Bool.negb_false_iff in H.
Qed.

Lemma imap_make_tab_ids (l : list Consolidation.RelatedRow) :
  forall k,
    List.map Consolidation.tab_id (imap (fun i => Consolidation.make_tab (k + i)) l)
    = List.map (fun i => "tab-" +:+ show_nat i) (List.seq k (List.length l)).
Proof.
  induction l as [|x l IH]; intros k; [reflexivity|].
  cbn [imap List.map List.seq List.length]. f_equal.
  - cbn [Consolidation.make_tab Consolidation.tab_id]. now rewrite Nat.add_0_r.
  - rewrite <- (IH (S k)). f_equal. apply imap_ext. intros i y _. cbn.
    now rewrite Nat.add_succ_r.
Qed.

Lemma NoDup_map_inj {A B : Type} (f : A -> B) (l : list A) :
  (forall x y, f x = f y -> x = y) -> List.NoDup l -> List.NoDup (List.map f l).
Proof.
  intros Hf. induction 1 as [|x l Hx _ IH]; cbn [List.map]; constructor; [|exact IH].
  intros Hin. apply in_map_iff in Hin as (y & Hy & Hin). apply Hf in Hy. now subst y.
Qed.

Lemma tab_ids_distinct (k n : nat) :
  List.NoDup (List.map (fun i => "tab-" +:+ show_nat i) (List.seq k n)).
Proof.
  apply NoDup_map_inj; [|apply List.seq_NoDup].
  intros i j H. apply app_inv_head_str in H. unfold show_nat in H.
  now apply (inj pretty) in H.
Qed.

Lemma imap_Forall {A B : Type} (P : B -> Prop) (f : nat -> A -> B) (l : list A) :
  (forall i x, P (f i x)) -> Forall P (imap f l).
Proof.
  revert f. induction l as [|x l IH]; intros f H; cbn [imap]; constructor; [apply H|].
  apply IH. intros i y. apply H.
Qed.

(** [createTabbedInterface] gives nothing for no presentations.  Otherwise
    it makes one tab per presentation, in their order; the ids of the tabs
    are [tab-0], [tab-1], ..., so no two tabs share an id; and every label
    has at most 30 characters and is empty or starts with a letter or a
    digit, whatever the stored pages hold. *)
Theorem createTabbedInterface_tabs (data : Consolidation.PresentationsData) :
  (Consolidation.pd_presentations data = [] ->
   Consolidation.createTabbedInterface data = None)
  /\ (Consolidation.pd_presentations data <> [] ->
      exists tabs html,
        Consolidation.createTabbedInterface data = Some (tabs, html) /\
        List.length tabs = List.length (Consolidation.pd_presentations data) /\
        List.map Consolidation.tab_id tabs
        = List.map (fun i => "tab-" +:+ show_nat i) (List.seq 0 (List.length tabs)) /\
        List.NoDup (List.map Consolidation.tab_id tabs) /\
        Forall (fun tab =>
                  String.length (Consolidation.tab_label tab) <= 30 /\
                  Shape.alnum_first (Consolidation.tab_label tab) = true) tabs).
Proof.
  unfold Consolidation.createTabbedInterface. split.
  - intros ->. reflexivity.
  - intros Hne. destruct (Consolidation.pd_presentations data) as [|p ps] eqn:E;
      [congruence|].
    do 2 eexists. split; [reflexivity|].
    pose proof (imap_make_tab_ids (p :: ps) 0) as Hids.
    cbn [Nat.add] in Hids.
    change (fun i => Consolidation.make_tab i) with Consolidation.make_tab in Hids.
    rewrite length_imap. repeat split.
    + exact Hids.
    + rewrite Hids. apply tab_ids_distinct.
    + apply imap_Forall. intros i x. apply tab_label_shape.
Qed.

Lemma createTabbedInterface_tabs_witness :
  exists tabs html,
    Consolidation.createTabbedInterface
      {| Consolidation.pd_mainTopic := "Oil & Energy";
         Consolidation.pd_displayName := Some "Oil & Energy in Southeast Texas";
         Consolidation.pd_icon := Some "*";
         Consolidation.pd_description := Some "The petroleum industry";
         Consolidation.pd_presentations :=
           Consolidation.presentations_with_topic Sample.presented_db;
         Consolidation.pd_subtopics := Some [] |}
    = Some (tabs, html)
    /\ List.map Consolidation.tab_id tabs = ["tab-0"]
    /\ List.map Consolidation.tab_label tabs = ["Spindletop"].
Proof.
  match goal with |- context [Consolidation.createTabbedInterface ?d] =>
    destruct (proj2 (createTabbedInterface_tabs d))
      as (tabs & html & E & Hlen & Hids & _) end.
  - vm_compute. discriminate.
  - exists tabs, html. split; [exact E|].
    vm_compute in E. injection E as <- _. vm_compute. split; reflexivity.
Defined.

(** ** Consolidated pages *)

Lemma hierarchy_at_entry_inv (mainTopic : string) (h : Consolidation.Hierarchy) :
  Consolidation.hierarchy_at mainTopic = Some (Consolidation.Entry h) ->
  Consolidation.getTopicHierarchies !! mainTopic = Some h.
Proof.
  unfold Consolidation.hierarchy_at.
  destruct (Consolidation.getTopicHierarchies !! mainTopic) as [h'|].
  - now intros [= ->].
  - destruct (Str.mem mainTopic Consolidation.prototype_keys); discriminate.
Qed.

(** The steps after the presentations were found, whatever the outside
    answers. *)
Lemma consolidate_found_outcome (env : Env) (mainTopic : string)
    (data : Consolidation.PresentationsData) (w : World) :
  Consolidation.pd_presentations data <> [] ->
  exists o w',
    Consolidation.consolidate_found env mainTopic data w = (Returned o, w') /\
    requests w' = requests w /\
    match o with
    | None => files w' = files w /\ db w' = db w
    | Some saved =>
        (exists now,
            Consolidation.sf_filename saved
            = MediaAgent.slug mainTopic +:+ "-consolidated-" +:+ show_Z now +:+ ".html") /\
        Consolidation.sf_filepath saved
        = path_join (Consolidation.presentationsDir env) (Consolidation.sf_filename saved) /\
        Consolidation.sf_url saved = "/presentations/" +:+ Consolidation.sf_filename saved /\
        (exists html, files w' = <[Consolidation.sf_filepath saved := html]> (files w)) /\
        (db w' = db w \/
         exists name now,
           Consolidation.pd_displayName data = Some name /\
           db w' = set_consolidated_pages
                     (insert_row
                        (Consolidation.new_consolidated_row mainTopic name
                           (Consolidation.sf_filepath saved) now)
                        (consolidated_pages (db w)))
                     (db w))
    end.
Proof.
  intros Hne.
  unfold Consolidation.consolidate_found, Consolidation.generateConsolidatedPage,
    Consolidation.createTabbedInterface, Consolidation.saveConsolidatedPage,
    Consolidation.storeConsolidatedPage.
  destruct (Consolidation.pd_presentations data) as [|first rest]; [congruence|].
  io_step.
  cbn [MediaAgent.present negb default from_option Datatypes.id].
  rewrite consolidated_html_truthy. cbn [negb]. io_step.
  destruct (disk_write_ok env _ _); io_step.
  2:{ exists None. eexists. repeat split. }
  destruct (Consolidation.pd_displayName data) as [name|]; io_step.
  - destruct (db_ok env (S (S (S (tick w))))); io_step.
    + eexists (Some _). eexists. split; [reflexivity|].
      cbn [requests files db set_console set_files set_db set_tick
           Consolidation.sf_filename Consolidation.sf_filepath Consolidation.sf_url].
      repeat split; eauto.
    + eexists (Some _). eexists. split; [reflexivity|].
      cbn [requests files db set_console set_files set_db set_tick
           Consolidation.sf_filename Consolidation.sf_filepath Consolidation.sf_url].
      repeat split; eauto.
  - eexists (Some _). eexists. split; [reflexivity|].
    cbn [requests files db set_console set_files set_db set_tick
         Consolidation.sf_filename Consolidation.sf_filepath Consolidation.sf_url].
    repeat split; eauto.
Qed.

(** One call of [consolidateTopicCategory], whatever the outside answers. *)
Lemma consolidateTopicCategory_outcome (env : Env) (mainTopic : string) (w : World) :
  exists o w',
    Consolidation.consolidateTopicCategory env mainTopic w = (Returned o, w') /\
    requests w' = requests w /\
    match o with
    | None => files w' = files w /\ db w' = db w
    | Some saved =>
        (exists now,
            Consolidation.sf_filename saved
            = MediaAgent.slug mainTopic +:+ "-consolidated-" +:+ show_Z now +:+ ".html") /\
        Consolidation.sf_filepath saved
        = path_join (Consolidation.presentationsDir env) (Consolidation.sf_filename saved) /\
        Consolidation.sf_url saved = "/presentations/" +:+ Consolidation.sf_filename saved /\
        (exists html, files w' = <[Consolidation.sf_filepath saved := html]> (files w)) /\
        (db w' = db w \/
         exists h now,
           Consolidation.getTopicHierarchies !! mainTopic = Some h /\
           db w' = set_consolidated_pages
                     (insert_row
                        (Consolidation.new_consolidated_row mainTopic
                           (Consolidation.displayName h)
                           (Consolidation.sf_filepath saved) now)
                        (consolidated_pages (db w)))
                     (db w))
    end.
Proof.
  assert (Hfound : forall (data : Consolidation.PresentationsData) (w1 : World),
    Consolidation.pd_presentations data <> [] ->
    requests w1 = requests w -> files w1 = files w -> db w1 = db w ->
    (forall name, Consolidation.pd_displayName data = Some name ->
                  exists h, Consolidation.getTopicHierarchies !! mainTopic = Some h
                            /\ name = Consolidation.displayName h) ->
    exists o w',
      (let (o0, w'0) := Consolidation.consolidate_found env mainTopic data w1 in
       match o0 with
       | Returned a => (Returned a, w'0)
       | Thrown e =>
           (Returned None,
            set_console
              (console w'0
               ++ [Error ("Error consolidating " +:+ mainTopic +:+ ": " +:+ err_message e)])
              w'0)
       end) = (Returned o, w') /\
      requests w' = requests w /\
      match o with
      | None => files w' = files w /\ db w' = db w
      | Some saved =>
          (exists now,
              Consolidation.sf_filename saved
              = MediaAgent.slug mainTopic +:+ "-consolidated-" +:+ show_Z now +:+ ".html") /\
          Consolidation.sf_filepath saved
          = path_join (Consolidation.presentationsDir env) (Consolidation.sf_filename saved) /\
          Consolidation.sf_url saved = "/presentations/" +:+ Consolidation.sf_filename saved /\
          (exists html, files w' = <[Consolidation.sf_filepath saved := html]> (files w)) /\
          (db w' = db w \/
           exists h now,
             Consolidation.getTopicHierarchies !! mainTopic = Some h /\
             db w' = set_consolidated_pages
                       (insert_row
                          (Consolidation.new_consolidated_row mainTopic
                             (Consolidation.displayName h)
                             (Consolidation.sf_filepath saved) now)
                          (consolidated_pages (db w)))
                       (db w))
      end).
  { intros data w1 Hne HR HF HD Hname.
    destruct (consolidate_found_outcome env mainTopic data w1 Hne) as (o & w' & E & R & H).
    rewrite E. exists o, w'. split; [reflexivity|]. split; [now rewrite R|].
    destruct o as [saved|].
    - destruct H as (H1 & H2 & H3 & (html & H4) & H5).
      repeat split; try assumption.
      + exists html. now rewrite H4, HF.
      + destruct H5 as [H5|(name & now & Hn & H5)]; [left; now rewrite H5|].
        right. destruct (Hname name Hn) as (h & Hh & ->).
        exists h, now. split; [exact Hh|]. now rewrite H5, HD.
    - destruct H as [H1 H2]. split; [now rewrite H1 | now rewrite H2]. }
  unfold Consolidation.consolidateTopicCategory, Consolidation.findRelatedPresentations.
  destruct (Consolidation.hierarchy_at mainTopic) as [[h|]|] eqn:Hat; io_step.
  3:{ exists None. eexists. repeat split. }
  - destruct (db_ok env (tick w)); io_step.
    2:{ exists None. eexists. repeat split. }
    destruct (Consolidation.related_query _ (db w)) as [|first rest] eqn:Hq; io_step.
    { exists None. eexists. repeat split. }
    cbn [Consolidation.pd_presentations].
    apply Hfound; try reflexivity; [discriminate|].
    cbn [Consolidation.pd_displayName]. intros name [= <-].
    exists h. split; [now apply hierarchy_at_entry_inv | reflexivity].
  - destruct (db_ok env (tick w)); io_step.
    2:{ exists None. eexists. repeat split. }
    destruct (Consolidation.related_query _ (db w)) as [|first rest] eqn:Hq; io_step.
    { exists None. eexists. repeat split. }
    cbn [Consolidation.pd_presentations].
    apply Hfound; try reflexivity; [discriminate|].
    cbn [Consolidation.pd_displayName]. discriminate.
Qed.

(** [consolidateTopicCategory] asks nothing of the network and changes at
    most one table.  When it returns nothing, no file and no row was
    written.  When it returns a descriptor, the file of that descriptor was
    written, its URL is [/presentations/] followed by the file name, and
    the database is either unchanged or has one new row of
    [consolidated_pages], for this category and with the path of that
    file. *)
Theorem consolidation_rows_follow_files (env : Env) (mainTopic : string) (w : World) :
  let run := Consolidation.consolidateTopicCategory env mainTopic w in
  requests (snd run) = requests w /\
  topics_researched (db (snd run)) = topics_researched (db w) /\
  topic_media (db (snd run)) = topic_media (db w) /\
  presentations (db (snd run)) = presentations (db w) /\
  match fst run with
  | Thrown _ => False
  | Returned None => files (snd run) = files w /\ db (snd run) = db w
  | Returned (Some saved) =>
      Consolidation.sf_url saved = "/presentations/" +:+ Consolidation.sf_filename saved /\
      Consolidation.sf_filepath saved
      = path_join (Consolidation.presentationsDir env) (Consolidation.sf_filename saved) /\
      is_Some (files (snd run) !! Consolidation.sf_filepath saved) /\
      (forall k, k <> Consolidation.sf_filepath saved ->
                 files (snd run) !! k = files w !! k) /\
      (db (snd run) = db w \/
       exists row,
         rows (consolidated_pages (db (snd run)))
         = rows (consolidated_pages (db w)) ++ [row] /\
         cp_main_topic row = mainTopic /\
         cp_html_path row = Consolidation.sf_filepath saved)
  end.
Proof.
  cbv zeta.
  destruct (consolidateTopicCategory_outcome env mainTopic w) as (o & w' & E & R & H).
  rewrite E. cbn [fst snd]. split; [exact R|].
  destruct o as [saved|].
  - destruct H as (_ & Hpath & Hurl & (html & Hf) & Hdb).
    assert (Hsame : topics_researched (db w') = topics_researched (db w)
                    /\ topic_media (db w') = topic_media (db w)
                    /\ presentations (db w') = presentations (db w)).
    { destruct Hdb as [-> | (h & now & _ & ->)]; repeat split. }
    destruct Hsame as (S1 & S2 & S3). repeat split; try assumption.
    + rewrite Hf. apply lookup_insert_is_Some'. now left.
    + intros k Hk. rewrite Hf. now apply lookup_insert_ne.
    + destruct Hdb as [-> | (h & now & _ & ->)]; [now left|].
      right. eexists. cbn [consolidated_pages set_consolidated_pages insert_row rows].
      repeat split.
  - destruct H as [Hf Hdb]. rewrite Hdb. repeat split. exact Hf.
Qed.

(** ** All categories *)

Lemma entries_order :
  List.map fst AllCategories.entries = AllCategories.category_order
  /\ list_to_map AllCategories.entries = Consolidation.getTopicHierarchies.
Proof. split; [vm_compute; reflexivity | reflexivity]. Qed.

(** No stored presentation: a call finds nothing and writes nothing. *)
Lemma consolidate_nothing_stored (env : Env) (mainTopic : string) (w : World) :
  rows (presentations (db w)) = [] ->
  exists w',
    Consolidation.consolidateTopicCategory env mainTopic w = (Returned None, w') /\
    files w' = files w /\ db w' = db w.
Proof.
  intros Hempty.
  unfold Consolidation.consolidateTopicCategory, Consolidation.findRelatedPresentations.
  destruct (Consolidation.hierarchy_at mainTopic) as [[h|]|]; io_step.
  3:{ eexists. repeat split. }
  all: destruct (db_ok env (tick w)); io_step; [|eexists; repeat split].
  all: unfold Consolidation.related_query, Consolidation.presentations_with_topic;
    rewrite Hempty; cbn [List.flat_map List.filter Sql.order_by]; io_step;
    eexists; repeat split.
Qed.

(** The loop over the categories. *)
Lemma consolidate_each_outcome (env : Env)
    (cats : list (string * Consolidation.Hierarchy)) :
  forall w,
    exists results new w',
      AllCategories.consolidate_each env cats w = (Returned results, w') /\
      sublist (List.map AllCategories.cr_category results) (List.map fst cats) /\
      requests w' = requests w /\
      topics_researched (db w') = topics_researched (db w) /\
      topic_media (db w') = topic_media (db w) /\
      presentations (db w') = presentations (db w) /\
      rows (consolidated_pages (db w')) = rows (consolidated_pages (db w)) ++ new /\
      List.length new <= List.length results /\
      (forall k, is_Some (files w !! k) -> is_Some (files w' !! k)) /\
      Forall (fun r =>
                AllCategories.cr_url r = "/presentations/" +:+ AllCategories.cr_file r /\
                is_Some (files w' !! path_join (Consolidation.presentationsDir env)
                                       (AllCategories.cr_file r))) results /\
      (rows (presentations (db w)) = [] ->
       results = [] /\ files w' = files w /\ db w' = db w).
Proof.
  induction cats as [|[mainTopic h] cats IH]; intros w.
  - exists [], [], w. cbn. rewrite app_nil_r. repeat split; auto; constructor.
  - cbn [AllCategories.consolidate_each].
    destruct (consolidateTopicCategory_outcome env mainTopic w) as (o & w1 & E & R & H).
    unfold bind at 1. rewrite E. unfold AllCategories.sleep. io_step.
    set (w2 := set_tick (S (tick w1)) w1).
    destruct (IH w2)
      as (more & new2 & w3 & E3 & S3 & R3 & T3 & M3 & P3 & C3 & L3 & G3 & F3 & N3).
    rewrite E3. subst w2.
    cbn [requests db files set_tick] in R3, T3, M3, P3, C3, G3, N3.
    destruct o as [saved|].
    + destruct H as (_ & Hpath & Hurl & (html & Hf) & Hdb).
      assert (Hdb' : topics_researched (db w1) = topics_researched (db w)
                     /\ topic_media (db w1) = topic_media (db w)
                     /\ presentations (db w1) = presentations (db w)
                     /\ exists new1, rows (consolidated_pages (db w1))
                                     = rows (consolidated_pages (db w)) ++ new1
                                     /\ List.length new1 <= 1).
      { destruct Hdb as [-> | (h' & now & _ & ->)].
        - repeat split. exists []. rewrite app_nil_r. split; [reflexivity | cbn; lia].
        - repeat split. eexists. split; [reflexivity | cbn; lia]. }
      destruct Hdb' as (D1 & D2 & D3 & new1 & D4 & D5).
      exists (AllCategories.category_result mainTopic saved :: more), (new1 ++ new2), w3.
      split; [reflexivity|]. cbn [List.map fst AllCategories.cr_category
                                   AllCategories.category_result List.length].
      repeat split.
      * now apply sublist_skip.
      * congruence.
      * congruence.
      * congruence.
      * congruence.
      * rewrite C3, D4, <- app_assoc. reflexivity.
      * rewrite List.length_app. lia.
      * intros k Hk. apply G3. rewrite Hf. apply lookup_insert_is_Some'. now right.
      * constructor; [|exact F3].
        cbn [AllCategories.cr_url AllCategories.cr_file AllCategories.category_result].
        split; [exact Hurl|]. apply G3. rewrite <- Hpath, Hf.
        apply lookup_insert_is_Some'. now left.
      * exfalso.
        match goal with Hn : rows (presentations (db w)) = [] |- _ =>
          destruct (consolidate_nothing_stored env mainTopic w Hn) as (w1' & E' & _) end.
        rewrite E in E'. discriminate.
      * exfalso.
        match goal with Hn : rows (presentations (db w)) = [] |- _ =>
          destruct (consolidate_nothing_stored env mainTopic w Hn) as (w1' & E' & _) end.
        rewrite E in E'. discriminate.
      * exfalso.
        match goal with Hn : rows (presentations (db w)) = [] |- _ =>
          destruct (consolidate_nothing_stored env mainTopic w Hn) as (w1' & E' & _) end.
        rewrite E in E'. discriminate.
    + destruct H as [Hf Hdb]. rewrite Hdb in *. rewrite Hf in *.
      exists more, new2, w3. split; [reflexivity|]. cbn [List.map fst].
      repeat split; try assumption; try congruence.
      * now apply sublist_cons.
      * match goal with Hn : rows _ = [] |- _ => now destruct (N3 Hn) as (? & ? & ?) end.
      * match goal with Hn : rows _ = [] |- _ => now destruct (N3 Hn) as (? & ? & ?) end.
      * match goal with Hn : rows _ = [] |- _ => now destruct (N3 Hn) as (? & ? & ?) end.
Qed.

(** The run over all categories, whatever the outside answers. *)
Lemma consolidate_all_outcome (env : Env) (w : World) :
  exists results w',
    AllCategories.consolidateAllCategories env w = (Returned results, w') /\
    sublist (List.map AllCategories.cr_category results) AllCategories.category_order /\
    Forall (fun r =>
              AllCategories.cr_url r = "/presentations/" +:+ AllCategories.cr_file r /\
              is_Some (files w' !! path_join (Consolidation.presentationsDir env)
                                     (AllCategories.cr_file r))) results.
Proof.
  unfold AllCategories.consolidateAllCategories. unfold log at 1. unfold bind at 1.
  set (w0 := set_console _ w).
  destruct (consolidate_each_outcome env AllCategories.entries w0)
    as (results & new & w1 & E & S & R & T & M & P & C & L & G & F & N).
  rewrite (run_bind _ _ _ _ _ E). io_step.
  exists results. eexists. split; [reflexivity|].
  cbn [files set_console]. rewrite (proj1 entries_order) in S. split; assumption.
Qed.

(** [consolidateAllCategories] always returns.  Its results name
    categories of the table, in the order of the table and each at most
    once; every result names a file that is in the presentations directory
    when the run ends, under the URL [/presentations/] followed by the file
    name; the run asks nothing of the network, leaves [topics_researched],
    [topic_media] and [presentations] alone, and adds at most one row of
    [consolidated_pages] per result.  With no stored presentation the
    result is empty and nothing is written. *)
Theorem consolidateAllCategories_results (env : Env) (w : World) :
  exists results new w',
    AllCategories.consolidateAllCategories env w = (Returned results, w') /\
    sublist (List.map AllCategories.cr_category results)
      ["Oil & Energy"; "Lumber Industry"; "Shipbuilding"] /\
    Forall (fun r => is_Some (Consolidation.getTopicHierarchies
                                !! AllCategories.cr_category r)) results /\
    Forall (fun r =>
              AllCategories.cr_url r = "/presentations/" +:+ AllCategories.cr_file r /\
              is_Some (files w' !! path_join (Consolidation.presentationsDir env)
                                     (AllCategories.cr_file r))) results /\
    requests w' = requests w /\
    topics_researched (db w') = topics_researched (db w) /\
    topic_media (db w') = topic_media (db w) /\
    presentations (db w') = presentations (db w) /\
    rows (consolidated_pages (db w')) = rows (consolidated_pages (db w)) ++ new /\
    List.length new <= List.length results /\
    (rows (presentations (db w)) = [] ->
     results = [] /\ files w' = files w /\ db w' = db w).
Proof.
  unfold AllCategories.consolidateAllCategories. unfold log at 1. unfold bind at 1.
  set (w0 := set_console _ w).
  destruct (consolidate_each_outcome env AllCategories.entries w0)
    as (results & new & w1 & E & S & R & T & M & P & C & L & G & F & N).
  rewrite (run_bind _ _ _ _ _ E). io_step.
  exists results, new. eexists. split; [reflexivity|].
  cbn [requests db files set_console].
  rewrite (proj1 entries_order) in S.
  repeat split; try assumption.
  - clear -S. rewrite Forall_forall. intros r Hr.
    assert (Hin : AllCategories.cr_category r ∈ AllCategories.category_order).
    { apply (sublist_subseteq _ _ S). apply list_elem_of_In, in_map.
      now apply list_elem_of_In. }
    unfold AllCategories.category_order in Hin.
    repeat (apply elem_of_cons in Hin as [-> | Hin]; [vm_compute; eauto|]).
    now apply elem_of_nil in Hin.
  - match goal with Hn : rows _ = [] |- _ => now destruct (N Hn) as (? & ? & ?) end.
  - match goal with Hn : rows _ = [] |- _ => now destruct (N Hn) as (? & ? & ?) end.
  - match goal with Hn : rows _ = [] |- _ => now destruct (N Hn) as (? & ? & ?) end.
Qed.

Lemma consolidateAllCategories_results_witness :
  exists w',
    AllCategories.consolidateAllCategories (Sample.env Sample.good_reply)
      (Sample.world Sample.oil_db) = (Returned [], w')
    /\ files w' = ∅ /\ db w' = Sample.oil_db.
Proof.
  destruct (consolidateAllCategories_results (Sample.env Sample.good_reply)
              (Sample.world Sample.oil_db))
    as (results & new & w' & E & _ & _ & _ & _ & _ & _ & _ & _ & _ & H).
  destruct (H eq_refl) as (-> & Hf & Hd).
  exists w'. repeat split; assumption.
Defined.

(** ** The heading of a generated page *)

Lemma mismatch_prefix (fold : ascii -> ascii) (p s X : string) :
  Shape.mismatch fold p s = true -> Str.prefix_by fold p (s +:+ X) = false.
Proof.
  revert s. induction p as [|a p IH]; intros [|b s]; cbn [Shape.mismatch]; try discriminate.
  rewrite app_cons. cbn [Str.prefix_by].
  destruct (Chars.eqb (fold a) (fold b)); [apply IH | reflexivity].
Qed.

Lemma match_here_lit_fails (l : string) (r : Regex.regex) (before s : string) :
  Str.prefix_by Chars.canonicalize l s = false ->
  Regex.match_here Regex.flag_i (Regex.RSeq (Regex.lit l) r) before s = None.
Proof.
  intros H. unfold Regex.match_here. cbn [Regex.rmatch]. now rewrite rmatch_lit, H.
Qed.

(** A search for an expression that opens with a literal passes over a
    text in which the literal cannot start. *)
Lemma search_skip_clear (l : string) (r : Regex.regex) (A : string) :
  Shape.clear_of Chars.canonicalize l A = true ->
  forall X before,
    Regex.search_from Regex.flag_i (Regex.RSeq (Regex.lit l) r) before (A +:+ X)
    = Regex.search_from Regex.flag_i (Regex.RSeq (Regex.lit l) r) (before +:+ A) X.
Proof.
  induction A as [|c A IH]; intros H X before.
  - now rewrite app_empty_l, app_empty_r.
  - cbn [Shape.clear_of] in H. apply andb_prop in H as [Hm Hc].
    rewrite app_cons. cbn [Regex.search_from].
    rewrite match_here_lit_fails
      by (rewrite <- app_cons; now apply mismatch_prefix).
    rewrite IH by exact Hc. now rewrite app_assoc_str.
Qed.

Lemma clear_of_chars (c0 : ascii) (l A : string) :
  Shape.all_chars
    (fun c => negb (Chars.eqb (Chars.canonicalize c0) (Chars.canonicalize c))) A = true ->
  Shape.clear_of Chars.canonicalize (String c0 l) A = true.
Proof.
  induction A as [|c A IH]; [reflexivity|]. cbn [Shape.all_chars Shape.clear_of Shape.mismatch].
  intros H. apply andb_prop in H as [Hc HA]. apply Bool.negb_true_iff in Hc.
  now rewrite Hc, IH.
Qed.

Lemma title_char_not_open (c : ascii) :
  Shape.title_char c = true ->
  Chars.eqb (Chars.canonicalize "<") (Chars.canonicalize c) = false
  /\ Regex.cs_mem Regex.flag_i Regex.CsAny c = true.
Proof.
  pose proof (ascii_forall
    (fun c => implb (Shape.title_char c)
                (negb (Chars.eqb (Chars.canonicalize "<") (Chars.canonicalize c))
                 && Regex.cs_mem Regex.flag_i Regex.CsAny c))) as E.
  specialize (E ltac:(vm_compute; reflexivity) c). cbv beta in E.
  intros H. rewrite H in E. cbn [implb] in E. apply andb_prop in E as [E1 E2].
  apply Bool.negb_true_iff in E1. now split.
Qed.

Lemma title_chars_clear (l A : string) :
  Shape.all_chars Shape.title_char A = true ->
  Shape.clear_of Chars.canonicalize (String "<" l) A = true.
Proof.
  intros H. apply clear_of_chars. eapply all_chars_weaken; [|exact H].
  intros c Hc. apply title_char_not_open in Hc as [Hc _]. now rewrite Hc.
Qed.

(** The lazy [cs*?] passes over a text of characters of [cs] at which
    what follows the star cannot match. *)
Lemma star_lazy_skip {R : Type} (fl : Regex.flags) (cs : Regex.cset)
    (caps : Regex.captures) (k : string -> string -> Regex.captures -> option R)
    (P : ascii -> bool) (A X : string) :
  (forall acc c s, P c = true -> k acc (String c s) caps = None) ->
  Shape.all_chars (fun c => P c && Regex.cs_mem fl cs c) A = true ->
  forall acc,
    Regex.star_lazy fl cs caps k acc (A +:+ X)
    = Regex.star_lazy fl cs caps k (acc +:+ A) X.
Proof.
  intros Hk. induction A as [|c A IH]; intros H acc.
  - now rewrite app_empty_l, app_empty_r.
  - cbn [Shape.all_chars] in H. apply andb_prop in H as [Hc HA].
    apply andb_prop in Hc as [Hp Hm].
    rewrite app_cons. cbn [Regex.star_lazy]. rewrite (Hk _ _ _ Hp), Hm.
    rewrite IH by exact HA. now rewrite app_assoc_str.
Qed.

Lemma prefix_self (fold : ascii -> ascii) (l X : string) :
  Str.prefix_by fold l (l +:+ X) = true.
Proof.
  induction l as [|a l IH]; [reflexivity|]. rewrite app_cons. cbn [Str.prefix_by].
  now rewrite chars_eqb_refl, IH.
Qed.

Lemma take_app_length (l X : string) : Str.take (String.length l) (l +:+ X) = l.
Proof.
  induction l as [|a l IH]; [now destruct X|]. rewrite app_cons.
  cbn [String.length Str.take]. now rewrite IH.
Qed.

(** Where a heading stands, the title pattern matches it, and its group
    is the text of the heading. *)
Lemma match_title_here (before body rest : string) :
  Shape.all_chars Shape.title_char body = true ->
  Regex.m_group 1 <$>
    Regex.match_here Regex.flag_i Consolidation.title_pattern before
      ("<h1" +:+ ">" +:+ body +:+ "</h1>" +:+ rest)
  = Some (Some body).
Proof.
  intros Hbody. unfold Regex.match_here, Consolidation.title_pattern.
  cbn [Regex.seqs Regex.rmatch].
  rewrite rmatch_lit, prefix_self, take_app_length, drop_app_length.
  rewrite app_cons, app_empty_l. cbn [Regex.star_greedy].
  replace (Regex.cs_mem Regex.flag_i (Regex.CsClass true [(">", ">")]%char) ">"%char)
    with false by (vm_compute; reflexivity).
  change (String ">" (body +:+ "</h1>" +:+ rest)) with (">" +:+ body +:+ "</h1>" +:+ rest).
  rewrite rmatch_lit, prefix_self, take_app_length, drop_app_length.
  rewrite (star_lazy_skip _ _ _ _ (fun c => negb (Chars.eqb c "<"))).
  - rewrite app_cons. cbn [Regex.star_lazy].
    change (String "<" ("/h1>" +:+ rest)) with ("</h1>" +:+ rest).
    rewrite rmatch_lit, prefix_self. cbn [fmap option_fmap option_map].
    unfold Regex.m_group, Regex.capture. cbn [Regex.m_caps List.find fst snd Nat.eqb].
    rewrite app_empty_l. reflexivity.
  - intros acc c s Hc. rewrite rmatch_lit. cbn [Str.prefix_by].
    replace (Chars.eqb (Chars.canonicalize "<") (Chars.canonicalize c)) with false;
      [reflexivity|].
    symmetry. revert Hc. pose proof (ascii_forall
      (fun c => implb (negb (Chars.eqb c "<"))
                  (negb (Chars.eqb (Chars.canonicalize "<") (Chars.canonicalize c))))) as E.
    specialize (E ltac:(vm_compute; reflexivity) c). cbv beta in E.
    intros Hc. rewrite Hc in E. now apply Bool.negb_true_iff in E.
  - eapply all_chars_weaken; [|exact Hbody]. intros c Hc.
    destruct (title_char_not_open c Hc) as [_ Hany]. rewrite Hany.
    unfold Shape.title_char in Hc. apply andb_prop in Hc as [Hc _]. now rewrite Hc.
Qed.

Lemma drop_while_app_all (P : ascii -> bool) (A X : string) :
  Shape.all_chars P A = true -> Shape.drop_while P (A +:+ X) = Shape.drop_while P X.
Proof.
  induction A as [|c A IH]; [reflexivity|]. cbn [Shape.all_chars].
  intros H. apply andb_prop in H as [Hc HA]. rewrite app_cons.
  cbn [Shape.drop_while]. rewrite Hc. now apply IH.
Qed.

Lemma drop_while_ext (P Q : ascii -> bool) (s : string) :
  (forall c, P c = Q c) -> Shape.drop_while P s = Shape.drop_while Q s.
Proof.
  intros H. induction s as [|c s IH]; [reflexivity|]. cbn [Shape.drop_while].
  now rewrite H, IH.
Qed.

Lemma search_from_here (fl : Regex.flags) (r : Regex.regex) (before s : string)
    (m : Regex.match_result) :
  Regex.match_here fl r before s = Some m -> Regex.search_from fl r before s = Some m.
Proof. intros H. destruct s; cbn [Regex.search_from]; now rewrite H. Qed.

(** The title that [extractContentSections] reads off a generated page. *)
Lemma title_of_page (topic gallery facts generated : string) :
  Shape.all_chars Shape.title_char topic = true ->
  Consolidation.sec_title
    (Consolidation.extractContentSections
       (PresentationBuilder.page_template topic gallery facts generated))
  = "🏛️ " +:+ topic.
Proof.
  intros Htopic. unfold Consolidation.extractContentSections.
  cbn [Consolidation.sec_title].
  unfold Regex.search, PresentationBuilder.page_template. cbn [Str.concat].
  unfold Consolidation.title_pattern. cbn [Regex.seqs].
  repeat first
    [ rewrite search_skip_clear by (vm_compute; reflexivity)
    | rewrite search_skip_clear by (apply title_chars_clear; exact Htopic) ].
  match goal with |- context [Regex.search_from _ _ _ (?chunk +:+ topic +:+ ?close +:+ ?rest)] =>
    let a := eval vm_compute in (Str.take 14 chunk) in
    let b := eval vm_compute in (Str.drop 18 chunk) in
    let c := eval vm_compute in (Str.drop 5 close) in
    replace chunk with (a +:+ "<h1" +:+ ">" +:+ b) by (vm_compute; reflexivity);
    replace close with ("</h1>" +:+ c) by (vm_compute; reflexivity);
    rewrite !(app_assoc_str a), !(app_assoc_str "<h1"), !(app_assoc_str ">"),
      (app_assoc_str "</h1>");
    rewrite (search_skip_clear "<h1" _ a) by (vm_compute; reflexivity);
    rewrite <- (app_assoc_str b topic)
  end.
  match goal with |- context [Regex.search_from _ ?r ?before ?s] =>
    pose proof (match_title_here before ("🏛️ " +:+ topic)) as Hm;
    change (Regex.search_from Regex.flag_i r before s)
      with (Regex.search_from Regex.flag_i Consolidation.title_pattern before s)
  end.
  match goal with |- context [Regex.search_from _ _ ?before (_ +:+ _ +:+ _ +:+ _ +:+ ?rest)] =>
    specialize (Hm rest) end.
  assert (Hbody : Shape.all_chars Shape.title_char ("🏛️ " +:+ topic) = true)
    by (rewrite all_chars_app, Htopic; vm_compute; reflexivity).
  specialize (Hm Hbody).
  match type of Hm with context [Regex.match_here ?f ?r ?b ?s] =>
    destruct (Regex.match_here f r b s) as [m|] eqn:Em; [|discriminate Hm] end.
  rewrite (search_from_here _ _ _ _ _ Em).
  cbn [fmap option_fmap option_map] in Hm. injection Hm as Hm.
  unfold Consolidation.group1_or. rewrite Hm. reflexivity.
Qed.

(** The tab that the consolidation makes of a page that
    [generatePresentation] wrote, for a topic without [<] and without a
    line break: the title read off the page is the pictograph of the
    heading followed by the topic, and the label of the tab is the topic
    without what precedes its first letter or digit, cut to 30
    characters. *)
Theorem generated_page_tab_label (topic : string)
    (allMedia : list PresentationBuilder.GalleryItem)
    (facts : list PresentationBuilder.FactView) (generated : string)
    (index : nat) (row : Consolidation.RelatedRow) :
  Shape.all_chars Shape.title_char topic = true ->
  p_content (Consolidation.rr_presentation row)
  = Some (PresentationBuilder.presentation_html topic allMedia facts generated) ->
  Consolidation.sec_title
    (Consolidation.extractContentSections
       (PresentationBuilder.presentation_html topic allMedia facts generated))
  = "🏛️ " +:+ topic
  /\ Consolidation.tab_id (Consolidation.make_tab index row) = "tab-" +:+ show_nat index
  /\ Consolidation.tab_label (Consolidation.make_tab index row)
     = Str.take 30 (Shape.drop_while (fun c => negb (Shape.is_alnum c)) topic).
Proof.
  intros Htopic Hcontent. unfold PresentationBuilder.presentation_html in *.
  split; [now apply title_of_page|]. split; [reflexivity|].
  unfold Consolidation.make_tab. cbn [Consolidation.tab_label].
  rewrite Hcontent. cbn [default from_option Datatypes.id].
  rewrite title_of_page by exact Htopic.
  unfold Consolidation.leading_marks. rewrite replace_leading.
  rewrite drop_while_app_all by (vm_compute; reflexivity).
  f_equal. apply drop_while_ext. apply not_mark_is_alnum.
Qed.

Lemma generated_page_tab_label_witness :
  Consolidation.tab_label
    (Consolidation.make_tab 0
       {| Consolidation.rr_presentation :=
            {| p_id := 1; p_topic_id := 1; p_title := "Spindletop";
               p_content := Some (PresentationBuilder.presentation_html
                                    "(the) Spindletop gusher and the boom of 1901" [] []
                                    "11/14/2023, 10:13:20 PM");
               p_html_path := None; p_created_at := "2023-11-14 22:13:25" |};
          Consolidation.rr_research_topic := "Spindletop";
          Consolidation.rr_keywords := [] |})
  = "the) Spindletop gusher and the".
Proof.
  match goal with |- Consolidation.tab_label (Consolidation.make_tab 0 ?row) = _ =>
    rewrite (proj2 (proj2 (generated_page_tab_label
                             "(the) Spindletop gusher and the boom of 1901" [] []
                             "11/14/2023, 10:13:20 PM" 0 row eq_refl eq_refl))) end.
  vm_compute. reflexivity.
Defined.

(** * Further properties: the scripts and the server *)

(** ** The query of the population scripts *)

Lemma prefix_canon_app (l l' X : string) :
  String.length l = String.length l' ->
  Str.prefix_by Chars.canonicalize l l' = true ->
  Str.prefix_by Chars.canonicalize l (l' +:+ X) = true
  /\ Str.take (String.length l) (l' +:+ X) = l'
  /\ Str.drop (String.length l) (l' +:+ X) = X.
Proof.
  revert l'. induction l as [|a l IH]; intros [|b l'] Hlen Hp; try discriminate.
  - repeat split; now destruct X.
  - cbn [String.length] in Hlen. injection Hlen as Hlen.
    cbn [Str.prefix_by] in Hp. apply andb_prop in Hp as [Hab Hp].
    destruct (IH l' Hlen Hp) as (H1 & H2 & H3).
    rewrite app_cons. cbn [Str.prefix_by String.length Str.take Str.drop].
    rewrite Hab, H1, H2, H3. repeat split.
Qed.

Lemma question_char_facts (c : ascii) :
  Populate.question_char c = true ->
  Chars.eqb (Chars.canonicalize "?") (Chars.canonicalize c) = false
  /\ Regex.cs_mem Regex.flag_i Regex.CsAny c = true.
Proof.
  pose proof (ascii_forall
    (fun c => implb (Populate.question_char c)
                (negb (Chars.eqb (Chars.canonicalize "?") (Chars.canonicalize c))
                 && Regex.cs_mem Regex.flag_i Regex.CsAny c))) as E.
  specialize (E ltac:(vm_compute; reflexivity) c). cbv beta in E.
  intros H. rewrite H in E. cbn [implb] in E. apply andb_prop in E as [E1 E2].
  apply Bool.negb_true_iff in E1. now split.
Qed.

(** "Tell me about BODY", for a body without [?] and without a line
    break: the template matches at the front and its group is the body. *)
Lemma match_tell_body (lead body : string) :
  String.length lead = 14 ->
  Str.prefix_by Chars.canonicalize "tell me about " lead = true ->
  Shape.all_chars Populate.question_char body = true ->
  Regex.m_group 1 <$>
    Regex.search Regex.flag_i Extract.tell_pattern (lead +:+ body)
  = Some (Some body).
Proof.
  intros Hlen Hlead Hbody.
  destruct (prefix_canon_app "tell me about " lead body (eq_sym Hlen) Hlead)
    as (H1 & H2 & H3).
  assert (Hm : Regex.m_group 1 <$>
                 Regex.match_here Regex.flag_i Extract.tell_pattern EmptyString
                   (lead +:+ body) = Some (Some body)).
  { unfold Regex.match_here, Extract.tell_pattern, Extract.question_end.
    cbn [Regex.rmatch]. rewrite rmatch_lit, H1, H2, H3.
    rewrite <- (app_empty_r body) at 1.
    rewrite (star_lazy_skip _ _ _ _ (fun c => negb (Chars.eqb c "?"))).
    - cbn [Regex.star_lazy Regex.rmatch Regex.cs_mem].
      cbn [fmap option_fmap option_map].
      unfold Regex.m_group, Regex.capture. cbn [Regex.m_caps List.find fst snd Nat.eqb].
      now rewrite app_empty_l.
    - intros acc c s Hc. cbn [Regex.rmatch Regex.cs_mem Regex.ignoreCase Regex.flag_i].
      replace (Chars.eqb (Chars.canonicalize "?") (Chars.canonicalize c)) with false;
        [reflexivity|].
      symmetry. revert Hc. pose proof (ascii_forall
        (fun c => implb (negb (Chars.eqb c "?"))
                    (negb (Chars.eqb (Chars.canonicalize "?") (Chars.canonicalize c)))))
        as E.
      specialize (E ltac:(vm_compute; reflexivity) c). cbv beta in E.
      intros Hc. rewrite Hc in E. now apply Bool.negb_true_iff in E.
    - eapply all_chars_weaken; [|exact Hbody]. intros c Hc.
      destruct (question_char_facts c Hc) as [_ Hany]. rewrite Hany.
      unfold Populate.question_char in Hc. apply andb_prop in Hc as [Hc _].
      now rewrite Hc. }
  unfold Regex.search.
  destruct (Regex.match_here _ _ _ _) as [m|] eqn:Em; [|discriminate Hm].
  now rewrite (search_from_here _ _ _ _ _ Em).
Qed.

Lemma trim_left_first (s : string) :
  match Str.trim_left s with
  | EmptyString => True
  | String c _ => Chars.is_space c = false
  end.
Proof.
  induction s as [|c s IH]; [exact I|]. cbn [Str.trim_left].
  destruct (Chars.is_space c) eqn:E; [exact IH | exact E].
Qed.

Lemma trim_right_first (s : string) :
  match s with
  | EmptyString => True
  | String c _ => Chars.is_space c = false
  end ->
  match Str.trim_right s with
  | EmptyString => True
  | String c _ => Chars.is_space c = false
  end.
Proof.
  destruct s as [|c s]; [exact (fun H => H)|]. cbn [Str.trim_right].
  intros E. rewrite E. exact E.
Qed.

Lemma trim_first (s : string) :
  match Str.trim s with
  | EmptyString => True
  | String c _ => Chars.is_space c = false
  end.
Proof. unfold Str.trim. apply trim_right_first, trim_left_first. Qed.

Lemma trim_right_app_keep (a b : string) :
  Str.is_empty (Str.trim_right b) = false ->
  Str.trim_right (a +:+ b) = a +:+ Str.trim_right b.
Proof.
  intros Hb. induction a as [|c a IH]; [reflexivity|].
  rewrite !app_cons. cbn [Str.trim_right]. rewrite IH.
  destruct a; [cbn; destruct (Str.trim_right b); [discriminate|] |];
    now rewrite Bool.andb_false_r.
Qed.

Lemma sql_lower_space (c : ascii) :
  Chars.is_space (Chars.sql_lower c) = Chars.is_space c.
Proof.
  pose proof (ascii_forall
    (fun c => Bool.eqb (Chars.is_space (Chars.sql_lower c)) (Chars.is_space c))) as E.
  specialize (E ltac:(vm_compute; reflexivity) c). cbv beta in E.
  now apply Bool.eqb_prop in E.
Qed.

(** The topic under which the query of a name is researched is never the
    name itself, not even up to case. *)
Lemma suffixed_is_other (name : string) :
  Sql.lower_eq (Str.trim (name +:+ " in Southeast Texas history")) name = false.
Proof.
  unfold Sql.lower_eq. apply String.eqb_neq. intros E.
  destruct name as [|c name].
  - vm_compute in E. discriminate.
  - destruct (Chars.is_space c) eqn:Hc.
    + pose proof (trim_first (String c name +:+ " in Southeast Texas history")) as Hf.
      destruct (Str.trim _) as [|c' t]; [discriminate E|].
      unfold Str.sql_lower in E. cbn [Str.map] in E. injection E as E _.
      apply (f_equal Chars.is_space) in E. rewrite !sql_lower_space in E. congruence.
    + unfold Str.trim in E. rewrite app_cons in E. cbn [Str.trim_left] in E.
      rewrite Hc in E. rewrite <- app_cons in E.
      rewrite trim_right_app_keep in E by reflexivity.
      apply (f_equal String.length) in E. unfold Str.sql_lower in E.
      rewrite !map_length_str, length_app_str in E.
      change (String.length (Str.trim_right " in Southeast Texas history")) with 27 in E.
      lia.
Qed.

(** The topic extracted from the query of a plain name. *)
Lemma query_topic_plain (name : string) :
  (forall subject, In subject Extract.named_subjects ->
                   Spec.mentions_subject subject (Populate.query name) = false) ->
  Shape.all_chars Populate.question_char name = true ->
  Extract.extractTopic (Populate.query name)
  = Some (Str.trim (name +:+ " in Southeast Texas history"))
  /\ Str.truthy (Str.trim (name +:+ " in Southeast Texas history")) = true
  /\ Sql.lower_eq (Str.trim (name +:+ " in Southeast Texas history")) name = false.
Proof.
  intros Hsub Hname.
  assert (Hbody : Shape.all_chars Populate.question_char
                    (name +:+ " in Southeast Texas history") = true)
    by (rewrite all_chars_app, Hname; vm_compute; reflexivity).
  pose proof (match_tell_body "Tell me about " _ eq_refl eq_refl Hbody) as Hm.
  assert (Htruthy : Str.truthy (name +:+ " in Southeast Texas history") = true)
    by now destruct name.
  split; [|split; [|apply suffixed_is_other]].
  - unfold Extract.extractTopic, Extract.patterns, Extract.question_templates.
    cbn [Extract.first_match]. unfold Regex.search at 1.
    rewrite search_subject_none.
    2:{ destruct (existsb _ Extract.named_subjects) eqn:Ex; [|reflexivity].
        apply existsb_exists in Ex as (l & Hl & Hmention). now rewrite Hsub in Hmention. }
    change (Populate.query name)
      with ("Tell me about " +:+ name +:+ " in Southeast Texas history").
    destruct (Regex.search Regex.flag_i Extract.tell_pattern _) as [m|];
      [|discriminate Hm].
    cbn [fmap option_fmap option_map] in Hm. injection Hm as Hm.
    unfold Extract.topic_of_match. now rewrite Hm, Htruthy.
  - pose proof (trim_first (name +:+ " in Southeast Texas history")) as Hf.
    pose proof (suffixed_is_other name) as Hne.
    unfold Str.trim in *.
    destruct name as [|c name]; [reflexivity|].
    destruct (Chars.is_space c) eqn:Hc.
    + rewrite app_cons. cbn [Str.trim_left]. rewrite Hc.
      clear. induction name as [|c name IH]; [reflexivity|].
      rewrite app_cons. cbn [Str.trim_left].
      destruct (Chars.is_space c); [exact IH|].
      rewrite <- app_cons. now rewrite trim_right_app_keep by reflexivity.
    + rewrite app_cons. cbn [Str.trim_left]. rewrite Hc, <- app_cons.
      now rewrite trim_right_app_keep by reflexivity.
Qed.

(** The research query that the population scripts build for a topic
    name, when the query mentions no named subject and the name holds no
    [?] and no line break: the topic extracted from it is the name followed
    by " in Southeast Texas history" (trimmed), which differs from the name
    even when compared without case. *)
Theorem populate_query_topic (name : string) :
  (forall subject, In subject Extract.named_subjects ->
                   Spec.mentions_subject subject (Populate.query name) = false) ->
  Shape.all_chars Populate.question_char name = true ->
  Extract.extractTopic (Populate.query name)
  = Some (Str.trim (name +:+ " in Southeast Texas history"))
  /\ Str.truthy (Str.trim (name +:+ " in Southeast Texas history")) = true
  /\ Sql.lower_eq (Str.trim (name +:+ " in Southeast Texas history")) name = false.
Proof. apply query_topic_plain. Qed.


Lemma populate_query_topic_witness :
  Extract.extractTopic (Populate.query "Civil War")
  = Some "Civil War in Southeast Texas history".
Proof.
  rewrite (proj1 (populate_query_topic "Civil War"
                    ltac:(intros subject H; vm_compute in H;
                          repeat (destruct H as [<-|H]; [vm_compute; reflexivity|]);
                          destruct H)
                    eq_refl)).
  vm_compute. reflexivity.
Defined.

(** ** Populating a topic *)

Lemma existsb_map {A B : Type} (f : A -> B) (P : B -> bool) (l : list A) :
  existsb P (List.map f l) = existsb (fun x => P (f x)) l.
Proof. induction l as [|x l IH]; [reflexivity|]. cbn. now rewrite IH. Qed.

(** The topics joined to a presentation depend on the keys and the texts
    of the topic rows only. *)
Lemma joined_topics (key : Z) (T : list TopicRow) :
  List.map tr_topic (List.filter (fun t => (key =? tr_id t)%Z) T)
  = List.map snd (List.filter (fun x => (key =? fst x)%Z)
                    (List.map (fun r => (tr_id r, tr_topic r)) T)).
Proof.
  induction T as [|r T IH]; [reflexivity|]. cbn [List.map List.filter fst].
  destruct (key =? tr_id r)%Z; cbn [List.map snd]; now rewrite IH.
Qed.

Lemma join_topics (d : Database) :
  List.map Consolidation.rr_research_topic (Consolidation.presentations_with_topic d)
  = List.flat_map
      (fun p => List.map tr_topic
                  (List.filter (fun t => (p_topic_id p =? tr_id t)%Z)
                     (rows (topics_researched d))))
      (rows (presentations d)).
Proof.
  unfold Consolidation.presentations_with_topic.
  induction (rows (presentations d)) as [|p ps IH]; [reflexivity|].
  cbn [List.flat_map]. rewrite List.map_app, IH, List.map_map. reflexivity.
Qed.

(** The join after one more topic and one presentation of it. *)
Lemma join_after (d d' : Database) (id : Z) (t : string) (newp : PresentationRow) :
  Populate.keys_in_range d ->
  (last_id (topics_researched d) < id)%Z ->
  List.map (fun r => (tr_id r, tr_topic r)) (rows (topics_researched d'))
  = List.map (fun r => (tr_id r, tr_topic r)) (rows (topics_researched d)) ++ [(id, t)] ->
  rows (presentations d') = rows (presentations d) ++ [newp] ->
  p_topic_id newp = id ->
  List.map Consolidation.rr_research_topic (Consolidation.presentations_with_topic d')
  = List.map Consolidation.rr_research_topic (Consolidation.presentations_with_topic d)
    ++ [t].
Proof.
  intros [Hkeys Hrefs] Hid Htopics Hpres Hnew.
  rewrite !join_topics, Hpres, List.flat_map_app. cbn [List.flat_map].
  rewrite app_nil_r. f_equal.
  - clear Hpres. induction Hrefs as [|p ps Hp _ IH]; [reflexivity|].
    cbn [List.flat_map]. rewrite IH. f_equal.
    rewrite !joined_topics, Htopics, List.filter_app. cbn [List.filter fst].
    replace (p_topic_id p =? id)%Z with false by (symmetry; apply Z.eqb_neq; lia).
    now rewrite app_nil_r.
  - rewrite joined_topics, Htopics, List.filter_app, Hnew. cbn [List.filter fst].
    rewrite Z.eqb_refl.
    replace (List.filter (fun x => (id =? fst x)%Z)
               (List.map (fun r => (tr_id r, tr_topic r)) (rows (topics_researched d))))
      with (@nil (Z * string)); [reflexivity|].
    symmetry. clear -Hkeys Hid.
    induction Hkeys as [|r rs Hr _ IH]; [reflexivity|].
    cbn [List.map List.filter fst].
    replace (id =? tr_id r)%Z with false by (symmetry; apply Z.eqb_neq; lia).
    exact IH.
Qed.

(** One call of [processTopic] for a name without data, with an outside
    that answers. *)
Lemma processTopic_fresh (env : Env) (name icon t : string) (index total : nat)
    (w : World) :
  (forall n, db_ok env n = true) ->
  (forall n path, disk_write_ok env n path = true) ->
  Populate.keys_in_range (db w) ->
  Populate.has_row name (db w) = false ->
  Extract.extractTopic (Populate.query name) = Some t ->
  Str.truthy t = true ->
  let id := (last_id (topics_researched (db w)) + 1)%Z in
  exists n w',
    Populate.processTopic env name icon index total w
    = (Returned {| Populate.res_topic := name;
                   Populate.res_status := Populate.Success id n |}, w') /\
    Populate.keys_in_range (db w') /\
    last_id (topics_researched (db w')) = id /\
    List.map tr_topic (rows (topics_researched (db w')))
    = List.map tr_topic (rows (topics_researched (db w))) ++ [t] /\
    Populate.has_row name (db w') = Sql.lower_eq t name.
Proof.
  intros Hdb Hdisk Hrange Hnone Htopic Htruthy id.
  unfold Populate.processTopic, Populate.hasPresentation. io_step.
  rewrite Hdb. io_step. rewrite Hnone. io_step.
  match goal with |- context [ResearchWorkflow.processUserQuery env _ None ?w1] =>
    destruct (processUserQuery_fresh env (Populate.query name) t w1 Htopic Htruthy Hdb Hdisk
                (proj1 Hrange))
      as (result & w2 & html & now & E & Hid & _ & _ & _ & _ & _ & Hpres & _ & Htriples
          & Hlast & _) end.
  cbn [db set_console set_tick] in Hid, Hpres, Htriples, Hlast.
  fold id in Hid, Hpres, Htriples, Hlast.
  rewrite E. io_step. rewrite Hid.
  do 2 eexists. split; [reflexivity|]. cbn [db set_console].
  assert (Hpairs : List.map (fun r => (tr_id r, tr_topic r)) (rows (topics_researched (db w2)))
                   = List.map (fun r => (tr_id r, tr_topic r))
                       (rows (topics_researched (db w))) ++ [(id, t)]).
  { apply (f_equal (List.map (fun x : Z * string * list string => (fst (fst x), snd (fst x)))))
      in Htriples.
    rewrite List.map_app, !List.map_map in Htriples. exact Htriples. }
  destruct Hrange as [Hkeys Hrefs].
  repeat split.
  - rewrite Hlast.
    apply (proj1 (List.Forall_map tr_id (fun k => (k <= id)%Z) _)).
    apply (f_equal (List.map fst)) in Hpairs.
    rewrite List.map_app, !List.map_map in Hpairs. cbn [fst List.map] in Hpairs.
    replace (List.map tr_id (rows (topics_researched (db w2))))
      with (List.map tr_id (rows (topics_researched (db w))) ++ [id])
      by (symmetry; exact Hpairs).
    apply Forall_app. split.
    + apply (proj2 (List.Forall_map tr_id (fun k => (k <= id)%Z) _)).
      eapply List.Forall_impl; [|exact Hkeys].
      intros r Hr. cbv beta in Hr. unfold id. lia.
    + repeat constructor. lia.
  - rewrite Hlast, Hpres. apply Forall_app. split.
    + eapply List.Forall_impl; [|exact Hrefs]. intros p Hp. cbv beta in Hp. unfold id. lia.
    + repeat constructor. cbn. lia.
  - exact Hlast.
  - apply (f_equal (List.map snd)) in Hpairs.
    rewrite List.map_app, !List.map_map in Hpairs. exact Hpairs.
  - unfold Populate.has_row in *.
    rewrite <- existsb_map with (f := Consolidation.rr_research_topic)
                                (P := fun s => Sql.lower_eq s name).
    rewrite <- existsb_map with (f := Consolidation.rr_research_topic)
                                (P := fun s => Sql.lower_eq s name) in Hnone.
    rewrite (join_after (db w) (db w2) id t _ (conj Hkeys Hrefs) ltac:(unfold id; lia)
               Hpairs Hpres eq_refl).
    rewrite existsb_app, Hnone. cbn. now rewrite Bool.orb_false_r.
Qed.

(** [processTopic] does not recognise its own work.  For a name whose
    query mentions no named subject (and which holds no [?] and no line
    break), with a network, a disk and a database that answer and keys
    that respect the schema: a call for a name without data succeeds, and
    so does a second call right after it, since [hasPresentation] compares
    the name with the stored topic, which is the name followed by
    " in Southeast Texas history".  The two calls leave two researched
    topics with that same text. *)
Theorem processTopic_repeats (env : Env) (name icon : string) (index total : nat)
    (w : World) :
  (forall n, db_ok env n = true) ->
  (forall n path, disk_write_ok env n path = true) ->
  Populate.keys_in_range (db w) ->
  Populate.has_row name (db w) = false ->
  (forall subject, In subject Extract.named_subjects ->
                   Spec.mentions_subject subject (Populate.query name) = false) ->
  Shape.all_chars Populate.question_char name = true ->
  let t := Str.trim (name +:+ " in Southeast Texas history") in
  let id := (last_id (topics_researched (db w)) + 1)%Z in
  let first := Populate.processTopic env name icon index total w in
  let second := Populate.processTopic env name icon index total (snd first) in
  exists n1 n2,
    fst first = Returned {| Populate.res_topic := name;
                            Populate.res_status := Populate.Success id n1 |} /\
    fst second = Returned {| Populate.res_topic := name;
                             Populate.res_status := Populate.Success (id + 1) n2 |} /\
    Populate.has_row name (db (snd first)) = false /\
    Populate.has_row name (db (snd second)) = false /\
    List.map tr_topic (rows (topics_researched (db (snd second))))
    = List.map tr_topic (rows (topics_researched (db w))) ++ [t; t].
Proof.
  intros Hdb Hdisk Hrange Hnone Hsub Hname t id first second.
  destruct (query_topic_plain name Hsub Hname) as (Htopic & Htruthy & Hother).
  fold t in Htopic, Htruthy, Hother.
  destruct (processTopic_fresh env name icon t index total w Hdb Hdisk Hrange Hnone
              Htopic Htruthy)
    as (n1 & w1 & E1 & Hrange1 & Hlast1 & Htopics1 & Hrow1).
  rewrite Hother in Hrow1.
  assert (Hw1 : snd first = w1) by (unfold first; now rewrite E1).
  destruct (processTopic_fresh env name icon t index total w1 Hdb Hdisk Hrange1 Hrow1
              Htopic Htruthy)
    as (n2 & w2 & E2 & Hrange2 & Hlast2 & Htopics2 & Hrow2).
  rewrite Hother in Hrow2.
  assert (Hw2 : snd second = w2) by (unfold second; now rewrite Hw1, E2).
  exists n1, n2. unfold second. rewrite Hw1. unfold first. rewrite E1, E2.
  cbn [fst snd]. rewrite Hlast1. fold id.
  repeat split; try assumption.
  rewrite Htopics2, Htopics1, <- app_assoc. reflexivity.
Qed.

Lemma processTopic_repeats_witness :
  let first := Populate.processTopic (Sample.env Sample.good_reply) "Civil War" "*" 0 1
                 (Sample.world Sample.oil_db) in
  let second := Populate.processTopic (Sample.env Sample.good_reply) "Civil War" "*" 0 1
                  (snd first) in
  List.map tr_topic (rows (topics_researched (db (snd second))))
  = ["Spindletop"; "Civil War in Southeast Texas history";
     "Civil War in Southeast Texas history"].
Proof.
  intros first second.
  destruct (processTopic_repeats (Sample.env Sample.good_reply) "Civil War" "*" 0 1
              (Sample.world Sample.oil_db)) as (n1 & n2 & _ & _ & _ & _ & H).
  - reflexivity.
  - reflexivity.
  - split; [repeat constructor; cbn; lia | constructor].
  - reflexivity.
  - intros subject Hs. vm_compute in Hs.
    repeat (destruct Hs as [<-|Hs]; [vm_compute; reflexivity|]). destruct Hs.
  - reflexivity.
  - fold first second in H. rewrite H. vm_compute. reflexivity.
Defined.

(** ** Building the pages of all topics *)

Lemma order_by_nil {A : Type} (f : A -> A -> bool) (l : list A) :
  Sql.order_by f l = [] -> l = [].
Proof.
  intros H. pose proof (order_by_perm f l) as P. rewrite H in P.
  now apply Permutation_sym, Permutation_nil in P.
Qed.

(** The check of the script: a presentation is found exactly when the
    topic of some presented row matches the pattern. *)
Lemma found_latest (pattern : string) (d : Database) :
  BuildAll.found (BuildAll.latest_presentation pattern d)
  = existsb (fun s => Sql.lower_like s pattern)
      (List.map Consolidation.rr_research_topic (Consolidation.presentations_with_topic d)).
Proof.
  unfold BuildAll.latest_presentation, Consolidation.related_query.
  rewrite existsb_map.
  set (keep := fun r => existsb (Sql.lower_like (Consolidation.rr_research_topic r)) [pattern]).
  assert (Hkeep : forall r, keep r = Sql.lower_like (Consolidation.rr_research_topic r) pattern)
    by (intros r; unfold keep; cbn; apply Bool.orb_false_r).
  destruct (Sql.order_by _ _) as [|r rs] eqn:E; cbn [List.hd_error BuildAll.found].
  - apply order_by_nil in E. symmetry.
    induction (Consolidation.presentations_with_topic d) as [|x l IH]; [reflexivity|].
    cbn [List.filter existsb] in *. rewrite <- Hkeep.
    destruct (keep x); [discriminate E | now apply IH].
  - symmetry. apply existsb_exists. exists r.
    assert (Hin : In r (List.filter keep (Consolidation.presentations_with_topic d))).
    { apply (Permutation_in r (Permutation_sym (order_by_perm Consolidation.newer_first _))).
      rewrite E. now left. }
    apply List.filter_In in Hin as [Hin Hr]. split; [exact Hin|]. now rewrite <- Hkeep.
Qed.

(** The workflow for a new topic, seen from the join of presentations and
    topics. *)
Lemma workflow_join (env : Env) (message t : string) (w : World) :
  (forall n, db_ok env n = true) ->
  (forall n path, disk_write_ok env n path = true) ->
  Populate.keys_in_range (db w) ->
  Extract.extractTopic message = Some t ->
  Str.truthy t = true ->
  exists result w',
    ResearchWorkflow.processUserQuery env message None w = (Returned (Some result), w') /\
    Populate.keys_in_range (db w') /\
    historical_topics (db w') = historical_topics (db w) /\
    List.map Consolidation.rr_research_topic
      (Consolidation.presentations_with_topic (db w'))
    = List.map Consolidation.rr_research_topic
        (Consolidation.presentations_with_topic (db w)) ++ [t].
Proof.
  intros Hdb Hdisk [Hkeys Hrefs] Htopic Htruthy.
  destruct (processUserQuery_fresh env message t w Htopic Htruthy Hdb Hdisk Hkeys)
    as (result & w2 & html & now & E & Hid & _ & _ & _ & _ & _ & Hpres & _ & Htriples
        & Hlast & Hhist).
  set (id := (last_id (topics_researched (db w)) + 1)%Z) in *.
  assert (Hpairs : List.map (fun r => (tr_id r, tr_topic r)) (rows (topics_researched (db w2)))
                   = List.map (fun r => (tr_id r, tr_topic r))
                       (rows (topics_researched (db w))) ++ [(id, t)]).
  { apply (f_equal (List.map (fun x : Z * string * list string => (fst (fst x), snd (fst x)))))
      in Htriples.
    rewrite List.map_app, !List.map_map in Htriples. exact Htriples. }
  exists result, w2. split; [exact E|]. split; [|split; [exact Hhist|]].
  - split.
    + rewrite Hlast.
      apply (proj1 (List.Forall_map tr_id (fun k => (k <= id)%Z) _)).
      apply (f_equal (List.map fst)) in Hpairs.
      rewrite List.map_app, !List.map_map in Hpairs. cbn [fst List.map] in Hpairs.
      replace (List.map tr_id (rows (topics_researched (db w2))))
        with (List.map tr_id (rows (topics_researched (db w))) ++ [id])
        by (symmetry; exact Hpairs).
      apply Forall_app. split.
      * apply (proj2 (List.Forall_map tr_id (fun k => (k <= id)%Z) _)).
        eapply List.Forall_impl; [|exact Hkeys].
        intros r Hr. cbv beta in Hr. unfold id. lia.
      * repeat constructor. lia.
    + rewrite Hlast, Hpres. apply Forall_app. split.
      * eapply List.Forall_impl; [|exact Hrefs]. intros p Hp. cbv beta in Hp. unfold id. lia.
      * repeat constructor. cbn. lia.
  - apply (join_after (db w) (db w2) id t _ (conj Hkeys Hrefs) ltac:(unfold id; lia)
             Hpairs Hpres eq_refl).
Qed.

Ltac io_step2 := unfold AllCategories.sleep; io_step.

(** A topic whose page exists is passed over. *)
Lemma build_one_skips (env : Env) (name : string) (w : World) :
  existsb (fun s => Sql.lower_like s ("%" +:+ name +:+ "%"))
    (List.map Consolidation.rr_research_topic
       (Consolidation.presentations_with_topic (db w))) = true ->
  exists w',
    BuildAll.build_one env name w = (Returned tt, w') /\
    db w' = db w /\ files w' = files w /\ requests w' = requests w.
Proof.
  intros Hfound. unfold BuildAll.build_one. io_step.
  destruct (db_ok env (tick w)); io_step.
  - rewrite found_latest, Hfound. io_step. eexists. repeat split.
  - eexists. repeat split.
Qed.

Lemma plain_name_facts (name : string) :
  BuildAll.plain_name name = true ->
  (forall subject, In subject Extract.named_subjects ->
                   Spec.mentions_subject subject (Populate.query name) = false)
  /\ Shape.all_chars Populate.question_char name = true
  /\ Spec.no_wildcard name = true
  /\ Str.trim_left name = name.
Proof.
  unfold BuildAll.plain_name. intros H.
  apply andb_prop in H as [H H4]. apply andb_prop in H as [H H3].
  apply andb_prop in H as [H1 H2]. apply String.eqb_eq in H4.
  repeat split; try assumption.
  intros subject Hs. rewrite forallb_forall in H1. specialize (H1 subject Hs).
  now apply Bool.negb_true_iff in H1.
Qed.

Lemma infix_prefix_true (fold : ascii -> ascii) (p s : string) :
  Str.prefix_by fold p s = true -> Str.infix_by fold p s = true.
Proof. intros H. destruct s; cbn [Str.infix_by]; now rewrite H. Qed.

(** The stored topic of a plain name contains the name. *)
Lemma suffixed_contains (name : string) :
  Str.trim_left name = name ->
  Spec.contains_text name (Str.trim (name +:+ " in Southeast Texas history")) = true.
Proof.
  intros Hleft. unfold Spec.contains_text. apply infix_prefix_true.
  destruct name as [|c name]; [reflexivity|].
  assert (Hc : Chars.is_space c = false).
  { pose proof (trim_left_first (String c name)) as H. now rewrite Hleft in H. }
  unfold Str.trim. rewrite app_cons. cbn [Str.trim_left]. rewrite Hc, <- app_cons.
  rewrite trim_right_app_keep by reflexivity. apply prefix_self.
Qed.

(** One pass of the loop for a plain name, with an outside that
    answers: afterwards the page of the name is found. *)
Lemma build_one_builds (env : Env) (name : string) (w : World) :
  (forall n, db_ok env n = true) ->
  (forall n path, disk_write_ok env n path = true) ->
  Populate.keys_in_range (db w) ->
  BuildAll.plain_name name = true ->
  exists extra w',
    BuildAll.build_one env name w = (Returned tt, w') /\
    Populate.keys_in_range (db w') /\
    historical_topics (db w') = historical_topics (db w) /\
    List.map Consolidation.rr_research_topic
      (Consolidation.presentations_with_topic (db w'))
    = List.map Consolidation.rr_research_topic
        (Consolidation.presentations_with_topic (db w)) ++ extra /\
    existsb (fun s => Sql.lower_like s ("%" +:+ name +:+ "%"))
      (List.map Consolidation.rr_research_topic
         (Consolidation.presentations_with_topic (db w'))) = true.
Proof.
  intros Hdb Hdisk Hrange Hplain.
  destruct (existsb (fun s => Sql.lower_like s ("%" +:+ name +:+ "%"))
              (List.map Consolidation.rr_research_topic
                 (Consolidation.presentations_with_topic (db w)))) eqn:Hfound.
  - destruct (build_one_skips env name w Hfound) as (w' & E & D & _).
    exists [], w'. rewrite D, app_nil_r. repeat split; first [assumption | apply Hrange].
  - destruct (plain_name_facts name Hplain) as (Hsub & Hq & Hwild & Hleft).
    destruct (query_topic_plain name Hsub Hq) as (Htopic & Htruthy & _).
    unfold BuildAll.build_one. io_step. rewrite Hdb. io_step.
    rewrite found_latest, Hfound. io_step.
    match goal with |- context [ResearchWorkflow.processUserQuery env _ None ?w1] =>
      destruct (workflow_join env (Populate.query name) _ w1 Hdb Hdisk Hrange Htopic Htruthy)
        as (result & w2 & E & Hrange2 & Hhist & Hjoin) end.
    unfold Populate.query in E. rewrite E. io_step2.
    cbn [db set_console set_tick] in Hhist, Hjoin.
    do 2 eexists. split; [reflexivity|]. cbn [db set_console set_tick].
    repeat split; try apply Hrange2; try assumption; [exact Hjoin|].
    rewrite Hjoin, existsb_app. cbn [existsb].
    rewrite like_substring by exact Hwild.
    rewrite suffixed_contains by exact Hleft. cbn. apply Bool.orb_true_r.
Qed.

Lemma build_each_skips (env : Env) (names : list string) :
  forall w,
    (forall name, In name names ->
       existsb (fun s => Sql.lower_like s ("%" +:+ name +:+ "%"))
         (List.map Consolidation.rr_research_topic
            (Consolidation.presentations_with_topic (db w))) = true) ->
    exists w',
      BuildAll.build_each env names w = (Returned tt, w') /\
      db w' = db w /\ files w' = files w /\ requests w' = requests w.
Proof.
  induction names as [|name names IH]; intros w Hall.
  - exists w. repeat split.
  - cbn [BuildAll.build_each].
    destruct (build_one_skips env name w (Hall name (or_introl eq_refl)))
      as (w1 & E1 & D1 & F1 & R1).
    unfold bind. rewrite E1.
    destruct (IH w1) as (w2 & E2 & D2 & F2 & R2).
    { intros n Hn. rewrite D1. apply Hall. now right. }
    exists w2. rewrite E2. repeat split; congruence.
Qed.

Lemma build_each_builds (env : Env) (names : list string) :
  (forall n, db_ok env n = true) ->
  (forall n path, disk_write_ok env n path = true) ->
  Forall (fun name => BuildAll.plain_name name = true) names ->
  forall w,
    Populate.keys_in_range (db w) ->
    exists extra w',
      BuildAll.build_each env names w = (Returned tt, w') /\
      Populate.keys_in_range (db w') /\
      historical_topics (db w') = historical_topics (db w) /\
      List.map Consolidation.rr_research_topic
        (Consolidation.presentations_with_topic (db w'))
      = List.map Consolidation.rr_research_topic
          (Consolidation.presentations_with_topic (db w)) ++ extra /\
      (forall name, In name names ->
         existsb (fun s => Sql.lower_like s ("%" +:+ name +:+ "%"))
           (List.map Consolidation.rr_research_topic
              (Consolidation.presentations_with_topic (db w'))) = true).
Proof.
  intros Hdb Hdisk Hplain. induction Hplain as [|name names Hname _ IH]; intros w Hrange.
  - exists [], w. rewrite app_nil_r. repeat split; try apply Hrange. intros name [].
  - cbn [BuildAll.build_each].
    destruct (build_one_builds env name w Hdb Hdisk Hrange Hname)
      as (extra1 & w1 & E1 & Hrange1 & Hhist1 & Hjoin1 & Hfound1).
    unfold bind. rewrite E1.
    destruct (IH w1 Hrange1) as (extra2 & w2 & E2 & Hrange2 & Hhist2 & Hjoin2 & Hfound2).
    exists (extra1 ++ extra2), w2. rewrite E2.
    split; [reflexivity|]. split; [exact Hrange2|]. split; [congruence|].
    split; [rewrite Hjoin2, Hjoin1, <- app_assoc; reflexivity|].
    intros n [<-|Hn]; [|now apply Hfound2].
    rewrite Hjoin2, existsb_app, Hfound1. reflexivity.
Qed.

(** [buildAllPresentations], run twice over topics with plain names, with
    a network, a disk and a database that answer and keys that respect the
    schema.  After the first run every topic has a page that the check of
    the script finds, so the second run researches nothing: it asks
    nothing of the network and leaves the files and the database as the
    first run left them. *)
Theorem buildAllPresentations_twice (env : Env) (w : World) :
  (forall n, db_ok env n = true) ->
  (forall n path, disk_write_ok env n path = true) ->
  Populate.keys_in_range (db w) ->
  Forall (fun t => BuildAll.plain_name (ht_name t) = true) (historical_topics (db w)) ->
  let first := BuildAll.buildAllPresentations env w in
  let second := BuildAll.buildAllPresentations env (snd first) in
  fst first = Returned tt /\
  fst second = Returned tt /\
  Forall (fun t =>
            BuildAll.found
              (BuildAll.latest_presentation ("%" +:+ ht_name t +:+ "%") (db (snd first)))
            = true)
    (historical_topics (db w)) /\
  db (snd second) = db (snd first) /\
  files (snd second) = files (snd first) /\
  requests (snd second) = requests (snd first).
Proof.
  intros Hdb Hdisk Hrange Hplain first second.
  set (names := fun d => List.map ht_name (Sql.order_by BuildAll.by_name (historical_topics d))).
  assert (Hnames : Forall (fun name => BuildAll.plain_name name = true) (names (db w))).
  { unfold names. apply (proj2 (List.Forall_map ht_name _ _)).
    eapply Permutation_Forall; [apply order_by_perm | exact Hplain]. }
  assert (Hfirst : exists extra w1,
    first = (Returned tt, w1) /\
    historical_topics (db w1) = historical_topics (db w) /\
    (forall name, In name (names (db w)) ->
       existsb (fun s => Sql.lower_like s ("%" +:+ name +:+ "%"))
         (List.map Consolidation.rr_research_topic
            (Consolidation.presentations_with_topic (db w1))) = true) /\
    List.map Consolidation.rr_research_topic
      (Consolidation.presentations_with_topic (db w1))
    = List.map Consolidation.rr_research_topic
        (Consolidation.presentations_with_topic (db w)) ++ extra).
  { unfold first, BuildAll.buildAllPresentations. io_step. rewrite Hdb. io_step.
    fold (names (db w)).
    match goal with |- context [BuildAll.build_each env _ ?w0] =>
      destruct (build_each_builds env (names (db w)) Hdb Hdisk Hnames w0 Hrange)
        as (extra & w1 & E & _ & Hhist & Hjoin & Hfound) end.
    rewrite E. io_step. do 2 eexists. split; [reflexivity|].
    cbn [db set_console]. repeat split; try assumption. exact Hjoin. }
  destruct Hfirst as (extra & w1 & E1 & Hhist & Hfound & Hjoin).
  assert (Hsecond : exists w2,
    BuildAll.buildAllPresentations env w1 = (Returned tt, w2) /\
    db w2 = db w1 /\ files w2 = files w1 /\ requests w2 = requests w1).
  { unfold BuildAll.buildAllPresentations. io_step. rewrite Hdb. io_step.
    rewrite Hhist. fold (names (db w)).
    match goal with |- context [BuildAll.build_each env _ ?w0] =>
      destruct (build_each_skips env (names (db w)) w0 Hfound)
        as (w2 & E & D & F & R) end.
    rewrite E. io_step. eexists. split; [reflexivity|].
    cbn [db files requests set_console] in *. repeat split; assumption. }
  destruct Hsecond as (w2 & E2 & D2 & F2 & R2).
  unfold second. rewrite E1. cbn [fst snd]. rewrite E2. cbn [fst snd].
  repeat split; try assumption.
  rewrite Forall_forall. intros t Ht. rewrite found_latest. apply Hfound.
  unfold names. apply in_map.
  apply (Permutation_in t (order_by_perm BuildAll.by_name _)).
  now apply list_elem_of_In.
Qed.

Lemma buildAllPresentations_twice_witness :
  let first := BuildAll.buildAllPresentations (Sample.env Sample.good_reply)
                 (Sample.world Cases.civil_war_db) in
  let second := BuildAll.buildAllPresentations (Sample.env Sample.good_reply) (snd first) in
  db (snd second) = db (snd first)
  /\ List.map tr_topic (rows (topics_researched (db (snd first))))
     = ["Civil War in Southeast Texas history"].
Proof.
  intros first second.
  destruct (buildAllPresentations_twice (Sample.env Sample.good_reply)
              (Sample.world Cases.civil_war_db)) as (_ & _ & _ & D & _).
  - reflexivity.
  - reflexivity.
  - split; constructor.
  - repeat constructor.
  - split; [exact D|]. vm_compute. reflexivity.
Defined.

(** ** The server: enhancing a page *)

(** The workflow for an existing topic, with an outside that answers:
    it returns, having linked what it collected and stored a new page. *)
Lemma processUserQuery_enhances (env : Env) (message t : string) (id : Z)
    (row : TopicRow) (w : World) :
  Extract.extractTopic message = Some t ->
  Str.truthy t = true ->
  id <> 0%Z ->
  (forall n, db_ok env n = true) ->
  (forall n path, disk_write_ok env n path = true) ->
  List.find (fun r => (tr_id r =? id)%Z) (rows (topics_researched (db w))) = Some row ->
  exists result new html now w',
    ResearchWorkflow.processUserQuery env message (Some id) w
    = (Returned (Some result), w') /\
    ResearchWorkflow.wr_topicId result = id /\
    ResearchWorkflow.wr_mediaCount result = List.length new /\
    rows (topic_media (db w')) = rows (topic_media (db w)) ++ new /\
    Forall (fun m => tm_topic_id m = id) new /\
    rows (presentations (db w'))
    = rows (presentations (db w))
      ++ [PresentationBuilder.new_presentation_row id (tr_topic row) html
            (path_join (PresentationBuilder.presentationsDir env)
               (PresentationBuilder.page_filename (tr_topic row) id))
            now (last_id (presentations (db w)) + 1)%Z].
Proof.
  intros Htopic Htruthy Hid Hdb Hdisk Hrow.
  unfold ResearchWorkflow.processUserQuery. rewrite Htopic.
  cbn [MediaAgent.present default from_option Datatypes.id]. rewrite Htruthy. cbn [negb].
  io_step.
  match goal with |- context [MediaAgent.researchAndCollect env t ?kw (Some id) ?w1] =>
    destruct (researchAndCollect_existing env t kw id w1 Hid) as [T H];
    destruct (H Hdb) as (r & new & w2 & E & Hr & Hcount & _ & Hnew & Hlinks);
    pose proof (researchAndCollect_others env t kw (Some id) w1) as Hpres end.
  rewrite E in T, Hpres |- *. cbn [snd db set_console] in T, Hnew, Hpres.
  rewrite Hr.
  assert (Hfind : List.find (fun r => (tr_id r =? id)%Z) (rows (topics_researched (db w2)))
                  = Some row) by now rewrite T.
  destruct (generatePresentation_returns env id w2 row Hdb Hdisk Hfind)
    as (html & w3 & E3 & _ & _ & Hdb3).
  cbv zeta in E3. rewrite E3. io_step.
  do 5 eexists. split; [reflexivity|].
  cbn [ResearchWorkflow.wr_topicId ResearchWorkflow.wr_mediaCount db set_console].
  rewrite Hdb3.
  match goal with |- context [PresentationBuilder.mark_generated id ?d] =>
    destruct (mark_generated_keeps id d) as (_ & K2 & K3) end.
  rewrite K2, K3. cbn [topic_media presentations set_presentations insert_row rows].
  rewrite Hnew, Hpres, Hcount, <- (Forall2_length _ _ _ Hlinks).
  repeat split.
  clear -Hlinks. induction Hlinks as [|m item new items Hm _ IH]; constructor; [|exact IH].
  apply Hm.
Qed.

(** [POST /api/enhance-page] never reports a success.  Whatever the
    request and whatever the outside answers, the handler returns a
    response whose [success] is [false]: the workflow result that it tests
    has no property [factsAdded].  Even for a request with an id and a
    query, a topic row of that id and an outside that answers, where the
    workflow links what it collected and stores a new page, the answer is
    "No new content found". *)
Theorem enhance_page_never_succeeds (env : Env) (req : ApiServer.EnhanceRequest)
    (w : World) :
  (exists resp w',
      ApiServer.enhance_page env req w = (Returned resp, w') /\
      ApiServer.success resp = Some false /\
      (MediaAgent.id_given (ApiServer.er_topicId req)
       && MediaAgent.present (ApiServer.er_query req) = false ->
       resp = ApiServer.missing_fields /\ w' = w))
  /\ (forall id row t,
        ApiServer.er_topicId req = Some id ->
        id <> 0%Z ->
        MediaAgent.present (ApiServer.er_query req) = true ->
        List.find (fun r => (tr_id r =? id)%Z) (rows (topics_researched (db w))) = Some row ->
        Extract.extractTopic (ApiServer.contextualQuery req) = Some t ->
        Str.truthy t = true ->
        (forall n, db_ok env n = true) ->
        (forall n path, disk_write_ok env n path = true) ->
        exists new page w',
          ApiServer.enhance_page env req w = (Returned ApiServer.no_new_content, w') /\
          rows (topic_media (db w')) = rows (topic_media (db w)) ++ new /\
          Forall (fun m => tm_topic_id m = id) new /\
          rows (presentations (db w')) = rows (presentations (db w)) ++ [page] /\
          p_topic_id page = id).
Proof.
  split.
  - unfold ApiServer.enhance_page.
    destruct (MediaAgent.id_given (ApiServer.er_topicId req)); cbn [negb orb andb].
    2:{ exists ApiServer.missing_fields, w. repeat split. }
    destruct (MediaAgent.present (ApiServer.er_query req)); cbn [negb].
    2:{ exists ApiServer.missing_fields, w. repeat split. }
    io_step.
    match goal with |- context [ResearchWorkflow.processUserQuery env ?m ?i ?w1] =>
      destruct (ResearchWorkflow.processUserQuery env m i w1) as [[[r|]|e] w2] end;
      cbn [ApiServer.positive ApiServer.result_factsAdded]; io_step;
      do 2 eexists; (split; [reflexivity|]); split; try reflexivity; discriminate.
  - intros id row t Hid Hnz Hquery Hrow Htopic Htruthy Hdb Hdisk.
    unfold ApiServer.enhance_page. rewrite Hid.
    assert (G : MediaAgent.id_given (Some id) = true).
    { unfold MediaAgent.id_given. apply Bool.negb_true_iff. now apply Z.eqb_neq. }
    rewrite G, Hquery. cbn [negb orb default from_option Datatypes.id]. io_step.
    match goal with |- context [ResearchWorkflow.processUserQuery env _ _ ?w1] =>
      destruct (processUserQuery_enhances env (ApiServer.contextualQuery req) t id row w1
                  Htopic Htruthy Hnz Hdb Hdisk Hrow)
        as (result & new & html & now & w2 & E & _ & _ & Hmedia & Hlinked & Hpres) end.
    change (default 0%Z (Some id)) with id in *.
    rewrite E. cbn [ApiServer.positive ApiServer.result_factsAdded]. io_step.
    cbn [db set_console] in Hmedia, Hpres.
    do 3 eexists. split; [reflexivity|]. split; [exact Hmedia|]. split; [exact Hlinked|].
    split; [exact Hpres | reflexivity].
Qed.

Lemma enhance_page_never_succeeds_witness :
  exists w',
    ApiServer.enhance_page (Sample.env Sample.good_reply)
      {| ApiServer.er_topicId := Some 1%Z; ApiServer.er_topicName := Some "Spindletop";
         ApiServer.er_query := Some "What about the gusher?" |}
      (Sample.world Sample.oil_db)
    = (Returned ApiServer.no_new_content, w')
    /\ List.length (rows (topic_media (db w'))) = 1
    /\ List.length (rows (presentations (db w'))) = 1.
Proof.
  match goal with |- context [ApiServer.enhance_page ?env ?req ?w] =>
    destruct (proj2 (enhance_page_never_succeeds env req w) 1%Z Sample.spindletop_row
                "Spindletop")
      as (new & page & w' & E & Hmedia & _ & Hpres & _) end.
  - reflexivity.
  - discriminate.
  - reflexivity.
  - reflexivity.
  - vm_compute. reflexivity.
  - reflexivity.
  - reflexivity.
  - reflexivity.
  - exists w'. split; [exact E|]. rewrite Hpres.
    assert (H : snd (ApiServer.enhance_page (Sample.env Sample.good_reply)
                       {| ApiServer.er_topicId := Some 1%Z;
                          ApiServer.er_topicName := Some "Spindletop";
                          ApiServer.er_query := Some "What about the gusher?" |}
                       (Sample.world Sample.oil_db)) = w') by now rewrite E.
    split; [|reflexivity]. rewrite <- H. vm_compute. reflexivity.
Defined.

(** ** The server: consolidation *)

(** The two consolidation routes never answer 500, whatever the disk and
    the database do: the agent catches every failure itself.
    [POST /api/consolidate/:category] answers [success: true] with the
    file and its URL exactly when a page was written, and that file is
    then on the disk; with [success: false] nothing was written and no row
    was stored.  [POST /api/consolidate-all] answers [success: true] with
    one entry per page written, at most one for each category. *)
Theorem consolidation_routes_answer (env : Env) (w : World) :
  (forall category,
      exists resp w',
        ApiServer.consolidate_category env category w = (Returned resp, w') /\
        ApiServer.status resp = 200%Z /\
        match ApiServer.success resp with
        | Some true =>
            exists file,
              ApiServer.body resp
              = ApiServer.JObj
                  [("success", ApiServer.JBool true);
                   ("message", ApiServer.JStr ("Consolidated category: " +:+ category));
                   ("file", ApiServer.JStr file);
                   ("url", ApiServer.JStr ("/presentations/" +:+ file))] /\
              is_Some (files w' !! path_join (Consolidation.presentationsDir env) file)
        | _ => files w' = files w /\ db w' = db w
        end)
  /\ exists results w',
       ApiServer.consolidate_all env w
       = (Returned
            (ApiServer.json
               (ApiServer.JObj
                  [("success", ApiServer.JBool true);
                   ("message", ApiServer.JStr ("Consolidated "
                                                +:+ show_nat (List.length results)
                                                +:+ " categories"));
                   ("results", ApiServer.JArr (List.map ApiServer.category_json results))])),
          w') /\
       List.length results <= 3 /\
       Forall (fun r =>
                 is_Some (files w' !! path_join (Consolidation.presentationsDir env)
                                        (AllCategories.cr_file r))) results.
Proof.
  split.
  - intros category. unfold ApiServer.consolidate_category.
    destruct (consolidateTopicCategory_outcome env category w) as (o & w' & E & _ & H).
    unfold try_catch, bind. rewrite E. unfold ret.
    destruct o as [saved|].
    + destruct H as (_ & Hpath & Hurl & (html & Hf) & _).
      do 2 eexists. split; [reflexivity|]. split; [reflexivity|].
      cbn. exists (Consolidation.sf_filename saved). rewrite Hurl. split; [reflexivity|].
      rewrite <- Hpath, Hf. apply lookup_insert_is_Some'. now left.
    + do 2 eexists. split; [reflexivity|]. split; [reflexivity|]. exact H.
  - unfold ApiServer.consolidate_all.
    destruct (consolidate_all_outcome env w) as (results & w' & E & Hsub & Hfiles).
    unfold try_catch, bind. rewrite E. unfold ret.
    exists results, w'. split; [reflexivity|]. split.
    + apply sublist_length in Hsub. rewrite List.length_map in Hsub.
      exact Hsub.
    + eapply List.Forall_impl; [|exact Hfiles]. intros r Hr. apply Hr.
Qed.

(** ** The URLs of the archive searches *)

Lemma encode_cons (c : ascii) (s : string) :
  MediaAgent.encodeURIComponent (String c s)
  = Url.escape c +:+ MediaAgent.encodeURIComponent s.
Proof. reflexivity. Qed.

Lemma escape_chars (c : ascii) :
  Shape.all_chars (fun x => Url.escaped_char x && negb (Url.separator x)) (Url.escape c)
  = true.
Proof.
  apply (ascii_forall
    (fun c => Shape.all_chars (fun x => Url.escaped_char x && negb (Url.separator x))
                (Url.escape c))).
  vm_compute. reflexivity.
Qed.

Lemma escape_prefix_free (a c : ascii) :
  Chars.eqb a c || Shape.mismatch (fun x => x) (Url.escape a) (Url.escape c) = true.
Proof.
  apply (ascii_forall2
    (fun a c => Chars.eqb a c
                || Shape.mismatch (fun x => x) (Url.escape a) (Url.escape c))).
  vm_compute. reflexivity.
Qed.

Lemma mismatch_differ (p s x y : string) :
  Shape.mismatch (fun c => c) p s = true -> p +:+ x <> s +:+ y.
Proof.
  revert s. induction p as [|a p IH]; intros [|b s]; cbn [Shape.mismatch]; try discriminate.
  rewrite !app_cons. intros H E. injection E as Eab E.
  subst b. rewrite chars_eqb_refl in H. now apply (IH s).
Qed.

Lemma escape_not_empty (c : ascii) (x : string) : Url.escape c +:+ x <> EmptyString.
Proof.
  pose proof (ascii_forall (fun c => negb (Str.is_empty (Url.escape c)))
                ltac:(vm_compute; reflexivity) c) as H.
  cbv beta in H. destruct (Url.escape c); [discriminate H | discriminate].
Qed.

Lemma encode_injective (s1 : string) :
  forall s2,
    MediaAgent.encodeURIComponent s1 = MediaAgent.encodeURIComponent s2 -> s1 = s2.
Proof.
  induction s1 as [|a s1 IH]; intros [|c s2]; rewrite ?encode_cons; intros E.
  - reflexivity.
  - symmetry in E. now apply escape_not_empty in E.
  - now apply escape_not_empty in E.
  - pose proof (escape_prefix_free a c) as H. apply Bool.orb_true_iff in H as [H|H].
    + apply chars_eqb_eq in H. subst c. apply app_inv_head_str in E. f_equal. now apply IH.
    + now apply mismatch_differ with (x := MediaAgent.encodeURIComponent s1)
                                     (y := MediaAgent.encodeURIComponent s2) in H.
Qed.

Lemma encode_chars (s : string) :
  Shape.all_chars (fun x => Url.escaped_char x && negb (Url.separator x))
    (MediaAgent.encodeURIComponent s) = true.
Proof.
  induction s as [|c s IH]; [reflexivity|].
  now rewrite encode_cons, all_chars_app, escape_chars, IH.
Qed.

(** The URLs that [searchLibraryOfCongress] asks for.  The query is
    written into each of them in escaped form: the escaped text holds
    only unreserved characters and [%], so none of [&], [=], [#], [?], [/],
    [+] or a blank, and the parameter [fo=json] is never disturbed; and
    two queries that differ give URLs that differ, for each of the three
    searches. *)
Theorem search_urls_carry_query (query : string) :
  MediaAgent.imageSearchUrl query
  = "https://www.loc.gov/pictures/search/?q=" +:+ MediaAgent.encodeURIComponent query
    +:+ "&fo=json"
  /\ Shape.all_chars (fun c => Url.escaped_char c && negb (Url.separator c))
       (MediaAgent.encodeURIComponent query) = true
  /\ forall other,
       (MediaAgent.imageSearchUrl query = MediaAgent.imageSearchUrl other
        \/ MediaAgent.audioSearchUrl query = MediaAgent.audioSearchUrl other
        \/ MediaAgent.videoSearchUrl query = MediaAgent.videoSearchUrl other) ->
       query = other.
Proof.
  split; [reflexivity|]. split; [apply encode_chars|].
  assert (Hsuffix : forall a b : string, a +:+ "&fo=json" = b +:+ "&fo=json" -> a = b).
  { intros a b E.
    assert (Hlen : String.length a = String.length b).
    { apply (f_equal String.length) in E. rewrite !length_app_str in E. lia. }
    revert b E Hlen. induction a as [|x a IH]; intros [|y b] E Hlen; try discriminate.
    - reflexivity.
    - rewrite !app_cons in E. injection E as -> E. f_equal. apply IH; [exact E|].
      now injection Hlen. }
  intros other [E|[E|E]];
    unfold MediaAgent.imageSearchUrl, MediaAgent.audioSearchUrl,
      MediaAgent.videoSearchUrl in E;
    apply app_inv_head_str in E; apply Hsuffix in E; now apply encode_injective.
Qed.

Lemma search_urls_carry_query_witness :
  "Spindletop & Beaumont" = "Spindletop & Beaumont"
  /\ MediaAgent.imageSearchUrl "Spindletop & Beaumont"
     = "https://www.loc.gov/pictures/search/?q=Spindletop%20%26%20Beaumont&fo=json".
Proof.
  split.
  - apply (proj2 (proj2 (search_urls_carry_query "Spindletop & Beaumont"))).
    left. reflexivity.
  - reflexivity.
Defined.

(** ** Cleaning the stored topic *)

Lemma space_not_i (c : ascii) :
  Chars.is_space c = true ->
  Chars.eqb (Chars.canonicalize "i") (Chars.canonicalize c) = false.
Proof.
  pose proof (ascii_forall
    (fun c => implb (Chars.is_space c)
                (negb (Chars.eqb (Chars.canonicalize "i") (Chars.canonicalize c))))) as E.
  specialize (E ltac:(vm_compute; reflexivity) c). cbv beta in E.
  intros H. rewrite H in E. now apply Bool.negb_true_iff in E.
Qed.

(** The greedy [\s*] gives nothing when what follows it fails after every
    number of blanks that it can take. *)
Lemma star_greedy_none {R : Type} (fl : Regex.flags) (cs : Regex.cset)
    (caps : Regex.captures) (k : string -> string -> Regex.captures -> option R)
    (s : string) :
  (forall j acc, j <= Shape.run (Regex.cs_mem fl cs) s -> k acc (Str.drop j s) caps = None) ->
  forall acc, Regex.star_greedy fl cs caps k acc s = None.
Proof.
  induction s as [|c s IH]; intros Hk acc; cbn [Regex.star_greedy].
  - apply (Hk 0). lia.
  - cbn [Shape.run] in Hk. destruct (Regex.cs_mem fl cs c).
    + rewrite IH; [apply (Hk 0); lia|].
      intros j acc' Hj. apply (Hk (S j)). lia.
    + apply (Hk 0). lia.
Qed.

Lemma drop_run_spaces (j : nat) (s : string) :
  j < Shape.run Chars.is_space s ->
  match Str.drop j s with
  | EmptyString => False
  | String c _ => Chars.is_space c = true
  end.
Proof.
  revert s. induction j as [|j IH]; intros [|c s]; cbn [Shape.run Str.drop]; try lia.
  - destruct (Chars.is_space c); [intros _; reflexivity | lia].
  - destruct (Chars.is_space c); [|lia]. intros H. apply IH. lia.
Qed.

(** Where the text is blocked, the phrase does not match. *)
Lemma phrase_blocked {R : Type} (rest : Regex.regex) (s : string) (pos : nat)
    (caps : Regex.captures) (k : string -> string -> Regex.captures -> option R) :
  Phrase.blocked s = true ->
  Regex.rmatch Regex.flag_i (Phrase.phrase rest) pos s caps k = None.
Proof.
  intros Hb. unfold Phrase.phrase, Regex.RPlus. cbn [Regex.rmatch].
  destruct s as [|c s]; [reflexivity|]. cbn [Regex.cs_mem].
  destruct (Chars.is_space c) eqn:Hc; [|reflexivity].
  apply star_greedy_none. intros j acc Hj. rewrite rmatch_lit.
  change (Regex.cs_mem Regex.flag_i Regex.CsSpace) with Chars.is_space in Hj.
  destruct (Nat.eq_dec j (Shape.run Chars.is_space s)) as [->|Hne].
  - unfold Phrase.blocked in Hb. cbn [Shape.drop_while] in Hb. rewrite Hc in Hb.
    cbn [negb orb] in Hb. apply Bool.negb_true_iff in Hb.
    unfold Phrase.in_then_space in Hb. rewrite drop_run.
    destruct (Str.prefix_by Chars.canonicalize "in" (Shape.drop_while Chars.is_space s));
      [|reflexivity].
    cbn [andb String.length] in Hb |- *.
    destruct (Str.drop 2 (Shape.drop_while Chars.is_space s)) as [|d t]; [reflexivity|].
    cbn [Regex.rmatch Regex.cs_mem]. now rewrite Hb.
  - assert (Hlt : j < Shape.run Chars.is_space s) by lia.
    apply drop_run_spaces in Hlt. destruct (Str.drop j s) as [|d t]; [destruct Hlt|].
    cbn [Str.prefix_by]. now rewrite (space_not_i d Hlt).
Qed.

(** A text in which the phrase is blocked everywhere is copied. *)
Lemma replace_phrase_copies (rest : Regex.regex) (X u : string) :
  Phrase.blocked_within X u = true ->
  forall pos,
    Regex.replace_all_go Regex.flag_i (Phrase.phrase rest) EmptyString pos 0 (u +:+ X)
    = u +:+ Regex.replace_all_go Regex.flag_i (Phrase.phrase rest) EmptyString
              (pos + String.length u) 0 X.
Proof.
  induction u as [|c u IH]; intros H pos.
  - cbn [String.length]. now rewrite Nat.add_0_r, !app_empty_l.
  - cbn [Phrase.blocked_within] in H. apply andb_prop in H as [Hb Hu].
    rewrite app_cons in Hb |- *. cbn [Regex.replace_all_go].
    rewrite phrase_blocked by exact Hb. rewrite IH by exact Hu.
    cbn [String.length]. now rewrite app_cons, Nat.add_succ_r.
Qed.

Lemma space_not_n (c : ascii) :
  Chars.is_space c = true ->
  Chars.eqb (Chars.canonicalize "n") (Chars.canonicalize c) = false.
Proof.
  pose proof (ascii_forall
    (fun c => implb (Chars.is_space c)
                (negb (Chars.eqb (Chars.canonicalize "n") (Chars.canonicalize c))))) as E.
  specialize (E ltac:(vm_compute; reflexivity) c). cbv beta in E.
  intros H. rewrite H in E. now apply Bool.negb_true_iff in E.
Qed.

(** After whitespace that belongs to a text without a word [in], and
    before whitespace or the end, no [in] with whitespace follows. *)
Lemma free_after_space (X u : string) (a : ascii) :
  Phrase.space_first X = true ->
  Chars.is_space a = true ->
  Phrase.free_of_in (String a u +:+ " ") = true ->
  Str.is_empty (Str.trim_right u) = false ->
  Phrase.in_then_space (Shape.drop_while Chars.is_space (u +:+ X)) = false.
Proof.
  intros HX. revert a. induction u as [|b u IH]; intros a Ha Hfree Hne; [discriminate Hne|].
  rewrite app_cons in Hfree. cbn [Phrase.free_of_in] in Hfree.
  apply andb_prop in Hfree as [Hwin Hfree]. apply Bool.negb_true_iff in Hwin.
  cbn [Phrase.in_window] in Hwin. rewrite Ha in Hwin. cbn [andb] in Hwin.
  rewrite app_cons. cbn [Shape.drop_while]. destruct (Chars.is_space b) eqn:Hb.
  - apply (IH b Hb Hfree). cbn [Str.trim_right] in Hne. rewrite Hb in Hne.
    destruct (Str.is_empty (Str.trim_right u)); [discriminate Hne | reflexivity].
  - clear IH Hfree Hne. unfold Phrase.in_then_space in *.
    destruct u as [|c [|d u]].
    + rewrite app_empty_l. cbn [Str.prefix_by].
      destruct X as [|x X]; [now rewrite Bool.andb_false_r|].
      cbn [Phrase.space_first] in HX. rewrite (space_not_n x HX).
      now rewrite Bool.andb_false_r.
    + rewrite !app_cons, app_empty_l in Hwin. rewrite !app_cons, app_empty_l.
      cbn [Str.prefix_by Str.drop] in Hwin |- *.
      destruct X as [|x X]; [now rewrite Bool.andb_false_r|].
      cbn [Phrase.space_first] in HX. rewrite HX.
      change (Chars.is_space " ") with true in Hwin. exact Hwin.
    + rewrite !app_cons in Hwin. rewrite !app_cons.
      cbn [Str.prefix_by Str.drop] in Hwin |- *.
      exact Hwin.
Qed.

Lemma trim_right_tail (c : ascii) (u : string) :
  Str.trim_right (String c u) = String c u -> Str.trim_right u = u.
Proof.
  cbn [Str.trim_right].
  destruct (Chars.is_space c && Str.is_empty (Str.trim_right u)); [discriminate|].
  now intros [= ->].
Qed.

(** In a text without a word [in] of its own and without whitespace at
    its end the phrase is blocked everywhere. *)
Lemma free_blocked_within (X u : string) :
  Phrase.space_first X = true ->
  Phrase.free_of_in (u +:+ " ") = true ->
  Str.trim_right u = u ->
  Phrase.blocked_within X u = true.
Proof.
  intros HX. induction u as [|c u IH]; intros Hfree Hr; [reflexivity|].
  cbn [Phrase.blocked_within]. apply andb_true_intro. split.
  - unfold Phrase.blocked. rewrite app_cons.
    destruct (Chars.is_space c) eqn:Hc; [|reflexivity].
    cbn [negb orb Shape.drop_while]. rewrite Hc. apply Bool.negb_true_iff.
    apply (free_after_space X u c HX Hc Hfree).
    cbn [Str.trim_right] in Hr. rewrite Hc in Hr. cbn [andb] in Hr.
    destruct (Str.is_empty (Str.trim_right u)); [discriminate Hr | reflexivity].
  - apply IH.
    + rewrite app_cons in Hfree. cbn [Phrase.free_of_in] in Hfree.
      now apply andb_prop in Hfree as [_ Hfree].
    + exact (trim_right_tail c u Hr).
Qed.

(** A text that trimming leaves alone has no whitespace at either end. *)
Lemma trim_fixed (s : string) :
  Str.trim s = s -> Str.trim_left s = s /\ Str.trim_right s = s.
Proof.
  intros H. assert (Hl : Str.trim_left s = s).
  { destruct s as [|c s]; [reflexivity|]. cbn [Str.trim_left].
    destruct (Chars.is_space c) eqn:Hc; [|reflexivity].
    exfalso. unfold Str.trim in H. cbn [Str.trim_left] in H. rewrite Hc in H.
    pose proof (trim_right_length (Str.trim_left s)) as H1.
    pose proof (trim_left_length s) as H2.
    rewrite H in H1. cbn [String.length] in H1. lia. }
  split; [exact Hl|]. unfold Str.trim in H. now rewrite Hl in H.
Qed.

Lemma tidy_facts (name : string) :
  Phrase.tidy name = true ->
  Phrase.free_of_in (name +:+ " ") = true
  /\ Str.trim_left name = name /\ Str.trim_right name = name.
Proof.
  unfold Phrase.tidy. intros H. apply andb_prop in H as [Hf Ht].
  apply String.eqb_eq in Ht. split; [exact Hf|]. now apply trim_fixed.
Qed.

Lemma replace_southeast_suffix (pos : nat) :
  Regex.replace_all_go Regex.flag_i PresentationBuilder.in_southeast_texas_history
    EmptyString pos 0 " in Southeast Texas history" = EmptyString.
Proof. reflexivity. Qed.

Lemma replace_southeast_other (pos : nat) :
  Regex.replace_all_go Regex.flag_i PresentationBuilder.in_southeast_texas_history
    EmptyString pos 0 " in Texas history" = " in Texas history".
Proof. reflexivity. Qed.

Lemma replace_texas_suffix (pos : nat) :
  Regex.replace_all_go Regex.flag_i PresentationBuilder.in_texas_history
    EmptyString pos 0 " in Texas history" = EmptyString.
Proof. reflexivity. Qed.

Lemma replace_phrase_nothing (rest : Regex.regex) (name : string) :
  Phrase.blocked_within EmptyString name = true ->
  Regex.replace_all Regex.flag_i (Phrase.phrase rest) EmptyString name = name.
Proof.
  intros H. unfold Regex.replace_all.
  rewrite <- (app_empty_r name) at 1. rewrite replace_phrase_copies by exact H.
  cbn [Regex.replace_all_go]. apply app_empty_r.
Qed.

(** What [cleanTopic] makes of a tidy name and of the name with one of
    the phrases after it. *)
Lemma cleanTopic_name (name : string) :
  Phrase.tidy name = true ->
  PresentationBuilder.cleanTopic (name +:+ " in Southeast Texas history") = name
  /\ PresentationBuilder.cleanTopic (name +:+ " in Texas history") = name
  /\ PresentationBuilder.cleanTopic name = name.
Proof.
  intros H. apply tidy_facts in H as (Hfree & Hl & Hr).
  assert (Hb : forall X, Phrase.space_first X = true -> Phrase.blocked_within X name = true).
  { intros X HX. now apply free_blocked_within. }
  assert (Ht : Str.trim name = name) by (unfold Str.trim; now rewrite Hl).
  unfold PresentationBuilder.cleanTopic.
  change PresentationBuilder.in_southeast_texas_history
    with (Phrase.phrase (Regex.seqs [Regex.lit "southeast"; Regex.RPlus Regex.CsSpace;
                                     Regex.lit "texas"; Regex.RPlus Regex.CsSpace;
                                     Regex.lit "history"])).
  change PresentationBuilder.in_texas_history
    with (Phrase.phrase (Regex.seqs [Regex.lit "texas"; Regex.RPlus Regex.CsSpace;
                                     Regex.lit "history"])).
  set (r1 := Phrase.phrase (Regex.seqs [Regex.lit "southeast"; _; _; _; _])).
  set (r2 := Phrase.phrase (Regex.seqs [Regex.lit "texas"; _; _])).
  assert (E1 : forall p, Regex.replace_all_go Regex.flag_i r1 EmptyString p 0
                           " in Southeast Texas history" = EmptyString)
    by (intros p; apply replace_southeast_suffix).
  assert (E2 : forall p, Regex.replace_all_go Regex.flag_i r1 EmptyString p 0
                           " in Texas history" = " in Texas history")
    by (intros p; apply replace_southeast_other).
  assert (E3 : forall p, Regex.replace_all_go Regex.flag_i r2 EmptyString p 0
                           " in Texas history" = EmptyString)
    by (intros p; apply replace_texas_suffix).
  assert (N1 : Regex.replace_all Regex.flag_i r1 EmptyString name = name)
    by (apply replace_phrase_nothing, Hb; reflexivity).
  assert (N2 : Regex.replace_all Regex.flag_i r2 EmptyString name = name)
    by (apply replace_phrase_nothing, Hb; reflexivity).
  assert (S1 : Regex.replace_all Regex.flag_i r1 EmptyString
                 (name +:+ " in Southeast Texas history") = name).
  { unfold Regex.replace_all, r1. rewrite replace_phrase_copies by (apply Hb; reflexivity).
    fold r1. rewrite E1. apply app_empty_r. }
  assert (S2 : Regex.replace_all Regex.flag_i r1 EmptyString
                 (name +:+ " in Texas history") = name +:+ " in Texas history").
  { unfold Regex.replace_all, r1. rewrite replace_phrase_copies by (apply Hb; reflexivity).
    fold r1. now rewrite E2. }
  assert (S3 : Regex.replace_all Regex.flag_i r2 EmptyString
                 (name +:+ " in Texas history") = name).
  { unfold Regex.replace_all, r2. rewrite replace_phrase_copies by (apply Hb; reflexivity).
    fold r2. rewrite E3. apply app_empty_r. }
  rewrite S1, S2, S3, N1, N2, Ht. auto.
Qed.

(** The phrases that the scripts and the questions add to a name are
    taken off again: for a name without whitespace at its ends and without
    a word [in] between whitespace, [cleanTopic] gives the name back from
    "NAME in Southeast Texas history" and from "NAME in Texas history", and
    leaves the name itself as it is. *)
Theorem cleanTopic_gives_name (name : string) :
  Phrase.tidy name = true ->
  PresentationBuilder.cleanTopic (name +:+ " in Southeast Texas history") = name
  /\ PresentationBuilder.cleanTopic (name +:+ " in Texas history") = name
  /\ PresentationBuilder.cleanTopic name = name.
Proof. exact (cleanTopic_name name). Qed.

Lemma cleanTopic_gives_name_witness :
  PresentationBuilder.cleanTopic "Oil Industry in Southeast Texas history" = "Oil Industry"
  /\ PresentationBuilder.cleanTopic "Oil Industry in Texas history" = "Oil Industry"
  /\ PresentationBuilder.cleanTopic "Oil Industry" = "Oil Industry".
Proof.
  apply (cleanTopic_gives_name "Oil Industry"). reflexivity.
Defined.

(** The page of a topic that a script researched shows the facts of the
    historical topic of that name.  For a topic row "NAME in Southeast
    Texas history", where NAME is tidy and names a row of
    [historical_topics], and with a disk and a database that answer,
    [generatePresentation] writes the page made of the topic, of the
    topic's media followed by the images of the facts, and of the facts
    filed under that historical topic (the ten first by importance, then
    year). *)
Theorem generated_page_shows_topic_facts (env : Env) (topicId : Z) (w : World)
    (row : TopicRow) (name : string) (ht : HistoricalTopic) :
  (forall t, db_ok env t = true) ->
  (forall t path, disk_write_ok env t path = true) ->
  List.find (fun r => (tr_id r =? topicId)%Z) (rows (topics_researched (db w))) = Some row ->
  tr_topic row = name +:+ " in Southeast Texas history" ->
  Phrase.tidy name = true ->
  PresentationBuilder.find_historical_topic name (db w) = Some ht ->
  let facts :=
    List.firstn 10
      (Sql.order_by PresentationBuilder.ranks_before
         (List.filter (PresentationBuilder.has_topic (ht_id ht))
            (List.map (PresentationBuilder.fact_view (db w)) (historical_facts (db w))))) in
  let media :=
    List.map PresentationBuilder.media_entry
      (List.filter (fun m => (tm_topic_id m =? topicId)%Z) (rows (topic_media (db w)))) in
  exists result w' generated,
    PresentationBuilder.generatePresentation env topicId w = (Returned result, w') /\
    files w' !! PresentationBuilder.pr_fullPath result
    = Some (PresentationBuilder.presentation_html (tr_topic row)
              (media ++ PresentationBuilder.fact_images facts) facts generated).
Proof.
  intros Hdb Hdisk Hrow Htopic Htidy Hht facts media.
  pose proof (cleanTopic_name name Htidy) as (Hclean & _).
  unfold PresentationBuilder.generatePresentation, PresentationBuilder.getTopicData,
    PresentationBuilder.getRelatedFacts, PresentationBuilder.storePresentation.
  io_step. rewrite !Hdb. io_step. rewrite Hrow. io_step.
  rewrite !Hdb. io_step. rewrite Hdisk. io_step. rewrite !Hdb. io_step.
  do 3 eexists. split; [reflexivity|].
  cbn [files db requests set_console set_files set_db set_tick
       PresentationBuilder.pr_fullPath PresentationBuilder.mark_generated].
  rewrite lookup_insert_eq. rewrite Htopic, Hclean, Hht. fold facts media.
  rewrite <- Htopic. reflexivity.
Qed.

Lemma generated_page_shows_topic_facts_witness :
  exists result w' generated,
    PresentationBuilder.generatePresentation (Sample.env Sample.good_reply) 2
      (Sample.world Cases.oil_history_db) = (Returned result, w') /\
    files w' !! PresentationBuilder.pr_fullPath result
    = Some (PresentationBuilder.presentation_html "Oil in Southeast Texas history" []
              [ {| PresentationBuilder.fv_fact := Sample.gusher_fact;
                   PresentationBuilder.fv_city_name := None;
                   PresentationBuilder.fv_topic_name := Some "Oil" |} ]
              generated).
Proof.
  apply (generated_page_shows_topic_facts (Sample.env Sample.good_reply) 2
           (Sample.world Cases.oil_history_db) Cases.oil_history_row "Oil" Sample.oil_topic);
    reflexivity.
Defined.

(** ** The routes that find and make pages *)

Lemma strip_slashes_id (f : string) :
  Shape.all_chars ApiServer.not_slash f = true -> ApiServer.strip_slashes f = f.
Proof.
  induction f as [|c f IH]; [reflexivity|]. cbn [Shape.all_chars ApiServer.strip_slashes].
  intros H. apply andb_prop in H as [Hc Hf]. now rewrite Hc, IH.
Qed.

Lemma strip_slashes_app (a b : string) :
  Str.is_empty (ApiServer.strip_slashes b) = false ->
  ApiServer.strip_slashes (a +:+ b) = a +:+ ApiServer.strip_slashes b.
Proof.
  intros Hb. induction a as [|c a IH]; [now rewrite !app_empty_l|].
  rewrite !app_cons. cbn [ApiServer.strip_slashes]. rewrite IH.
  destruct a; [rewrite app_empty_l, Hb | rewrite app_cons];
    cbn [Str.is_empty]; now rewrite Bool.andb_false_r.
Qed.

Lemma last_segment_after (a f : string) :
  Shape.all_chars ApiServer.not_slash f = true ->
  ApiServer.last_segment (a +:+ "/" +:+ f) = f.
Proof.
  intros Hf. induction a as [|c a IH].
  - rewrite app_empty_l, app_cons, app_empty_l. cbn [ApiServer.last_segment]. now rewrite Hf.
  - rewrite app_cons. cbn [ApiServer.last_segment].
    rewrite all_chars_app, app_cons. cbn [Shape.all_chars].
    change (ApiServer.not_slash "/") with false. cbn [andb].
    rewrite Bool.andb_false_r. rewrite <- app_cons. exact IH.
Qed.

(** The base name of a file in a directory is the name of the file. *)
Lemma basename_join (dir f : string) :
  Shape.all_chars ApiServer.not_slash f = true -> Str.truthy f = true ->
  ApiServer.basename (path_join dir f) = f.
Proof.
  intros Hf Hne. unfold ApiServer.basename, path_join.
  rewrite strip_slashes_app.
  - rewrite app_cons, app_empty_l. cbn [ApiServer.strip_slashes].
    rewrite strip_slashes_id by exact Hf.
    unfold Str.truthy in Hne. apply Bool.negb_true_iff in Hne. rewrite Hne.
    rewrite Bool.andb_false_r. rewrite <- (app_empty_l f) at 1. rewrite <- app_cons.
    now apply last_segment_after.
  - rewrite app_cons, app_empty_l. cbn [ApiServer.strip_slashes].
    rewrite strip_slashes_id by exact Hf.
    unfold Str.truthy in Hne. apply Bool.negb_true_iff in Hne. rewrite Hne.
    now rewrite Bool.andb_false_r.
Qed.

Lemma lower_not_slash (c : ascii) :
  ApiServer.not_slash c = true -> ApiServer.not_slash (Chars.js_lower c) = true.
Proof.
  pose proof (ascii_forall
    (fun c => implb (ApiServer.not_slash c) (ApiServer.not_slash (Chars.js_lower c)))) as E.
  specialize (E ltac:(vm_compute; reflexivity) c). cbv beta in E.
  intros H. now rewrite H in E.
Qed.

Lemma digit_not_slash (d : N) : ApiServer.not_slash (pretty_N_char d) = true.
Proof. unfold pretty_N_char. repeat case_match; reflexivity. Qed.

(** The file name of the page of a topic without a slash has no slash. *)
Lemma page_filename_plain (t : string) (id : Z) :
  Shape.all_chars ApiServer.not_slash t = true ->
  Shape.all_chars ApiServer.not_slash (PresentationBuilder.page_filename t id) = true
  /\ Str.truthy (PresentationBuilder.page_filename t id) = true.
Proof.
  intros Ht. unfold PresentationBuilder.page_filename. split.
  - rewrite !all_chars_app.
    rewrite (show_Z_chars ApiServer.not_slash id digit_not_slash eq_refl).
    cbn [Shape.all_chars]. rewrite Bool.andb_true_r.
    unfold MediaAgent.slug, Regex.replace_all.
    rewrite replace_all_go_chars; [reflexivity | reflexivity |].
    unfold Str.toLowerCase. rewrite all_chars_map.
    apply (all_chars_weaken ApiServer.not_slash); [apply lower_not_slash | exact Ht].
  - destruct (MediaAgent.slug t); reflexivity.
Qed.

(** ** Patterns that contain the text *)







(** The topic and the path of the rows of the join. *)
Lemma join_rows (d : Database) :
  List.map (fun r => (Consolidation.rr_research_topic r,
                      p_html_path (Consolidation.rr_presentation r)))
    (Consolidation.presentations_with_topic d)
  = List.flat_map
      (fun p => List.map (fun s => (s, p_html_path p))
                  (List.map tr_topic
                     (List.filter (fun t => (p_topic_id p =? tr_id t)%Z)
                        (rows (topics_researched d)))))
      (rows (presentations d)).
Proof.
  unfold Consolidation.presentations_with_topic.
  induction (rows (presentations d)) as [|p ps IH]; [reflexivity|].
  cbn [List.flat_map]. rewrite List.map_app, IH, !List.map_map. reflexivity.
Qed.

Lemma join_after_rows (d d' : Database) (id : Z) (t : string) (newp : PresentationRow) :
  Populate.keys_in_range d ->
  (last_id (topics_researched d) < id)%Z ->
  List.map (fun r => (tr_id r, tr_topic r)) (rows (topics_researched d'))
  = List.map (fun r => (tr_id r, tr_topic r)) (rows (topics_researched d)) ++ [(id, t)] ->
  rows (presentations d') = rows (presentations d) ++ [newp] ->
  p_topic_id newp = id ->
  List.map (fun r => (Consolidation.rr_research_topic r,
                      p_html_path (Consolidation.rr_presentation r)))
    (Consolidation.presentations_with_topic d')
  = List.map (fun r => (Consolidation.rr_research_topic r,
                        p_html_path (Consolidation.rr_presentation r)))
      (Consolidation.presentations_with_topic d)
    ++ [(t, p_html_path newp)].
Proof.
  intros [Hkeys Hrefs] Hid Htopics Hpres Hnew.
  rewrite !join_rows, Hpres, List.flat_map_app. cbn [List.flat_map].
  rewrite app_nil_r. f_equal.
  - clear Hpres. induction Hrefs as [|p ps Hp _ IH]; [reflexivity|].
    cbn [List.flat_map]. rewrite IH. f_equal. f_equal.
    rewrite !joined_topics, Htopics, List.filter_app. cbn [List.filter fst].
    replace (p_topic_id p =? id)%Z with false by (symmetry; apply Z.eqb_neq; lia).
    now rewrite app_nil_r.
  - rewrite joined_topics, Htopics, List.filter_app, Hnew. cbn [List.filter fst].
    rewrite Z.eqb_refl.
    replace (List.filter (fun x => (id =? fst x)%Z)
               (List.map (fun r => (tr_id r, tr_topic r)) (rows (topics_researched d))))
      with (@nil (Z * string)); [reflexivity|].
    symmetry. clear -Hkeys Hid.
    induction Hkeys as [|r rs Hr _ IH]; [reflexivity|].
    cbn [List.map List.filter fst].
    replace (id =? tr_id r)%Z with false by (symmetry; apply Z.eqb_neq; lia).
    exact IH.
Qed.

Lemma unmatched_none (pattern : string) (d : Database) :
  BuildAll.unmatched pattern d -> BuildAll.latest_presentation pattern d = None.
Proof.
  intros H. pose proof (found_latest pattern d) as F. unfold BuildAll.unmatched in H.
  rewrite H in F. now destruct (BuildAll.latest_presentation pattern d).
Qed.

(** When the only presented topic that matches is the last one, the row
    found is a row of that topic. *)
Lemma latest_after (pattern : string) (d d' : Database) (t : string)
    (path : option string) :
  List.map (fun r => (Consolidation.rr_research_topic r,
                      p_html_path (Consolidation.rr_presentation r)))
    (Consolidation.presentations_with_topic d')
  = List.map (fun r => (Consolidation.rr_research_topic r,
                        p_html_path (Consolidation.rr_presentation r)))
      (Consolidation.presentations_with_topic d)
    ++ [(t, path)] ->
  BuildAll.unmatched pattern d ->
  Sql.lower_like t pattern = true ->
  exists row,
    BuildAll.latest_presentation pattern d' = Some row
    /\ p_html_path (Consolidation.rr_presentation row) = path.
Proof.
  intros Hrows Hold Ht.
  assert (Htopics : List.map Consolidation.rr_research_topic
                      (Consolidation.presentations_with_topic d')
                    = List.map Consolidation.rr_research_topic
                        (Consolidation.presentations_with_topic d) ++ [t]).
  { apply (f_equal (List.map fst)) in Hrows.
    rewrite List.map_app, !List.map_map in Hrows. exact Hrows. }
  pose proof (found_latest pattern d') as F.
  rewrite Htopics, existsb_app in F. cbn [existsb] in F. rewrite Ht in F.
  rewrite Bool.orb_true_r in F.
  destruct (BuildAll.latest_presentation pattern d') as [row|] eqn:E; [|discriminate F].
  exists row. split; [reflexivity|].
  unfold BuildAll.latest_presentation, Consolidation.related_query in E.
  assert (Hin : In row (List.filter
                          (fun r => existsb (Sql.lower_like (Consolidation.rr_research_topic r))
                                      [pattern])
                          (Consolidation.presentations_with_topic d'))).
  { apply (Permutation_in row (Permutation_sym (order_by_perm Consolidation.newer_first _))).
    destruct (Sql.order_by _ _) as [|r rs]; [discriminate E|].
    cbn [List.hd_error] in E. injection E as ->. now left. }
  apply List.filter_In in Hin as [Hin Hkeep]. cbn [existsb] in Hkeep.
  rewrite Bool.orb_false_r in Hkeep.
  apply (List.in_map (fun r => (Consolidation.rr_research_topic r,
                           p_html_path (Consolidation.rr_presentation r)))) in Hin.
  rewrite Hrows in Hin. apply List.in_app_or in Hin as [Hin|Hin].
  - exfalso. apply List.in_map_iff in Hin as (r0 & Hr0 & Hin0).
    injection Hr0 as Htop _.
    unfold BuildAll.unmatched in Hold. rewrite existsb_map in Hold.
    assert (Hex : existsb (fun x => Sql.lower_like (Consolidation.rr_research_topic x) pattern)
                    (Consolidation.presentations_with_topic d) = true).
    { apply existsb_exists. exists r0. split; [exact Hin0|]. now rewrite Htop. }
    rewrite Hex in Hold. discriminate Hold.
  - destruct Hin as [Hin|[]]. now injection Hin as _ <-.
Qed.

(** The workflow for a new topic, seen from the join: one row more, of the
    topic and the file of the result. *)
Lemma workflow_rows (env : Env) (message t : string) (w : World) :
  (forall n, db_ok env n = true) ->
  (forall n path, disk_write_ok env n path = true) ->
  Populate.keys_in_range (db w) ->
  Extract.extractTopic message = Some t ->
  Str.truthy t = true ->
  let id := (last_id (topics_researched (db w)) + 1)%Z in
  let filename := PresentationBuilder.page_filename t id in
  exists result w',
    ResearchWorkflow.processUserQuery env message None w = (Returned (Some result), w') /\
    ResearchWorkflow.wr_topicId result = id /\
    ResearchWorkflow.wr_topic result = t /\
    ResearchWorkflow.wr_presentationUrl result = "/presentations/" +:+ filename /\
    Populate.keys_in_range (db w') /\
    List.length (rows (presentations (db w')))
    = S (List.length (rows (presentations (db w)))) /\
    List.map (fun r => (Consolidation.rr_research_topic r,
                        p_html_path (Consolidation.rr_presentation r)))
      (Consolidation.presentations_with_topic (db w'))
    = List.map (fun r => (Consolidation.rr_research_topic r,
                          p_html_path (Consolidation.rr_presentation r)))
        (Consolidation.presentations_with_topic (db w))
      ++ [(t, Some (path_join (PresentationBuilder.presentationsDir env) filename))].
Proof.
  intros Hdb Hdisk [Hkeys Hrefs] Htopic Htruthy id filename.
  destruct (processUserQuery_fresh env message t w Htopic Htruthy Hdb Hdisk Hkeys)
    as (result & w2 & html & now & E & Hid & Ht & Hurl & Hpath & _ & _ & Hpres & _ & Htriples
        & Hlast & Hhist).
  fold id in Hid, Hurl, Hpath, Hpres, Htriples, Hlast.
  assert (Hpairs : List.map (fun r => (tr_id r, tr_topic r)) (rows (topics_researched (db w2)))
                   = List.map (fun r => (tr_id r, tr_topic r))
                       (rows (topics_researched (db w))) ++ [(id, t)]).
  { apply (f_equal (List.map (fun x : Z * string * list string => (fst (fst x), snd (fst x)))))
      in Htriples.
    rewrite List.map_app, !List.map_map in Htriples. exact Htriples. }
  exists result, w2. split; [exact E|]. split; [exact Hid|]. split; [exact Ht|].
  split; [exact Hurl|]. split; [|split].
  - split.
    + rewrite Hlast.
      apply (proj1 (List.Forall_map tr_id (fun k => (k <= id)%Z) _)).
      apply (f_equal (List.map fst)) in Hpairs.
      rewrite List.map_app, !List.map_map in Hpairs. cbn [fst List.map] in Hpairs.
      replace (List.map tr_id (rows (topics_researched (db w2))))
        with (List.map tr_id (rows (topics_researched (db w))) ++ [id])
        by (symmetry; exact Hpairs).
      apply Forall_app. split.
      * apply (proj2 (List.Forall_map tr_id (fun k => (k <= id)%Z) _)).
        eapply List.Forall_impl; [|exact Hkeys].
        intros r Hr. cbv beta in Hr. unfold id. lia.
      * repeat constructor. lia.
    + rewrite Hlast, Hpres. apply Forall_app. split.
      * eapply List.Forall_impl; [|exact Hrefs]. intros p Hp. cbv beta in Hp. unfold id. lia.
      * repeat constructor. cbn. lia.
  - rewrite Hpres, List.length_app. cbn [List.length]. lia.
  - rewrite (join_after_rows (db w) (db w2) id t _ (conj Hkeys Hrefs) ltac:(unfold id; lia)
               Hpairs Hpres eq_refl).
    cbn [PresentationBuilder.new_presentation_row p_html_path]. now rewrite Hpath.
Qed.





(** A database that stops answering after the check leaves the request
    without a response.  A request with a message only, whose topic
    matches no page: when the statement that stores the topic fails, no
    response is sent and the database is as before. *)
Theorem research_unanswered (env : Env) (message t : string) (w : World) :
  Extract.extractTopic message = Some t ->
  Str.truthy t = true ->
  BuildAll.unmatched ("%" +:+ Str.trim t +:+ "%") (db w) ->
  db_ok env (S (tick w)) = false ->
  exists w',
    ApiServer.research env {| ApiServer.rq_topic := None;
                              ApiServer.rq_message := Some message |} w
    = (Returned {| ApiServer.response := None; ApiServer.scheduled := None |}, w') /\
    db w' = db w /\ files w' = files w.
Proof.
  intros Htopic Htruthy Hnew Hdown.
  assert (Hmsg : Str.truthy message = true).
  { destruct message; [vm_compute in Htopic; discriminate Htopic | reflexivity]. }
  unfold ApiServer.research, ApiServer.searchTopic.
  cbn [ApiServer.rq_topic ApiServer.rq_message MediaAgent.present default from_option
       Datatypes.id negb andb].
  rewrite Hmsg, Htopic. cbn [negb MediaAgent.present]. rewrite Htruthy.
  cbv beta iota. rewrite Htruthy.
  unfold ApiServer.research_callback, ApiServer.research_reply.
  cbn [ApiServer.rq_topic ApiServer.rq_message MediaAgent.or_else]. rewrite Hmsg.
  unfold ResearchWorkflow.processUserQuery. rewrite Htopic.
  cbn [MediaAgent.present default from_option Datatypes.id]. rewrite Htruthy. cbn [negb].
  unfold MediaAgent.researchAndCollect, MediaAgent.storeResearchedTopic.
  cbn [MediaAgent.id_given negb].
  io_step.
  destruct (db_ok env (tick w)); io_step; rewrite ?(unmatched_none _ _ Hnew); io_step;
    rewrite Hdown; io_step; eexists; (split; [reflexivity|]);
    cbn [db files set_console set_tick]; now split.
Qed.

Lemma research_unanswered_witness :
  exists w',
    ApiServer.research (Sample.env_db_down 1)
      {| ApiServer.rq_topic := None;
         ApiServer.rq_message := Some "Tell me about the Civil War" |}
      (Sample.world Cases.civil_war_db)
    = (Returned {| ApiServer.response := None; ApiServer.scheduled := None |}, w').
Proof.
  destruct (research_unanswered (Sample.env_db_down 1) "Tell me about the Civil War"
              "the Civil War" (Sample.world Cases.civil_war_db))
    as (w' & E & _); try reflexivity.
  exists w'. exact E.
Defined.

(** The address of a page can be asked for once the page is made.  For a
    name that matches no presented topic yet but matches the topic of the
    message, a topic without a slash, and a disk and a database that
    answer: before the workflow the route answers that no page exists,
    and after it the route answers with the address that the workflow
    returned. *)
Theorem topic_presentation_after_workflow (env : Env) (message t name : string)
    (w : World) :
  (forall n, db_ok env n = true) ->
  (forall n path, disk_write_ok env n path = true) ->
  Populate.keys_in_range (db w) ->
  Extract.extractTopic message = Some t ->
  Str.truthy t = true ->
  Shape.all_chars ApiServer.not_slash t = true ->
  Sql.lower_like t ("%" +:+ name +:+ "%") = true ->
  BuildAll.unmatched ("%" +:+ name +:+ "%") (db w) ->
  exists result w0 w1 w2,
    ApiServer.topic_presentation env name w
    = (Returned (Some (ApiServer.json (ApiServer.JObj [("exists", ApiServer.JBool false)]))),
       w0) /\
    ResearchWorkflow.processUserQuery env message None w = (Returned (Some result), w1) /\
    ApiServer.topic_presentation env name w1
    = (Returned (Some (ApiServer.json
                         (ApiServer.JObj
                            [("url", ApiServer.JStr
                                       (ResearchWorkflow.wr_presentationUrl result));
                             ("exists", ApiServer.JBool true)]))), w2).
Proof.
  intros Hdb Hdisk Hkeys Htopic Htruthy Hslash Hname Hnew.
  destruct (workflow_rows env message t w Hdb Hdisk Hkeys Htopic Htruthy)
    as (result & w1 & E & _ & _ & Hurl & _ & _ & Hrows).
  cbv zeta in Hurl, Hrows.
  destruct (latest_after _ _ _ _ _ Hrows Hnew Hname) as (row & Hrow & Hpath).
  destruct (page_filename_plain t (last_id (topics_researched (db w)) + 1) Hslash)
    as [Hf1 Hf2].
  exists result. do 2 eexists. exists (set_tick (S (tick w1)) w1).
  split; [|split; [exact E|]].
  - unfold ApiServer.topic_presentation. io_step. rewrite Hdb. io_step.
    rewrite (unmatched_none _ _ Hnew). reflexivity.
  - unfold ApiServer.topic_presentation. io_step. rewrite Hdb. io_step.
    rewrite Hrow, Hpath, (basename_join _ _ Hf1 Hf2), Hurl. reflexivity.
Qed.

Lemma topic_presentation_after_workflow_witness :
  exists result w0 w1 w2,
    ApiServer.topic_presentation (Sample.env Sample.good_reply) "civil war"
      (Sample.world Cases.civil_war_db)
    = (Returned (Some (ApiServer.json (ApiServer.JObj [("exists", ApiServer.JBool false)]))),
       w0) /\
    ResearchWorkflow.processUserQuery (Sample.env Sample.good_reply)
      "Tell me about the Civil War" None (Sample.world Cases.civil_war_db)
    = (Returned (Some result), w1) /\
    ApiServer.topic_presentation (Sample.env Sample.good_reply) "civil war" w1
    = (Returned (Some (ApiServer.json
                         (ApiServer.JObj
                            [("url", ApiServer.JStr
                                       (ResearchWorkflow.wr_presentationUrl result));
                             ("exists", ApiServer.JBool true)]))), w2).
Proof.
  apply (topic_presentation_after_workflow (Sample.env Sample.good_reply)
           "Tell me about the Civil War" "the Civil War" "civil war"
           (Sample.world Cases.civil_war_db)); try reflexivity.
  split; constructor.
Defined.

(** The consolidation that the server schedules is one of a category of
    the table of hierarchies: whatever the topic, the category found for
    it has an entry in [getTopicHierarchies]. *)
Theorem scheduled_category_is_known (topic category : string) :
  ApiServer.mainCategory topic = Some category ->
  is_Some (Consolidation.getTopicHierarchies !! category).
Proof.
  unfold ApiServer.mainCategory. intros H.
  destruct (List.find _ ApiServer.topicToCategory) as [entry|] eqn:E; [|discriminate H].
  cbn [fmap option_fmap option_map] in H. injection H as <-.
  apply List.find_some in E as [Hin _].
  unfold ApiServer.topicToCategory in Hin. cbn [In] in Hin.
  repeat (destruct Hin as [<-|Hin]; [vm_compute; eexists; reflexivity|]).
  destruct Hin.
Qed.

Lemma scheduled_category_is_known_witness :
  ApiServer.mainCategory "Sawmills of Orange" = Some "Lumber Industry"
  /\ is_Some (Consolidation.getTopicHierarchies !! "Lumber Industry").
Proof.
  split; [reflexivity|].
  apply (scheduled_category_is_known "Sawmills of Orange" "Lumber Industry"). reflexivity.
Defined.

(** ** Categories that the table inherits *)

(** [consolidateTopicCategory] takes a name that every object inherits,
    such as [constructor] or [toString], for a category.  For such a name,
    when a stored presentation belongs to a topic that matches it, the
    query answers and the disk accepts the write, the call writes a page
    and returns its descriptor although the table has no such category:
    the page is titled [undefined], and no row is stored, since the
    insert without a display name is refused. *)
Theorem inherited_name_is_consolidated (env : Env) (mainTopic : string) (w : World) :
  In mainTopic Consolidation.prototype_keys ->
  db_ok env (tick w) = true ->
  (exists r, In r (Consolidation.presentations_with_topic (db w))
             /\ Sql.lower_like (Consolidation.rr_research_topic r)
                  ("%" +:+ mainTopic +:+ "%") = true) ->
  (forall t path, disk_write_ok env t path = true) ->
  let filename :=
    MediaAgent.slug mainTopic +:+ "-consolidated-"
    +:+ show_Z (now_ms env (2 + tick w)) +:+ ".html" in
  let saved :=
    {| Consolidation.sf_filename := filename;
       Consolidation.sf_filepath := path_join (Consolidation.presentationsDir env) filename;
       Consolidation.sf_url := "/presentations/" +:+ filename |} in
  Consolidation.getTopicHierarchies !! mainTopic = None /\
  exists html w',
    Consolidation.consolidateTopicCategory env mainTopic w = (Returned (Some saved), w') /\
    files w' = <[Consolidation.sf_filepath saved := html]> (files w) /\
    Str.includes html "<title>undefined - Southeast Texas History</title>" = true /\
    db w' = db w.
Proof.
  intros Hin Hdb (r & Hr & Hlike) Hdisk filename saved.
  assert (Hat : Consolidation.getTopicHierarchies !! mainTopic = None
                /\ Consolidation.hierarchy_at mainTopic = Some Consolidation.Inherited).
  { unfold Consolidation.prototype_keys in Hin. cbn [In] in Hin.
    repeat (destruct Hin as [<-|Hin]; [split; vm_compute; reflexivity|]). destruct Hin. }
  destruct Hat as [Hnone Hat]. split; [exact Hnone|].
  assert (Hfound : Consolidation.related_query ["%" +:+ mainTopic +:+ "%"] (db w) <> []).
  { pose proof (found_latest ("%" +:+ mainTopic +:+ "%") (db w)) as F.
    rewrite existsb_map in F.
    assert (Hex : existsb (fun x => Sql.lower_like (Consolidation.rr_research_topic x)
                                      ("%" +:+ mainTopic +:+ "%"))
                    (Consolidation.presentations_with_topic (db w)) = true).
    { apply existsb_exists. now exists r. }
    rewrite Hex in F. unfold BuildAll.latest_presentation in F.
    intros E. rewrite E in F. discriminate F. }
  unfold Consolidation.consolidateTopicCategory, Consolidation.findRelatedPresentations.
  rewrite Hat. io_step. rewrite Hdb. io_step.
  destruct (Consolidation.related_query _ (db w)) as [|first rest]; [congruence|].
  cbn [Consolidation.pd_presentations].
  unfold Consolidation.consolidate_found, Consolidation.generateConsolidatedPage,
    Consolidation.createTabbedInterface, Consolidation.saveConsolidatedPage,
    Consolidation.storeConsolidatedPage.
  cbn [Consolidation.pd_presentations Consolidation.pd_displayName]. io_step.
  cbn [MediaAgent.present negb default from_option Datatypes.id].
  rewrite consolidated_html_truthy. cbn [negb]. io_step.
  rewrite Hdisk. io_step.
  do 2 eexists. split; [reflexivity|].
  cbn [files db console set_console set_files set_tick Consolidation.sf_filepath].
  repeat split.
Qed.

Lemma inherited_name_is_consolidated_witness :
  exists html w',
    Consolidation.consolidateTopicCategory (Sample.env Sample.good_reply) "constructor"
      (Sample.world Cases.bridge_db)
    = (Returned (Some {| Consolidation.sf_filename :=
                           "constructor-consolidated-1700000000002.html";
                         Consolidation.sf_filepath :=
                           "/srv/setx/public/presentations/constructor-consolidated-1700000000002.html";
                         Consolidation.sf_url :=
                           "/presentations/constructor-consolidated-1700000000002.html" |}),
       w')
    /\ files w' !! "/srv/setx/public/presentations/constructor-consolidated-1700000000002.html"
       = Some html
    /\ db w' = Cases.bridge_db.
Proof.
  destruct (inherited_name_is_consolidated (Sample.env Sample.good_reply) "constructor"
              (Sample.world Cases.bridge_db)) as (_ & html & w' & E & F & _ & D).
  - vm_compute. tauto.
  - reflexivity.
  - eexists. split; [left; reflexivity | vm_compute; reflexivity].
  - reflexivity.
  - exists html, w'. split; [exact E|]. split; [|exact D].
    rewrite F. apply lookup_insert_eq.
Defined.
